(** * Tensiometer_Arduino: the stepper test rig sketches, embedded and verified

    Sources embedded here:
    - [Auto_Motor_Gyro_test/AutoSpeedTest.ino.ino]: the automatic 8-speed
      test controller ([AutoSpeedTest] below);
    - [loadcell_100g.ino]: the moving-average and dead-band force filter
      ([LoadCell100g] below);
    - the "Surface Tension Tester v5.0 - Mode-Based Architecture" sketch,
      the third of the five sketches that the file
      [MPU9250_Vibration_Monitor.ino] holds one after the other (its lines
      360 to 1162) ([Tester5] below);
    - the "MPU-6500 Vibration Monitor" sketch, the first sketch of the same
      file (its lines 1 to 166) ([VibrationMonitor] below).

    The AccelStepper, HX711_ADC and EEPROM libraries are external to the
    repository; the sketches only use their interface, which is modelled
    in [Stepper], in the per-tick inputs and in the [eeprom] store. *)

From Stdlib Require Import ZArith List Bool Lia String Ascii QArith Qcanon.
From Stdlib Require Import Floats.SpecFloat.
Import ListNotations.

Open Scope Z_scope.

(** ** Machine integers of the AVR target

    [int] is 16 bits, [long] 32 bits, [unsigned long] 32 bits without sign. *)

Definition wrap_int (z : Z) : Z := (z + 2 ^ 15) mod 2 ^ 16 - 2 ^ 15.
Definition wrap_long (z : Z) : Z := (z + 2 ^ 31) mod 2 ^ 32 - 2 ^ 31.
Definition wrap_ulong (z : Z) : Z := z mod 2 ^ 32.

Definition int_range (z : Z) : Prop := - 2 ^ 15 <= z < 2 ^ 15.
Definition long_range (z : Z) : Prop := - 2 ^ 31 <= z < 2 ^ 31.

(** ** A small error monad: [None] is an out-of-bounds array read *)

Definition bind {A B : Type} (m : option A) (k : A -> option B) : option B :=
  match m with
  | Some a => k a
  | None => None
  end.

Notation "x <- m ;; k" := (bind m (fun x => k))
  (at level 61, m at next level, right associativity).

(** [cmd == 'X' || cmd == 'x'] on a serial byte. *)
Definition is_char (c : ascii) (upper lower : string) : bool :=
  (String c EmptyString =? upper)%string || (String c EmptyString =? lower)%string.

(** ** Streaming sessions

    What the statements about the streamed output are phrased with: the
    sample positions of the closed sessions of a transcript, and of the
    session still open if there is one. *)

Record Sessions : Type := mkSessions {
  closed : list (list Z);
  open : option (list Z)
}.

Definition all_sessions (acc : Sessions) : list (list Z) :=
  match open acc with
  | Some ps => closed acc ++ [ps]
  | None => closed acc
  end.

Fixpoint ascending (l : list Z) : Prop :=
  match l with
  | a :: (b :: _) as rest => a <= b /\ ascending rest
  | _ => True
  end.

Fixpoint descending (l : list Z) : Prop :=
  match l with
  | a :: (b :: _) as rest => b <= a /\ descending rest
  | _ => True
  end.

Fixpoint strictly_ascending (l : list Z) : Prop :=
  match l with
  | a :: (b :: _) as rest => a < b /\ strictly_ascending rest
  | _ => True
  end.

Fixpoint strictly_descending (l : list Z) : Prop :=
  match l with
  | a :: (b :: _) as rest => b < a /\ strictly_descending rest
  | _ => True
  end.

Definition monotonic (l : list Z) : Prop := ascending l \/ descending l.

Definition strictly_monotonic (l : list Z) : Prop :=
  strictly_ascending l \/ strictly_descending l.

(** ** The stepper motion primitive

    The interface of AccelStepper the sketches call: [setMaxSpeed],
    [setAcceleration], [moveTo], [run], [currentPosition], [distanceToGo],
    [stop].  [run] performs at most one step towards the target; whether a
    step is due at this call is decided by the library's timer and is an
    input of the model ([due]). *)

Module Stepper.

Record t : Type := mk {
  currentPos : Z;
  targetPos : Z;
  maxSpeed : Q;
  acceleration : Q
}.

Definition setMaxSpeed (v : Q) (s : t) : t :=
  mk (currentPos s) (targetPos s) v (acceleration s).

Definition setAcceleration (a : Q) (s : t) : t :=
  mk (currentPos s) (targetPos s) (maxSpeed s) a.

Definition moveTo (p : Z) (s : t) : t :=
  mk (currentPos s) p (maxSpeed s) (acceleration s).

Definition currentPosition (s : t) : Z := currentPos s.

Definition distanceToGo (s : t) : Z := targetPos s - currentPos s.

Definition run (due : bool) (s : t) : t :=
  if due then
    match distanceToGo s ?= 0 with
    | Gt => mk (currentPos s + 1) (targetPos s) (maxSpeed s) (acceleration s)
    | Lt => mk (currentPos s - 1) (targetPos s) (maxSpeed s) (acceleration s)
    | Eq => s
    end
  else s.

(** [stop]: the library does not halt the motor at once.  With a speed
    other than zero it moves the target to the nearest point where the
    motor can come to rest with the acceleration that is set; with speed
    zero it leaves the target as it is.  The position is kept.  The speed
    is not carried by this model, so the distance [togo] that is left to
    go after the call is taken from what the pass reads from the
    outside. *)
Definition stop (togo : Z) (s : t) : t :=
  mk (currentPos s) (currentPos s + togo) (maxSpeed s) (acceleration s).

(** [while (distanceToGo() != 0) run();] -- the blocking wait of the manual
    go-home command.  Only the calls at which a step is due change the
    state; there are exactly [|distanceToGo|] of them. *)
Fixpoint run_steps (n : nat) (s : t) : t :=
  match n with
  | O => s
  | S k => run_steps k (run true s)
  end.

Definition runToPosition (s : t) : t :=
  run_steps (Z.to_nat (Z.abs (distanceToGo s))) s.

End Stepper.

(** ** AutoSpeedTest.ino.ino *)

Module AutoSpeedTest.

Definition testDistance : Z := 56000.
Definition homeSpeed : Q := 3200 # 1.
Definition homeAccel : Q := 1600 # 1.
Definition LOG_INTERVAL : Z := 20.

Inductive TestState : Type := IDLE | MOVING | RETURNING | WAITING.

Definition TestState_eqb (a b : TestState) : bool :=
  match a, b with
  | IDLE, IDLE | MOVING, MOVING | RETURNING, RETURNING | WAITING, WAITING => true
  | _, _ => false
  end.

Record SpeedTest : Type := mkSpeedTest {
  name : string;
  speed : Q;
  speed_mms : Q
}.

Definition tests : list SpeedTest :=
  [ mkSpeedTest "ULTRA_FAST" (1600 # 1) (1000 # 1);
    mkSpeedTest "FAST_UP" (1200 # 1) (750 # 1);
    mkSpeedTest "FAST_DOWN" (400 # 1) (250 # 1);
    mkSpeedTest "MEASURE_F" (50 # 1) (3125 # 100000);
    mkSpeedTest "MEASURE_M" (20 # 1) (125 # 10000);
    mkSpeedTest "MEASURE_U" (10 # 1) (625 # 100000);
    mkSpeedTest "MEASURE_X" (5 # 1) (3125 # 1000000);
    mkSpeedTest "MEASURE_Z" (2 # 1) (125 # 100000) ].

(** [tests[i]]: a read outside the 8 entries is a fault. *)
Definition tests_at (i : Z) : option SpeedTest :=
  if (0 <=? i) && (i <? 8) then nth_error tests (Z.to_nat i) else None.

(** Lines written to the serial port.  Banner lines that carry no data are
    kept as one constructor each; a CSV sample keeps the fields computed
    from the controller state (elapsed milliseconds, position in steps and
    the profile read from the table); the vibration field comes from the
    accelerometer and is left out. *)
Inductive Line : Type :=
| AlreadyRunning
| NoTestRunning
| HomeSet (pos : Z)
| StartingAutoTest
| TestHeader (index : Z) (test : SpeedTest) (pos : Z)
| MovingLine
| DATA_START
| DATA_END
| Sample (elapsed : Z) (pos : Z) (test : SpeedTest)
| TargetReached (pos : Z)
| ReturningHome (from to : Z)
| Returning (pos home distance : Z)
| HomeReached (pos : Z)
| AllTestsCompleted
| TestStopped
| GoingHomeManually
| ManualHomeReached.

Record State : Type := mkState {
  autoTestMode : bool;
  currentTestIndex : Z;
  testState : TestState;
  homePosition : Z;
  targetPosition : Z;
  isLogging : bool;
  startTime : Z;
  lastLogTime : Z;
  lastDebug : Z;          (* the static [lastDebug] of [loop] *)
  stepper : Stepper.t;
  out : list Line          (* newest line first *)
}.

Definition set_autoTestMode (b : bool) (s : State) : State :=
  mkState b (currentTestIndex s) (testState s) (homePosition s)
    (targetPosition s) (isLogging s) (startTime s) (lastLogTime s)
    (lastDebug s) (stepper s) (out s).

Definition set_currentTestIndex (i : Z) (s : State) : State :=
  mkState (autoTestMode s) i (testState s) (homePosition s) (targetPosition s)
    (isLogging s) (startTime s) (lastLogTime s) (lastDebug s) (stepper s)
    (out s).

Definition set_testState (t : TestState) (s : State) : State :=
  mkState (autoTestMode s) (currentTestIndex s) t (homePosition s)
    (targetPosition s) (isLogging s) (startTime s) (lastLogTime s)
    (lastDebug s) (stepper s) (out s).

Definition set_homePosition (p : Z) (s : State) : State :=
  mkState (autoTestMode s) (currentTestIndex s) (testState s) p
    (targetPosition s) (isLogging s) (startTime s) (lastLogTime s)
    (lastDebug s) (stepper s) (out s).

Definition set_targetPosition (p : Z) (s : State) : State :=
  mkState (autoTestMode s) (currentTestIndex s) (testState s) (homePosition s)
    p (isLogging s) (startTime s) (lastLogTime s) (lastDebug s) (stepper s)
    (out s).

Definition set_isLogging (b : bool) (s : State) : State :=
  mkState (autoTestMode s) (currentTestIndex s) (testState s) (homePosition s)
    (targetPosition s) b (startTime s) (lastLogTime s) (lastDebug s)
    (stepper s) (out s).

Definition set_startTime (t : Z) (s : State) : State :=
  mkState (autoTestMode s) (currentTestIndex s) (testState s) (homePosition s)
    (targetPosition s) (isLogging s) t (lastLogTime s) (lastDebug s)
    (stepper s) (out s).

Definition set_lastLogTime (t : Z) (s : State) : State :=
  mkState (autoTestMode s) (currentTestIndex s) (testState s) (homePosition s)
    (targetPosition s) (isLogging s) (startTime s) t (lastDebug s) (stepper s)
    (out s).

Definition set_lastDebug (t : Z) (s : State) : State :=
  mkState (autoTestMode s) (currentTestIndex s) (testState s) (homePosition s)
    (targetPosition s) (isLogging s) (startTime s) (lastLogTime s) t
    (stepper s) (out s).

Definition set_stepper (m : Stepper.t) (s : State) : State :=
  mkState (autoTestMode s) (currentTestIndex s) (testState s) (homePosition s)
    (targetPosition s) (isLogging s) (startTime s) (lastLogTime s)
    (lastDebug s) m (out s).

Definition println (l : Line) (s : State) : State :=
  mkState (autoTestMode s) (currentTestIndex s) (testState s) (homePosition s)
    (targetPosition s) (isLogging s) (startTime s) (lastLogTime s)
    (lastDebug s) (stepper s) (l :: out s).

(** The globals as the sketch initialises them; [setup] leaves the stepper
    at position 0 with the homing speed and acceleration. *)
Definition initial : State :=
  mkState false 0 IDLE 0 0 false 0 0 0
    (Stepper.mk 0 0 homeSpeed homeAccel) [].

(** What one pass of [loop] reads from the outside: the first pending
    serial byte (the rest of the buffer is thrown away by the sketch),
    whether the stepper's timer allows a step, the distance to go that
    [stepper.stop()] leaves if it is called, and the value of [millis()]
    at each place that reads it: in [startLogging], in the test and in the
    stamp of the once-a-second line of the returning case, at
    [currentTime] in the logging block of [loop], and in [logData]. *)
Record Input : Type := mkInput {
  serial : option ascii;
  step_due : bool;
  stop_togo : Z;
  start_millis : Z;
  debug_millis : Z;
  debug_stamp : Z;
  millis : Z;
  log_millis : Z
}.

Definition startLogging (now : Z) (s : State) : State :=
  let s := set_isLogging true s in
  let s := set_startTime now s in
  let s := set_lastLogTime (startTime s) s in
  println DATA_START s.

Definition stopLogging (s : State) : State :=
  if negb (isLogging s) then s
  else println DATA_END (set_isLogging false s).

Definition logData (now : Z) (s : State) : option State :=
  t <- tests_at (currentTestIndex s) ;;
  t' <- tests_at (currentTestIndex s) ;;
  Some (println (Sample (wrap_ulong (now - startTime s))
                        (Stepper.currentPosition (stepper s)) t') s).

Definition startNextTest (now : Z) (s : State) : option State :=
  test <- tests_at (currentTestIndex s) ;;
  let s := println (TestHeader (currentTestIndex s) test
                      (Stepper.currentPosition (stepper s))) s in
  let s := set_targetPosition (wrap_long (homePosition s + testDistance)) s in
  let s := set_stepper (Stepper.setMaxSpeed (speed test) (stepper s)) s in
  let s := set_stepper (Stepper.setAcceleration 0%Q (stepper s)) s in
  let s := set_stepper (Stepper.moveTo (targetPosition s) (stepper s)) s in
  let s := startLogging now s in
  let s := set_testState MOVING s in
  Some (println MovingLine s).

Definition startAutoTest (now : Z) (s : State) : option State :=
  if autoTestMode s then Some (println AlreadyRunning s)
  else
    let s := println StartingAutoTest s in
    let s := set_autoTestMode true s in
    let s := set_currentTestIndex 0 s in
    startNextTest now s.

Definition stopAutoTest (togo : Z) (s : State) : State :=
  if negb (autoTestMode s) then println NoTestRunning s
  else
    let s := set_autoTestMode false s in
    let s := set_testState IDLE s in
    let s := stopLogging s in
    let s := set_stepper (Stepper.stop togo (stepper s)) s in
    println TestStopped s.

Definition goHomeManual (s : State) : State :=
  let s := set_stepper (Stepper.setMaxSpeed homeSpeed (stepper s)) s in
  let s := set_stepper (Stepper.setAcceleration homeAccel (stepper s)) s in
  let s := set_stepper (Stepper.moveTo (homePosition s) (stepper s)) s in
  let s := println GoingHomeManually s in
  let s := set_stepper (Stepper.runToPosition (stepper s)) s in
  println ManualHomeReached s.

(** The command part of [loop]. *)
Definition handleCommand (i : Input) (s : State) : option State :=
  match serial i with
  | None => Some s
  | Some cmd =>
      if is_char cmd "A" "a" then startAutoTest (start_millis i) s
      else if is_char cmd "S" "s" then Some (stopAutoTest (stop_togo i) s)
      else if is_char cmd "0" "0" then
        let s := set_homePosition (Stepper.currentPosition (stepper s)) s in
        Some (println (HomeSet (homePosition s)) s)
      else if is_char cmd "H" "h" then
        if negb (autoTestMode s) then Some (goHomeManual s) else Some s
      else Some s
  end.

(** The line the returning case prints when more than a second has
    passed since it last did. *)
Definition debugReturning (i : Input) (s : State) : State :=
  if 1000 <? wrap_ulong (debug_millis i - lastDebug s) then
    let s := println (Returning (Stepper.currentPosition (stepper s)) (homePosition s)
                        (Z.abs (Stepper.distanceToGo (stepper s)))) s in
    set_lastDebug (debug_stamp i) s
  else s.

(** The state-machine part of [loop]. *)
Definition stateMachine (i : Input) (s : State) : option State :=
  if autoTestMode s then
    match testState s with
    | MOVING =>
        let s := set_stepper (Stepper.run (step_due i) (stepper s)) s in
        if Stepper.distanceToGo (stepper s) =? 0 then
          let s := stopLogging s in
          let s := println (TargetReached (Stepper.currentPosition (stepper s))) s in
          let s := set_testState RETURNING s in
          let s := set_stepper (Stepper.setMaxSpeed homeSpeed (stepper s)) s in
          let s := set_stepper (Stepper.setAcceleration homeAccel (stepper s)) s in
          let s := set_stepper (Stepper.moveTo (homePosition s) (stepper s)) s in
          Some (println (ReturningHome (Stepper.currentPosition (stepper s))
                                       (homePosition s)) s)
        else Some s
    | RETURNING =>
        let s := set_stepper (Stepper.run (step_due i) (stepper s)) s in
        let s := debugReturning i s in
        if Stepper.distanceToGo (stepper s) =? 0 then
          let s := println (HomeReached (Stepper.currentPosition (stepper s))) s in
          let s := set_currentTestIndex (wrap_int (currentTestIndex s + 1)) s in
          if currentTestIndex s >=? 8 then
            let s := set_autoTestMode false s in
            let s := set_testState IDLE s in
            Some (println AllTestsCompleted s)
          else
            let s := set_testState WAITING s in
            startNextTest (start_millis i) s
        else Some s
    | WAITING => Some s
    | IDLE => Some s
    end
  else Some s.

(** The data-logging part of [loop]. *)
Definition dataLogging (i : Input) (s : State) : option State :=
  if isLogging s then
    let currentTime := millis i in
    if wrap_ulong (currentTime - lastLogTime s) >=? LOG_INTERVAL then
      logData (log_millis i) (set_lastLogTime currentTime s)
    else Some s
  else Some s.

Definition loop (i : Input) (s : State) : option State :=
  s <- handleCommand i s ;;
  s <- stateMachine i s ;;
  dataLogging i s.

Fixpoint run_ticks (ins : list Input) (s : State) : option State :=
  match ins with
  | [] => Some s
  | i :: rest => s' <- loop i s ;; run_ticks rest s'
  end.

(** *** Vocabulary of the statements about the controller *)

(** States the controller can be in between two passes of [loop], from
    power-up, whatever arrives on the serial port. *)
Inductive reachable : State -> Prop :=
| reach_initial : reachable initial
| reach_loop : forall (s s' : State) (i : Input),
    reachable s -> loop i s = Some s' -> reachable s'.

(** What holds of the controller variables between two passes of [loop]. *)
Definition coherent (s : State) : Prop :=
  0 <= currentTestIndex s <= 8 /\
  (autoTestMode s = false -> testState s = IDLE /\ isLogging s = false) /\
  (autoTestMode s = true ->
     (testState s = MOVING \/ testState s = RETURNING) /\ currentTestIndex s <= 7) /\
  (isLogging s = true -> testState s = MOVING).

Definition quiet (i : Input) : Prop := serial i = None.

Definition is_stop (cmd : ascii) : bool := is_char cmd "S" "s".

(** The milestones of an automatic sequence in the serial transcript: the
    header of a started test (cursor and table entry) and the arrival at
    home. *)
Inductive Milestone : Type :=
| Started (index : Z) (test : SpeedTest)
| Homed.

Fixpoint milestones (transcript : list Line) : list Milestone :=
  match transcript with
  | [] => []
  | TestHeader i t _ :: rest => Started i t :: milestones rest
  | HomeReached _ :: rest => Homed :: milestones rest
  | _ :: rest => milestones rest
  end.

Fixpoint indexed_from (i : Z) (l : list SpeedTest) : list Milestone :=
  match l with
  | [] => []
  | t :: rest => Started i t :: Homed :: indexed_from (i + 1) rest
  end.

(** Every table entry once, in table order, each followed by a homing. *)
Definition full_sequence : list Milestone := indexed_from 0 tests.

(** The milestones, newest first, once [n] tests are over. *)
Definition no_test : SpeedTest := mkSpeedTest "" 0%Q 0%Q.

Fixpoint history (n : nat) : list Milestone :=
  match n with
  | O => []
  | S k => Homed :: Started (Z.of_nat k) (nth k tests no_test) :: history k
  end.

(** The three situations of an automatic sequence between two passes of
    [loop]: test [k] moving down, test [k] returning, all tests over.
    [P] is the home position and [base] what had been printed before the
    sequence started. *)
Inductive sequence_state (P : Z) (base : list Line) (s : State) : Prop :=
| seq_moving : forall (new : list Line) (k : nat),
    homePosition s = P -> out s = new ++ base ->
    autoTestMode s = true -> testState s = MOVING ->
    (k < 8)%nat -> currentTestIndex s = Z.of_nat k ->
    Stepper.targetPos (stepper s) = P + testDistance ->
    Stepper.currentPos (stepper s) <> P + testDistance ->
    milestones new = Started (Z.of_nat k) (nth k tests no_test) :: history k ->
    sequence_state P base s
| seq_returning : forall (new : list Line) (k : nat),
    homePosition s = P -> out s = new ++ base ->
    autoTestMode s = true -> testState s = RETURNING ->
    (k < 8)%nat -> currentTestIndex s = Z.of_nat k ->
    isLogging s = false ->
    Stepper.targetPos (stepper s) = P ->
    Stepper.currentPos (stepper s) <> P ->
    milestones new = Started (Z.of_nat k) (nth k tests no_test) :: history k ->
    sequence_state P base s
| seq_done : forall (new : list Line),
    homePosition s = P -> out s = new ++ base ->
    autoTestMode s = false -> testState s = IDLE ->
    currentTestIndex s = 8 -> isLogging s = false ->
    Stepper.currentPos (stepper s) = P ->
    milestones new = history 8 ->
    sequence_state P base s.

(** Steps the stepper still owes before the running sequence is over. *)
Definition steps_left (s : State) : Z :=
  if autoTestMode s then
    match testState s with
    | MOVING => Z.abs (Stepper.distanceToGo (stepper s)) + testDistance
                + 2 * testDistance * (7 - currentTestIndex s)
    | RETURNING => Z.abs (Stepper.distanceToGo (stepper s))
                   + 2 * testDistance * (7 - currentTestIndex s)
    | _ => 0
    end
  else 0.

Definition b2z (b : bool) : Z := if b then 1 else 0.

Definition count_due (ins : list Input) : Z :=
  Z.of_nat (List.length (List.filter step_due ins)).

(** The logging protocol read off the transcript: one line added to the
    sessions seen so far.  [None]: a marker or a sample is out of place. *)
Definition session_step (acc : Sessions) (l : Line) : option Sessions :=
  match l, open acc with
  | DATA_START, None => Some (mkSessions (closed acc) (Some []))
  | DATA_START, Some _ => None
  | Sample _ p _, Some ps => Some (mkSessions (closed acc) (Some (ps ++ [p])))
  | Sample _ _ _, None => None
  | DATA_END, Some ps => Some (mkSessions (closed acc ++ [ps]) None)
  | DATA_END, None => None
  | _, _ => Some acc
  end.

(** [out] keeps the newest line first, so the oldest line is folded first
    by recursion on the tail. *)
Fixpoint sessions_of (newest_first : list Line) : option Sessions :=
  match newest_first with
  | [] => Some (mkSessions [] None)
  | l :: older => acc <- sessions_of older ;; session_step acc l
  end.

(** The streamed output of the test runs, read off the transcript.  A
    run opens with its header, which gives the position it departs from;
    [DATA_START] has to be the next line; samples are accepted only after
    it and before [DATA_END]; [DATA_END] has to be followed at once by the
    line of the arrival at the target, which gives the position reached,
    or by the line of the stop command; between [DATA_END] and the next
    header no marker and no sample is accepted.  [None]: the transcript
    breaks this protocol. *)
Record Run : Type := mkRun {
  departure : Z;
  positions : list Z;
  arrival : option Z
}.

Inductive Phase : Type :=
| Outside
| Opening (from : Z)
| Logging (from : Z) (ps : list Z)
| Closing (from : Z) (ps : list Z).

Record Runs : Type := mkRuns {
  finished : list Run;
  phase : Phase
}.

Definition run_step (acc : Runs) (l : Line) : option Runs :=
  match phase acc with
  | Outside =>
      match l with
      | TestHeader _ _ p => Some (mkRuns (finished acc) (Opening p))
      | DATA_START | DATA_END | Sample _ _ _ => None
      | _ => Some acc
      end
  | Opening from =>
      match l with
      | DATA_START => Some (mkRuns (finished acc) (Logging from []))
      | _ => None
      end
  | Logging from ps =>
      match l with
      | Sample _ p _ => Some (mkRuns (finished acc) (Logging from (ps ++ [p])))
      | DATA_END => Some (mkRuns (finished acc) (Closing from ps))
      | DATA_START | TestHeader _ _ _ => None
      | _ => Some acc
      end
  | Closing from ps =>
      match l with
      | TargetReached q =>
          Some (mkRuns (finished acc ++ [mkRun from ps (Some q)]) Outside)
      | TestStopped =>
          Some (mkRuns (finished acc ++ [mkRun from ps None]) Outside)
      | _ => None
      end
  end.

Fixpoint runs_of (newest_first : list Line) : option Runs :=
  match newest_first with
  | [] => Some (mkRuns [] Outside)
  | l :: older => acc <- runs_of older ;; run_step acc l
  end.

Definition is_header (l : Line) : bool :=
  match l with TestHeader _ _ _ => true | _ => false end.

Definition is_start (l : Line) : bool :=
  match l with DATA_START => true | _ => false end.

Definition is_end (l : Line) : bool :=
  match l with DATA_END => true | _ => false end.

Definition count (f : Line -> bool) (lines : list Line) : nat :=
  List.length (List.filter f lines).

(** The headers, start markers and end markers of the run a transcript
    ends in, by the phase it is in. *)
Definition opened (p : Phase) : nat :=
  match p with Outside => 0 | _ => 1 end.

Definition started (p : Phase) : nat :=
  match p with Outside | Opening _ => 0 | _ => 1 end.

Definition ended (p : Phase) : nat :=
  match p with Closing _ _ => 1 | _ => 0 end.

(** The positions [ps] follow the motion from [a] to [b]: they lie between
    the two and never step back.  With [a < b] only the first case is
    possible, with [b < a] only the second, and with [a = b] both say that
    every position is [a]. *)
Definition along (a b : Z) (ps : list Z) : Prop :=
  (a <= b /\ ascending ps /\ Forall (fun p => a <= p <= b) ps) \/
  (b <= a /\ descending ps /\ Forall (fun p => b <= p <= a) ps).

(** A finished run: its samples follow the motion from the position of
    its header to the position reached, or, when the run was stopped, to
    some position. *)
Definition run_ok (r : Run) : Prop :=
  match arrival r with
  | Some q => along (departure r) q (positions r)
  | None => exists q : Z, along (departure r) q (positions r)
  end.

(** The run in progress: the stepper, at [pos], is on its way from [from]
    to [target], and the samples so far follow the motion from [from] to
    [pos]. *)
Definition heading (from pos target : Z) (ps : list Z) : Prop :=
  (from <= pos <= target /\ ascending ps /\ Forall (fun p => from <= p <= pos) ps) \/
  (target <= pos <= from /\ descending ps /\ Forall (fun p => pos <= p <= from) ps).

Definition stream_ok (lines : list Line) (logging : bool) (pos target : Z) : Prop :=
  exists acc : Runs,
    runs_of lines = Some acc /\
    Forall run_ok (finished acc) /\
    match phase acc with
    | Outside => logging = false
    | Logging from ps => logging = true /\ heading from pos target ps
    | Opening _ | Closing _ _ => False
    end.

Definition stream_inv (s : State) : Prop :=
  stream_ok (out s) (isLogging s)
    (Stepper.currentPos (stepper s)) (Stepper.targetPos (stepper s)) /\
  (autoTestMode s = true -> testState s = MOVING -> isLogging s = true).

Definition neutral (l : Line) : Prop :=
  match l with
  | DATA_START | DATA_END | Sample _ _ _ | TestHeader _ _ _ => False
  | _ => True
  end.

(** Inputs used to run the controller on examples: [tick c now due] is a
    pass that receives [c], in which every read of the clock gives [now]
    and a call of [stepper.stop()] would leave nothing to go; the start
    command; a pass in which the stepper steps. *)
Definition tick (c : option ascii) (now : Z) (due : bool) : Input :=
  mkInput c due 0 now now now now now.

Definition start_tick : Input := tick (Some "A"%char) 0 true.
Definition due_tick : Input := tick None 0 true.

(** The start command and five more passes in which the stepper steps:
    test 1 is moving down, at position 6; and a pass that receives the
    set-home command [0] and in which no step is due. *)
Definition busy_run : list Input := start_tick :: repeat due_tick 5.

Definition set_home_tick : Input := tick (Some "0"%char) 0 false.

(** A run that starts the sequence, lets the first four tests complete
    (4 x 2 x 56000 steps) and then makes two passes, 20 ms and 40 ms after
    the fifth test (MEASURE_M, 20 steps per second, so 50 ms per step) has
    started, in which no step is due yet. *)
Definition slow_profile_run : list Input :=
  start_tick :: repeat due_tick (Z.to_nat 447999)
    ++ [tick None 20 false; tick None 40 false].

Definition slow_profile_state : State :=
  Eval vm_compute in
    match run_ticks slow_profile_run initial with
    | Some s => s
    | None => initial
    end.

(** The pass does not carry the set-home command [0]. *)
Definition keeps_home (i : Input) : Prop :=
  forall c : ascii, serial i = Some c -> is_char c "0" "0" = false.

(** Home is where the stepper stood at power-up, the stepper lies within
    the test distance of it, and so does its target while a sequence is
    running, the only time the sketch lets the stepper step towards it
    (the target that [stepper.stop()] leaves behind is the library's
    choice). *)
Definition travel_inv (s : State) : Prop :=
  homePosition s = 0 /\
  0 <= Stepper.currentPos (stepper s) <= testDistance /\
  (autoTestMode s = true -> 0 <= Stepper.targetPos (stepper s) <= testDistance).

End AutoSpeedTest.

(** ** Floating point

    The sketches compute on [float].  The filter code is embedded over an
    interface of the operations it uses, so that it can be run on IEEE 754
    binary32 (what the AVR and ESP targets compute; [Binary32] below, from
    the Standard Library's specification of floating-point arithmetic) and
    on exact rationals ([Exact]). *)

Class FloatOps (F : Type) : Type := {
  f0 : F;                      (* the literal 0 *)
  fadd : F -> F -> F;
  fsub : F -> F -> F;
  fmul : F -> F -> F;
  fdiv : F -> F -> F;
  fneg : F -> F;
  fgt : F -> F -> bool;         (* a > b *)
  flt : F -> F -> bool;         (* a < b *)
  of_int : Z -> F;              (* conversion of an integer operand *)
  of_ratio : Z -> Z -> F        (* a decimal literal, as numerator and denominator *)
}.

(** Arduino's [abs] is the macro [((x)>0?(x):-(x))]. *)
Definition fabs {F : Type} `{FloatOps F} (x : F) : F :=
  if fgt x f0 then x else fneg x.

Module Binary32.

Definition prec : Z := 24.
Definition emax : Z := 128.

Definition b32_of_int (z : Z) : spec_float := binary_normalize prec emax z 0 false.

Definition b32_compare_is (c : comparison) (a b : spec_float) : bool :=
  match SFcompare a b with
  | Some c' => match c, c' with
               | Lt, Lt | Gt, Gt | Eq, Eq => true
               | _, _ => false
               end
  | None => false
  end.

#[global] Instance b32_ops : FloatOps spec_float := {
  f0 := S754_zero false;
  fadd := SFadd prec emax;
  fsub := SFsub prec emax;
  fmul := SFmul prec emax;
  fdiv := SFdiv prec emax;
  fneg := SFopp;
  fgt := b32_compare_is Gt;
  flt := b32_compare_is Lt;
  of_int := b32_of_int;
  of_ratio := fun n d => SFdiv prec emax (b32_of_int n) (b32_of_int d)
}.

(** The 32 bits of a [float] in memory (IEEE 754 binary32 interchange
    format: sign in bit 31, exponent in bits 30..23, fraction in bits
    22..0) and back.  [spec_float] keeps no NaN payload; a NaN is written
    as the quiet NaN 0x7FC00000. *)
Definition of_bits (w : Z) : spec_float :=
  let sign := Z.testbit w 31 in
  let e := Z.land (Z.shiftr w 23) 255 in
  let m := Z.land w (2 ^ 23 - 1) in
  if e =? 255 then
    if m =? 0 then S754_infinity sign else S754_nan
  else if e =? 0 then
    match m with
    | Zpos p => S754_finite sign p (-149)
    | _ => S754_zero sign
    end
  else
    match m + 2 ^ 23 with
    | Zpos p => S754_finite sign p (e - 150)
    | _ => S754_nan
    end.

Definition sign_bit (s : bool) : Z := if s then 2 ^ 31 else 0.

Definition to_bits (x : spec_float) : Z :=
  match x with
  | S754_zero s => sign_bit s
  | S754_infinity s => sign_bit s + 255 * 2 ^ 23
  | S754_nan => 255 * 2 ^ 23 + 2 ^ 22
  | S754_finite s m e =>
      if Zpos m <? 2 ^ 23 then sign_bit s + Zpos m
      else sign_bit s + (e + 150) * 2 ^ 23 + (Zpos m - 2 ^ 23)
  end.

End Binary32.

Module Exact.

Definition Qc_of_ratio (n d : Z) : Qc :=
  match d with
  | Zpos p => Q2Qc (n # p)
  | _ => Q2Qc 0
  end.

Definition Qc_ltb (a b : Qc) : bool :=
  match (a ?= b)%Qc with
  | Lt => true
  | _ => false
  end.

#[global] Instance Qc_ops : FloatOps Qc := {
  f0 := Q2Qc 0;
  fadd := Qcplus;
  fsub := Qcminus;
  fmul := Qcmult;
  fdiv := Qcdiv;
  fneg := Qcopp;
  fgt := fun a b => Qc_ltb b a;
  flt := Qc_ltb;
  of_int := fun z => Q2Qc (inject_Z z);
  of_ratio := Qc_of_ratio
}.

End Exact.

(** ** loadcell_100g.ino: the moving-average and dead-band filter *)

Module LoadCell100g.

Section Filter.

Context {F : Type} `{FloatOps F}.

Definition SAMPLE_SIZE : Z := 10.
Definition STABILITY_THRESHOLD : F := of_ratio 5 10.
Definition NOISE_FILTER : F := of_ratio 1 10.

Record Filter : Type := mkFilter {
  readings : list F;
  readIndex : Z;
  total : F;
  average : F;
  lastStableValue : F;
  isStable : bool;
  previousWeight : F
}.

(** The globals after [setup]: the array zeroed, the scalars at their
    initialisers. *)
Definition initial : Filter :=
  mkFilter (repeat f0 (Z.to_nat SAMPLE_SIZE)) 0 f0 f0 f0 false f0.

(** [readings[i]] and [readings[i] = x] for the array of [SAMPLE_SIZE]
    floats; the index is [readIndex], which stays in [0, SAMPLE_SIZE). *)
Definition get (l : list F) (i : Z) : F := nth (Z.to_nat i) l f0.

Fixpoint set_nth (n : nat) (x : F) (l : list F) : list F :=
  match l, n with
  | [], _ => []
  | _ :: rest, O => x :: rest
  | a :: rest, S k => a :: set_nth k x rest
  end.

Definition set (l : list F) (i : Z) (x : F) : list F := set_nth (Z.to_nat i) x l.

Definition movingAverageFilter (newReading : F) (s : Filter) : F * Filter :=
  let total1 := fsub (total s) (get (readings s) (readIndex s)) in
  let readings1 := set (readings s) (readIndex s) newReading in
  let total2 := fadd total1 (get readings1 (readIndex s)) in
  let readIndex1 := Z.rem (readIndex s + 1) SAMPLE_SIZE in
  let average1 := fdiv total2 (of_int SAMPLE_SIZE) in
  (average1,
   mkFilter readings1 readIndex1 total2 average1
     (lastStableValue s) (isStable s) (previousWeight s)).

Definition noiseFilter (value : F) (s : Filter) : F * Filter :=
  if flt (fabs (fsub value (previousWeight s))) NOISE_FILTER then
    (previousWeight s, s)
  else
    (value,
     mkFilter (readings s) (readIndex s) (total s) (average s)
       (lastStableValue s) (isStable s) value).

Definition resetFilters (s : Filter) : Filter :=
  mkFilter (repeat f0 (Z.to_nat SAMPLE_SIZE)) (readIndex s) f0 f0 f0 false f0.

(** The filtering of one raw value in [loop]:
    [noiseFilter(movingAverageFilter(rawValue))]. *)
Definition ingest (rawValue : F) (s : Filter) : F * Filter :=
  let '(filteredValue, s) := movingAverageFilter rawValue s in
  noiseFilter filteredValue s.

(** *** Vocabulary of the statements about the filter *)

Inductive FilterOp : Type :=
| Insert (rawValue : F)
| Reset.

Definition apply_op (s : Filter) (op : FilterOp) : Filter :=
  match op with
  | Insert v => snd (ingest v s)
  | Reset => resetFilters s
  end.

Definition run_ops (ops : list FilterOp) (s : Filter) : Filter :=
  fold_left apply_op ops s.

(** The sum recomputed from scratch:
    [float s = 0; for (i = 0; i < SAMPLE_SIZE; i++) s += readings[i];]. *)
Definition recomputed_sum (s : Filter) : F := fold_left fadd (readings s) f0.

Fixpoint feed (n : nat) (v : F) (s : Filter) : Filter :=
  match n with
  | O => s
  | S k => feed k v (snd (ingest v s))
  end.

(** The same sum, added up from the right. *)
Definition sumr (l : list F) : F := fold_right fadd f0 l.

(** What holds of the array and the index after [setup] and any sequence
    of insertions and resets. *)
Definition in_bounds (s : Filter) : Prop :=
  List.length (readings s) = Z.to_nat SAMPLE_SIZE /\
  0 <= readIndex s < SAMPLE_SIZE.

(** What every call of [noiseFilter] on the moving average leaves: the
    accepted value is the average, or the average lies in its dead band. *)
Definition answered (s : Filter) : Prop :=
  average s = previousWeight s \/
  flt (fabs (fsub (average s) (previousWeight s))) NOISE_FILTER = true.

(** The filter holds [v] only and one more [v] leaves its running total
    as it is. *)
Definition steady (v : F) (s : Filter) : Prop :=
  in_bounds s /\
  readings s = repeat v 10 /\
  fadd (fsub (total s) v) v = total s /\
  average s = fdiv (total s) (of_int SAMPLE_SIZE) /\
  answered s.

(** The array and the index under one insertion, without the sums. *)
Definition step_buffer (v : F) (b : list F * Z) : list F * Z :=
  (set (fst b) (snd b) v, Z.rem (snd b + 1) SAMPLE_SIZE).

End Filter.

(** The laws of addition and subtraction on the rationals, in which the
    exact sums of the numbers a [float] stands for are computed. *)
Class ExactArith (F : Type) `{FloatOps F} : Prop := {
  add_comm : forall a b : F, fadd a b = fadd b a;
  add_assoc : forall a b c : F, fadd a (fadd b c) = fadd (fadd a b) c;
  add_0_l : forall a : F, fadd f0 a = a;
  add_sub : forall a b : F, fsub (fadd a b) b = a;
  sub_add : forall a b : F, fadd (fsub a b) b = a
}.

(** Readings used as examples, on binary32: ten readings of 256.0
    followed by ten of 2^-13; and a state in which the running total has
    drifted from the array ([2^60] swallows the nine readings that follow
    it and takes them along when it leaves the window), followed by the
    reading -67108872 = -(2^23 + 1) x 8. *)
Definition drift_ops : list (FilterOp (F := spec_float)) :=
  repeat (Insert (of_int 256)) 10 ++ repeat (Insert (of_ratio 1 8192)) 10.

Definition unsettled_reading : spec_float := of_int (- 67108872).

Definition unsettled_ops : list (FilterOp (F := spec_float)) :=
  [Insert (of_int (2 ^ 60))] ++ repeat (Insert unsettled_reading) 8
    ++ [Insert (of_int (- 268435488)); Insert (of_int (- 16))].

(** *** Vocabulary of the statements about rounding *)

(** The number a finite binary32 stands for; zeros, and for definiteness
    infinities and NaN, are sent to 0. *)
Definition value (x : spec_float) : Qc :=
  match x with
  | S754_finite s m e =>
      Q2Qc ((if s then - (1) else 1) * inject_Z (Zpos m) * Qpower 2 e)
  | _ => Q2Qc 0
  end.

Definition finite (x : spec_float) : bool :=
  match x with
  | S754_finite _ _ _ | S754_zero _ => true
  | _ => false
  end.

Definition Qc_eqb (a b : Qc) : bool := Qeq_bool a b.

(** No rounding in [movingAverageFilter] on this reading: the subtraction
    and the addition that update [total] deliver the exact difference and
    the exact sum. *)
Definition unrounded_insert (newReading : spec_float) (s : Filter) : bool :=
  let old := get (readings s) (readIndex s) in
  let total1 := fsub (total s) old in
  let total2 := fadd total1 newReading in
  finite newReading && finite total1 && finite total2 &&
  Qc_eqb (value total1) (value (total s) - value old) &&
  Qc_eqb (value total2) (value total1 + value newReading).

(** No rounding along a sequence of insertions and resets. *)
Fixpoint unrounded (ops : list FilterOp) (s : Filter) : bool :=
  match ops with
  | [] => true
  | Insert v :: rest => unrounded_insert v s && unrounded rest (apply_op s (Insert v))
  | Reset :: rest => unrounded rest (apply_op s Reset)
  end.

(** Readings whose sums binary32 holds exactly. *)
Definition dyadic_ops : list (FilterOp (F := spec_float)) :=
  repeat (Insert (of_int 256)) 12 ++ [Insert (of_ratio 3 8); Reset; Insert (of_int 1000)].

(** The running total of a binary32 filter stands for the exact sum of
    the numbers in the array. *)
Definition value_consistent (s : Filter (F := spec_float)) : Prop :=
  List.length (readings s) = Z.to_nat SAMPLE_SIZE /\
  0 <= readIndex s < SAMPLE_SIZE /\
  value (total s) = sumr (map value (readings s)).

(** *** The calibration dialogue

    [calibrate] blocks in a loop that polls the load cell and the serial
    port every 100 ms.  One turn of the loop is a [Tick]: the new raw value
    if [LoadCell.update()] reports one, the byte read if one is pending,
    and what [LoadCell.getNewCalibration] would answer in this turn to a
    given mass.
    [String::toFloat] belongs to the Arduino core and is a parameter. *)

Section Calibrate.

Context {F : Type} `{FloatOps F}.
Variable toFloat : string -> F.

Inductive CalLine : Type :=
| CalibrationBanner
| CurrentRawValue (rawValue : F)
| TaredLine
| NewCalibrationValue (newCalValue : F)
| UpdateCalibrationValue
| CalibrationComplete.

Record Tick : Type := mkTick {
  fresh : option F;
  key : option ascii;
  reply : F -> F
}.

Record Dialogue : Type := mkDialogue {
  inputString : string;
  tares : nat;                 (* calls of [LoadCell.tareNoDelay] so far *)
  printed : list CalLine       (* newest line first *)
}.

Definition say (l : CalLine) (d : Dialogue) : Dialogue :=
  mkDialogue (inputString d) (tares d) (l :: printed d).

Definition newline : ascii := ascii_of_nat 10.

(** [isDigit(c)]: the ten characters 0 to 9. *)
Definition isDigit (c : ascii) : bool :=
  (48 <=? nat_of_ascii c)%nat && (nat_of_ascii c <=? 57)%nat.

(** How the loop ends for a given supply of turns: with the mass accepted,
    the new calibration value and the turns not consumed, or still waiting
    when the supply is used up. *)
Inductive Outcome : Type :=
| Completed (knownWeight newCalValue : F) (d : Dialogue) (unread : list Tick)
| Waiting (d : Dialogue).

Fixpoint calibrate_loop (ticks : list Tick) (d : Dialogue) : Outcome :=
  match ticks with
  | [] => Waiting d
  | t :: rest =>
      let d := match fresh t with
               | Some rawValue => say (CurrentRawValue rawValue) d
               | None => d
               end in
      match key t with
      | None => calibrate_loop rest d
      | Some inChar =>
          if Ascii.eqb inChar "t" then
            calibrate_loop rest
              (say TaredLine (mkDialogue (inputString d) (S (tares d)) (printed d)))
          else if Ascii.eqb inChar newline then
            if (0 <? String.length (inputString d))%nat then
              let knownWeight := toFloat (inputString d) in
              if fgt knownWeight f0 then
                let newCalValue := reply t knownWeight in
                let d := say (NewCalibrationValue newCalValue) d in
                let d := say UpdateCalibrationValue d in
                Completed knownWeight newCalValue
                  (mkDialogue EmptyString (tares d) (printed d)) rest
              else calibrate_loop rest (mkDialogue EmptyString (tares d) (printed d))
            else calibrate_loop rest d
          else if isDigit inChar || Ascii.eqb inChar "." then
            calibrate_loop rest
              (mkDialogue (inputString d ++ String inChar EmptyString) (tares d) (printed d))
          else calibrate_loop rest d
      end
  end.

Definition calibrate (ticks : list Tick) : Outcome :=
  match calibrate_loop ticks (mkDialogue EmptyString 0 [CalibrationBanner]) with
  | Completed w v d unread => Completed w v (say CalibrationComplete d) unread
  | Waiting d => Waiting d
  end.

(** The bytes received in a run of turns, the characters of a line that
    count, and the number of tare requests among them. *)
Definition keys (ticks : list Tick) : list ascii :=
  flat_map (fun t => match key t with Some c => [c] | None => [] end) ticks.

Definition is_mass_char (c : ascii) : bool := isDigit c || Ascii.eqb c ".".

Definition typed (cs : list ascii) : string :=
  string_of_list_ascii (List.filter is_mass_char cs).

Definition tare_requests (cs : list ascii) : nat :=
  List.length (List.filter (fun c => Ascii.eqb c "t") cs).

End Calibrate.

(** An exact reading of a decimal numeral (digits, then optionally a dot
    and digits; what follows is not read), used to run the dialogue on
    examples. *)
Fixpoint decimal_digits (s : string) (acc : Z) : Z * string :=
  match s with
  | String c rest =>
      if isDigit c then decimal_digits rest (10 * acc + (Z.of_nat (nat_of_ascii c) - 48))
      else (acc, s)
  | EmptyString => (acc, s)
  end.

Fixpoint decimal_fraction (s : string) (num den : Z) : Z * Z :=
  match s with
  | String c rest =>
      if isDigit c
      then decimal_fraction rest (10 * num + (Z.of_nat (nat_of_ascii c) - 48)) (10 * den)
      else (num, den)
  | EmptyString => (num, den)
  end.

Definition decimal (s : string) : Qc :=
  let '(whole, rest) := decimal_digits s 0 in
  match rest with
  | String "." frac =>
      let '(num, den) := decimal_fraction frac whole 1 in
      Exact.Qc_of_ratio num den
  | _ => Exact.Qc_of_ratio whole 1
  end.

(** The user types [1], [2], a stray [x], [.], [5] and return, with a tare
    in between; the calibration routine would answer 20000. *)
Definition typed_line : list (Tick (F := Qc)) :=
  map (fun c => mkTick None (Some c) (fun _ => of_int 0))
      (list_ascii_of_string "12x.t5").

Definition return_key : Tick (F := Qc) := mkTick None (Some newline) (fun _ => of_int 20000).

(** *** The stability flag

    [checkStability] works on [lastStableValue] and [isStable], which
    [resetFilters] also writes, and on [lastChangeTime], which no other
    function writes.  [now] is the value [millis()] returns in the call
    (each path reads it at most once). *)

Section Stability.

Context {F : Type} `{FloatOps F}.

Record Scale : Type := mkScale {
  filter : Filter (F := F);
  lastChangeTime : Z
}.

(** The globals after [setup]. *)
Definition scale_initial : Scale := mkScale initial 0.

Definition checkStability (value : F) (now : Z) (sc : Scale) : Scale :=
  let s := filter sc in
  if fgt (fabs (fsub value (lastStableValue s))) STABILITY_THRESHOLD then
    mkScale
      (mkFilter (readings s) (readIndex s) (total s) (average s)
         value false (previousWeight s))
      now
  else if negb (isStable s) && (1000 <? wrap_ulong (now - lastChangeTime sc)) then
    mkScale
      (mkFilter (readings s) (readIndex s) (total s) (average s)
         (lastStableValue s) true (previousWeight s))
      (lastChangeTime sc)
  else sc.

(** What the serial log shows of the weighing: a weight with its
    [STABLE] mark (the time of the reading is kept beside it), and the
    line that reports a tare. *)
Inductive ScaleLine : Type :=
| Weight (weight : F) (now : Z) (stable : bool)
| TareComplete.

(** [displayWeight(weight)]. *)
Definition displayWeight (weight : F) (now : Z) (sc : Scale) : ScaleLine :=
  Weight weight now (isStable (filter sc)).

(** The block of [loop] that handles one new reading: filter, noise
    filter, stability check, display. *)
Definition measure (rawValue : F) (now : Z) (sc : Scale) : ScaleLine * Scale :=
  let '(filteredValue, s) := ingest rawValue (filter sc) in
  let sc := checkStability filteredValue now (mkScale s (lastChangeTime sc)) in
  (displayWeight filteredValue now sc, sc).

(** The end of [loop] when [LoadCell.getTareStatus()] is true. *)
Definition tare_complete (sc : Scale) : ScaleLine * Scale :=
  (TareComplete, mkScale (resetFilters (filter sc)) (lastChangeTime sc)).

Inductive ScaleOp : Type :=
| Reading (rawValue : F) (now : Z)
| TareDone.

Definition scale_op (st : Scale * list ScaleLine) (op : ScaleOp) : Scale * list ScaleLine :=
  let '(line, sc) :=
    match op with
    | Reading rawValue now => measure rawValue now (fst st)
    | TareDone => tare_complete (fst st)
    end in
  (sc, snd st ++ [line]).

Definition weigh (ops : list ScaleOp) (sc : Scale) : Scale * list ScaleLine :=
  fold_left scale_op ops (sc, []).

(** A weight line within the stability threshold of [ref]. *)
Definition near (ref : F) (l : ScaleLine) : Prop :=
  match l with
  | Weight w _ _ => fgt (fabs (fsub w ref)) STABILITY_THRESHOLD = false
  | TareComplete => False
  end.

(** A weight line read more than a second ([unsigned long] arithmetic)
    after [since]. *)
Definition late (since : Z) (l : ScaleLine) : Prop :=
  match l with
  | Weight _ now _ => 1000 < wrap_ulong (now - since)
  | TareComplete => False
  end.

(** Where the reference of the stability check comes from: the
    initialiser, a tare, or the weight line that last left the band. *)
Definition reference_from (early : list ScaleLine) (sc : Scale) : Prop :=
  (early = [] /\ lastStableValue (filter sc) = f0 /\ lastChangeTime sc = 0) \/
  (exists before, early = before ++ [TareComplete] /\ lastStableValue (filter sc) = f0) \/
  (exists before, early = before ++ [Weight (lastStableValue (filter sc)) (lastChangeTime sc) false]).

Definition stability_inv (sc : Scale) (log : list ScaleLine) : Prop :=
  exists early recent,
    log = early ++ recent /\
    reference_from early sc /\
    Forall (near (lastStableValue (filter sc))) recent /\
    (isStable (filter sc) = true -> Exists (late (lastChangeTime sc)) recent).

End Stability.

(** A 100 g reading five seconds after start-up, a tare, and an empty
    scale read a second and a half later. *)
Definition tare_then_read : list (ScaleOp (F := Qc)) :=
  [Reading (of_int 100) 5000; TareDone; Reading (of_int 0) 6500].

End LoadCell100g.

(** ** The mode-based tester ("Surface Tension Tester v5.0")

    All floats are binary32 (on the AVR target [double] is [float] too, so
    the [double] literals of [getFilteredForce] do not widen the
    computation). *)

Module Tester5.

Definition float : Type := spec_float.

Definition SAMPLE_SIZE : Z := 5.
Definition EEPROM_CAL_ADDR : Z := 0.
Definition DEFAULT_CAL_FACTOR : float := of_int 16800.
Definition testDistance : Z := 24000.
Definition homeSpeed : Q := 3200 # 1.
Definition homeAccel : Q := 1600 # 1.
Definition POSITION_SAMPLE_INTERVAL : Z := 8.
Definition CONTACT_THRESHOLD : float := of_ratio 5 100.
Definition OVERLOAD_LIMIT : float := of_int 5.
Definition MONITOR_UPDATE_INTERVAL : Z := 200.

Record SpeedTest : Type := mkSpeedTest {
  name : string;
  speed : Q;
  speed_mms : Q
}.

Definition tests : list SpeedTest :=
  [ mkSpeedTest "ULTRA_FAST" (1600 # 1) (1 # 1);
    mkSpeedTest "FAST_UP" (1200 # 1) (750 # 1000);
    mkSpeedTest "FAST_DOWN" (400 # 1) (250 # 1000);
    mkSpeedTest "MEASURE_F" (50 # 1) (3125 # 100000);
    mkSpeedTest "MEASURE_M" (20 # 1) (125 # 10000);
    mkSpeedTest "MEASURE_U" (10 # 1) (625 # 100000);
    mkSpeedTest "MEASURE_X" (5 # 1) (3125 # 1000000);
    mkSpeedTest "MEASURE_Z" (2 # 1) (125 # 100000) ].

(** [tests[i]]: a read outside the 8 entries is a fault. *)
Definition tests_at (i : Z) : option SpeedTest :=
  if (0 <=? i) && (i <? 8) then nth_error tests (Z.to_nat i) else None.

Inductive SystemMode : Type :=
| MODE_IDLE
| MODE_LIVE_MONITOR
| MODE_NORMAL_TEST
| MODE_AUTO_SEQUENCE
| MODE_CALIBRATION.

Inductive MotorState : Type :=
| MOTOR_IDLE
| MOTOR_MOVING_DOWN
| MOTOR_RETURNING_HOME.

Definition SystemMode_eqb (a b : SystemMode) : bool :=
  match a, b with
  | MODE_IDLE, MODE_IDLE | MODE_LIVE_MONITOR, MODE_LIVE_MONITOR
  | MODE_NORMAL_TEST, MODE_NORMAL_TEST | MODE_AUTO_SEQUENCE, MODE_AUTO_SEQUENCE
  | MODE_CALIBRATION, MODE_CALIBRATION => true
  | _, _ => false
  end.

Definition MotorState_eqb (a b : MotorState) : bool :=
  match a, b with
  | MOTOR_IDLE, MOTOR_IDLE | MOTOR_MOVING_DOWN, MOTOR_MOVING_DOWN
  | MOTOR_RETURNING_HOME, MOTOR_RETURNING_HOME => true
  | _, _ => false
  end.

(** Lines written to the serial port, one constructor per message; a
    streamed record keeps its fields (elapsed milliseconds, position in
    steps, the profile whose rate is printed, the force). *)
Inductive Line : Type :=
| InvalidCalibrationFactor
| CalibrationFactorLoaded (f : float)
| SavedToEEPROM
| SystemReady
| MainMenu
| LiveMonitorBanner
| ForceReading (force : float)
| ExitingLiveMonitor
| InvalidTestIndex
| TestBanner (test : SpeedTest)
| MovingDown
| ExitingNormalTest
| AutoSequenceBanner
| AutoTestHeader (index : Z) (test : SpeedTest)
| AutoSequenceComplete
| ContactDetected
| OverloadDetected
| ReturningToHome
| HomeReached
| EmergencyStopActive
| SystemReset
| ReturningToIdle
| TaringScale
| HomePositionSet
| GoingHome
| TestStopped
| START_STREAM
| END_STREAM
| DataPoint (elapsed : Z) (motorSteps : Z) (test : SpeedTest) (force : float)
| TareComplete
| CalibrationBanner
| TareTimeout
| TareFailed
| TareDone
| InvalidMassValue
| MassInputTimeout
| InvalidMassInput
| MassEntered (mass : float)
| NewCalibrationFactor (f : float)
| CalibrationSaved
| ExitingCalibration.

Record State : Type := mkState {
  readings : list float;
  readIndex : Z;
  total : float;
  calibrationFactor : float;
  eeprom : list Z;
  calFactor : float;
  currentMode : SystemMode;
  motorState : MotorState;
  homePosition : Z;
  targetPosition : Z;
  currentTestIndex : Z;
  nextAutoTestIndex : Z;
  emergencyStop : bool;
  lastForce : float;
  contactDetected : bool;
  isStreaming : bool;
  startTime : Z;
  lastSampledPosition : Z;
  lastMonitorDisplayTime : Z;
  stepper : Stepper.t;
  out : list Line
}.

Definition set_readings (v : list float) (s : State) : State :=
  mkState v (readIndex s) (total s) (calibrationFactor s) (eeprom s)
    (calFactor s) (currentMode s) (motorState s) (homePosition s)
    (targetPosition s) (currentTestIndex s) (nextAutoTestIndex s)
    (emergencyStop s) (lastForce s) (contactDetected s) (isStreaming s)
    (startTime s) (lastSampledPosition s) (lastMonitorDisplayTime s)
    (stepper s) (out s).

Definition set_readIndex (v : Z) (s : State) : State :=
  mkState (readings s) v (total s) (calibrationFactor s) (eeprom s)
    (calFactor s) (currentMode s) (motorState s) (homePosition s)
    (targetPosition s) (currentTestIndex s) (nextAutoTestIndex s)
    (emergencyStop s) (lastForce s) (contactDetected s) (isStreaming s)
    (startTime s) (lastSampledPosition s) (lastMonitorDisplayTime s)
    (stepper s) (out s).

Definition set_total (v : float) (s : State) : State :=
  mkState (readings s) (readIndex s) v (calibrationFactor s) (eeprom s)
    (calFactor s) (currentMode s) (motorState s) (homePosition s)
    (targetPosition s) (currentTestIndex s) (nextAutoTestIndex s)
    (emergencyStop s) (lastForce s) (contactDetected s) (isStreaming s)
    (startTime s) (lastSampledPosition s) (lastMonitorDisplayTime s)
    (stepper s) (out s).

Definition set_calibrationFactor (v : float) (s : State) : State :=
  mkState (readings s) (readIndex s) (total s) v (eeprom s) (calFactor s)
    (currentMode s) (motorState s) (homePosition s) (targetPosition s)
    (currentTestIndex s) (nextAutoTestIndex s) (emergencyStop s) (lastForce s)
    (contactDetected s) (isStreaming s) (startTime s) (lastSampledPosition s)
    (lastMonitorDisplayTime s) (stepper s) (out s).

Definition set_eeprom (v : list Z) (s : State) : State :=
  mkState (readings s) (readIndex s) (total s) (calibrationFactor s) v
    (calFactor s) (currentMode s) (motorState s) (homePosition s)
    (targetPosition s) (currentTestIndex s) (nextAutoTestIndex s)
    (emergencyStop s) (lastForce s) (contactDetected s) (isStreaming s)
    (startTime s) (lastSampledPosition s) (lastMonitorDisplayTime s)
    (stepper s) (out s).

Definition set_calFactor (v : float) (s : State) : State :=
  mkState (readings s) (readIndex s) (total s) (calibrationFactor s)
    (eeprom s) v (currentMode s) (motorState s) (homePosition s)
    (targetPosition s) (currentTestIndex s) (nextAutoTestIndex s)
    (emergencyStop s) (lastForce s) (contactDetected s) (isStreaming s)
    (startTime s) (lastSampledPosition s) (lastMonitorDisplayTime s)
    (stepper s) (out s).

Definition set_currentMode (v : SystemMode) (s : State) : State :=
  mkState (readings s) (readIndex s) (total s) (calibrationFactor s)
    (eeprom s) (calFactor s) v (motorState s) (homePosition s)
    (targetPosition s) (currentTestIndex s) (nextAutoTestIndex s)
    (emergencyStop s) (lastForce s) (contactDetected s) (isStreaming s)
    (startTime s) (lastSampledPosition s) (lastMonitorDisplayTime s)
    (stepper s) (out s).

Definition set_motorState (v : MotorState) (s : State) : State :=
  mkState (readings s) (readIndex s) (total s) (calibrationFactor s)
    (eeprom s) (calFactor s) (currentMode s) v (homePosition s)
    (targetPosition s) (currentTestIndex s) (nextAutoTestIndex s)
    (emergencyStop s) (lastForce s) (contactDetected s) (isStreaming s)
    (startTime s) (lastSampledPosition s) (lastMonitorDisplayTime s)
    (stepper s) (out s).

Definition set_homePosition (v : Z) (s : State) : State :=
  mkState (readings s) (readIndex s) (total s) (calibrationFactor s)
    (eeprom s) (calFactor s) (currentMode s) (motorState s) v
    (targetPosition s) (currentTestIndex s) (nextAutoTestIndex s)
    (emergencyStop s) (lastForce s) (contactDetected s) (isStreaming s)
    (startTime s) (lastSampledPosition s) (lastMonitorDisplayTime s)
    (stepper s) (out s).

Definition set_targetPosition (v : Z) (s : State) : State :=
  mkState (readings s) (readIndex s) (total s) (calibrationFactor s)
    (eeprom s) (calFactor s) (currentMode s) (motorState s) (homePosition s) v
    (currentTestIndex s) (nextAutoTestIndex s) (emergencyStop s) (lastForce s)
    (contactDetected s) (isStreaming s) (startTime s) (lastSampledPosition s)
    (lastMonitorDisplayTime s) (stepper s) (out s).

Definition set_currentTestIndex (v : Z) (s : State) : State :=
  mkState (readings s) (readIndex s) (total s) (calibrationFactor s)
    (eeprom s) (calFactor s) (currentMode s) (motorState s) (homePosition s)
    (targetPosition s) v (nextAutoTestIndex s) (emergencyStop s) (lastForce s)
    (contactDetected s) (isStreaming s) (startTime s) (lastSampledPosition s)
    (lastMonitorDisplayTime s) (stepper s) (out s).

Definition set_nextAutoTestIndex (v : Z) (s : State) : State :=
  mkState (readings s) (readIndex s) (total s) (calibrationFactor s)
    (eeprom s) (calFactor s) (currentMode s) (motorState s) (homePosition s)
    (targetPosition s) (currentTestIndex s) v (emergencyStop s) (lastForce s)
    (contactDetected s) (isStreaming s) (startTime s) (lastSampledPosition s)
    (lastMonitorDisplayTime s) (stepper s) (out s).

Definition set_emergencyStop (v : bool) (s : State) : State :=
  mkState (readings s) (readIndex s) (total s) (calibrationFactor s)
    (eeprom s) (calFactor s) (currentMode s) (motorState s) (homePosition s)
    (targetPosition s) (currentTestIndex s) (nextAutoTestIndex s) v
    (lastForce s) (contactDetected s) (isStreaming s) (startTime s)
    (lastSampledPosition s) (lastMonitorDisplayTime s) (stepper s) (out s).

Definition set_lastForce (v : float) (s : State) : State :=
  mkState (readings s) (readIndex s) (total s) (calibrationFactor s)
    (eeprom s) (calFactor s) (currentMode s) (motorState s) (homePosition s)
    (targetPosition s) (currentTestIndex s) (nextAutoTestIndex s)
    (emergencyStop s) v (contactDetected s) (isStreaming s) (startTime s)
    (lastSampledPosition s) (lastMonitorDisplayTime s) (stepper s) (out s).

Definition set_contactDetected (v : bool) (s : State) : State :=
  mkState (readings s) (readIndex s) (total s) (calibrationFactor s)
    (eeprom s) (calFactor s) (currentMode s) (motorState s) (homePosition s)
    (targetPosition s) (currentTestIndex s) (nextAutoTestIndex s)
    (emergencyStop s) (lastForce s) v (isStreaming s) (startTime s)
    (lastSampledPosition s) (lastMonitorDisplayTime s) (stepper s) (out s).

Definition set_isStreaming (v : bool) (s : State) : State :=
  mkState (readings s) (readIndex s) (total s) (calibrationFactor s)
    (eeprom s) (calFactor s) (currentMode s) (motorState s) (homePosition s)
    (targetPosition s) (currentTestIndex s) (nextAutoTestIndex s)
    (emergencyStop s) (lastForce s) (contactDetected s) v (startTime s)
    (lastSampledPosition s) (lastMonitorDisplayTime s) (stepper s) (out s).

Definition set_startTime (v : Z) (s : State) : State :=
  mkState (readings s) (readIndex s) (total s) (calibrationFactor s)
    (eeprom s) (calFactor s) (currentMode s) (motorState s) (homePosition s)
    (targetPosition s) (currentTestIndex s) (nextAutoTestIndex s)
    (emergencyStop s) (lastForce s) (contactDetected s) (isStreaming s) v
    (lastSampledPosition s) (lastMonitorDisplayTime s) (stepper s) (out s).

Definition set_lastSampledPosition (v : Z) (s : State) : State :=
  mkState (readings s) (readIndex s) (total s) (calibrationFactor s)
    (eeprom s) (calFactor s) (currentMode s) (motorState s) (homePosition s)
    (targetPosition s) (currentTestIndex s) (nextAutoTestIndex s)
    (emergencyStop s) (lastForce s) (contactDetected s) (isStreaming s)
    (startTime s) v (lastMonitorDisplayTime s) (stepper s) (out s).

Definition set_lastMonitorDisplayTime (v : Z) (s : State) : State :=
  mkState (readings s) (readIndex s) (total s) (calibrationFactor s)
    (eeprom s) (calFactor s) (currentMode s) (motorState s) (homePosition s)
    (targetPosition s) (currentTestIndex s) (nextAutoTestIndex s)
    (emergencyStop s) (lastForce s) (contactDetected s) (isStreaming s)
    (startTime s) (lastSampledPosition s) v (stepper s) (out s).

Definition set_stepper (v : Stepper.t) (s : State) : State :=
  mkState (readings s) (readIndex s) (total s) (calibrationFactor s)
    (eeprom s) (calFactor s) (currentMode s) (motorState s) (homePosition s)
    (targetPosition s) (currentTestIndex s) (nextAutoTestIndex s)
    (emergencyStop s) (lastForce s) (contactDetected s) (isStreaming s)
    (startTime s) (lastSampledPosition s) (lastMonitorDisplayTime s) v (out s).

Definition println (l : Line) (s : State) : State :=
  mkState (readings s) (readIndex s) (total s) (calibrationFactor s)
    (eeprom s) (calFactor s) (currentMode s) (motorState s) (homePosition s)
    (targetPosition s) (currentTestIndex s) (nextAutoTestIndex s)
    (emergencyStop s) (lastForce s) (contactDetected s) (isStreaming s)
    (startTime s) (lastSampledPosition s) (lastMonitorDisplayTime s)
    (stepper s) (l :: out s).

(** *** The force filter *)

Definition get (l : list float) (i : Z) : float := nth (Z.to_nat i) l f0.

Definition set (l : list float) (i : Z) (x : float) : list float :=
  LoadCell100g.set_nth (Z.to_nat i) x l.

(** [getFilteredForce] on the raw value [LoadCell.getData()] delivers. *)
Definition getFilteredForce (rawValue : float) (s : State) : float * State :=
  let s := set_total (fsub (total s) (get (readings s) (readIndex s))) s in
  let s := set_readings (set (readings s) (readIndex s) rawValue) s in
  let s := set_total (fadd (total s) (get (readings s) (readIndex s))) s in
  let s := set_readIndex (Z.rem (readIndex s + 1) SAMPLE_SIZE) s in
  let gramValue := fdiv (total s) (of_int SAMPLE_SIZE) in
  let force_N := fmul (fdiv gramValue (of_int 1000)) (of_ratio 981 100) in
  (if fgt force_N f0 then force_N else f0, s).

Definition resetFilters (s : State) : State :=
  let s := set_readings (repeat f0 (Z.to_nat SAMPLE_SIZE)) s in
  let s := set_total f0 s in
  set_readIndex 0 s.

(** *** The calibration store *)

Definition eeprom_read (mem : list Z) (addr : Z) : Z := nth (Z.to_nat addr) mem 255.

Fixpoint eeprom_set (n : nat) (b : Z) (mem : list Z) : list Z :=
  match mem, n with
  | [], _ => []
  | _ :: rest, O => b :: rest
  | a :: rest, S k => a :: eeprom_set k b rest
  end.

Definition eeprom_write (mem : list Z) (addr : Z) (b : Z) : list Z :=
  eeprom_set (Z.to_nat addr) b mem.

(** Byte [i] of the float in memory (little endian). *)
Definition float_byte (x : float) (i : Z) : Z :=
  Z.land (Z.shiftr (Binary32.to_bits x) (8 * i)) 255.

Definition float_of_bytes (b0 b1 b2 b3 : Z) : float :=
  Binary32.of_bits (b0 + Z.shiftl b1 8 + Z.shiftl b2 16 + Z.shiftl b3 24).

Definition saveCalibrationToEEPROM (s : State) : State :=
  let x := calibrationFactor s in
  let s := set_eeprom (eeprom_write (eeprom s) (EEPROM_CAL_ADDR + 0) (float_byte x 0)) s in
  let s := set_eeprom (eeprom_write (eeprom s) (EEPROM_CAL_ADDR + 1) (float_byte x 1)) s in
  let s := set_eeprom (eeprom_write (eeprom s) (EEPROM_CAL_ADDR + 2) (float_byte x 2)) s in
  let s := set_eeprom (eeprom_write (eeprom s) (EEPROM_CAL_ADDR + 3) (float_byte x 3)) s in
  println SavedToEEPROM s.

Definition loadCalibrationFromEEPROM (s : State) : State :=
  let s := set_calibrationFactor
             (float_of_bytes (eeprom_read (eeprom s) (EEPROM_CAL_ADDR + 0))
                             (eeprom_read (eeprom s) (EEPROM_CAL_ADDR + 1))
                             (eeprom_read (eeprom s) (EEPROM_CAL_ADDR + 2))
                             (eeprom_read (eeprom s) (EEPROM_CAL_ADDR + 3))) s in
  if flt (calibrationFactor s) (of_int 5000) || fgt (calibrationFactor s) (of_int 50000)
  then set_calibrationFactor DEFAULT_CAL_FACTOR (println InvalidCalibrationFactor s)
  else s.

(** The globals at power-up, over the EEPROM contents found there. *)
Definition power_on (mem : list Z) : State :=
  mkState (repeat f0 (Z.to_nat SAMPLE_SIZE)) 0 f0 DEFAULT_CAL_FACTOR mem (of_int 1)
    MODE_IDLE MOTOR_IDLE 0 0 (-1) (-1) false f0 false false 0 0 0
    (Stepper.mk 0 0 (1 # 1) (1 # 1)) [].

(** [setup]: [Halted] is the endless loop after a load-cell timeout. *)
Inductive Boot : Type :=
| Halted (s : State)
| Ready (s : State).

Definition setup (tareTimeout : bool) (s : State) : Boot :=
  let s := set_stepper (Stepper.setMaxSpeed homeSpeed (stepper s)) s in
  let s := set_stepper (Stepper.setAcceleration homeAccel (stepper s)) s in
  let s := loadCalibrationFromEEPROM s in
  let s := println (CalibrationFactorLoaded (calibrationFactor s)) s in
  if tareTimeout then Halted s
  else
    let s := set_calFactor (calibrationFactor s) s in
    let s := resetFilters s in
    let s := println SystemReady s in
    Ready (println MainMenu s).

(** *** Streaming *)

Definition startStreaming (now : Z) (s : State) : State :=
  let s := set_isStreaming true s in
  let s := set_startTime now s in
  let s := set_lastSampledPosition (Stepper.currentPosition (stepper s)) s in
  println START_STREAM s.

Definition stopStreaming (s : State) : State :=
  if negb (isStreaming s) then s
  else println END_STREAM (set_isStreaming false s).

Definition streamDataPoint (now : Z) (force_N : float) (motorSteps : Z) (s : State)
  : option State :=
  t <- tests_at (currentTestIndex s) ;;
  Some (println (DataPoint (wrap_ulong (now - startTime s)) motorSteps t force_N) s).

(** *** Modes *)

Definition enterLiveMonitorMode (now : Z) (s : State) : State :=
  let s := set_currentMode MODE_LIVE_MONITOR s in
  let s := set_motorState MOTOR_IDLE s in
  let s := set_isStreaming false s in
  let s := println LiveMonitorBanner s in
  set_lastMonitorDisplayTime now s.

Definition exitLiveMonitorMode (s : State) : State :=
  let s := println ExitingLiveMonitor s in
  let s := set_currentMode MODE_IDLE s in
  let s := set_motorState MOTOR_IDLE s in
  println MainMenu s.

Definition handleLiveMonitorMode (now : Z) (rawValue : float) (s : State) : State :=
  let currentTime := now in
  if wrap_ulong (currentTime - lastMonitorDisplayTime s) >=? MONITOR_UPDATE_INTERVAL then
    let '(force, s) := getFilteredForce rawValue s in
    let s := println (ForceReading force) s in
    set_lastMonitorDisplayTime currentTime s
  else s.

Definition enterNormalTestMode (now : Z) (testIndex : Z) (s : State) : option State :=
  if (testIndex <? 0) || (testIndex >=? 8) then Some (println InvalidTestIndex s)
  else
    let s := set_currentMode MODE_NORMAL_TEST s in
    let s := set_motorState MOTOR_MOVING_DOWN s in
    let s := set_currentTestIndex testIndex s in
    test <- tests_at testIndex ;;
    let s := println (TestBanner test) s in
    let s := set_contactDetected false s in
    let s := set_lastSampledPosition (homePosition s) s in
    let s := set_targetPosition (wrap_long (homePosition s + testDistance)) s in
    let s := set_stepper (Stepper.setMaxSpeed (speed test) (stepper s)) s in
    let s := set_stepper (Stepper.setAcceleration 0%Q (stepper s)) s in
    let s := set_stepper (Stepper.moveTo (targetPosition s) (stepper s)) s in
    let s := startStreaming now s in
    Some (println MovingDown s).

Definition exitNormalTestMode (s : State) : State :=
  let s := stopStreaming s in
  let s := set_currentMode MODE_IDLE s in
  let s := set_motorState MOTOR_IDLE s in
  let s := set_isStreaming false s in
  let s := println ExitingNormalTest s in
  println MainMenu s.

Definition enterAutoSequenceMode (s : State) : State :=
  let s := set_currentMode MODE_AUTO_SEQUENCE s in
  let s := set_motorState MOTOR_IDLE s in
  let s := set_nextAutoTestIndex 0 s in
  println AutoSequenceBanner s.

Definition setupNextAutoTest (now : Z) (s : State) : option State :=
  if nextAutoTestIndex s >=? 8 then Some s
  else
    let testIndex := nextAutoTestIndex s in
    let s := set_currentTestIndex testIndex s in
    test <- tests_at testIndex ;;
    let s := println (AutoTestHeader (nextAutoTestIndex s) test) s in
    let s := set_contactDetected false s in
    let s := set_lastSampledPosition (homePosition s) s in
    let s := set_motorState MOTOR_MOVING_DOWN s in
    let s := set_targetPosition (wrap_long (homePosition s + testDistance)) s in
    let s := set_stepper (Stepper.setMaxSpeed (speed test) (stepper s)) s in
    let s := set_stepper (Stepper.setAcceleration 0%Q (stepper s)) s in
    let s := set_stepper (Stepper.moveTo (targetPosition s) (stepper s)) s in
    let s := startStreaming now s in
    Some (set_nextAutoTestIndex (wrap_int (nextAutoTestIndex s + 1)) s).

Definition exitAutoSequenceMode (s : State) : State :=
  let s := set_currentMode MODE_IDLE s in
  let s := set_motorState MOTOR_IDLE s in
  let s := set_isStreaming false s in
  let s := set_nextAutoTestIndex 0 s in
  println MainMenu s.

(** *** Motor state handlers, shared by the two test modes *)

(** What one pass of [loop] reads from the outside. *)
Record CalibrationRun : Type := mkCalibrationRun {
  tare_requested : bool;        (* a [T] arrived within the 60 s *)
  tare_completed : bool;        (* the tare status after the 5 s wait *)
  typed_mass : option float;    (* the first non-empty line typed, parsed; none on timeout *)
  new_calibration : float       (* what [LoadCell.getNewCalibration] returns *)
}.

Record Input : Type := mkInput {
  serial : option ascii;        (* first byte pending at [handleSerialCommand] *)
  late_serial : option ascii;   (* byte pending when [handleEmergencyStop] looks *)
  millis : Z;
  step_due : bool;              (* the stepper's timer allows a step *)
  stop_togo : Z;                (* distance to go left by the [stepper.stop()] of a command *)
  halt_togo : Z;                (* and by the one of [handleEmergencyStop] *)
  raw : float;                  (* [LoadCell.getData()] *)
  tare_status : bool;           (* [LoadCell.getTareStatus()] at the end of the pass *)
  calibration : CalibrationRun
}.

Definition handleMovingDown (i : Input) (s : State) : option State :=
  let s := set_stepper (Stepper.run (step_due i) (stepper s)) s in
  let currentPosition := Stepper.currentPosition (stepper s) in
  let positionDelta := Z.abs (wrap_long (currentPosition - lastSampledPosition s)) in
  let finish (s : State) : State :=
    if Stepper.distanceToGo (stepper s) =? 0 then
      let s := stopStreaming s in
      let s := set_motorState MOTOR_RETURNING_HOME s in
      let s := set_stepper (Stepper.setMaxSpeed homeSpeed (stepper s)) s in
      let s := set_stepper (Stepper.setAcceleration homeAccel (stepper s)) s in
      let s := set_stepper (Stepper.moveTo (homePosition s) (stepper s)) s in
      println ReturningToHome s
    else s in
  if positionDelta >=? POSITION_SAMPLE_INTERVAL then
    let '(currentForce, s) := getFilteredForce (raw i) s in
    let s := set_lastForce currentForce s in
    let s := set_lastSampledPosition currentPosition s in
    let s :=
      if negb (contactDetected s) && fgt currentForce CONTACT_THRESHOLD
      then println ContactDetected (set_contactDetected true s)
      else s in
    if fgt currentForce OVERLOAD_LIMIT then
      let s := println OverloadDetected s in
      Some (set_emergencyStop true s)
    else
      s <- (if isStreaming s
            then streamDataPoint (millis i) currentForce currentPosition s
            else Some s) ;;
      Some (finish s)
  else Some (finish s).

Definition handleReturningHome (i : Input) (s : State) : State :=
  let s := set_stepper (Stepper.run (step_due i) (stepper s)) s in
  if Stepper.distanceToGo (stepper s) =? 0 then
    let s := println HomeReached s in
    let s := set_motorState MOTOR_IDLE s in
    if SystemMode_eqb (currentMode s) MODE_NORMAL_TEST then exitNormalTestMode s
    else s
  else s.

Definition handleNormalTestMode (i : Input) (s : State) : option State :=
  match motorState s with
  | MOTOR_IDLE => Some s
  | MOTOR_MOVING_DOWN => handleMovingDown i s
  | MOTOR_RETURNING_HOME => Some (handleReturningHome i s)
  end.

Definition handleAutoSequenceMode (i : Input) (s : State) : option State :=
  match motorState s with
  | MOTOR_IDLE =>
      if nextAutoTestIndex s <? 8 then setupNextAutoTest (millis i) s
      else Some (exitAutoSequenceMode (println AutoSequenceComplete s))
  | MOTOR_MOVING_DOWN => handleMovingDown i s
  | MOTOR_RETURNING_HOME => Some (handleReturningHome i s)
  end.

(** [stepper.setSpeed(0)] after [stepper.stop()] writes the constant-speed
    register, which the planner of [Stepper] does not carry. *)
Definition handleEmergencyStop (i : Input) (s : State) : State :=
  let s := set_stepper (Stepper.stop (halt_togo i) (stepper s)) s in
  let s := stopStreaming s in
  let s := println EmergencyStopActive s in
  match late_serial i with
  | Some cmd =>
      if is_char cmd "R" "r" then
        let s := set_emergencyStop false s in
        let s := set_motorState MOTOR_IDLE s in
        println SystemReset s
      else s
  | None => s
  end.

(** *** Calibration mode: the blocking workflow *)

Definition exitCalibrationMode (s : State) : State :=
  let s := println ExitingCalibration s in
  let s := set_currentMode MODE_IDLE s in
  let s := set_motorState MOTOR_IDLE s in
  let s := resetFilters s in
  println MainMenu s.

Definition getUserInputMass (typed : option float) (s : State) : float * State :=
  match typed with
  | Some mass =>
      if fgt mass f0 then (mass, s)
      else (fneg (of_int 1), println InvalidMassValue s)
  | None => (fneg (of_int 1), println MassInputTimeout s)
  end.

Definition handleCalibrationMode (c : CalibrationRun) (s : State) : State :=
  let s := println CalibrationBanner s in
  if negb (tare_requested c) then exitCalibrationMode (println TareTimeout s)
  else
    let s := println TaringScale s in
    if negb (tare_completed c) then exitCalibrationMode (println TareFailed s)
    else
      let s := println TareDone s in
      let '(knownMass, s) := getUserInputMass (typed_mass c) s in
      if flt knownMass f0 then exitCalibrationMode (println InvalidMassInput s)
      else
        let s := println (MassEntered knownMass) s in
        let newCalFactor := new_calibration c in
        let s := println (NewCalibrationFactor newCalFactor) s in
        let s := set_calibrationFactor newCalFactor s in
        let s := set_calFactor newCalFactor s in
        let s := saveCalibrationToEEPROM s in
        let s := println CalibrationSaved s in
        exitCalibrationMode s.

(** *** Serial commands *)

Definition digit_index (cmd : ascii) : option Z :=
  let n := Z.of_nat (nat_of_ascii cmd) in
  if (49 <=? n) && (n <=? 56) then Some (n - 49) else None.

Definition handleSerialCommand (i : Input) (s : State) : option State :=
  match serial i with
  | None => Some s
  | Some cmd =>
      if is_char cmd "Q" "q" then
        if negb (SystemMode_eqb (currentMode s) MODE_IDLE) then
          let s := stopStreaming s in
          let s := set_stepper (Stepper.stop (stop_togo i) (stepper s)) s in
          let s := set_motorState MOTOR_IDLE s in
          let s := set_currentMode MODE_IDLE s in
          let s := println ReturningToIdle s in
          Some (println MainMenu s)
        else Some s
      else if negb (MotorState_eqb (motorState s) MOTOR_IDLE)
              && negb (is_char cmd "S" "s" || is_char cmd "R" "r") then Some s
      else
        match digit_index cmd with
        | Some testIndex => enterNormalTestMode (millis i) testIndex s
        | None =>
            if is_char cmd "M" "m" then Some (enterLiveMonitorMode (millis i) s)
            else if is_char cmd "A" "a" then Some (enterAutoSequenceMode s)
            else if is_char cmd "C" "c" then Some (set_currentMode MODE_CALIBRATION s)
            else if is_char cmd "T" "t" then Some (println TaringScale s)
            else if is_char cmd "0" "0" then
              let s := set_homePosition (Stepper.currentPosition (stepper s)) s in
              Some (println HomePositionSet s)
            else if is_char cmd "H" "h" then
              let s := println GoingHome s in
              let s := set_stepper (Stepper.setMaxSpeed homeSpeed (stepper s)) s in
              let s := set_stepper (Stepper.setAcceleration homeAccel (stepper s)) s in
              let s := set_stepper (Stepper.moveTo (homePosition s) (stepper s)) s in
              let s := set_stepper (Stepper.runToPosition (stepper s)) s in
              Some (println HomeReached s)
            else if is_char cmd "S" "s" then
              if negb (MotorState_eqb (motorState s) MOTOR_IDLE) then
                let s := set_stepper (Stepper.stop (stop_togo i) (stepper s)) s in
                let s := stopStreaming s in
                let s := set_motorState MOTOR_IDLE s in
                Some (println TestStopped s)
              else Some s
            else Some s
        end
  end.

(** *** The main loop *)

Definition dispatch (i : Input) (s : State) : option State :=
  match currentMode s with
  | MODE_IDLE => Some s
  | MODE_LIVE_MONITOR => Some (handleLiveMonitorMode (millis i) (raw i) s)
  | MODE_NORMAL_TEST => handleNormalTestMode i s
  | MODE_AUTO_SEQUENCE => handleAutoSequenceMode i s
  | MODE_CALIBRATION => Some (handleCalibrationMode (calibration i) s)
  end.

Definition loop (i : Input) (s : State) : option State :=
  s <- (if negb (SystemMode_eqb (currentMode s) MODE_CALIBRATION)
        then handleSerialCommand i s else Some s) ;;
  if emergencyStop s then Some (handleEmergencyStop i s)
  else
    s <- dispatch i s ;;
    if tare_status i then Some (resetFilters (println TareComplete s))
    else Some s.

Fixpoint run_ticks (ins : list Input) (s : State) : option State :=
  match ins with
  | [] => Some s
  | i :: rest => s' <- loop i s ;; run_ticks rest s'
  end.

(** *** Vocabulary of the statements about the tester *)

(** The four bytes [saveCalibrationToEEPROM] writes, as a function of
    the memory. *)
Definition store_float (x : float) (mem : list Z) : list Z :=
  eeprom_write
    (eeprom_write
       (eeprom_write
          (eeprom_write mem (EEPROM_CAL_ADDR + 0) (float_byte x 0))
          (EEPROM_CAL_ADDR + 1) (float_byte x 1))
       (EEPROM_CAL_ADDR + 2) (float_byte x 2))
    (EEPROM_CAL_ADDR + 3) (float_byte x 3).


(** The state [setup] hands to the first pass of [loop], over the EEPROM
    contents [mem] (the load cell answers in time). *)
Definition boot (mem : list Z) : State :=
  match setup false (power_on mem) with
  | Ready s => s
  | Halted s => s
  end.

(** An EEPROM that holds 16800.0 at the calibration address (bytes 00 40
    83 46), and the state after [setup] over it. *)
Definition stored : list Z := [0; 64; 131; 70] ++ repeat 255 12.

Definition ready : State := boot stored.

(** An erased EEPROM: every byte of the Mega's 4096 is 0xFF. *)
Definition erased_eeprom : list Z := repeat 255 4096.

(** Passes of [loop] outside calibration: [pass c due r] delivers the
    serial byte [c], a stepper timer that fires if [due], and the raw
    load-cell value [r]. *)
Definition no_calibration : CalibrationRun := mkCalibrationRun false false None f0.

Definition pass (c : option ascii) (due : bool) (r : float) : Input :=
  mkInput c None 0 due 0 0 r false no_calibration.

Definition quiet_tick : Input := pass None true f0.
Definition overload_tick : Input := pass None true (of_int 3000).

(** The first profile is started with the command [1]; seven steps are
    made with no load; the pass of the eighth step reads 3000 g. *)
Definition overload_run : list Input :=
  pass (Some "1"%char) true f0 :: repeat quiet_tick 6 ++ [overload_tick].

Definition before_overload : State :=
  Eval vm_compute in
    match run_ticks (pass (Some "1"%char) true f0 :: repeat quiet_tick 6) ready with
    | Some s => s
    | None => ready
    end.


(** *** Vocabulary of the statements about the stream *)

(** The streaming protocol read off the transcript: one line added to the
    sessions seen so far.  [None]: a marker or a record is out of place. *)
Definition session_step (acc : Sessions) (l : Line) : option Sessions :=
  match l, open acc with
  | START_STREAM, None => Some (mkSessions (closed acc) (Some []))
  | START_STREAM, Some _ => None
  | DataPoint _ p _ _, Some ps => Some (mkSessions (closed acc) (Some (ps ++ [p])))
  | DataPoint _ _ _ _, None => None
  | END_STREAM, Some ps => Some (mkSessions (closed acc ++ [ps]) None)
  | END_STREAM, None => None
  | _, _ => Some acc
  end.

Fixpoint sessions_of (newest_first : list Line) : option Sessions :=
  match newest_first with
  | [] => Some (mkSessions [] None)
  | l :: older => acc <- sessions_of older ;; session_step acc l
  end.

Definition neutral (l : Line) : Prop :=
  match l with
  | START_STREAM | END_STREAM | DataPoint _ _ _ _ => False
  | _ => True
  end.

(** The records [ps] of the open session lie strictly in order behind the
    last sampled position [last], which lies behind the position [pos] of
    a stepper heading for [target]. *)
Definition strictly_toward (last pos target : Z) (ps : list Z) : Prop :=
  (strictly_ascending ps /\ Forall (fun p => p <= last) ps /\
   last <= pos /\ pos <= target) \/
  (strictly_descending ps /\ Forall (fun p => last <= p) ps /\
   target <= pos /\ pos <= last).

Definition stream_ok (lines : list Line) (streaming : bool) (last pos target : Z) : Prop :=
  exists acc : Sessions,
    sessions_of lines = Some acc /\
    Forall strictly_monotonic (closed acc) /\
    match open acc with
    | None => streaming = false
    | Some ps => streaming = true /\ strictly_toward last pos target ps
    end.

(** What the passes of [loop] keep: the stream protocol, a valid profile
    index while streaming, no stream during calibration, and a started
    sequence counter in the automatic mode. *)
Definition stream_inv (s : State) : Prop :=
  stream_ok (out s) (isStreaming s) (lastSampledPosition s)
    (Stepper.currentPos (stepper s)) (Stepper.targetPos (stepper s)) /\
  (isStreaming s = true ->
     motorState s = MOTOR_MOVING_DOWN /\ 0 <= currentTestIndex s < 8) /\
  (currentMode s = MODE_CALIBRATION -> isStreaming s = false) /\
  (currentMode s = MODE_AUTO_SEQUENCE -> 0 <= nextAutoTestIndex s).

(** The end of [handleMovingDown]: what it does once the target is
    reached. *)
Definition arrival (s : State) : State :=
  if Stepper.distanceToGo (stepper s) =? 0 then
    let s := stopStreaming s in
    let s := set_motorState MOTOR_RETURNING_HOME s in
    let s := set_stepper (Stepper.setMaxSpeed homeSpeed (stepper s)) s in
    let s := set_stepper (Stepper.setAcceleration homeAccel (stepper s)) s in
    let s := set_stepper (Stepper.moveTo (homePosition s) (stepper s)) s in
    println ReturningToHome s
  else s.

(** The positions [start + d], [start + 2 d], ..., [start + n d]. *)
Definition grid (start d : Z) (n : nat) : list Z :=
  map (fun k => start + d * Z.of_nat k) (seq 1 n).

(** A session whose records are [POSITION_SAMPLE_INTERVAL] steps apart,
    all in one direction. *)
Definition on_grid (ps : list Z) : Prop :=
  exists start d : Z,
    (d = POSITION_SAMPLE_INTERVAL \/ d = - POSITION_SAMPLE_INTERVAL) /\
    ps = grid start d (List.length ps).

(** The open session: its records are on a grid, and unless the emergency
    flag is latched the last sampled position is the last grid point and
    the stepper is less than one interval past it, heading on. *)
Definition open_grid (emergency : bool) (last pos target : Z) (ps : list Z) : Prop :=
  exists start : Z,
    (ps = grid start POSITION_SAMPLE_INTERVAL (List.length ps) /\
     (emergency = true \/
      (last = start + POSITION_SAMPLE_INTERVAL * Z.of_nat (List.length ps) /\
       last <= pos < last + POSITION_SAMPLE_INTERVAL /\ pos <= target))) \/
    (ps = grid start (- POSITION_SAMPLE_INTERVAL) (List.length ps) /\
     (emergency = true \/
      (last = start - POSITION_SAMPLE_INTERVAL * Z.of_nat (List.length ps) /\
       last - POSITION_SAMPLE_INTERVAL < pos <= last /\ target <= pos))).

Definition grid_ok (lines : list Line) (streaming emergency : bool) (last pos target : Z)
  : Prop :=
  exists acc : Sessions,
    sessions_of lines = Some acc /\
    Forall on_grid (closed acc) /\
    match open acc with
    | None => streaming = false
    | Some ps => streaming = true /\ open_grid emergency last pos target ps
    end.

Definition grid_of (s : State) : Prop :=
  grid_ok (out s) (isStreaming s) (emergencyStop s) (lastSampledPosition s)
    (Stepper.currentPos (stepper s)) (Stepper.targetPos (stepper s)).

Definition grid_inv (s : State) : Prop := stream_inv s /\ grid_of s.

(** One call of [run]: at most one step, towards the target. *)
Definition stepped (pos pos' target : Z) : Prop :=
  (pos <= pos' <= target /\ pos' <= pos + 1) \/
  (target <= pos' <= pos /\ pos - 1 <= pos').

(** The pass does not carry the set-home command [0]. *)
Definition keeps_home (i : Input) : Prop :=
  forall c : ascii, serial i = Some c -> is_char c "0" "0" = false.

(** Home is where the stepper stood at power-up, the stepper lies within
    the test distance below it, and so does its target during a motion
    that no emergency stop has interrupted, the only time the sketch lets
    the stepper step towards it (the target that [stepper.stop()] leaves
    behind is the library's choice). *)
Definition travel_inv (s : State) : Prop :=
  homePosition s = 0 /\
  0 <= Stepper.currentPos (stepper s) <= testDistance /\
  (motorState s <> MOTOR_IDLE -> emergencyStop s = false ->
   0 <= Stepper.targetPos (stepper s) <= testDistance).

(** The state after [overload_run]: the overload has just been sampled. *)
Definition after_overload : State :=
  Eval vm_compute in
    match run_ticks overload_run ready with
    | Some s => s
    | None => ready
    end.

(** The same pass with nothing pending on the serial port when
    [handleSerialCommand] looks. *)
Definition without_command (i : Input) : Input :=
  mkInput None (late_serial i) (millis i) (step_due i) (stop_togo i) (halt_togo i) (raw i)
    (tare_status i)
    (calibration i).

(** The pass brings neither the manual go-home command [H] nor, when the
    emergency handler looks, the reset byte [R]. *)
Definition no_reset_no_home (i : Input) : Prop :=
  (forall c : ascii, serial i = Some c -> is_char c "H" "h" = false) /\
  (forall c : ascii, late_serial i = Some c -> is_char c "R" "r" = false).

(** The tester rests: idle mode, motor idle, the stepper at [pos] and
    home at [home]. *)
Definition at_rest (pos home : Z) (s : State) : Prop :=
  currentMode s = MODE_IDLE /\
  motorState s = MOTOR_IDLE /\
  Stepper.currentPos (stepper s) = pos /\
  homePosition s = home.

(** The state [handleSerialCommand] leaves on the exit command [Q] outside
    the idle mode. *)
Definition exited (togo : Z) (s : State) : State :=
  let s := stopStreaming s in
  let s := set_stepper (Stepper.stop togo (stepper s)) s in
  let s := set_motorState MOTOR_IDLE s in
  let s := set_currentMode MODE_IDLE s in
  let s := println ReturningToIdle s in
  println MainMenu s.

(** *** The automatic sequence *)

(** The pass finds no byte on the serial port. *)
Definition quiet (i : Input) : Prop := serial i = None /\ late_serial i = None.

(** The milestones of an automatic sequence in the serial transcript: the
    header of a started test (index and table entry), the arrival at home
    and the closing banner. *)
Inductive Milestone : Type :=
| Started (index : Z) (test : SpeedTest)
| Homed
| Finished.

Fixpoint milestones (transcript : list Line) : list Milestone :=
  match transcript with
  | [] => []
  | AutoTestHeader i t :: rest => Started i t :: milestones rest
  | HomeReached :: rest => Homed :: milestones rest
  | AutoSequenceComplete :: rest => Finished :: milestones rest
  | _ :: rest => milestones rest
  end.

Fixpoint indexed_from (i : Z) (l : list SpeedTest) : list Milestone :=
  match l with
  | [] => []
  | t :: rest => Started i t :: Homed :: indexed_from (i + 1) rest
  end.

(** Every table entry once, in table order, each followed by a homing,
    and the closing banner. *)
Definition full_sequence : list Milestone := indexed_from 0 tests ++ [Finished].

Definition no_test : SpeedTest := mkSpeedTest "" 0%Q 0%Q.

(** The milestones, newest first, once [n] tests are over. *)
Fixpoint history (n : nat) : list Milestone :=
  match n with
  | O => []
  | S k => Homed :: Started (Z.of_nat k) (nth k tests no_test) :: history k
  end.

(** The situations of an automatic sequence between two passes of [loop]:
    test [k] moving down, test [k] returning, waiting at home with [k]
    tests over, the sequence over, and the emergency stop latched by an
    overload during test [k].  [P] is the home position and [base] what
    had been printed before the sequence started. *)
Inductive auto_state (P : Z) (base : list Line) (s : State) : Prop :=
| auto_moving : forall (new : list Line) (k : nat),
    homePosition s = P -> out s = new ++ base -> emergencyStop s = false ->
    currentMode s = MODE_AUTO_SEQUENCE -> motorState s = MOTOR_MOVING_DOWN ->
    (k < 8)%nat -> currentTestIndex s = Z.of_nat k ->
    nextAutoTestIndex s = Z.of_nat k + 1 ->
    Stepper.targetPos (stepper s) = P + testDistance ->
    Stepper.currentPos (stepper s) <> P + testDistance ->
    milestones new = Started (Z.of_nat k) (nth k tests no_test) :: history k ->
    auto_state P base s
| auto_returning : forall (new : list Line) (k : nat),
    homePosition s = P -> out s = new ++ base -> emergencyStop s = false ->
    currentMode s = MODE_AUTO_SEQUENCE -> motorState s = MOTOR_RETURNING_HOME ->
    (k < 8)%nat -> currentTestIndex s = Z.of_nat k ->
    nextAutoTestIndex s = Z.of_nat k + 1 ->
    Stepper.targetPos (stepper s) = P ->
    Stepper.currentPos (stepper s) <> P ->
    milestones new = Started (Z.of_nat k) (nth k tests no_test) :: history k ->
    auto_state P base s
| auto_waiting : forall (new : list Line) (k : nat),
    homePosition s = P -> out s = new ++ base -> emergencyStop s = false ->
    currentMode s = MODE_AUTO_SEQUENCE -> motorState s = MOTOR_IDLE ->
    (k <= 8)%nat -> nextAutoTestIndex s = Z.of_nat k ->
    Stepper.currentPos (stepper s) = P ->
    milestones new = history k ->
    auto_state P base s
| auto_done : forall (new : list Line),
    homePosition s = P -> out s = new ++ base -> emergencyStop s = false ->
    currentMode s = MODE_IDLE -> motorState s = MOTOR_IDLE ->
    Stepper.currentPos (stepper s) = P ->
    milestones new = Finished :: history 8 ->
    auto_state P base s
| auto_latched : forall (new : list Line) (k : nat),
    homePosition s = P -> out s = new ++ base -> emergencyStop s = true ->
    (k < 8)%nat -> In OverloadDetected new ->
    milestones new = Started (Z.of_nat k) (nth k tests no_test) :: history k ->
    auto_state P base s.

(** Passes of [loop] the running sequence still needs: one per step the
    stepper owes, one to set up each test not yet started, one to print
    the closing banner. *)
Definition work (s : State) : Z :=
  if emergencyStop s then 0
  else
    match currentMode s with
    | MODE_AUTO_SEQUENCE =>
        match motorState s with
        | MOTOR_MOVING_DOWN =>
            Z.abs (Stepper.distanceToGo (stepper s)) + testDistance
            + (8 - nextAutoTestIndex s) * (2 * testDistance + 1) + 1
        | MOTOR_RETURNING_HOME =>
            Z.abs (Stepper.distanceToGo (stepper s))
            + (8 - nextAutoTestIndex s) * (2 * testDistance + 1) + 1
        | MOTOR_IDLE => (8 - nextAutoTestIndex s) * (2 * testDistance + 1) + 1
        end
    | _ => 0
    end.

Definition b2z (b : bool) : Z := if b then 1 else 0.

(** The passes in which the stepper's timer allows a step. *)
Definition count_due (ins : list Input) : Z :=
  Z.of_nat (List.length (List.filter step_due ins)).

(** The end of a pass: [resetFilters] when the tare has completed. *)
Definition settle (i : Input) (s : State) : State :=
  if tare_status i then resetFilters (println TareComplete s) else s.

(** [s'] differs from [s] in the sequencing variables by nothing, and in
    the transcript by [lines], none of which is a milestone. *)
Definition same_course (s s' : State) (lines : list Line) : Prop :=
  out s' = lines ++ out s /\ milestones lines = [] /\
  homePosition s' = homePosition s /\ currentMode s' = currentMode s /\
  currentTestIndex s' = currentTestIndex s /\
  nextAutoTestIndex s' = nextAutoTestIndex s.

(** *** A single test *)

(** The situations of a single test between two passes of [loop]: moving
    down at the rate of the profile [t], returning, over, and the
    emergency stop latched by an overload.  [P] is the home position and
    [base] the transcript up to the start of the descent. *)
Inductive test_state (P : Z) (base : list Line) (t : SpeedTest) (s : State) : Prop :=
| test_moving : forall (new : list Line),
    homePosition s = P -> out s = new ++ base -> emergencyStop s = false ->
    currentMode s = MODE_NORMAL_TEST -> motorState s = MOTOR_MOVING_DOWN ->
    tests_at (currentTestIndex s) = Some t ->
    Stepper.maxSpeed (stepper s) = speed t ->
    Stepper.acceleration (stepper s) = 0%Q ->
    Stepper.targetPos (stepper s) = P + testDistance ->
    Stepper.currentPos (stepper s) <> P + testDistance ->
    milestones new = [] ->
    test_state P base t s
| test_returning : forall (new : list Line),
    homePosition s = P -> out s = new ++ base -> emergencyStop s = false ->
    currentMode s = MODE_NORMAL_TEST -> motorState s = MOTOR_RETURNING_HOME ->
    Stepper.targetPos (stepper s) = P ->
    Stepper.currentPos (stepper s) <> P ->
    milestones new = [] ->
    test_state P base t s
| test_done : forall (new : list Line),
    homePosition s = P -> out s = new ++ base -> emergencyStop s = false ->
    currentMode s = MODE_IDLE -> motorState s = MOTOR_IDLE ->
    isStreaming s = false ->
    Stepper.currentPos (stepper s) = P ->
    milestones new = [Homed] ->
    test_state P base t s
| test_latched : forall (new : list Line),
    homePosition s = P -> out s = new ++ base -> emergencyStop s = true ->
    In OverloadDetected new ->
    test_state P base t s.

(** Steps the stepper still owes before the running test is over. *)
Definition test_work (s : State) : Z :=
  if emergencyStop s then 0
  else
    match currentMode s with
    | MODE_NORMAL_TEST =>
        match motorState s with
        | MOTOR_MOVING_DOWN => Z.abs (Stepper.distanceToGo (stepper s)) + testDistance
        | MOTOR_RETURNING_HOME => Z.abs (Stepper.distanceToGo (stepper s))
        | MOTOR_IDLE => 0
        end
    | _ => 0
    end.

(** The automatic sequence is started, seven steps are made with no load,
    and the pass of the eighth step reads 3000 g: the state in which the
    overload of the first test has just been latched. *)
Definition auto_overloaded : State :=
  Eval vm_compute in
    match run_ticks (pass (Some "A"%char) true f0 :: repeat quiet_tick 7 ++ [overload_tick])
            ready with
    | Some s => s
    | None => ready
    end.

(** A pass in which the reset byte arrives in time for the emergency
    handler. *)
Definition reset_tick : Input :=
  mkInput None (Some "R"%char) 0 true 0 0 f0 false no_calibration.

End Tester5.

(** ** The vibration recorder ("MPU-6500 Vibration Monitor")

    The first of the sketches of [MPU9250_Vibration_Monitor.ino] (its
    lines 1 to 166): a recorder driven by the commands [s] (start), [p]
    (pause), [r] (resume) and [x] (stop), that prints one CSV row every
    [READ_INTERVAL] milliseconds while it records. *)

Module VibrationMonitor.

Definition float : Type := spec_float.

Definition READ_INTERVAL : Z := 20.

(** Lines written to the serial port.  A row keeps the elapsed
    milliseconds its first field is computed from and the vibration
    value, which comes from the accelerometer. *)
Inductive Line : Type :=
| CsvHeader
| PausedBanner
| ResumedBanner
| StoppedBanner
| Row (elapsed : Z) (vibration_mss : float).

Record State : Type := mkState {
  isRunning : bool;
  isPaused : bool;
  startTime : Z;
  lastReadTime : Z;
  out : list Line          (* newest line first *)
}.

Definition println (l : Line) (s : State) : State :=
  mkState (isRunning s) (isPaused s) (startTime s) (lastReadTime s) (l :: out s).

(** The globals as the sketch initialises them. *)
Definition initial : State := mkState false false 0 0 [].

(** What one pass of [loop] reads from the outside: the byte
    [Serial.read()] returns if one is pending, the value of [millis()]
    when the start command is carried out, the value of [millis()] at
    [currentTime], and the vibration computed from the accelerometer
    registers. *)
Record Input : Type := mkInput {
  serial : option ascii;
  command_millis : Z;
  millis : Z;
  vibration : float
}.

(** The command part of [loop]. *)
Definition handleCommand (i : Input) (s : State) : State :=
  match serial i with
  | None => s
  | Some cmd =>
      if is_char cmd "S" "s" then
        if negb (isRunning s) then
          println CsvHeader
            (mkState true false (command_millis i) (lastReadTime s) (out s))
        else s
      else if is_char cmd "P" "p" then
        if isRunning s && negb (isPaused s) then
          println PausedBanner
            (mkState (isRunning s) true (startTime s) (lastReadTime s) (out s))
        else s
      else if is_char cmd "R" "r" then
        if isPaused s then
          println ResumedBanner
            (mkState (isRunning s) false (startTime s) (lastReadTime s) (out s))
        else s
      else if is_char cmd "X" "x" then
        if isRunning s then
          println StoppedBanner
            (mkState false false (startTime s) (lastReadTime s) (out s))
        else s
      else s
  end.

(** The recording part of [loop]. *)
Definition record (i : Input) (s : State) : State :=
  if negb (isRunning s) || isPaused s then s
  else
    let currentTime := millis i in
    if wrap_ulong (currentTime - lastReadTime s) >=? READ_INTERVAL then
      println (Row (wrap_ulong (currentTime - startTime s)) (vibration i))
        (mkState (isRunning s) (isPaused s) (startTime s) currentTime (out s))
    else s.

Definition loop (i : Input) (s : State) : State := record i (handleCommand i s).

Definition run_ticks (ins : list Input) (s : State) : State := fold_left (fun s i => loop i s) ins s.

(** *** Vocabulary of the statements about the recorder *)

(** The recorder protocol read off the transcript: where the recorder
    stands, the rows (elapsed milliseconds) of the recordings that were
    stopped, and those of the recording under way. *)
Inductive Phase : Type := Stopped | Recording | Paused.

Record Recorder : Type := mkRecorder {
  phase : Phase;
  finished : list (list Z);
  current : list Z
}.

(** One line added to what was read so far.  [None]: the line is out of
    place. *)
Definition record_step (acc : Recorder) (l : Line) : option Recorder :=
  match l, phase acc with
  | CsvHeader, Stopped => Some (mkRecorder Recording (finished acc) [])
  | Row e _, Recording => Some (mkRecorder Recording (finished acc) (current acc ++ [e]))
  | PausedBanner, Recording => Some (mkRecorder Paused (finished acc) (current acc))
  | ResumedBanner, Paused => Some (mkRecorder Recording (finished acc) (current acc))
  | StoppedBanner, Recording => Some (mkRecorder Stopped (finished acc ++ [current acc]) [])
  | StoppedBanner, Paused => Some (mkRecorder Stopped (finished acc ++ [current acc]) [])
  | _, _ => None
  end.

Fixpoint record_of (newest_first : list Line) : option Recorder :=
  match newest_first with
  | [] => Some (mkRecorder Stopped [] [])
  | l :: older => acc <- record_of older ;; record_step acc l
  end.

(** Where the flags say the recorder stands. *)
Definition phase_of (s : State) : Phase :=
  if isRunning s then (if isPaused s then Paused else Recording) else Stopped.

(** Each row lies at least [READ_INTERVAL] milliseconds ([unsigned long]
    arithmetic) after the row before it. *)
Fixpoint spaced (es : list Z) : Prop :=
  match es with
  | a :: (b :: _) as rest => READ_INTERVAL <= wrap_ulong (b - a) /\ spaced rest
  | _ => True
  end.

Definition recorder_inv (s : State) : Prop :=
  (isRunning s = false -> isPaused s = false) /\
  exists acc : Recorder,
    record_of (out s) = Some acc /\
    phase acc = phase_of s /\
    Forall spaced (finished acc) /\
    spaced (current acc) /\
    (current acc <> [] ->
     List.last (current acc) 0 = wrap_ulong (lastReadTime s - startTime s)).

End VibrationMonitor.

(** * Statements and proofs *)

(** ** Facts about the stepper model *)

Module StepperFacts.
Import Stepper.

Lemma run_keeps_target (due : bool) (s : t) : targetPos (run due s) = targetPos s.
Proof.
  unfold run. destruct due; [|reflexivity].
  destruct (distanceToGo s ?= 0); reflexivity.
Qed.

Lemma run_at_target (due : bool) (s : t) : distanceToGo s = 0 -> run due s = s.
Proof.
  intros H. unfold run. destruct due; [|reflexivity].
  rewrite H. reflexivity.
Qed.

Lemma run_not_due (s : t) : run false s = s.
Proof. reflexivity. Qed.

(** A due step shortens the remaining distance by exactly one. *)
Lemma run_due_distance (s : t) :
  distanceToGo s <> 0 -> Z.abs (distanceToGo (run true s)) = Z.abs (distanceToGo s) - 1.
Proof.
  intros H. unfold run, distanceToGo in *.
  destruct (Z.compare_spec (targetPos s - currentPos s) 0) as [E|E|E];
    cbn [currentPos targetPos]; lia.
Qed.

(** A step stays between the old position and the target. *)
Lemma run_between (due : bool) (s : t) :
  (currentPos s <= currentPos (run due s) <= targetPos s) \/
  (targetPos s <= currentPos (run due s) <= currentPos s).
Proof.
  unfold run, distanceToGo. destruct due; [|cbn; lia].
  destruct (Z.compare_spec (targetPos s - currentPos s) 0) as [E|E|E];
    cbn [currentPos targetPos]; lia.
Qed.

Lemma run_steps_arrives (n : nat) (s : t) :
  Z.abs (distanceToGo s) = Z.of_nat n -> distanceToGo (run_steps n s) = 0.
Proof.
  revert s. induction n as [|n IH]; intros s H; cbn [run_steps].
  - lia.
  - apply IH. rewrite run_due_distance; lia.
Qed.

Lemma run_steps_keeps_target (n : nat) (s : t) :
  targetPos (run_steps n s) = targetPos s.
Proof.
  revert s. induction n as [|n IH]; intros s; cbn [run_steps]; [reflexivity|].
  rewrite IH. apply run_keeps_target.
Qed.

(** The blocking wait ends, at the target. *)
Lemma runToPosition_arrives (s : t) :
  currentPos (runToPosition s) = targetPos s /\
  targetPos (runToPosition s) = targetPos s.
Proof.
  unfold runToPosition.
  pose proof (run_steps_arrives (Z.to_nat (Z.abs (distanceToGo s))) s) as H.
  pose proof (run_steps_keeps_target (Z.to_nat (Z.abs (distanceToGo s))) s) as K.
  unfold distanceToGo in *. rewrite K in H. split; [|exact K].
  assert (E : Z.abs (targetPos s - currentPos s)
              = Z.of_nat (Z.to_nat (Z.abs (targetPos s - currentPos s)))) by lia.
  specialize (H E). lia.
Qed.

(** [run] in one statement: only the position changes; a due step away
    from the target comes one step closer, any other call does nothing. *)
Lemma run_cases (due : bool) (s : t) :
  exists p' : Z,
    run due s = mk p' (targetPos s) (maxSpeed s) (acceleration s) /\
    (due = true -> distanceToGo s <> 0 ->
       Z.abs (targetPos s - p') = Z.abs (distanceToGo s) - 1) /\
    (due = false -> p' = currentPos s) /\
    (distanceToGo s = 0 -> p' = currentPos s).
Proof.
  destruct s as [p tg v a]. unfold run, distanceToGo. cbn [currentPos targetPos maxSpeed acceleration].
  destruct due.
  - destruct (Z.compare_spec (tg - p) 0) as [E|E|E]; eexists; (split; [reflexivity|]);
      repeat split; intros; try discriminate; lia.
  - exists p. repeat split; intros; try discriminate; reflexivity.
Qed.

End StepperFacts.

(** ** AutoSpeedTest.ino.ino *)

Module AutoSpeedTestFacts.
Import AutoSpeedTest.

Lemma tests_at_Some (i : Z) :
  0 <= i < 8 -> exists t, tests_at i = Some t.
Proof.
  intros H. unfold tests_at.
  assert (E : i = 0 \/ i = 1 \/ i = 2 \/ i = 3 \/ i = 4 \/ i = 5 \/ i = 6 \/ i = 7) by lia.
  repeat (destruct E as [E|E]; [subst i; eexists; reflexivity|]).
  subst i; eexists; reflexivity.
Qed.

(** The model faults exactly on reads outside the table. *)
Lemma tests_at_None (i : Z) : tests_at i = None <-> ~ (0 <= i < 8).
Proof.
  split.
  - intros H K. destruct (tests_at_Some i K) as [t E]. congruence.
  - intros H. unfold tests_at.
    destruct (0 <=? i) eqn:A; destruct (i <? 8) eqn:B; cbn; try reflexivity.
    apply Z.leb_le in A. apply Z.ltb_lt in B. lia.
Qed.

(** What [startNextTest] does at a cursor inside the table, field by
    field. *)
Lemma startNextTest_effect :
  forall (s : State) (now i : Z),
    0 <= i < 8 ->
    currentTestIndex s = i ->
    exists (s' : State) (t : SpeedTest),
      startNextTest now s = Some s' /\
      tests_at i = Some t /\
      testState s' = MOVING /\
      targetPosition s' = wrap_long (homePosition s + testDistance) /\
      (long_range (homePosition s + testDistance) ->
       targetPosition s' = homePosition s + testDistance) /\
      Stepper.targetPos (stepper s') = targetPosition s' /\
      Stepper.maxSpeed (stepper s') = speed t /\
      Stepper.acceleration (stepper s') = 0%Q /\
      Stepper.currentPos (stepper s') = Stepper.currentPos (stepper s) /\
      isLogging s' = true /\
      startTime s' = now /\
      out s' = MovingLine :: DATA_START
                 :: TestHeader i t (Stepper.currentPos (stepper s)) :: out s /\
      homePosition s' = homePosition s /\
      currentTestIndex s' = i /\
      autoTestMode s' = autoTestMode s.
Proof.
  intros s now i Hi Hidx.
  destruct (tests_at_Some i Hi) as [t Ht].
  unfold startNextTest. rewrite Hidx, Ht. cbn [bind].
  eexists. exists t. split; [reflexivity|].
  cbn. repeat split; try reflexivity; try assumption.
  intros [Hlo Hhi]. unfold wrap_long.
  rewrite Z.mod_small; lia.
Qed.

(** C2. For every valid profile index [i] (0 <= i < 8), starting a test
    with cursor [i] succeeds and leaves the controller in the moving-down
    state [MOVING], with the target set to [homePosition + testDistance]
    (computed in [long] arithmetic, and equal to the mathematical sum when
    that fits a [long]), the planner aimed at this target with the
    profile's rate [tests[i].speed] and zero acceleration, and a logging
    session opened: [isLogging] set and the [DATA_START] marker written
    after the test header. *)
Theorem startNextTest_starts_profile :
  forall (s : State) (now i : Z),
    0 <= i < 8 ->
    currentTestIndex s = i ->
    exists (s' : State) (t : SpeedTest),
      startNextTest now s = Some s' /\
      tests_at i = Some t /\
      testState s' = MOVING /\
      targetPosition s' = wrap_long (homePosition s + testDistance) /\
      (long_range (homePosition s + testDistance) ->
       targetPosition s' = homePosition s + testDistance) /\
      Stepper.targetPos (stepper s') = targetPosition s' /\
      Stepper.maxSpeed (stepper s') = speed t /\
      Stepper.acceleration (stepper s') = 0%Q /\
      Stepper.currentPos (stepper s') = Stepper.currentPos (stepper s) /\
      isLogging s' = true /\
      startTime s' = now /\
      out s' = MovingLine :: DATA_START
                 :: TestHeader i t (Stepper.currentPos (stepper s)) :: out s /\
      homePosition s' = homePosition s /\
      currentTestIndex s' = i /\
      autoTestMode s' = autoTestMode s.
Proof.
  intros s now i Hi Hidx. exact (startNextTest_effect s now i Hi Hidx).
Qed.

(** The theorem at profile 3 (MEASURE_F) from the power-up state. *)
Lemma startNextTest_starts_profile_witness :
  exists (s' : State) (t : SpeedTest),
    startNextTest 5 (set_currentTestIndex 3 initial) = Some s' /\
    tests_at 3 = Some t /\
    testState s' = MOVING /\
    targetPosition s' = wrap_long (homePosition (set_currentTestIndex 3 initial) + testDistance) /\
    (long_range (homePosition (set_currentTestIndex 3 initial) + testDistance) ->
     targetPosition s' = homePosition (set_currentTestIndex 3 initial) + testDistance) /\
    Stepper.targetPos (stepper s') = targetPosition s' /\
    Stepper.maxSpeed (stepper s') = speed t /\
    Stepper.acceleration (stepper s') = 0%Q /\
    Stepper.currentPos (stepper s')
      = Stepper.currentPos (stepper (set_currentTestIndex 3 initial)) /\
    isLogging s' = true /\
    startTime s' = 5 /\
    out s' = MovingLine :: DATA_START
               :: TestHeader 3 t (Stepper.currentPos (stepper (set_currentTestIndex 3 initial)))
               :: out (set_currentTestIndex 3 initial) /\
    homePosition s' = homePosition (set_currentTestIndex 3 initial) /\
    currentTestIndex s' = 3 /\
    autoTestMode s' = autoTestMode (set_currentTestIndex 3 initial).
Proof.
  apply (startNextTest_starts_profile (set_currentTestIndex 3 initial) 5 3).
  - lia.
  - reflexivity.
Defined.

Ltac break_state s :=
  destruct s as [auto idx ts home tgt logging t0 tlog tdbg [pos target vmax acc] lines].

Ltac unfold_ops :=
  unfold startAutoTest, startNextTest, stopAutoTest, goHomeManual, startLogging,
    stopLogging, logData, debugReturning, println, set_autoTestMode,
    set_currentTestIndex, set_testState, set_homePosition, set_targetPosition,
    set_isLogging, set_startTime, set_lastLogTime, set_lastDebug, set_stepper in *.

Ltac fields :=
  cbn [autoTestMode currentTestIndex testState homePosition targetPosition
       isLogging startTime lastLogTime lastDebug stepper out
       println set_autoTestMode set_currentTestIndex set_testState
       set_homePosition set_targetPosition set_isLogging set_startTime
       set_lastLogTime set_lastDebug set_stepper] in *.

Lemma wrap_int_small (z : Z) : int_range z -> wrap_int z = z.
Proof. unfold int_range, wrap_int. intros H. rewrite Z.mod_small; lia. Qed.

Lemma startNextTest_coherent (now : Z) (s : State) :
  0 <= currentTestIndex s <= 7 ->
  autoTestMode s = true ->
  exists s', startNextTest now s = Some s' /\ coherent s'.
Proof.
  intros Hi Ha.
  destruct (startNextTest_effect s now (currentTestIndex s)) as
    (s' & t & E & _ & Hts & _ & _ & _ & _ & _ & _ & Hlog & _ & _ & _ & Hidx & Hauto);
    [lia|reflexivity|].
  exists s'. split; [exact E|].
  unfold coherent. rewrite Hidx, Hauto, Hts, Ha, Hlog.
  repeat split; try lia; try congruence; auto.
Qed.

Lemma handleCommand_coherent (i : Input) (s : State) :
  coherent s -> exists s', handleCommand i s = Some s' /\ coherent s'.
Proof.
  intros C. unfold handleCommand.
  destruct (serial i) as [cmd|]; [|eauto].
  destruct (is_char cmd "A" "a").
  { unfold startAutoTest. destruct (autoTestMode s) eqn:Ha.
    - eexists; split; [reflexivity|]. break_state s. exact C.
    - apply startNextTest_coherent; break_state s; cbn; [lia|reflexivity]. }
  destruct (is_char cmd "S" "s").
  { eexists; split; [reflexivity|]. unfold stopAutoTest.
    break_state s. unfold coherent in *. cbn in *.
    destruct auto; cbn; [|exact C].
    destruct logging; cbn; intuition (try congruence; try lia). }
  destruct (is_char cmd "0" "0").
  { eexists; split; [reflexivity|]. break_state s. exact C. }
  destruct (is_char cmd "H" "h"); [|eauto].
  destruct (autoTestMode s) eqn:Ha; cbn [negb]; [eauto|].
  eexists; split; [reflexivity|]. break_state s. exact C.
Qed.

(** The once-a-second line of the returning case changes nothing but the
    transcript and its own stamp. *)
Lemma debugReturning_frame (i : Input) (s : State) :
  autoTestMode (debugReturning i s) = autoTestMode s /\
  currentTestIndex (debugReturning i s) = currentTestIndex s /\
  testState (debugReturning i s) = testState s /\
  homePosition (debugReturning i s) = homePosition s /\
  targetPosition (debugReturning i s) = targetPosition s /\
  isLogging (debugReturning i s) = isLogging s /\
  startTime (debugReturning i s) = startTime s /\
  lastLogTime (debugReturning i s) = lastLogTime s /\
  stepper (debugReturning i s) = stepper s /\
  exists lines, out (debugReturning i s) = lines ++ out s /\
    (lines = [] \/
     lines = [Returning (Stepper.currentPosition (stepper s)) (homePosition s)
                (Z.abs (Stepper.distanceToGo (stepper s)))]).
Proof.
  unfold debugReturning. destruct (1000 <? _); repeat split.
  - exists [Returning (Stepper.currentPosition (stepper s)) (homePosition s)
              (Z.abs (Stepper.distanceToGo (stepper s)))].
    split; [reflexivity | right; reflexivity].
  - exists []. split; [reflexivity | left; reflexivity].
Qed.

Lemma coherent_frame (s x : State) :
  currentTestIndex x = currentTestIndex s ->
  autoTestMode x = autoTestMode s ->
  testState x = testState s ->
  isLogging x = isLogging s ->
  coherent s -> coherent x.
Proof. unfold coherent. intros -> -> -> ->. exact (fun C => C). Qed.

Lemma stateMachine_coherent (i : Input) (s : State) :
  coherent s -> exists s', stateMachine i s = Some s' /\ coherent s'.
Proof.
  intros C. unfold stateMachine.
  destruct (autoTestMode s) eqn:Ha; [|eauto].
  destruct (testState s) eqn:Hts; [eauto| | |eauto].
  - (* MOVING *)
    match goal with |- context [if ?b then _ else _] => destruct b end.
    + eexists; split; [reflexivity|].
      break_state s. unfold coherent, stopLogging in *. cbn in *.
      destruct logging; cbn; intuition (try congruence; try lia).
    + eexists; split; [reflexivity|].
      break_state s. unfold coherent in *. cbn in *. exact C.
  - (* RETURNING *)
    cbv zeta.
    destruct (debugReturning_frame i (set_stepper (Stepper.run (step_due i) (stepper s)) s))
      as (Fa & Fi & Ft & _ & _ & Fl & _ & _ & _ & _).
    assert (Cx : coherent (debugReturning i
                             (set_stepper (Stepper.run (step_due i) (stepper s)) s))).
    { apply (coherent_frame s); try assumption. }
    set (x := debugReturning i _) in *.
    fields. clearbody x.
    destruct (Stepper.distanceToGo (stepper x) =? 0); [|eauto].
    destruct Cx as (Hidx & _ & Hrun & Hlog).
    rewrite Fa, Ha in Hrun. specialize (Hrun eq_refl).
    assert (Hnolog : isLogging x = false).
    { destruct (isLogging x) eqn:L; [|reflexivity].
      specialize (Hlog eq_refl). destruct Hrun as [[X|X] _]; congruence. }
    assert (W : wrap_int (currentTestIndex x + 1) = currentTestIndex x + 1)
      by (apply wrap_int_small; unfold int_range; lia).
    rewrite W.
    destruct (currentTestIndex x + 1 >=? 8) eqn:G.
    + eexists; split; [reflexivity|].
      unfold coherent. fields. rewrite Hnolog.
      apply Z.geb_le in G.
      intuition (try congruence; try lia).
    + apply startNextTest_coherent; fields; [|congruence].
      destruct (Z.geb_spec (currentTestIndex x + 1) 8); [discriminate|lia].
Qed.

Lemma dataLogging_coherent (i : Input) (s : State) :
  coherent s -> exists s', dataLogging i s = Some s' /\ coherent s'.
Proof.
  intros C. unfold dataLogging.
  destruct (isLogging s) eqn:L; [|eauto].
  match goal with |- context [if ?b then _ else _] => destruct b end; [|eauto].
  assert (Hidx : 0 <= currentTestIndex s < 8).
  { destruct C as (Hidx & Hoff & Hrun & Hlog).
    specialize (Hlog L).
    destruct (autoTestMode s) eqn:Ha.
    - specialize (Hrun eq_refl). lia.
    - destruct (Hoff eq_refl). congruence. }
  destruct (tests_at_Some _ Hidx) as [t Ht].
  unfold logData. cbn [currentTestIndex set_lastLogTime]. rewrite Ht. cbn [bind].
  eexists; split; [reflexivity|].
  break_state s. exact C.
Qed.

(** One pass of [loop] from a coherent state never reads outside the
    table, and ends in a coherent state. *)
Lemma loop_coherent (i : Input) (s : State) :
  coherent s -> exists s', loop i s = Some s' /\ coherent s'.
Proof.
  intros C. unfold loop.
  destruct (handleCommand_coherent i s C) as (s1 & E1 & C1). rewrite E1. cbn [bind].
  destruct (stateMachine_coherent i s1 C1) as (s2 & E2 & C2). rewrite E2. cbn [bind].
  apply dataLogging_coherent; assumption.
Qed.

Lemma initial_coherent : coherent initial.
Proof. unfold coherent, initial; cbn. intuition (try congruence; try lia). Qed.

Lemma reachable_coherent (s : State) : reachable s -> coherent s.
Proof.
  induction 1 as [|s s' i _ IH E].
  - exact initial_coherent.
  - destruct (loop_coherent i s IH) as (s'' & E' & C). congruence.
Qed.

Lemma run_ticks_coherent (ins : list Input) (s : State) :
  coherent s -> exists s', run_ticks ins s = Some s' /\ coherent s' /\ (reachable s -> reachable s').
Proof.
  revert s. induction ins as [|i ins IH]; intros s C; cbn [run_ticks].
  - eauto.
  - destruct (loop_coherent i s C) as (s1 & E1 & C1). rewrite E1. cbn [bind].
    destruct (IH s1 C1) as (s' & E & C' & R). exists s'.
    split; [exact E|]. split; [exact C'|].
    intros Rs. apply R. exact (reach_loop s s1 i Rs E1).
Qed.

(** C10. In the auto-test controller every read [tests[currentTestIndex]]
    is in bounds.  The model makes a read outside [0, 8) a fault ([None]);
    from power-up, whatever the serial port, the clock and the stepper
    timer deliver, no pass of [loop] faults.  Between passes the cursor is
    in [0, 8]; it is a valid index whenever [autoTestMode] is set (the
    homing handler clears the flag in the pass where the cursor reaches 8)
    and whenever [isLogging] is set (so [logData] only reads valid
    entries). *)
Theorem table_index_always_in_bounds :
  forall (ins : list Input),
    (forall k : Z, tests_at k = None <-> ~ (0 <= k < 8)) /\
    exists s : State,
      run_ticks ins initial = Some s /\
      0 <= currentTestIndex s <= 8 /\
      (autoTestMode s = true -> 0 <= currentTestIndex s < 8) /\
      (isLogging s = true -> 0 <= currentTestIndex s < 8) /\
      (forall i : Input, exists s', loop i s = Some s').
Proof.
  intros ins. split; [exact tests_at_None|].
  destruct (run_ticks_coherent ins initial initial_coherent) as (s & E & C & _).
  exists s. split; [exact E|].
  pose proof C as (Hidx & Hoff & Hrun & Hlog).
  split; [exact Hidx|]. split; [|split].
  - intros Ha. specialize (Hrun Ha). lia.
  - intros L. specialize (Hlog L).
    destruct (autoTestMode s) eqn:Ha.
    + specialize (Hrun eq_refl). lia.
    + destruct (Hoff eq_refl). congruence.
  - intros i. destruct (loop_coherent i s C) as (s' & E' & _). eauto.
Qed.

(** While a test move or a return-home is in progress ([testState] is
    not [IDLE]), a serial command other than stop ([S], [s]) changes
    neither [autoTestMode] nor [testState], and leaves the planner, the
    cursor and the logging session untouched: [A] is rejected with the
    already-running line, [H] and any other byte are dropped, and nothing
    at all changes; [0], however, is carried out: it records the current
    position as home and prints the home-set line.  (This sketch has no
    reset command; [R] is one of the dropped bytes.) *)
Theorem busy_commands_keep_mode :
  forall (s : State) (i : Input) (cmd : ascii),
    reachable s ->
    testState s <> IDLE ->
    serial i = Some cmd ->
    is_stop cmd = false ->
    exists s' : State,
      handleCommand i s = Some s' /\
      autoTestMode s' = autoTestMode s /\
      testState s' = testState s /\
      stepper s' = stepper s /\
      isLogging s' = isLogging s /\
      currentTestIndex s' = currentTestIndex s /\
      targetPosition s' = targetPosition s /\
      (is_char cmd "A" "a" = true -> s' = println AlreadyRunning s) /\
      (is_char cmd "A" "a" = false -> is_char cmd "0" "0" = true ->
       s' = println (HomeSet (Stepper.currentPosition (stepper s)))
              (set_homePosition (Stepper.currentPosition (stepper s)) s)) /\
      (is_char cmd "A" "a" = false -> is_char cmd "0" "0" = false -> s' = s).
Proof.
  intros s i cmd R Hbusy Hcmd Hstop.
  pose proof (reachable_coherent s R) as (_ & Hoff & _ & _).
  assert (Ha : autoTestMode s = true).
  { destruct (autoTestMode s); [reflexivity|].
    destruct (Hoff eq_refl). contradiction. }
  unfold handleCommand. rewrite Hcmd.
  unfold is_stop in Hstop. rewrite Hstop.
  unfold startAutoTest. rewrite Ha. cbn [negb].
  destruct (is_char cmd "A" "a");
    [eexists; split; [reflexivity|]; fields;
     repeat split; try reflexivity; try assumption; intros; discriminate|].
  destruct (is_char cmd "0" "0");
    [eexists; split; [reflexivity|]; fields;
     repeat split; try reflexivity; try assumption; intros; discriminate|].
  destruct (is_char cmd "H" "h"); eexists; (split; [reflexivity|]);
    repeat split; try reflexivity; try assumption; intros; discriminate.
Qed.

(** The busy state one pass after the start command, used to instantiate
    the theorem. *)
Lemma started_reachable :
  exists s : State,
    loop (tick (Some "A"%char) 0 false) initial = Some s /\
    reachable s /\ testState s = MOVING.
Proof.
  destruct (loop (tick (Some "A"%char) 0 false) initial) as [s|] eqn:E;
    [|vm_compute in E; discriminate].
  exists s. split; [reflexivity|]. split.
  - exact (reach_loop initial s _ reach_initial E).
  - vm_compute in E. injection E as <-. reflexivity.
Qed.

Lemma busy_commands_keep_mode_witness :
  exists s s' : State,
    reachable s /\ testState s <> IDLE /\
    handleCommand (tick (Some "H"%char) 7 true) s = Some s' /\
    autoTestMode s' = autoTestMode s /\
    testState s' = testState s /\
    stepper s' = stepper s /\
    isLogging s' = isLogging s /\
    currentTestIndex s' = currentTestIndex s /\
    targetPosition s' = targetPosition s /\
    (is_char "H" "A" "a" = true -> s' = println AlreadyRunning s) /\
    (is_char "H" "A" "a" = false -> is_char "H" "0" "0" = true ->
     s' = println (HomeSet (Stepper.currentPosition (stepper s)))
            (set_homePosition (Stepper.currentPosition (stepper s)) s)) /\
    (is_char "H" "A" "a" = false -> is_char "H" "0" "0" = false -> s' = s).
Proof.
  destruct started_reachable as (s & _ & R & M).
  assert (B : testState s <> IDLE) by (rewrite M; discriminate).
  destruct (busy_commands_keep_mode s (tick (Some "H"%char) 7 true) "H"%char
              R B eq_refl eq_refl) as (s' & H).
  exists s, s'. split; [exact R|]. split; [exact B|]. exact H.
Defined.

(** C3 on the code: the set-home command [0] is not locked out.  Test 1
    is started and has made six steps when [0] arrives: the command is
    carried out, not dropped; home becomes 6 and the home-set line is
    printed, the mode and the sub-state staying as they are.  The run goes
    on with the new home: once the target 56000 is reached the stepper
    returns to 6, not to 0, and test 2 is started from there with the
    target 56006, beyond the test distance from the home of the start.
    The sibling commands [A] and [H] are guarded by [autoTestMode]. *)
Theorem set_home_honoured_during_test :
  exists s s' s'' : State,
    run_ticks busy_run initial = Some s /\
    autoTestMode s = true /\ testState s = MOVING /\
    homePosition s = 0 /\ Stepper.currentPos (stepper s) = 6 /\
    handleCommand set_home_tick s = Some s' /\
    autoTestMode s' = true /\ testState s' = MOVING /\
    homePosition s' = 6 /\
    out s' = HomeSet 6 :: out s /\
    run_ticks (set_home_tick :: repeat due_tick (Z.to_nat 111988)) s = Some s'' /\
    homePosition s'' = 6 /\
    currentTestIndex s'' = 1 /\ testState s'' = MOVING /\
    Stepper.currentPos (stepper s'') = 6 /\
    Stepper.targetPos (stepper s'') = 56006 /\
    firstn 5 (out s'')
    = [MovingLine; DATA_START; TestHeader 1 (mkSpeedTest "FAST_UP" (1200 # 1) (750 # 1)) 6;
       HomeReached 6; ReturningHome 56000 6].
Proof.
  destruct (run_ticks busy_run initial) as [s|] eqn:E; [|vm_compute in E; discriminate].
  destruct (handleCommand set_home_tick s) as [s'|] eqn:E'.
  2:{ vm_compute in E. injection E as <-. vm_compute in E'. discriminate. }
  destruct (run_ticks (set_home_tick :: repeat due_tick (Z.to_nat 111988)) s)
    as [s''|] eqn:E''.
  2:{ vm_compute in E. injection E as <-. vm_compute in E''. discriminate. }
  exists s, s', s''.
  vm_compute in E. injection E as <-.
  vm_compute in E'. injection E' as <-.
  vm_compute in E''. injection E'' as <-.
  vm_compute. repeat split; reflexivity.
Qed.

(** *** The automatic sequence, pass by pass *)

Lemma milestones_app (a b : list Line) :
  milestones (a ++ b) = milestones a ++ milestones b.
Proof.
  induction a as [|l a IH]; [reflexivity|].
  destruct l; cbn [milestones app]; rewrite ?IH; reflexivity.
Qed.

Lemma milestones_rev (l : list Line) : milestones (rev l) = rev (milestones l).
Proof.
  induction l as [|x l IH]; [reflexivity|].
  cbn [rev]. rewrite milestones_app, IH.
  destruct x; cbn [milestones rev app]; rewrite ?app_nil_r; reflexivity.
Qed.

Lemma tests_at_nth (k : nat) :
  (k < 8)%nat -> tests_at (Z.of_nat k) = Some (nth k tests no_test).
Proof.
  intros H.
  do 8 (destruct k as [|k]; [reflexivity|]). lia.
Qed.

Lemma history_complete : rev (history 8) = full_sequence.
Proof. reflexivity. Qed.

Lemma history_running (k : nat) :
  (k < 8)%nat ->
  rev (Started (Z.of_nat k) (nth k tests no_test) :: history k)
  = firstn (2 * k + 1) full_sequence.
Proof.
  intros H.
  do 8 (destruct k as [|k]; [reflexivity|]). lia.
Qed.

(** The data-logging part of a pass either does nothing or stamps the log
    time and prints one sample. *)
Lemma dataLogging_cases (i : Input) (s : State) :
  (isLogging s = true -> 0 <= currentTestIndex s < 8) ->
  dataLogging i s = Some s \/
  exists (e p : Z) (t : SpeedTest),
    isLogging s = true /\
    p = Stepper.currentPos (stepper s) /\
    dataLogging i s = Some (println (Sample e p t) (set_lastLogTime (millis i) s)).
Proof.
  intros H. unfold dataLogging.
  destruct (isLogging s) eqn:L; [|left; reflexivity].
  match goal with |- context [if ?b then _ else _] => destruct b end; [|left; reflexivity].
  right. destruct (tests_at_Some _ (H eq_refl)) as [t Ht].
  unfold logData. fields. rewrite Ht. cbn [bind].
  do 3 eexists. split; [reflexivity|]. split; reflexivity.
Qed.

Lemma sequence_state_sample (P : Z) (base : list Line) (s : State) (e p now : Z) (t : SpeedTest) :
  sequence_state P base s ->
  sequence_state P base (println (Sample e p t) (set_lastLogTime now s)).
Proof.
  intros [new k H1 H2 H3 H4 H5 H6 H7 H8 H9
         |new k H1 H2 H3 H4 H5 H6 H7 H8 H9 H10
         |new H1 H2 H3 H4 H5 H6 H7 H8].
  - apply (seq_moving _ _ _ (Sample e p t :: new) k); fields; try assumption.
    rewrite H2. reflexivity.
  - apply (seq_returning _ _ _ (Sample e p t :: new) k); fields; try assumption.
    rewrite H2. reflexivity.
  - apply (seq_done _ _ _ (Sample e p t :: new)); fields; try assumption.
    rewrite H2. reflexivity.
Qed.

Lemma sequence_state_index (P : Z) (base : list Line) (s : State) :
  sequence_state P base s -> isLogging s = true -> 0 <= currentTestIndex s < 8.
Proof.
  intros [new k H1 H2 H3 H4 H5 H6 H7 H8 H9
         |new k H1 H2 H3 H4 H5 H6 H7 H8 H9 H10
         |new H1 H2 H3 H4 H5 H6 H7 H8] L; try congruence; lia.
Qed.

Lemma logging_step (P : Z) (base : list Line) (i : Input) (s : State) :
  sequence_state P base s ->
  exists s', dataLogging i s = Some s' /\ sequence_state P base s' /\
             steps_left s' = steps_left s /\ autoTestMode s' = autoTestMode s.
Proof.
  intros Q.
  destruct (dataLogging_cases i s (sequence_state_index P base s Q))
    as [E|(e & p & t & _ & _ & E)]; rewrite E.
  - eauto.
  - eexists. split; [reflexivity|]. split; [apply sequence_state_sample; exact Q|].
    split; reflexivity.
Qed.

Lemma wrap_long_small (z : Z) : long_range z -> wrap_long z = z.
Proof. unfold long_range, wrap_long. intros H. rewrite Z.mod_small; lia. Qed.

(** The state-machine part of a pass keeps the sequence on track and pays
    one owed step exactly when the stepper's timer fires. *)
Lemma machine_step (P : Z) (base : list Line) (i : Input) (s : State) :
  long_range (P + testDistance) ->
  sequence_state P base s ->
  exists s', stateMachine i s = Some s' /\ sequence_state P base s' /\
             steps_left s' = (if autoTestMode s
                              then steps_left s - b2z (step_due i) else 0).
Proof.
  intros HP Q. unfold stateMachine.
  destruct Q as [new k H1 H2 H3 H4 H5 H6 H7 H8 H9
                |new k H1 H2 H3 H4 H5 H6 H7 H8 H9 H10
                |new H1 H2 H3 H4 H5 H6 H7 H8].
  - (* test k moving down *)
    rewrite H3, H4.
    destruct (StepperFacts.run_cases (step_due i) (stepper s)) as (p' & Er & Hdue & Hnot & _).
    fields. rewrite Er. fields.
    unfold Stepper.distanceToGo at 1. cbn [Stepper.targetPos Stepper.currentPos].
    assert (Hd : Stepper.distanceToGo (stepper s) <> 0)
      by (unfold Stepper.distanceToGo; lia).
    destruct (Z.eqb_spec (Stepper.targetPos (stepper s) - p') 0) as [Z0|NZ].
    + (* target reached in this pass *)
      assert (Hb : step_due i = true).
      { destruct (step_due i); [reflexivity|].
        specialize (Hnot eq_refl). unfold Stepper.distanceToGo in Hd. lia. }
      specialize (Hdue Hb Hd).
      eexists. split; [reflexivity|]. split.
      * unfold stopLogging.
        destruct (isLogging _) eqn:L; cbn [negb]; fields.
        -- apply (seq_returning _ _ _
                    (ReturningHome p' P :: TargetReached p' :: DATA_END :: new) k);
             fields; cbn [Stepper.setMaxSpeed Stepper.setAcceleration Stepper.moveTo
                          Stepper.currentPosition Stepper.targetPos Stepper.currentPos];
             try assumption; try reflexivity.
           ++ rewrite H1, H2. reflexivity.
           ++ unfold testDistance in *. lia.
        -- apply (seq_returning _ _ _
                    (ReturningHome p' P :: TargetReached p' :: new) k);
             fields; cbn [Stepper.setMaxSpeed Stepper.setAcceleration Stepper.moveTo
                          Stepper.currentPosition Stepper.targetPos Stepper.currentPos];
             try assumption; try reflexivity.
           ++ rewrite H1, H2. reflexivity.
           ++ unfold testDistance in *. lia.
      * unfold steps_left, stopLogging.
        destruct (isLogging _); cbn [negb]; fields; rewrite H3, H4, Hb;
          unfold Stepper.distanceToGo in *;
          cbn [Stepper.setMaxSpeed Stepper.setAcceleration Stepper.moveTo
               Stepper.currentPosition Stepper.targetPos Stepper.currentPos b2z];
          unfold testDistance in *; lia.
    + (* still moving *)
      eexists. split; [reflexivity|]. split.
      * apply (seq_moving _ _ _ new k); fields;
          cbn [Stepper.targetPos Stepper.currentPos]; try assumption. lia.
      * unfold steps_left. fields. rewrite H3, H4.
        unfold Stepper.distanceToGo in *. cbn [Stepper.targetPos Stepper.currentPos].
        destruct (step_due i); cbn [b2z].
        -- specialize (Hdue eq_refl Hd). lia.
        -- rewrite (Hnot eq_refl). lia.
  - (* test k returning *)
    rewrite H3, H4. cbv zeta.
    destruct (StepperFacts.run_cases (step_due i) (stepper s)) as (p' & Er & Hdue & Hnot & _).
    destruct (debugReturning_frame i (set_stepper (Stepper.run (step_due i) (stepper s)) s))
      as (Fa & Fi & Ft & Fh & _ & Fl & _ & _ & Fs & lines & Fo & Fd).
    set (x := debugReturning i _) in *. fields. clearbody x.
    rewrite Er in Fs.
    assert (Ml : milestones (lines ++ new) = milestones new)
      by (destruct Fd as [ -> | -> ]; reflexivity).
    assert (Ox : out x = (lines ++ new) ++ base)
      by (rewrite Fo, H2, app_assoc; reflexivity).
    clear Fo Fd.
    rewrite Fs. unfold Stepper.distanceToGo at 1.
    cbn [Stepper.targetPos Stepper.currentPos Stepper.currentPosition].
    assert (Hd : Stepper.distanceToGo (stepper s) <> 0)
      by (unfold Stepper.distanceToGo; lia).
    assert (W : wrap_int (currentTestIndex x + 1) = currentTestIndex s + 1)
      by (rewrite Fi; apply wrap_int_small; unfold int_range; lia).
    destruct (Z.eqb_spec (Stepper.targetPos (stepper s) - p') 0) as [Z0|NZ].
    + (* home reached in this pass *)
      assert (Hb : step_due i = true).
      { destruct (step_due i); [reflexivity|].
        specialize (Hnot eq_refl). unfold Stepper.distanceToGo in Hd. lia. }
      specialize (Hdue Hb Hd).
      rewrite W.
      destruct (Z.geb_spec (currentTestIndex s + 1) 8) as [G|G].
      * (* the last test *)
        assert (k = 7%nat) by lia. subst k.
        eexists. split; [reflexivity|]. split.
        -- apply (seq_done _ _ _
                    (AllTestsCompleted :: HomeReached p' :: lines ++ new));
             fields; rewrite ?Fh, ?Fl, ?Fs;
             cbn [Stepper.currentPosition Stepper.targetPos Stepper.currentPos];
             try assumption; try reflexivity.
           ++ rewrite Ox. reflexivity.
           ++ rewrite H6. reflexivity.
           ++ lia.
           ++ cbn [milestones]. rewrite Ml, H10. reflexivity.
        -- unfold steps_left. fields. rewrite H3, H4, Hb, H6.
           unfold Stepper.distanceToGo in *. cbn [b2z]. lia.
      * (* the next test starts *)
        pose (s1 := set_testState WAITING
                      (set_currentTestIndex (currentTestIndex s + 1)
                         (println (HomeReached p') x))).
        destruct (startNextTest_effect s1 (start_millis i) (Z.of_nat (S k)))
          as (s' & t & E & Ht & Hts & Htg & _ & Hst & _ & _ & Hpos & Hlog & _ & Hout & Hhome & Hidx & Hauto);
          [lia|subst s1; fields; lia|].
        fold s1. exists s'. split; [exact E|].
        rewrite tests_at_nth in Ht by lia. injection Ht as <-.
        subst s1. fields. rewrite ?Fa, ?Fh, ?Fs in *.
        cbn [Stepper.currentPosition Stepper.currentPos] in *.
        split.
        -- apply (seq_moving _ _ _
                    (MovingLine :: DATA_START
                       :: TestHeader (Z.of_nat (S k)) (nth (S k) tests no_test) p'
                       :: HomeReached p' :: lines ++ new) (S k));
             try assumption; try lia.
           ++ rewrite Hout, Ox. reflexivity.
           ++ congruence.
           ++ rewrite Hst, Htg, H1. apply wrap_long_small. exact HP.
           ++ rewrite Hpos. unfold testDistance. lia.
           ++ cbn [milestones]. rewrite Ml, H10. reflexivity.
        -- unfold steps_left. rewrite Hauto, Hts, Hidx, H3, H4, Hb.
           unfold Stepper.distanceToGo in *. rewrite Hst, Htg, Hpos, H1.
           rewrite wrap_long_small by exact HP.
           cbn [b2z]. unfold testDistance in *. lia.
    + (* still returning *)
      exists x. split; [reflexivity|]. split.
      * apply (seq_returning _ _ _ (lines ++ new) k);
          rewrite ?Fa, ?Fi, ?Ft, ?Fh, ?Fl, ?Fs;
          cbn [Stepper.targetPos Stepper.currentPos]; try assumption.
        -- lia.
        -- rewrite Ml. exact H10.
      * unfold steps_left. rewrite Fa, Ft, Fi, Fs, H3, H4.
        unfold Stepper.distanceToGo in *. cbn [Stepper.targetPos Stepper.currentPos].
        destruct (step_due i); cbn [b2z].
        -- specialize (Hdue eq_refl Hd). lia.
        -- rewrite (Hnot eq_refl). lia.
  - (* all tests over *)
    rewrite H3. eexists. split; [reflexivity|]. split.
    + apply (seq_done _ _ _ new); assumption.
    + unfold steps_left. rewrite H3. reflexivity.
Qed.

Lemma steps_left_running (P : Z) (base : list Line) (s : State) :
  sequence_state P base s ->
  (autoTestMode s = true -> 1 <= steps_left s) /\
  (autoTestMode s = false -> steps_left s = 0).
Proof.
  intros [new k H1 H2 H3 H4 H5 H6 H7 H8 H9
         |new k H1 H2 H3 H4 H5 H6 H7 H8 H9 H10
         |new H1 H2 H3 H4 H5 H6 H7 H8];
    unfold steps_left; rewrite H3, ?H4; split; intros; try discriminate; try reflexivity;
    unfold Stepper.distanceToGo, testDistance in *; lia.
Qed.

Lemma quiet_pass (P : Z) (base : list Line) (i : Input) (s : State) :
  long_range (P + testDistance) ->
  sequence_state P base s ->
  exists s', stateMachine i s = Some s' /\
    exists s'', dataLogging i s' = Some s'' /\ sequence_state P base s'' /\
      steps_left s'' = (if autoTestMode s then steps_left s - b2z (step_due i) else 0).
Proof.
  intros HP Q.
  destruct (machine_step P base i s HP Q) as (s1 & E1 & Q1 & L1).
  exists s1. split; [exact E1|].
  destruct (logging_step P base i s1 Q1) as (s2 & E2 & Q2 & L2 & _).
  exists s2. split; [exact E2|]. split; [exact Q2|]. congruence.
Qed.

Lemma count_due_cons (i : Input) (ins : list Input) :
  count_due (i :: ins) = b2z (step_due i) + count_due ins.
Proof.
  unfold count_due. cbn [List.filter].
  destruct (step_due i); cbn [List.length b2z]; lia.
Qed.

Lemma count_due_nonneg (ins : list Input) : 0 <= count_due ins.
Proof. unfold count_due. lia. Qed.

(** Passes without serial input: the owed steps go down by the number of
    passes in which the stepper's timer fired, and stop at zero. *)
Lemma quiet_run (P : Z) (base : list Line) (ins : list Input) (s : State) :
  long_range (P + testDistance) ->
  Forall quiet ins ->
  sequence_state P base s ->
  exists s', run_ticks ins s = Some s' /\ sequence_state P base s' /\
             steps_left s' = Z.max 0 (steps_left s - count_due ins).
Proof.
  intros HP. revert s. induction ins as [|i ins IH]; intros s Hq Q.
  - exists s. split; [reflexivity|]. split; [exact Q|].
    destruct (steps_left_running P base s Q) as [A B].
    unfold count_due. cbn [List.filter List.length].
    destruct (autoTestMode s); [specialize (A eq_refl)|specialize (B eq_refl)]; lia.
  - inversion Hq as [|i' ins' Hi Hins]; subst.
    destruct (quiet_pass P base i s HP Q) as (s1 & E1 & s2 & E2 & Q2 & L2).
    destruct (IH s2 Hins Q2) as (s' & E & Q' & L).
    exists s'. split.
    + cbn [run_ticks]. unfold loop, handleCommand. rewrite Hi. cbn [bind].
      rewrite E1. cbn [bind]. rewrite E2. cbn [bind]. exact E.
    + split; [exact Q'|]. rewrite L, L2, count_due_cons.
      destruct (steps_left_running P base s Q) as [A B].
      pose proof (count_due_nonneg ins).
      destruct (autoTestMode s); [specialize (A eq_refl)|specialize (B eq_refl)];
        destruct (step_due i); cbn [b2z]; lia.
Qed.

(** The start command from an idle controller standing at home. *)
Lemma start_command (P : Z) (first : Input) (cmd : ascii) (s0 : State) :
  long_range (P + testDistance) ->
  autoTestMode s0 = false ->
  homePosition s0 = P ->
  Stepper.currentPos (stepper s0) = P ->
  serial first = Some cmd -> is_char cmd "A" "a" = true ->
  exists s1, handleCommand first s0 = Some s1 /\
             sequence_state P (out s0) s1 /\
             steps_left s1 = 16 * testDistance.
Proof.
  intros HP Ha Hh Hp Hc HA.
  unfold handleCommand. rewrite Hc, HA. unfold startAutoTest. rewrite Ha.
  pose (s1 := set_currentTestIndex 0 (set_autoTestMode true (println StartingAutoTest s0))).
  destruct (startNextTest_effect s1 (start_millis first) 0)
    as (s' & t & E & Ht & Hts & Htg & _ & Hst & _ & _ & Hpos & Hlog & _ & Hout & Hhome & Hidx & Hauto);
    [lia|reflexivity|].
  fold s1. exists s'. split; [exact E|].
  injection Ht as <-. subst s1. fields.
  rewrite Hh in *. rewrite wrap_long_small in Htg by exact HP.
  split.
  - apply (seq_moving _ _ _
             (MovingLine :: DATA_START
                :: TestHeader 0 (nth 0 tests no_test) (Stepper.currentPos (stepper s0))
                :: StartingAutoTest :: nil) 0%nat); try assumption; try lia.
    + rewrite Hpos, Hp. unfold testDistance. lia.
    + reflexivity.
  - unfold steps_left. rewrite Hauto, Hts, Hidx.
    unfold Stepper.distanceToGo. rewrite Hst, Htg, Hpos, Hp.
    unfold testDistance. lia.
Qed.

(** C1. The automatic sequence, started by the [A] command from an idle
    controller standing at its home position [P], and then left alone (no
    byte on the serial port), never faults.  As long as the stepper has
    made fewer than 16 x 56000 steps the sequence is running test [k] and
    the transcript shows the tests 0..k started in table order, each one
    before [k] followed by its arrival at home (so the cursor is the
    number of completed returns).  Once the stepper has made 16 x 56000
    steps (8 moves down and 8 returns) the transcript shows the 8 table
    entries once each in table order, each followed by a homing, and the
    controller has [autoTestMode = false], [testState = IDLE], the cursor
    at 8 and the stepper at [P]. *)
Theorem auto_sequence_visits_all_profiles :
  forall (P : Z) (s0 : State) (first : Input) (cmd : ascii) (ins : list Input),
    long_range (P + testDistance) ->
    autoTestMode s0 = false ->
    homePosition s0 = P ->
    Stepper.currentPos (stepper s0) = P ->
    serial first = Some cmd -> is_char cmd "A" "a" = true ->
    Forall quiet ins ->
    exists (s' : State) (new : list Line),
      run_ticks (first :: ins) s0 = Some s' /\
      out s' = new ++ out s0 /\
      homePosition s' = P /\
      (count_due (first :: ins) < 16 * testDistance ->
         autoTestMode s' = true /\
         exists k : nat,
           (k < 8)%nat /\ currentTestIndex s' = Z.of_nat k /\
           milestones (rev new) = firstn (2 * k + 1) full_sequence) /\
      (16 * testDistance <= count_due (first :: ins) ->
         autoTestMode s' = false /\
         testState s' = IDLE /\
         currentTestIndex s' = 8 /\
         Stepper.currentPos (stepper s') = P /\
         milestones (rev new) = full_sequence).
Proof.
  intros P s0 first cmd ins HP Ha Hh Hp Hc HA Hq.
  destruct (start_command P first cmd s0 HP Ha Hh Hp Hc HA) as (s1 & E1 & Q1 & L1).
  destruct (quiet_pass P (out s0) first s1 HP Q1) as (s2 & E2 & s3 & E3 & Q3 & L3).
  destruct (quiet_run P (out s0) ins s3 HP Hq Q3) as (s' & E & Q & L).
  assert (A1 : autoTestMode s1 = true).
  { destruct (steps_left_running P (out s0) s1 Q1) as [_ B].
    destruct (autoTestMode s1); [reflexivity|].
    specialize (B eq_refl). unfold testDistance in *. lia. }
  rewrite A1, L1 in L3. rewrite L3 in L.
  assert (Lfin : steps_left s' = Z.max 0 (16 * testDistance - count_due (first :: ins)))
    by (rewrite count_due_cons, L; f_equal; lia).
  clear L L3.
  assert (Erun : run_ticks (first :: ins) s0 = Some s').
  { cbn [run_ticks]. unfold loop. rewrite E1. cbn [bind].
    rewrite E2. cbn [bind]. rewrite E3. cbn [bind]. exact E. }
  destruct (steps_left_running P (out s0) s' Q) as [Srun Sdone].
  destruct Q as [new k H1 H2 H3 H4 H5 H6 H7 H8 H9
                |new k H1 H2 H3 H4 H5 H6 H7 H8 H9 H10
                |new H1 H2 H3 H4 H5 H6 H7 H8];
    exists s', new; (split; [exact Erun|]); (split; [exact H2|]); (split; [exact H1|]).
  - specialize (Srun H3). split; [|intros; lia].
    intros _. split; [exact H3|]. exists k. split; [exact H5|]. split; [exact H6|].
    rewrite milestones_rev, H9. apply history_running. exact H5.
  - specialize (Srun H3). split; [|intros; lia].
    intros _. split; [exact H3|]. exists k. split; [exact H5|]. split; [exact H6|].
    rewrite milestones_rev, H10. apply history_running. exact H5.
  - specialize (Sdone H3). split; [intros; lia|].
    intros _. repeat (split; [assumption|]).
    rewrite milestones_rev, H8. exact history_complete.
Qed.

(** *** The logging protocol *)

Lemma ascending_snoc (ps : list Z) (p : Z) :
  ascending ps -> Forall (fun q => q <= p) ps -> ascending (ps ++ [p]).
Proof.
  induction ps as [|a ps IH]; intros A F; [exact I|].
  inversion F as [|? ? Ha Hps]; subst.
  destruct ps as [|b ps].
  - cbn. split; [exact Ha|exact I].
  - destruct A as [Hab A]. cbn [app ascending]. split; [exact Hab|].
    exact (IH A Hps).
Qed.

Lemma descending_snoc (ps : list Z) (p : Z) :
  descending ps -> Forall (fun q => p <= q) ps -> descending (ps ++ [p]).
Proof.
  induction ps as [|a ps IH]; intros A F; [exact I|].
  inversion F as [|? ? Ha Hps]; subst.
  destruct ps as [|b ps].
  - cbn. split; [exact Ha|exact I].
  - destruct A as [Hab A]. cbn [app descending]. split; [exact Hab|].
    exact (IH A Hps).
Qed.

Lemma heading_start (pos target : Z) : heading pos pos target [].
Proof.
  unfold heading. destruct (Z.le_ge_cases pos target); [left|right];
    (split; [lia|]); (split; [exact I|constructor]).
Qed.

Lemma heading_move (from pos pos' target : Z) (ps : list Z) :
  heading from pos target ps ->
  (pos <= pos' <= target) \/ (target <= pos' <= pos) ->
  heading from pos' target ps.
Proof.
  intros [(L & A & F)|(L & D & F)] M.
  - left. split; [lia|]. split; [exact A|].
    eapply Forall_impl; [|exact F]. cbn. intros a Ha. lia.
  - right. split; [lia|]. split; [exact D|].
    eapply Forall_impl; [|exact F]. cbn. intros a Ha. lia.
Qed.

Lemma heading_sample (from pos target : Z) (ps : list Z) :
  heading from pos target ps -> heading from pos target (ps ++ [pos]).
Proof.
  intros [(L & A & F)|(L & D & F)]; [left|right].
  - split; [exact L|]. split.
    + apply ascending_snoc; [exact A|].
      eapply Forall_impl; [|exact F]. cbn. intros a Ha. lia.
    + apply Forall_app. split; [exact F|]. constructor; [lia|constructor].
  - split; [exact L|]. split.
    + apply descending_snoc; [exact D|].
      eapply Forall_impl; [|exact F]. cbn. intros a Ha. lia.
    + apply Forall_app. split; [exact F|]. constructor; [lia|constructor].
Qed.

Lemma heading_along (from pos target : Z) (ps : list Z) :
  heading from pos target ps -> along from pos ps.
Proof.
  intros [(L & A & F)|(L & D & F)]; [left|right];
    (split; [lia|]); split; assumption.
Qed.

Lemma ok_neutral (l : Line) (lines : list Line) (b : bool) (pos target : Z) :
  neutral l -> stream_ok lines b pos target -> stream_ok (l :: lines) b pos target.
Proof.
  intros N (acc & E & C & O). exists acc. cbn [runs_of]. rewrite E. cbn [bind].
  split; [|split; assumption].
  unfold run_step.
  destruct (phase acc); try contradiction;
    destruct l; cbn in N; try contradiction; destruct acc; reflexivity.
Qed.

Lemma ok_open (lines : list Line) (i : Z) (t : SpeedTest) (pos target pos' target' : Z) :
  stream_ok lines false pos target ->
  stream_ok (DATA_START :: TestHeader i t pos' :: lines) true pos' target'.
Proof.
  intros (acc & E & C & O).
  destruct (phase acc) as [|from|from ps|from ps] eqn:Ep;
    try contradiction; [|destruct O; discriminate].
  exists (mkRuns (finished acc) (Logging pos' [])). cbn [runs_of]. rewrite E. cbn [bind].
  unfold run_step. rewrite Ep. cbn [bind phase finished].
  split; [reflexivity|]. split; [exact C|].
  split; [reflexivity|apply heading_start].
Qed.

Lemma ok_reached (lines : list Line) (pos pos' target' : Z) :
  stream_ok lines true pos pos ->
  stream_ok (TargetReached pos :: DATA_END :: lines) false pos' target'.
Proof.
  intros (acc & E & C & O).
  destruct (phase acc) as [|from|from ps|from ps] eqn:Ep;
    try contradiction; [discriminate|].
  destruct O as [_ H].
  exists (mkRuns (finished acc ++ [mkRun from ps (Some pos)]) Outside).
  cbn [runs_of]. rewrite E. cbn [bind].
  unfold run_step. rewrite Ep. cbn [bind phase finished].
  split; [reflexivity|]. split; [|reflexivity].
  apply Forall_app. split; [exact C|]. constructor; [|constructor].
  unfold run_ok. cbn [arrival departure positions].
  exact (heading_along _ _ _ _ H).
Qed.

Lemma ok_stopped (lines : list Line) (pos target pos' target' : Z) :
  stream_ok lines true pos target ->
  stream_ok (TestStopped :: DATA_END :: lines) false pos' target'.
Proof.
  intros (acc & E & C & O).
  destruct (phase acc) as [|from|from ps|from ps] eqn:Ep;
    try contradiction; [discriminate|].
  destruct O as [_ H].
  exists (mkRuns (finished acc ++ [mkRun from ps None]) Outside).
  cbn [runs_of]. rewrite E. cbn [bind].
  unfold run_step. rewrite Ep. cbn [bind phase finished].
  split; [reflexivity|]. split; [|reflexivity].
  apply Forall_app. split; [exact C|]. constructor; [|constructor].
  unfold run_ok. cbn [arrival departure positions].
  exists pos. exact (heading_along _ _ _ _ H).
Qed.

Lemma ok_sample (lines : list Line) (pos target e : Z) (t : SpeedTest) :
  stream_ok lines true pos target -> stream_ok (Sample e pos t :: lines) true pos target.
Proof.
  intros (acc & E & C & O).
  destruct (phase acc) as [|from|from ps|from ps] eqn:Ep;
    try contradiction; [discriminate|].
  destruct O as [_ H].
  exists (mkRuns (finished acc) (Logging from (ps ++ [pos]))).
  cbn [runs_of]. rewrite E. cbn [bind].
  unfold run_step. rewrite Ep. split; [reflexivity|]. split; [exact C|].
  cbn [phase]. split; [reflexivity|apply heading_sample; exact H].
Qed.

Lemma ok_move (lines : list Line) (pos pos' target : Z) :
  stream_ok lines true pos target ->
  (pos <= pos' <= target) \/ (target <= pos' <= pos) ->
  stream_ok lines true pos' target.
Proof.
  intros (acc & E & C & O) M. exists acc. split; [exact E|]. split; [exact C|].
  destruct (phase acc) as [|from|from ps|from ps]; try exact O.
  destruct O as [L T]. split; [exact L|]. exact (heading_move _ _ _ _ _ T M).
Qed.

Lemma ok_idle (lines : list Line) (pos target pos' target' : Z) :
  stream_ok lines false pos target -> stream_ok lines false pos' target'.
Proof.
  intros (acc & E & C & O). exists acc. split; [exact E|]. split; [exact C|].
  destruct (phase acc) as [|from|from ps|from ps]; try exact O.
  destruct O; discriminate.
Qed.

Lemma stopLogging_frame (s : State) :
  isLogging (stopLogging s) = false /\
  stepper (stopLogging s) = stepper s /\
  autoTestMode (stopLogging s) = autoTestMode s /\
  testState (stopLogging s) = testState s /\
  currentTestIndex (stopLogging s) = currentTestIndex s /\
  homePosition (stopLogging s) = homePosition s /\
  out (stopLogging s) = (if isLogging s then [DATA_END] else []) ++ out s.
Proof.
  unfold stopLogging. destruct (isLogging s) eqn:L; cbn [negb]; fields;
    repeat split; try reflexivity; assumption.
Qed.

Lemma startNextTest_stream (now : Z) (s : State) :
  0 <= currentTestIndex s < 8 ->
  isLogging s = false ->
  stream_ok (out s) false (Stepper.currentPos (stepper s)) (Stepper.targetPos (stepper s)) ->
  exists s', startNextTest now s = Some s' /\ stream_inv s'.
Proof.
  intros Hi L K.
  destruct (startNextTest_effect s now (currentTestIndex s) Hi eq_refl)
    as (s' & t & E & _ & _ & _ & _ & _ & _ & _ & Hpos & Hlog & _ & Hout & _).
  exists s'. split; [exact E|].
  unfold stream_inv. rewrite Hout, Hlog, Hpos. split; [|reflexivity].
  apply ok_neutral; [exact I|]. eapply ok_open. exact K.
Qed.

Lemma handleCommand_stream (i : Input) (s : State) :
  coherent s -> stream_inv s ->
  exists s', handleCommand i s = Some s' /\ stream_inv s'.
Proof.
  intros C [K M]. unfold handleCommand.
  destruct (serial i) as [cmd|]; [|eexists; split; [reflexivity|split; assumption]].
  pose proof C as (Hidx & Hoff & Hrun & Hlog).
  destruct (is_char cmd "A" "a").
  { unfold startAutoTest. destruct (autoTestMode s) eqn:Ha.
    - eexists; split; [reflexivity|]. unfold stream_inv in *. fields.
      split; [|first [exact M|rewrite ?Ha; exact M]]. apply ok_neutral; [exact I|exact K].
    - destruct (Hoff eq_refl) as [_ L].
      apply startNextTest_stream; fields; [lia|exact L|].
      rewrite L in K. apply ok_neutral; [exact I|exact K]. }
  destruct (is_char cmd "S" "s").
  { eexists; split; [reflexivity|]. unfold stopAutoTest.
    destruct (autoTestMode s) eqn:Ha; cbn [negb].
    - pose (s1 := set_testState IDLE (set_autoTestMode false s)).
      destruct (stopLogging_frame s1) as (L & St & Fa & _ & _ & _ & Ho).
      fold s1. unfold stream_inv. fields. rewrite L, St, Fa, Ho.
      split; [|subst s1; fields; discriminate].
      subst s1. fields. destruct (isLogging s) eqn:Hl; cbn [app].
      + eapply ok_stopped. exact K.
      + apply ok_neutral; [exact I|]. eapply ok_idle. exact K.
    - unfold stream_inv in *. fields. split; [|first [exact M|rewrite ?Ha; exact M]].
      apply ok_neutral; [exact I|exact K]. }
  destruct (is_char cmd "0" "0").
  { eexists; split; [reflexivity|]. unfold stream_inv in *. fields.
    split; [|first [exact M|rewrite ?Ha; exact M]]. apply ok_neutral; [exact I|exact K]. }
  destruct (is_char cmd "H" "h"); [|eexists; split; [reflexivity|split; assumption]].
  destruct (autoTestMode s) eqn:Ha; cbn [negb];
    [eexists; split; [reflexivity|split; [exact K|rewrite Ha; exact M]]|].
  eexists; split; [reflexivity|].
  destruct (Hoff eq_refl) as [_ L].
  unfold stream_inv, goHomeManual in *. fields. rewrite L in *.
  split; [|rewrite Ha; discriminate].
  apply ok_neutral; [exact I|]. apply ok_neutral; [exact I|].
  eapply ok_idle. exact K.
Qed.

Lemma stateMachine_stream (i : Input) (s : State) :
  coherent s -> stream_inv s ->
  exists s', stateMachine i s = Some s' /\ stream_inv s'.
Proof.
  intros C [K M]. unfold stateMachine.
  pose proof C as (Hidx & Hoff & Hrun & Hlog).
  destruct (autoTestMode s) eqn:Ha;
    [|eexists; split; [reflexivity|split; [exact K|rewrite Ha; discriminate]]].
  destruct (Hrun eq_refl) as [_ Hk].
  destruct (testState s) eqn:Hts.
  - eexists; split; [reflexivity|]. split; [exact K|rewrite Ha, Hts; discriminate].
  - (* MOVING *)
    pose proof (M eq_refl eq_refl) as L.
    pose (s1 := set_stepper (Stepper.run (step_due i) (stepper s)) s).
    assert (K1 : stream_ok (out s1) true (Stepper.currentPos (stepper s1))
                   (Stepper.targetPos (stepper s1))).
    { subst s1. fields. rewrite StepperFacts.run_keeps_target. rewrite L in K.
      eapply ok_move; [exact K|]. apply StepperFacts.run_between. }
    fold s1.
    destruct (Stepper.distanceToGo (stepper s1) =? 0) eqn:D.
    + eexists; split; [reflexivity|].
      apply Z.eqb_eq in D. unfold Stepper.distanceToGo in D.
      assert (T : Stepper.targetPos (stepper s1) = Stepper.currentPos (stepper s1)) by lia.
      rewrite T in K1.
      destruct (stopLogging_frame s1) as (L1 & St & Fa & _ & _ & Fh & Ho).
      unfold stream_inv. fields. rewrite L1, St, Ho.
      replace (isLogging s1) with true by (subst s1; fields; congruence).
      cbn [app Stepper.setMaxSpeed Stepper.setAcceleration Stepper.moveTo
           Stepper.currentPos Stepper.targetPos Stepper.currentPosition].
      split; [|discriminate].
      apply ok_neutral; [exact I|]. eapply ok_reached. exact K1.
    + eexists; split; [reflexivity|]. unfold stream_inv.
      replace (isLogging s1) with true by (subst s1; fields; congruence).
      split; [exact K1|reflexivity].
  - (* RETURNING *)
    assert (L : isLogging s = false).
    { destruct (isLogging s); [|reflexivity]. specialize (Hlog eq_refl). congruence. }
    destruct (debugReturning_frame i (set_stepper (Stepper.run (step_due i) (stepper s)) s))
      as (Fa & Fi & Ft & Fh & _ & Fl & _ & _ & Fs & lines & Fo & Hl).
    set (x := debugReturning i _) in *. clearbody x. fields.
    assert (K1 : stream_ok (out x) false (Stepper.currentPos (stepper x))
                   (Stepper.targetPos (stepper x))).
    { rewrite Fo, Fs. rewrite L in K.
      destruct Hl as [-> | ->]; cbn [app].
      - eapply ok_idle. exact K.
      - apply ok_neutral; [exact I|]. eapply ok_idle. exact K. }
    destruct (Stepper.distanceToGo (stepper x) =? 0).
    + assert (W : wrap_int (currentTestIndex x + 1) = currentTestIndex x + 1)
        by (apply wrap_int_small; unfold int_range; lia).
      fields. rewrite W.
      destruct (Z.geb_spec (currentTestIndex x + 1) 8) as [G|G].
      * eexists; split; [reflexivity|].
        unfold stream_inv. fields. rewrite Fl, L. split; [|discriminate].
        apply ok_neutral; [exact I|]. apply ok_neutral; [exact I|]. exact K1.
      * apply startNextTest_stream; fields; [lia|congruence|].
        apply ok_neutral; [exact I|]. exact K1.
    + eexists; split; [reflexivity|]. unfold stream_inv. rewrite Fl, Fa, Ft, L.
      split; [exact K1|rewrite Hts; discriminate].
  - eexists; split; [reflexivity|]. split; [exact K|rewrite Ha, Hts; discriminate].
Qed.

Lemma dataLogging_stream (i : Input) (s : State) :
  coherent s -> stream_inv s ->
  exists s', dataLogging i s = Some s' /\ stream_inv s'.
Proof.
  intros C [K M].
  assert (Hi : isLogging s = true -> 0 <= currentTestIndex s < 8).
  { destruct C as (Hidx & Hoff & Hrun & Hlog). intros L.
    specialize (Hlog L). destruct (autoTestMode s).
    - destruct (Hrun eq_refl). lia.
    - destruct (Hoff eq_refl). congruence. }
  destruct (dataLogging_cases i s Hi) as [E|(e & p & t & L & Hp & E)]; rewrite E.
  - eexists; split; [reflexivity|split; assumption].
  - eexists; split; [reflexivity|]. unfold stream_inv in *. fields.
    split; [|exact M]. rewrite L in *. subst p. apply ok_sample. exact K.
Qed.

Lemma loop_stream (i : Input) (s s' : State) :
  coherent s -> stream_inv s -> loop i s = Some s' -> stream_inv s'.
Proof.
  intros C K. unfold loop.
  destruct (handleCommand_coherent i s C) as (s1 & E1 & C1).
  destruct (handleCommand_stream i s C K) as (s1' & E1' & K1).
  assert (s1' = s1) by congruence. subst s1'. rewrite E1. cbn [bind].
  destruct (stateMachine_coherent i s1 C1) as (s2 & E2 & C2).
  destruct (stateMachine_stream i s1 C1 K1) as (s2' & E2' & K2).
  assert (s2' = s2) by congruence. subst s2'. rewrite E2. cbn [bind].
  destruct (dataLogging_stream i s2 C2 K2) as (s3 & E3 & K3).
  rewrite E3. intros H. injection H as <-. exact K3.
Qed.

Lemma reachable_stream (s : State) : reachable s -> stream_inv s.
Proof.
  induction 1 as [|s s' i R IH E].
  - split; [|discriminate].
    exists (mkRuns [] Outside). cbn. repeat split. constructor.
  - exact (loop_stream i s s' (reachable_coherent s R) IH E).
Qed.

(** What the protocol says of the number of markers: every header is
    followed by its start marker, and every finished run has its end
    marker. *)
Lemma runs_of_counts (lines : list Line) (acc : Runs) :
  runs_of lines = Some acc ->
  count is_header lines = (List.length (finished acc) + opened (phase acc))%nat /\
  count is_start lines = (List.length (finished acc) + started (phase acc))%nat /\
  count is_end lines = (List.length (finished acc) + ended (phase acc))%nat.
Proof.
  revert acc. induction lines as [|l lines IH]; intros acc E; cbn [runs_of] in E.
  - injection E as <-. cbn. auto.
  - destruct (runs_of lines) as [a|]; cbn [bind] in E; [|discriminate].
    destruct (IH a eq_refl) as (H1 & H2 & H3).
    unfold count in *. cbn [filter].
    unfold run_step in E. destruct a as [fin ph]. cbn [phase finished] in *.
    destruct ph; destruct l; try discriminate; injection E as <-;
      cbn [is_header is_start is_end List.length phase finished opened started ended] in *;
      rewrite ?length_app; cbn [List.length]; lia.
Qed.

Lemma count_due_repeat (n : nat) : count_due (repeat due_tick n) = Z.of_nat n.
Proof.
  induction n as [|n IH]; [reflexivity|].
  cbn [repeat]. rewrite count_due_cons, IH. cbn [due_tick tick step_due b2z]. lia.
Qed.

(** The theorem on a complete run from power-up: the start command, then
    896000 passes in each of which the stepper's timer fires. *)
Lemma auto_sequence_visits_all_profiles_witness :
  16 * testDistance <= count_due (start_tick :: repeat due_tick (Z.to_nat 896000)) /\
  exists (s' : State) (new : list Line),
    run_ticks (start_tick :: repeat due_tick (Z.to_nat 896000)) initial = Some s' /\
    out s' = new ++ out initial /\
    homePosition s' = 0 /\
    (count_due (start_tick :: repeat due_tick (Z.to_nat 896000)) < 16 * testDistance ->
       autoTestMode s' = true /\
       exists k : nat,
         (k < 8)%nat /\ currentTestIndex s' = Z.of_nat k /\
         milestones (rev new) = firstn (2 * k + 1) full_sequence) /\
    (16 * testDistance <= count_due (start_tick :: repeat due_tick (Z.to_nat 896000)) ->
       autoTestMode s' = false /\
       testState s' = IDLE /\
       currentTestIndex s' = 8 /\
       Stepper.currentPos (stepper s') = 0 /\
       milestones (rev new) = full_sequence).
Proof.
  split.
  - rewrite count_due_cons, count_due_repeat. unfold testDistance. cbn [start_tick tick step_due b2z]. lia.
  - apply (auto_sequence_visits_all_profiles 0 initial start_tick "A"%char
             (repeat due_tick (Z.to_nat 896000))).
    + unfold long_range, testDistance. lia.
    + reflexivity.
    + reflexivity.
    + reflexivity.
    + reflexivity.
    + reflexivity.
    + apply Forall_forall. intros x Hx. apply repeat_spec in Hx. subst x. reflexivity.
Defined.

Lemma run_ticks_reachable (ins : list Input) (s s' : State) :
  reachable s -> run_ticks ins s = Some s' -> reachable s'.
Proof.
  revert s. induction ins as [|i ins IH]; intros s R E; cbn [run_ticks] in E.
  - injection E as <-. exact R.
  - destruct (loop i s) as [s1|] eqn:E1; cbn [bind] in E; [|discriminate].
    exact (IH s1 (reach_loop s s1 i R E1) E).
Qed.

Lemma stopLogging_inactive (s : State) : isLogging s = false -> stopLogging s = s.
Proof. intros L. unfold stopLogging. rewrite L. reflexivity. Qed.

Lemma stopLogging_idempotent (s : State) : stopLogging (stopLogging s) = stopLogging s.
Proof.
  apply stopLogging_inactive. unfold stopLogging.
  destruct (isLogging s) eqn:L; cbn [negb]; [reflexivity|exact L].
Qed.

Lemma slow_profile_run_result :
  run_ticks slow_profile_run initial = Some slow_profile_state.
Proof. vm_compute. reflexivity. Qed.

(** C7, as stated, fails on this sketch: the samples are triggered by the
    clock ([LOG_INTERVAL] = 20 ms), not by the position, so two samples of
    one session can carry the same position.  In [slow_profile_run] the
    fifth test (MEASURE_M, one step every 50 ms) is sampled 20 ms and
    40 ms after its start, both times at position 0. *)
Lemma logged_positions_repeat :
  exists acc : Sessions,
    run_ticks slow_profile_run initial = Some slow_profile_state /\
    reachable slow_profile_state /\
    sessions_of (out slow_profile_state) = Some acc /\
    all_sessions acc = [[]; []; []; []; [0; 0]] /\
    ~ Forall strictly_monotonic (all_sessions acc).
Proof.
  exists (mkSessions [[]; []; []; []] (Some [0; 0])).
  split; [exact slow_profile_run_result|].
  split; [exact (run_ticks_reachable _ _ _ reach_initial slow_profile_run_result)|].
  split; [vm_compute; reflexivity|].
  split; [reflexivity|].
  intros F. rewrite Forall_forall in F.
  assert (M : strictly_monotonic [0; 0]).
  { apply F. cbn. do 4 right. left. reflexivity. }
  destruct M as [[M _]|[M _]]; lia.
Qed.

(** C7, amended to what the sketch does.  In every state reachable from
    power-up the transcript keeps the protocol of [runs_of]: the header of
    each test run is followed at once by [DATA_START]; samples are printed
    only between that marker and the [DATA_END] of the same run;
    [DATA_END] is printed once, after the last sample, and is followed at
    once by the line of the arrival at the target or of the stop command;
    outside a run no marker and no sample is printed.  So the transcript
    holds one [DATA_START] for every header and one [DATA_END] for every
    run that is over.  The run that is not over, if there is one, is the
    one a test is moving down in, and its session is open exactly while
    [isLogging] is set.  [stopLogging] is idempotent and does nothing
    when no session is active.  Within each run the position field of the
    samples follows the motion, possibly with repeated values: in a run
    that reached its target the samples lie in order between the position
    of the header and the position reached, and in the run in progress
    between the position of the header and the stepper, which is on its
    way from there to its target. *)
Theorem test_runs_keep_logging_protocol :
  forall s : State,
    reachable s ->
    (exists acc : Runs,
       runs_of (out s) = Some acc /\
       Forall run_ok (finished acc) /\
       match phase acc with
       | Outside => isLogging s = false
       | Logging from ps =>
           isLogging s = true /\
           heading from (Stepper.currentPos (stepper s))
             (Stepper.targetPos (stepper s)) ps
       | Opening _ | Closing _ _ => False
       end /\
       count is_header (out s)
         = (List.length (finished acc) + if isLogging s then 1 else 0)%nat /\
       count is_start (out s) = count is_header (out s) /\
       count is_end (out s) = List.length (finished acc)) /\
    (isLogging s = true <-> autoTestMode s = true /\ testState s = MOVING) /\
    stopLogging (stopLogging s) = stopLogging s /\
    (isLogging s = false -> stopLogging s = s).
Proof.
  intros s R.
  split; [|split; [|split; [apply stopLogging_idempotent|apply stopLogging_inactive]]].
  - destruct (reachable_stream s R) as [(acc & E & C & O) _].
    destruct (runs_of_counts _ _ E) as (H1 & H2 & H3).
    exists acc. split; [exact E|]. split; [exact C|].
    destruct (phase acc) as [|from|from ps|from ps]; try contradiction.
    + split; [exact O|]. rewrite O. cbn [opened started ended] in *.
      repeat split; lia.
    + split; [exact O|]. destruct O as [-> _]. cbn [opened started ended] in *.
      repeat split; lia.
  - destruct (reachable_stream s R) as [_ M].
    pose proof (reachable_coherent s R) as (_ & Hoff & _ & Hlog).
    split.
    + intros L. split; [|exact (Hlog L)].
      destruct (autoTestMode s); [reflexivity|].
      destruct (Hoff eq_refl). congruence.
    + intros [A T]. exact (M A T).
Qed.

Lemma test_runs_keep_logging_protocol_witness :
  exists s : State,
    run_ticks slow_profile_run initial = Some s /\
    (exists acc : Runs,
       runs_of (out s) = Some acc /\
       Forall run_ok (finished acc) /\
       match phase acc with
       | Outside => isLogging s = false
       | Logging from ps =>
           isLogging s = true /\
           heading from (Stepper.currentPos (stepper s))
             (Stepper.targetPos (stepper s)) ps
       | Opening _ | Closing _ _ => False
       end /\
       count is_header (out s)
         = (List.length (finished acc) + if isLogging s then 1 else 0)%nat /\
       count is_start (out s) = count is_header (out s) /\
       count is_end (out s) = List.length (finished acc)) /\
    (isLogging s = true <-> autoTestMode s = true /\ testState s = MOVING) /\
    stopLogging (stopLogging s) = stopLogging s /\
    (isLogging s = false -> stopLogging s = s).
Proof.
  exists slow_profile_state. split; [exact slow_profile_run_result|].
  exact (test_runs_keep_logging_protocol slow_profile_state
           (run_ticks_reachable _ _ _ reach_initial slow_profile_run_result)).
Defined.

(** *** The stop and go-home commands *)

Lemma slow_profile_reachable : reachable slow_profile_state.
Proof.
  exact (run_ticks_reachable slow_profile_run initial slow_profile_state
           reach_initial slow_profile_run_result).
Qed.

Lemma is_stop_cases (cmd : ascii) :
  is_stop cmd = true -> cmd = "S"%char \/ cmd = "s"%char.
Proof.
  unfold is_stop, is_char. intros H. apply orb_true_iff in H.
  destruct H as [H|H]; apply String.eqb_eq in H; injection H as ->; auto.
Qed.

Lemma off_pass (i : Input) (s : State) :
  autoTestMode s = false -> isLogging s = false -> quiet i -> loop i s = Some s.
Proof.
  intros Ha Hl Q. unfold loop, handleCommand. unfold quiet in Q. rewrite Q. cbn [bind].
  unfold stateMachine. rewrite Ha. cbn [bind]. unfold dataLogging. rewrite Hl. reflexivity.
Qed.

Lemma off_run (ins : list Input) (s : State) :
  autoTestMode s = false -> isLogging s = false -> Forall quiet ins ->
  run_ticks ins s = Some s.
Proof.
  intros Ha Hl Q. induction Q as [|i ins Qi _ IH]; [reflexivity|].
  cbn [run_ticks]. rewrite (off_pass i s Ha Hl Qi). cbn [bind]. exact IH.
Qed.

(** The stop command is honoured in every state: a running sequence is
    ended in that pass, with the logging session closed by [DATA_END] if
    one was open and no step made, and for as long as no further command
    arrives no later pass changes anything: the stepper makes no step and
    nothing is printed.  With no sequence running only the warning line is
    printed. *)
Theorem stop_command_ends_sequence :
  forall (s : State) (i : Input) (cmd : ascii) (later : list Input),
    reachable s ->
    serial i = Some cmd ->
    is_stop cmd = true ->
    Forall quiet later ->
    exists s' : State,
      loop i s = Some s' /\
      autoTestMode s' = false /\ testState s' = IDLE /\ isLogging s' = false /\
      Stepper.currentPos (stepper s') = Stepper.currentPos (stepper s) /\
      currentTestIndex s' = currentTestIndex s /\
      homePosition s' = homePosition s /\
      (autoTestMode s = true ->
       out s' = TestStopped :: (if isLogging s then [DATA_END] else []) ++ out s) /\
      (autoTestMode s = false -> s' = println NoTestRunning s) /\
      run_ticks later s' = Some s'.
Proof.
  intros s i cmd later R Hcmd Hstop Hq.
  pose proof (reachable_coherent s R) as (_ & Hoff & _ & _).
  assert (HA : is_char cmd "A" "a" = false).
  { destruct (is_stop_cases cmd Hstop) as [-> | ->]; reflexivity. }
  unfold loop, handleCommand. rewrite Hcmd, HA. unfold is_stop in Hstop. rewrite Hstop.
  cbn [bind].
  assert (Q : autoTestMode (stopAutoTest (stop_togo i) s) = false /\
              isLogging (stopAutoTest (stop_togo i) s) = false).
  { unfold stopAutoTest, stopLogging.
    destruct (autoTestMode s) eqn:Ha; cbn [negb]; fields.
    - destruct (isLogging s) eqn:L; cbn [negb]; fields; rewrite ?L; split; reflexivity.
    - split; [exact Ha|]. destruct (Hoff eq_refl) as [_ L]. exact L. }
  destruct Q as [Q1 Q2].
  unfold stateMachine, dataLogging. rewrite Q1. cbn [bind]. rewrite Q2.
  eexists. split; [reflexivity|]. split; [exact Q1|].
  pose proof (off_run later _ Q1 Q2 Hq) as Later.
  unfold stopAutoTest, stopLogging in *.
  destruct (autoTestMode s) eqn:Ha; cbn [negb] in *; fields.
  - destruct (isLogging s) eqn:L; cbn [negb] in *; fields; rewrite ?L;
      unfold Stepper.stop; cbn [Stepper.currentPos Stepper.targetPos];
      repeat split; try reflexivity; try exact Later; try discriminate.
  - destruct (Hoff eq_refl) as [Hts Hlog].
    repeat split; try assumption; try reflexivity; discriminate.
Qed.

Lemma stop_command_ends_sequence_witness :
  exists s' : State,
    loop (tick (Some "S"%char) 60 true) slow_profile_state = Some s' /\
    autoTestMode s' = false /\ testState s' = IDLE /\ isLogging s' = false /\
    Stepper.currentPos (stepper s') = Stepper.currentPos (stepper slow_profile_state) /\
    currentTestIndex s' = currentTestIndex slow_profile_state /\
    homePosition s' = homePosition slow_profile_state /\
    (autoTestMode slow_profile_state = true ->
     out s' = TestStopped :: (if isLogging slow_profile_state then [DATA_END] else [])
                ++ out slow_profile_state) /\
    (autoTestMode slow_profile_state = false -> s' = println NoTestRunning slow_profile_state) /\
    run_ticks [tick None 80 true; tick None 100 true] s' = Some s'.
Proof.
  apply (stop_command_ends_sequence slow_profile_state
           (tick (Some "S"%char) 60 true) "S"%char
           [tick None 80 true; tick None 100 true]).
  - exact slow_profile_reachable.
  - reflexivity.
  - reflexivity.
  - repeat constructor.
Defined.

(** *** Home and travel *)

Ltac ast_fields :=
  fields;
  cbn [Stepper.moveTo Stepper.setAcceleration Stepper.setMaxSpeed Stepper.stop
       Stepper.currentPosition Stepper.currentPos Stepper.targetPos] in *.

Ltac ast_cases :=
  repeat match goal with
         | |- context [if ?b then _ else _] => destruct b
         | |- context [match tests_at ?x with _ => _ end] => destruct (tests_at x)
         | |- context [match testState ?x with _ => _ end] => destruct (testState x)
         end.

Lemma startNextTest_home (now : Z) (s s' : State) :
  startNextTest now s = Some s' -> homePosition s' = homePosition s.
Proof.
  unfold startNextTest, startLogging, bind.
  destruct (tests_at (currentTestIndex s)); intros E; [|discriminate].
  injection E as <-. reflexivity.
Qed.

Lemma handleCommand_home (i : Input) (s s' : State) :
  keeps_home i -> handleCommand i s = Some s' -> homePosition s' = homePosition s.
Proof.
  intros K. unfold handleCommand.
  destruct (serial i) as [cmd|] eqn:Si; [|intros E; injection E as <-; reflexivity].
  specialize (K cmd Si). rewrite K.
  destruct (is_char cmd "A" "a").
  { unfold startAutoTest. destruct (autoTestMode s);
      [intros E; injection E as <-; reflexivity|].
    intros E. apply startNextTest_home in E. exact E. }
  destruct (is_char cmd "S" "s").
  { unfold stopAutoTest, stopLogging. intros E. injection E as <-.
    destruct (autoTestMode s); cbn [negb]; [|reflexivity].
    destruct (isLogging _); reflexivity. }
  destruct (is_char cmd "H" "h"); [|intros E; injection E as <-; reflexivity].
  destruct (autoTestMode s); intros E; injection E as <-; reflexivity.
Qed.

Lemma stateMachine_home (i : Input) (s s' : State) :
  stateMachine i s = Some s' -> homePosition s' = homePosition s.
Proof.
  unfold stateMachine.
  destruct (autoTestMode s); [|intros E; injection E as <-; reflexivity].
  destruct (testState s); try (intros E; injection E as <-; reflexivity).
  - destruct (_ =? 0); intros E; injection E as <-; [|reflexivity].
    fields.
    match goal with
    | |- context [stopLogging ?x] =>
        destruct (stopLogging_frame x) as (_ & _ & _ & _ & _ & -> & _)
    end.
    reflexivity.
  - destruct (debugReturning_frame i (set_stepper (Stepper.run (step_due i) (stepper s)) s))
      as (_ & _ & _ & Fh & _).
    set (x := debugReturning i _) in *. clearbody x. fields.
    destruct (_ =? 0); [|intros E; injection E as <-; exact Fh].
    destruct (_ >=? 8); [intros E; injection E as <-; exact Fh|].
    intros E. apply startNextTest_home in E. fields. congruence.
Qed.

Lemma dataLogging_home (i : Input) (s s' : State) :
  dataLogging i s = Some s' -> homePosition s' = homePosition s.
Proof.
  unfold dataLogging, logData, bind.
  destruct (isLogging s); [|intros E; injection E as <-; reflexivity].
  destruct (_ >=? _); [|intros E; injection E as <-; reflexivity].
  fields. destruct (tests_at (currentTestIndex s)); intros E; [|discriminate].
  injection E as <-. reflexivity.
Qed.

(** Only the command [0] writes [homePosition]. *)
Lemma loop_keeps_home (i : Input) (s s' : State) :
  keeps_home i -> loop i s = Some s' -> homePosition s' = homePosition s.
Proof.
  intros K. unfold loop.
  destruct (handleCommand i s) as [s1|] eqn:E1; cbn [bind]; [|discriminate].
  destruct (stateMachine i s1) as [s2|] eqn:E2; cbn [bind]; [|discriminate].
  intros E3.
  rewrite (dataLogging_home i s2 s' E3), (stateMachine_home i s1 s2 E2).
  exact (handleCommand_home i s s1 K E1).
Qed.

Lemma run_ticks_keeps_home (ins : list Input) (s s' : State) :
  Forall keeps_home ins -> run_ticks ins s = Some s' -> homePosition s' = homePosition s.
Proof.
  intros K. revert s. induction K as [|i ins Ki _ IH]; intros s E; cbn [run_ticks] in E.
  - injection E as <-. reflexivity.
  - destruct (loop i s) as [s1|] eqn:E1; cbn [bind] in E; [|discriminate].
    rewrite (IH s1 E). exact (loop_keeps_home i s s1 Ki E1).
Qed.

Lemma goHomeManual_arrives (s : State) :
  Stepper.currentPos (stepper (goHomeManual s)) = homePosition s /\
  Stepper.distanceToGo (stepper (goHomeManual s)) = 0 /\
  autoTestMode (goHomeManual s) = autoTestMode s /\
  isLogging (goHomeManual s) = isLogging s /\
  homePosition (goHomeManual s) = homePosition s /\
  out (goHomeManual s) = ManualHomeReached :: GoingHomeManually :: out s.
Proof.
  unfold goHomeManual. cbv zeta. fields.
  match goal with
  | |- context [Stepper.runToPosition ?m] =>
      destruct (StepperFacts.runToPosition_arrives m) as [A B]
  end.
  unfold Stepper.distanceToGo. rewrite A, B.
  cbn [Stepper.moveTo Stepper.targetPos]. repeat split; try reflexivity. lia.
Qed.

Lemma go_home_pass (i : Input) (s : State) (cmd : ascii) :
  autoTestMode s = false -> isLogging s = false ->
  serial i = Some cmd -> is_char cmd "H" "h" = true ->
  loop i s = Some (goHomeManual s).
Proof.
  intros Ha Hlog Hcmd HH.
  destruct (goHomeManual_arrives s) as (_ & _ & G3 & G4 & _ & _).
  assert (Hc : is_char cmd "A" "a" = false /\ is_char cmd "S" "s" = false /\
               is_char cmd "0" "0" = false).
  { unfold is_char in HH. apply orb_true_iff in HH.
    destruct HH as [X|X]; apply String.eqb_eq in X; injection X as ->; repeat split. }
  destruct Hc as (HA & HS & H0).
  unfold loop.
  replace (handleCommand i s) with (Some (goHomeManual s))
    by (unfold handleCommand; rewrite Hcmd, HA, HS, H0, HH, Ha; reflexivity).
  cbn [bind].
  replace (stateMachine i (goHomeManual s)) with (Some (goHomeManual s))
    by (unfold stateMachine; rewrite G3, Ha; reflexivity).
  cbn [bind]. unfold dataLogging. rewrite G4, Hlog. reflexivity.
Qed.

(** The manual go-home returns the stepper to the position that the last
    [0] command recorded, whatever ran in between: after any passes without
    a [0], an [H] received with no sequence running ends, in that same
    pass, with the stepper at that home position and nothing left to go;
    with a sequence running the [H] is ignored. *)
Theorem go_home_returns_to_recorded_home :
  forall (s : State) (ins : list Input) (i : Input) (cmd : ascii),
    reachable s ->
    Forall keeps_home ins ->
    serial i = Some cmd ->
    is_char cmd "H" "h" = true ->
    exists s1 s2 : State,
      run_ticks ins s = Some s1 /\
      loop i s1 = Some s2 /\
      homePosition s2 = homePosition s /\
      (autoTestMode s1 = false ->
       Stepper.currentPos (stepper s2) = homePosition s /\
       Stepper.distanceToGo (stepper s2) = 0 /\
       autoTestMode s2 = false /\
       out s2 = ManualHomeReached :: GoingHomeManually :: out s1) /\
      (autoTestMode s1 = true -> handleCommand i s1 = Some s1).
Proof.
  intros s ins i cmd R K Hcmd HH.
  destruct (run_ticks_coherent ins s (reachable_coherent s R)) as (s1 & E1 & C1 & _).
  destruct (loop_coherent i s1 C1) as (s2 & E2 & _).
  pose proof (run_ticks_keeps_home ins s s1 K E1) as H1.
  assert (Ki : keeps_home i).
  { intros c Hc. rewrite Hcmd in Hc. injection Hc as <-.
    unfold is_char in HH. apply orb_true_iff in HH.
    destruct HH as [X|X]; apply String.eqb_eq in X; injection X as ->; reflexivity. }
  pose proof (loop_keeps_home i s1 s2 Ki E2) as H2.
  exists s1, s2. split; [exact E1|]. split; [exact E2|]. split; [congruence|].
  destruct C1 as (_ & Hoff & _ & _).
  split.
  - intros Ha. destruct (Hoff Ha) as [Hts Hlog].
    destruct (goHomeManual_arrives s1) as (G1 & G2 & G3 & G4 & G5 & G6).
    rewrite (go_home_pass i s1 cmd Ha Hlog Hcmd HH) in E2. injection E2 as <-.
    rewrite G1, G2, G3, G6. repeat split; try reflexivity; congruence.
  - intros Ha. unfold handleCommand. rewrite Hcmd, Ha.
    unfold is_char in HH. apply orb_true_iff in HH.
    destruct HH as [X|X]; apply String.eqb_eq in X; injection X as ->; reflexivity.
Qed.

Lemma go_home_returns_to_recorded_home_witness :
  exists s1 s2 : State,
    run_ticks [tick (Some "S"%char) 60 true] slow_profile_state = Some s1 /\
    loop (tick (Some "H"%char) 80 true) s1 = Some s2 /\
    homePosition s2 = homePosition slow_profile_state /\
    (autoTestMode s1 = false ->
     Stepper.currentPos (stepper s2) = homePosition slow_profile_state /\
     Stepper.distanceToGo (stepper s2) = 0 /\
     autoTestMode s2 = false /\
     out s2 = ManualHomeReached :: GoingHomeManually :: out s1) /\
    (autoTestMode s1 = true -> handleCommand (tick (Some "H"%char) 80 true) s1 = Some s1).
Proof.
  apply (go_home_returns_to_recorded_home slow_profile_state
           [tick (Some "S"%char) 60 true] (tick (Some "H"%char) 80 true) "H"%char).
  - exact slow_profile_reachable.
  - repeat constructor. intros c E. injection E as <-. reflexivity.
  - reflexivity.
  - reflexivity.
Defined.

Lemma run_within (due : bool) (m : Stepper.t) :
  0 <= Stepper.currentPos m <= testDistance ->
  0 <= Stepper.targetPos m <= testDistance ->
  0 <= Stepper.currentPos (Stepper.run due m) <= testDistance /\
  0 <= Stepper.targetPos (Stepper.run due m) <= testDistance.
Proof.
  intros P T. rewrite StepperFacts.run_keeps_target.
  pose proof (StepperFacts.run_between due m). lia.
Qed.

Lemma startNextTest_carriage (now : Z) (s s' : State) :
  homePosition s = 0 ->
  0 <= Stepper.currentPos (stepper s) <= testDistance ->
  startNextTest now s = Some s' -> travel_inv s'.
Proof.
  unfold travel_inv, startNextTest, startLogging, bind, testDistance.
  intros H P.
  destruct (tests_at (currentTestIndex s)); intros E; [|discriminate].
  injection E as <-. ast_fields. rewrite H.
  change (wrap_long (0 + 56000)) with 56000.
  split; [reflexivity|]. split; [exact P|]. intros _. lia.
Qed.

Lemma handleCommand_carriage (i : Input) (s s' : State) :
  travel_inv s -> keeps_home i -> handleCommand i s = Some s' -> travel_inv s'.
Proof.
  intros V K. unfold handleCommand.
  destruct (serial i) as [cmd|] eqn:Si; [|intros E; injection E as <-; exact V].
  specialize (K cmd Si). rewrite K.
  pose proof V as (H & P & T).
  destruct (is_char cmd "A" "a").
  { unfold startAutoTest. destruct (autoTestMode s);
      [intros E; injection E as <-; exact V|].
    apply startNextTest_carriage; ast_fields; assumption. }
  destruct (is_char cmd "S" "s").
  { intros E. injection E as <-.
    unfold travel_inv, stopAutoTest.
    destruct (autoTestMode s) eqn:Ha; cbn [negb]; ast_fields; [|rewrite Ha; auto].
    destruct (stopLogging_frame (set_testState IDLE (set_autoTestMode false s)))
      as (_ & -> & -> & _ & _ & -> & _).
    ast_fields. repeat split; first [lia | discriminate]. }
  destruct (is_char cmd "H" "h"); [|intros E; injection E as <-; exact V].
  destruct (autoTestMode s) eqn:Ha; intros E; injection E as <-;
    [unfold travel_inv; rewrite Ha; auto|].
  unfold travel_inv.
  destruct (goHomeManual_arrives s) as (G1 & _ & G3 & _ & G5 & _).
  rewrite G5, G1, G3, H, Ha. unfold testDistance. repeat split; first [lia | discriminate].
Qed.

Lemma stateMachine_carriage (i : Input) (s s' : State) :
  travel_inv s -> stateMachine i s = Some s' -> travel_inv s'.
Proof.
  intros V. pose proof V as (H & P & T).
  unfold stateMachine.
  destruct (autoTestMode s) eqn:Ha; [|intros E; injection E as <-; exact V].
  specialize (T eq_refl).
  destruct (run_within (step_due i) (stepper s) P T) as [P1 T1].
  destruct (testState s).
  - intros E; injection E as <-; exact V.
  - destruct (_ =? 0); intros E; injection E as <-; unfold travel_inv; ast_fields;
      [|auto].
    destruct (stopLogging_frame (set_stepper (Stepper.run (step_due i) (stepper s)) s))
      as (_ & -> & _ & _ & _ & -> & _).
    ast_fields. rewrite H. unfold testDistance in *.
    split; [reflexivity|]. split; [lia|]. intros _. lia.
  - destruct (debugReturning_frame i (set_stepper (Stepper.run (step_due i) (stepper s)) s))
      as (Fa & _ & _ & Fh & _ & _ & _ & _ & Fs & _).
    set (x := debugReturning i _) in *. clearbody x. fields.
    rewrite <- Fs in P1, T1. rewrite <- Fh in H.
    destruct (_ =? 0);
      [|intros E; injection E as <-; unfold travel_inv; auto].
    destruct (_ >=? 8);
      [intros E; injection E as <-; unfold travel_inv; ast_fields;
       repeat split; try assumption; try lia; discriminate|].
    apply startNextTest_carriage; ast_fields; assumption.
  - intros E; injection E as <-; exact V.
Qed.

Lemma dataLogging_carriage (i : Input) (s s' : State) :
  travel_inv s -> dataLogging i s = Some s' -> travel_inv s'.
Proof.
  intros V. unfold dataLogging, logData, bind.
  destruct (isLogging s); [|intros E; injection E as <-; exact V].
  destruct (_ >=? _); [|intros E; injection E as <-; exact V].
  fields. destruct (tests_at (currentTestIndex s)); intros E; [|discriminate].
  injection E as <-. exact V.
Qed.

Lemma loop_carriage (i : Input) (s s' : State) :
  travel_inv s -> keeps_home i -> loop i s = Some s' -> travel_inv s'.
Proof.
  intros V K. unfold loop.
  destruct (handleCommand i s) as [s1|] eqn:E1; cbn [bind]; [|discriminate].
  destruct (stateMachine i s1) as [s2|] eqn:E2; cbn [bind]; [|discriminate].
  intros E3. apply (dataLogging_carriage i s2 s'); [|exact E3].
  apply (stateMachine_carriage i s1 s2); [|exact E2].
  exact (handleCommand_carriage i s s1 V K E1).
Qed.

(** The carriage never leaves the test distance: from power-up, as long
    as home is not redefined (no command [0]), whatever else the serial
    port, the clock, the stepper timer and the library's [stop()] deliver,
    every pass of [loop] returns with home at the power-up position 0 and
    the stepper within [0, testDistance]; while a sequence is running the
    target it steps towards lies within [0, testDistance] too. *)
Theorem carriage_within_test_distance :
  forall ins : list Input,
    Forall keeps_home ins ->
    exists s' : State,
      run_ticks ins initial = Some s' /\
      homePosition s' = 0 /\
      0 <= Stepper.currentPos (stepper s') <= testDistance /\
      (autoTestMode s' = true ->
       0 <= Stepper.targetPos (stepper s') <= testDistance).
Proof.
  intros ins K.
  enough (G : forall s, coherent s -> travel_inv s ->
                        exists s', run_ticks ins s = Some s' /\ travel_inv s').
  { apply G; [exact initial_coherent|]. unfold travel_inv, testDistance. cbn.
    repeat split; first [lia | discriminate]. }
  induction K as [|i ins Ki _ IH]; intros s C T; cbn [run_ticks].
  - exists s. split; [reflexivity|exact T].
  - destruct (loop_coherent i s C) as (s1 & E1 & C1). rewrite E1. cbn [bind].
    apply IH; [exact C1|]. exact (loop_carriage i s s1 T Ki E1).
Qed.

Lemma carriage_within_test_distance_witness :
  exists s' : State,
    run_ticks [start_tick; due_tick; mkInput (Some "S"%char) true 37 5 5 5 5 5] initial
      = Some s' /\
    homePosition s' = 0 /\
    0 <= Stepper.currentPos (stepper s') <= testDistance /\
    (autoTestMode s' = true ->
     0 <= Stepper.targetPos (stepper s') <= testDistance).
Proof.
  apply (carriage_within_test_distance
           [start_tick; due_tick; mkInput (Some "S"%char) true 37 5 5 5 5 5]).
  repeat constructor; intros c E; vm_compute in E; try discriminate;
    injection E as <-; reflexivity.
Defined.

End AutoSpeedTestFacts.

(** ** loadcell_100g.ino *)

Module LoadCell100gFacts.
Import LoadCell100g.
(** *** The rationals satisfy the laws of exact arithmetic *)

Lemma Qc_ltb_spec (a b : Qc) : Exact.Qc_ltb a b = true <-> (a < b)%Qc.
Proof.
  unfold Exact.Qc_ltb, Qclt, Qlt, Qccompare, Qcompare.
  destruct (_ ?= _)%Z eqn:E; split; intros K; try discriminate; try reflexivity.
  - rewrite Z.compare_eq_iff in E. lia.
  - rewrite Z.compare_lt_iff in E. exact E.
  - rewrite Z.compare_gt_iff in E. lia.
Qed.

#[global] Instance Qc_exact : ExactArith Qc.
Proof.
  constructor; cbn [fadd fsub fdiv f0 of_int Exact.Qc_ops]; intros.
  - apply Qcplus_comm.
  - apply Qcplus_assoc.
  - apply Qcplus_0_l.
  - ring.
  - ring.
Qed.

(** *** The array, the index and the accepted value, in any arithmetic *)

Section BufferFacts.

Context {F : Type} `{FloatOps F}.

Lemma nth_set_nth (n : nat) (x : F) (l : list F) :
  (n < List.length l)%nat -> nth n (set_nth n x l) f0 = x.
Proof.
  revert n. induction l as [|a l IH]; intros n Hn; cbn [List.length] in Hn; [lia|].
  destruct n as [|n]; cbn [set_nth nth]; [reflexivity|]. apply IH. lia.
Qed.

Lemma length_set_nth (n : nat) (x : F) (l : list F) :
  List.length (set_nth n x l) = List.length l.
Proof.
  revert n. induction l as [|a l IH]; intros n; [destruct n; reflexivity|].
  destruct n as [|n]; cbn [set_nth List.length]; [reflexivity|]. rewrite IH. reflexivity.
Qed.

Lemma rem_index (i : Z) :
  0 <= i < SAMPLE_SIZE -> 0 <= Z.rem (i + 1) SAMPLE_SIZE < SAMPLE_SIZE.
Proof.
  unfold SAMPLE_SIZE. intros Hi. rewrite Z.rem_mod_nonneg by lia.
  apply Z.mod_pos_bound. lia.
Qed.

Lemma noiseFilter_buffer (value : F) (s : Filter) :
  readings (snd (noiseFilter value s)) = readings s /\
  readIndex (snd (noiseFilter value s)) = readIndex s /\
  total (snd (noiseFilter value s)) = total s /\
  average (snd (noiseFilter value s)) = average s.
Proof.
  unfold noiseFilter. destruct (flt _ _); cbn; repeat split; reflexivity.
Qed.

Lemma ingest_buffer (v : F) (s : Filter) :
  (readings (snd (ingest v s)), readIndex (snd (ingest v s)))
  = step_buffer v (readings s, readIndex s).
Proof.
  unfold ingest, movingAverageFilter.
  match goal with |- context [noiseFilter ?a ?t] =>
    destruct (noiseFilter_buffer a t) as (R & I & _ & _); rewrite R, I end.
  reflexivity.
Qed.

Lemma feed_snoc (n : nat) (v : F) (s : Filter) :
  feed (S n) v s = snd (ingest v (feed n v s)).
Proof.
  revert s. induction n as [|n IH]; intros s; [reflexivity|].
  cbn [feed] in *. rewrite IH. reflexivity.
Qed.

Lemma feed_add (a b : nat) (v : F) (s : Filter) :
  feed (a + b) v s = feed b v (feed a v s).
Proof.
  revert s. induction a as [|a IH]; intros s; [reflexivity|].
  cbn [feed Nat.add]. apply IH.
Qed.

Lemma feed_buffer (n : nat) (v : F) (s : Filter) :
  (readings (feed n v s), readIndex (feed n v s))
  = Nat.iter n (step_buffer v) (readings s, readIndex s).
Proof.
  induction n as [|n IH]; [reflexivity|].
  rewrite feed_snoc, ingest_buffer, IH. reflexivity.
Qed.

Lemma initial_in_bounds : in_bounds (initial (F := F)).
Proof.
  unfold in_bounds, initial. cbn [readings readIndex].
  split; [apply repeat_length|unfold SAMPLE_SIZE; lia].
Qed.

Lemma ingest_in_bounds (v : F) (s : Filter) :
  in_bounds s -> in_bounds (snd (ingest v s)).
Proof.
  intros (Hlen & Hidx).
  pose proof (ingest_buffer v s) as B. unfold step_buffer in B. cbn [fst snd] in B.
  injection B as R I. unfold in_bounds. rewrite R, I.
  split; [unfold set; rewrite length_set_nth; exact Hlen|apply rem_index; exact Hidx].
Qed.

Lemma resetFilters_in_bounds (s : Filter) :
  in_bounds s -> in_bounds (resetFilters s).
Proof.
  intros (_ & Hidx). unfold in_bounds, resetFilters. cbn [readings readIndex].
  split; [apply repeat_length|exact Hidx].
Qed.

Lemma run_ops_in_bounds (ops : list FilterOp) (s : Filter) :
  in_bounds s -> in_bounds (run_ops ops s).
Proof.
  revert s. induction ops as [|op ops IH]; intros s C; [exact C|].
  cbn [run_ops fold_left]. apply IH.
  destruct op; cbn [apply_op]; [apply ingest_in_bounds|apply resetFilters_in_bounds]; exact C.
Qed.

Lemma feed_in_bounds (n : nat) (v : F) (s : Filter) :
  in_bounds s -> in_bounds (feed n v s).
Proof.
  revert s. induction n as [|n IH]; intros s C; [exact C|].
  cbn [feed]. apply IH. apply ingest_in_bounds. exact C.
Qed.

(** Ten insertions overwrite the whole array, wherever the index stood. *)
Lemma buffer_full (v : F) (l : list F) (i : Z) :
  List.length l = Z.to_nat SAMPLE_SIZE -> 0 <= i < SAMPLE_SIZE ->
  fst (Nat.iter 10 (step_buffer v) (l, i)) = repeat v 10.
Proof.
  unfold SAMPLE_SIZE. intros Hl Hi.
  do 10 (destruct l as [|? l]; [discriminate Hl|]).
  destruct l; [|discriminate Hl].
  assert (E : i = 0 \/ i = 1 \/ i = 2 \/ i = 3 \/ i = 4 \/ i = 5 \/ i = 6
              \/ i = 7 \/ i = 8 \/ i = 9) by lia.
  repeat (destruct E as [E|E]; [subst i; reflexivity|]).
  subst i; reflexivity.
Qed.

Lemma step_buffer_full (v : F) (i : Z) :
  0 <= i < SAMPLE_SIZE ->
  fst (step_buffer v (repeat v 10, i)) = repeat v 10.
Proof.
  unfold SAMPLE_SIZE. intros Hi.
  assert (E : i = 0 \/ i = 1 \/ i = 2 \/ i = 3 \/ i = 4 \/ i = 5 \/ i = 6
              \/ i = 7 \/ i = 8 \/ i = 9) by lia.
  repeat (destruct E as [E|E]; [subst i; reflexivity|]).
  subst i; reflexivity.
Qed.

Lemma get_full (v : F) (i : Z) :
  0 <= i < SAMPLE_SIZE -> get (repeat v 10) i = v.
Proof.
  unfold SAMPLE_SIZE. intros Hi.
  assert (E : i = 0 \/ i = 1 \/ i = 2 \/ i = 3 \/ i = 4 \/ i = 5 \/ i = 6
              \/ i = 7 \/ i = 8 \/ i = 9) by lia.
  repeat (destruct E as [E|E]; [subst i; reflexivity|]).
  subst i; reflexivity.
Qed.

(** Once [v] has been fed ten times the array holds nothing else. *)
Lemma feed_fills (n : nat) (v : F) (s : Filter) :
  in_bounds s -> (10 <= n)%nat -> readings (feed n v s) = repeat v 10.
Proof.
  intros C Hn.
  replace n with ((n - 10) + 10)%nat by lia.
  rewrite feed_add.
  pose proof (feed_in_bounds (n - 10) v s C) as (L & I).
  pose proof (feed_buffer 10 v (feed (n - 10) v s)) as B.
  apply (f_equal fst) in B. cbn [fst] in B. rewrite B.
  apply buffer_full; assumption.
Qed.

(** What one insertion computes. *)
Lemma ingest_total (v : F) (s : Filter) :
  in_bounds s ->
  total (snd (ingest v s)) = fadd (fsub (total s) (get (readings s) (readIndex s))) v.
Proof.
  intros (Hlen & Hidx). unfold ingest, movingAverageFilter.
  match goal with |- context [noiseFilter ?a ?t] =>
    destruct (noiseFilter_buffer a t) as (_ & _ & T & _); rewrite T end.
  cbn [total]. unfold get, set. rewrite nth_set_nth; [reflexivity|].
  rewrite Hlen. unfold SAMPLE_SIZE in *. lia.
Qed.

Lemma noiseFilter_answered (candidate : F) (s : Filter) :
  average s = candidate -> answered (snd (noiseFilter candidate s)).
Proof.
  intros A. unfold answered, noiseFilter.
  destruct (flt (fabs (fsub candidate (previousWeight s))) NOISE_FILTER) eqn:D;
    cbn [snd average previousWeight].
  - right. rewrite A. exact D.
  - left. exact A.
Qed.

Lemma ingest_answered (v : F) (s : Filter) :
  average (snd (ingest v s)) = fdiv (total (snd (ingest v s))) (of_int SAMPLE_SIZE) /\
  answered (snd (ingest v s)).
Proof.
  unfold ingest, movingAverageFilter. split.
  - match goal with |- context [noiseFilter ?a ?t] =>
      destruct (noiseFilter_buffer a t) as (_ & _ & T & A); rewrite T, A
    end.
    reflexivity.
  - apply noiseFilter_answered. reflexivity.
Qed.

Lemma feed_answered (n : nat) (v : F) (s : Filter) :
  (1 <= n)%nat ->
  average (feed n v s) = fdiv (total (feed n v s)) (of_int SAMPLE_SIZE) /\
  answered (feed n v s).
Proof.
  intros Hn. destruct n as [|n]; [lia|]. rewrite feed_snoc. apply ingest_answered.
Qed.

(** The dead band, in any arithmetic: a candidate closer than
    [NOISE_FILTER] to the accepted value is answered by the accepted
    value, and nothing is updated. *)
Lemma noiseFilter_deadband (value : F) (s : Filter) :
  flt (fabs (fsub value (previousWeight s))) NOISE_FILTER = true ->
  noiseFilter value s = (previousWeight s, s).
Proof. intros D. unfold noiseFilter. rewrite D. reflexivity. Qed.

(** In such a filter one more [v] changes nothing but the index: the
    accepted value is returned and kept. *)
Lemma steady_ingest (v : F) (s : Filter) :
  steady v s ->
  fst (ingest v s) = previousWeight s /\
  previousWeight (snd (ingest v s)) = previousWeight s /\
  total (snd (ingest v s)) = total s /\
  average (snd (ingest v s)) = average s /\
  steady v (snd (ingest v s)).
Proof.
  intros (C & R & T & A & W).
  pose proof (ingest_in_bounds v s C) as C'.
  assert (R' : readings (snd (ingest v s)) = repeat v 10).
  { pose proof (ingest_buffer v s) as B. apply (f_equal fst) in B. cbn [fst] in B.
    rewrite B, R. apply step_buffer_full. apply C. }
  assert (T' : total (snd (ingest v s)) = total s).
  { rewrite (ingest_total v s C), R, (get_full v _ (proj2 C)). exact T. }
  destruct (ingest_answered v s) as [A' W'].
  assert (Av : average (snd (ingest v s)) = average s) by (rewrite A', T', A; reflexivity).
  assert (P : fst (ingest v s) = previousWeight s /\
              previousWeight (snd (ingest v s)) = previousWeight s).
  { clear C' R' T' A' W' Av. unfold ingest, movingAverageFilter.
    destruct C as [Hlen Hidx]. unfold get, set.
    rewrite nth_set_nth by (rewrite Hlen; unfold SAMPLE_SIZE in *; lia).
    rewrite R. fold (get (repeat v 10) (readIndex s)).
    rewrite (get_full v _ Hidx), T, <- A.
    unfold noiseFilter. cbn [previousWeight].
    destruct (flt (fabs (fsub (average s) (previousWeight s))) NOISE_FILTER) eqn:D;
      cbn [fst snd previousWeight].
    - split; reflexivity.
    - destruct W as [W|W]; [split; exact W|congruence]. }
  destruct P as [P1 P2].
  repeat split; try assumption; try apply C'.
  rewrite T'. exact T.
Qed.

Lemma steady_feed (m : nat) (v : F) (s : Filter) :
  steady v s ->
  steady v (feed m v s) /\
  previousWeight (feed m v s) = previousWeight s /\
  total (feed m v s) = total s /\
  average (feed m v s) = average s.
Proof.
  revert s. induction m as [|m IH]; intros s S0; [repeat split; try reflexivity; apply S0|].
  cbn [feed]. destruct (steady_ingest v s S0) as (_ & P & T & A & S1).
  destruct (IH _ S1) as (S2 & P2 & T2 & A2).
  split; [exact S2|]. repeat split; congruence.
Qed.

End BufferFacts.

(** C5, as stated, fails on the code, by rounding.  From the state after
    [setup], ten readings of 0.1 leave a running total of 1.00000012 and a
    moving average of 0.100000009, one unit in the last place above the
    [float] 0.1 that was fed.  After ten readings of 256.0, ten readings
    of 2^-13 give a moving average of 2^-10 / 10, not 2^-13.  And a
    further ingest of the same value need not return the accepted value:
    after [unsettled_ops] the array holds -16, eight times -67108872 and
    -268435488 while the running total is -16; ten readings of -67108872
    fill the array and bring the total to 2^27 = 134217728 and the
    accepted value to 13421773; the eleventh takes the total to 134217720
    ((2^27 + 67108872) - 67108872 in [float]), and returns and accepts
    13421772. *)
Lemma moving_average_misses_binary32 :
  average (feed 10 (of_ratio 1 10) (initial (F := spec_float)))
    = S754_finite false 13421774 (-27) /\
  of_ratio (F := spec_float) 1 10 = S754_finite false 13421773 (-27) /\
  average (feed 10 (of_ratio 1 10) (initial (F := spec_float)))
    <> of_ratio (F := spec_float) 1 10 /\
  average (feed 10 (of_ratio 1 8192) (feed 10 (of_int 256) (initial (F := spec_float))))
    <> of_ratio (F := spec_float) 1 8192 /\
  readings (feed 10 unsettled_reading (run_ops unsettled_ops initial))
    = repeat unsettled_reading 10 /\
  previousWeight (feed 10 unsettled_reading (run_ops unsettled_ops initial))
    = S754_finite false 13421773 0 /\
  fst (ingest unsettled_reading (feed 10 unsettled_reading (run_ops unsettled_ops initial)))
    = S754_finite false 13421772 0 /\
  fst (ingest unsettled_reading (feed 10 unsettled_reading (run_ops unsettled_ops initial)))
    <> previousWeight (feed 10 unsettled_reading (run_ops unsettled_ops initial)) /\
  previousWeight
    (snd (ingest unsettled_reading (feed 10 unsettled_reading (run_ops unsettled_ops initial))))
    <> previousWeight (feed 10 unsettled_reading (run_ops unsettled_ops initial)).
Proof.
  split; [vm_compute; reflexivity|]. split; [vm_compute; reflexivity|].
  split; [vm_compute; discriminate|]. split; [vm_compute; discriminate|].
  split; [vm_compute; reflexivity|]. split; [vm_compute; reflexivity|].
  split; [vm_compute; reflexivity|]. split; vm_compute; discriminate.
Qed.

(** C5, amended to what the code computes, in its own arithmetic and in
    any other.  Feeding the same raw value [v] at least [SAMPLE_SIZE]
    times, from the state after any sequence of insertions and resets,
    leaves the array holding [v] in every slot and the moving average at
    the quotient of the running total by [SAMPLE_SIZE].  If one more
    ingest of [v] then leaves the running total as it is, every further
    ingest of [v] returns the value accepted by then and leaves it, the
    running total and the average unchanged.  And a candidate within the
    noise threshold of the accepted value yields the accepted value and
    updates nothing. *)
Theorem filter_holds_accepted_value :
  forall (F : Type) (O : FloatOps F) (ops : list FilterOp) (v : F) (N : nat),
    (Z.to_nat SAMPLE_SIZE <= N)%nat ->
    let s := feed N v (run_ops ops initial) in
    readings s = repeat v (Z.to_nat SAMPLE_SIZE) /\
    average s = fdiv (total s) (of_int SAMPLE_SIZE) /\
    (total (snd (ingest v s)) = total s ->
     forall m : nat,
       fst (ingest v (feed m v s)) = previousWeight s /\
       previousWeight (snd (ingest v (feed m v s))) = previousWeight s /\
       total (snd (ingest v (feed m v s))) = total s /\
       average (snd (ingest v (feed m v s))) = average s) /\
    (forall (value : F) (t : Filter),
       flt (fabs (fsub value (previousWeight t))) NOISE_FILTER = true ->
       noiseFilter value t = (previousWeight t, t)).
Proof.
  intros F O ops v N HN s.
  change (Z.to_nat SAMPLE_SIZE) with 10%nat in *.
  assert (C0 : in_bounds (run_ops ops initial))
    by (apply run_ops_in_bounds; apply initial_in_bounds).
  assert (C : in_bounds s) by (apply feed_in_bounds; exact C0).
  assert (R : readings s = repeat v 10) by (apply feed_fills; assumption).
  destruct (feed_answered N v (run_ops ops initial)) as [A W]; [lia|].
  fold s in A, W.
  split; [exact R|]. split; [exact A|].
  split; [|intros value t; apply noiseFilter_deadband].
  intros T m.
  assert (S0 : steady v s).
  { split; [exact C|]. split; [exact R|]. split; [|split; assumption].
    rewrite (ingest_total v s C), R, (get_full v _ (proj2 C)) in T. exact T. }
  destruct (steady_feed m v s S0) as (Sm & Pm & Tm & Am).
  destruct (steady_ingest v _ Sm) as (I1 & I2 & I3 & I4 & _).
  rewrite I1, I2, I3, I4, Pm, Tm, Am. repeat split; reflexivity.
Qed.

(** On binary32: twelve readings of 0.1 after [drift_ops]; the thirteenth
    leaves the running total as it is. *)
Lemma filter_holds_accepted_value_witness :
  let v : spec_float := of_ratio 1 10 in
  let s := feed 12 v (run_ops drift_ops initial) in
  total (snd (ingest v s)) = total s /\
  readings s = repeat v (Z.to_nat SAMPLE_SIZE) /\
  average s = fdiv (total s) (of_int SAMPLE_SIZE) /\
  (total (snd (ingest v s)) = total s ->
   forall m : nat,
     fst (ingest v (feed m v s)) = previousWeight s /\
     previousWeight (snd (ingest v (feed m v s))) = previousWeight s /\
     total (snd (ingest v (feed m v s))) = total s /\
     average (snd (ingest v (feed m v s))) = average s) /\
  (forall (value : spec_float) (t : Filter),
     flt (fabs (fsub value (previousWeight t))) NOISE_FILTER = true ->
     noiseFilter value t = (previousWeight t, t)).
Proof.
  split; [vm_compute; reflexivity|].
  apply (filter_holds_accepted_value spec_float Binary32.b32_ops drift_ops (of_ratio 1 10) 12).
  unfold SAMPLE_SIZE. cbn. lia.
Defined.

(** *** The laws of exact sums *)

Section ExactFilter.

Context {F : Type} `{ExactArith F}.

Lemma add_0_r (a : F) : fadd a f0 = a.
Proof. rewrite add_comm. apply add_0_l. Qed.

Lemma fold_left_sumr (l : list F) (a : F) : fold_left fadd l a = fadd a (sumr l).
Proof.
  revert a. induction l as [|x l IH]; intros a; cbn [fold_left sumr fold_right].
  - symmetry. apply add_0_r.
  - rewrite IH. symmetry. apply add_assoc.
Qed.

(** [(a + s) - b = a + (s - b)], from the two cancellation laws. *)
Lemma add_sub_assoc (a s b : F) : fsub (fadd a s) b = fadd a (fsub s b).
Proof.
  rewrite <- (sub_add s b) at 1. rewrite add_assoc. apply add_sub.
Qed.

Lemma sumr_set_nth (n : nat) (x : F) (l : list F) :
  (n < List.length l)%nat ->
  sumr (set_nth n x l) = fadd (fsub (sumr l) (nth n l f0)) x.
Proof.
  revert n. induction l as [|a l IH]; intros n Hn; cbn [List.length] in Hn; [lia|].
  destruct n as [|n]; cbn [set_nth nth sumr fold_right].
  - rewrite (add_comm a), add_sub. apply add_comm.
  - fold (sumr l). fold (sumr (set_nth n x l)).
    rewrite IH by lia. rewrite add_sub_assoc. apply add_assoc.
Qed.

End ExactFilter.

(** C6, as stated, fails on the code: the sums are [float] sums.  After
    ten readings of 256.0 and ten of 2^-13 (the values of [drift_ops]) the
    array holds ten times 2^-13, so the sum recomputed from scratch is
    10 x 2^-13, but the running total is 2^-10 = 8 x 2^-13: the first two
    small readings were added to a total of 2304 and of 2048, where a
    binary32 number cannot hold 2^-13 more (the spacing there is 2^-12 and
    the tie rounds to the even neighbour). *)
Lemma running_total_drifts_binary32 :
  total (run_ops drift_ops initial) = S754_finite false 8388608 (-33) /\
  recomputed_sum (run_ops drift_ops initial) = S754_finite false 10485760 (-33) /\
  total (run_ops drift_ops initial) <> recomputed_sum (run_ops drift_ops initial) /\
  readings (run_ops drift_ops initial) = repeat (S754_finite false 8388608 (-36)) 10.
Proof.
  split; [vm_compute; reflexivity|]. split; [vm_compute; reflexivity|].
  split; [vm_compute; discriminate|vm_compute; reflexivity].
Qed.

(** *** The running total where nothing is rounded *)

Lemma Qc_eqb_eq (a b : Qc) : Qc_eqb a b = true -> a = b.
Proof.
  unfold Qc_eqb. intros H. apply Qc_is_canon. apply Qeq_bool_eq. exact H.
Qed.

Lemma map_set_nth (n : nat) (x : spec_float) (l : list spec_float) :
  map value (set_nth n x l) = set_nth n (value x) (map value l).
Proof.
  revert n. induction l as [|a l IH]; intros n; [destruct n; reflexivity|].
  destruct n as [|n]; cbn [set_nth map]; [reflexivity|]. rewrite IH. reflexivity.
Qed.

Lemma initial_value_consistent : value_consistent initial.
Proof.
  unfold value_consistent. split; [reflexivity|]. split; [unfold SAMPLE_SIZE; cbn; lia|].
  apply Qc_is_canon. reflexivity.
Qed.

Lemma unrounded_insert_consistent (v : spec_float) (s : Filter) :
  value_consistent s -> unrounded_insert v s = true ->
  value_consistent (snd (ingest v s)).
Proof.
  intros (Hlen & Hidx & Htot) U.
  unfold unrounded_insert in U. cbv zeta in U.
  apply andb_prop in U. destruct U as [U E2].
  apply andb_prop in U. destruct U as [_ E1].
  apply Qc_eqb_eq in E1. apply Qc_eqb_eq in E2.
  assert (Hn : (Z.to_nat (readIndex s) < List.length (readings s))%nat)
    by (rewrite Hlen; unfold SAMPLE_SIZE in *; lia).
  unfold ingest, movingAverageFilter.
  match goal with |- context [noiseFilter ?a ?t] =>
    destruct (noiseFilter_buffer a t) as (R & I & T & _) end.
  unfold value_consistent. rewrite R, I, T. cbn [readings readIndex total].
  split; [unfold set; rewrite length_set_nth; exact Hlen|].
  split; [apply rem_index; exact Hidx|].
  unfold get, set in *. rewrite nth_set_nth by exact Hn.
  rewrite E2, E1, Htot, map_set_nth.
  rewrite sumr_set_nth by (rewrite length_map; exact Hn).
  change (@f0 Qc _) with (value (@f0 spec_float _)). rewrite map_nth. reflexivity.
Qed.

Lemma resetFilters_value_consistent (s : Filter) :
  value_consistent s -> value_consistent (resetFilters s).
Proof.
  intros (_ & Hidx & _). pose proof initial_value_consistent as (L & _ & T).
  unfold value_consistent, resetFilters. cbn [readings readIndex total].
  split; [exact L|]. split; [exact Hidx|]. exact T.
Qed.

(** C6, amended to the code's own arithmetic: after [setup] and along
    every sequence of insertions and resets in which the updates of the
    running total incur no rounding, the number held in [total] is the
    exact sum of the numbers held in the array. *)
Theorem unrounded_total_is_exact_sum :
  forall ops : list (FilterOp (F := spec_float)),
    unrounded ops initial = true ->
    value (total (run_ops ops initial))
    = sumr (map value (readings (run_ops ops initial))).
Proof.
  intros ops U.
  enough (G : forall s, value_consistent s -> unrounded ops s = true ->
                        value_consistent (run_ops ops s)).
  { destruct (G initial initial_value_consistent U) as (_ & _ & T). exact T. }
  clear U. induction ops as [|op ops IH]; intros s C U; [exact C|].
  cbn [run_ops fold_left]. destruct op as [v|]; cbn [unrounded] in U.
  - apply andb_prop in U. destruct U as [U1 U2].
    apply IH; [|exact U2]. cbn [apply_op]. apply unrounded_insert_consistent; assumption.
  - apply IH; [|exact U]. cbn [apply_op]. apply resetFilters_value_consistent. exact C.
Qed.

Lemma unrounded_total_is_exact_sum_witness :
  value (total (run_ops dyadic_ops initial))
  = sumr (map value (readings (run_ops dyadic_ops initial))).
Proof.
  apply (unrounded_total_is_exact_sum dyadic_ops). vm_compute. reflexivity.
Defined.

(** The readings of [drift_ops] do incur rounding. *)
Lemma drift_ops_round : unrounded drift_ops initial = false.
Proof. vm_compute. reflexivity. Qed.

(** *** The calibration dialogue *)

Section CalibrateFacts.

Context {F : Type} `{FloatOps F}.
Variable toFloat : string -> F.

Lemma string_of_list_app (a b : list ascii) :
  string_of_list_ascii (a ++ b) = (string_of_list_ascii a ++ string_of_list_ascii b)%string.
Proof. induction a as [|c a IH]; cbn; [reflexivity|]. rewrite IH. reflexivity. Qed.

Lemma string_app_assoc (a b c : string) :
  ((a ++ b) ++ c = a ++ (b ++ c))%string.
Proof. induction a as [|x a IH]; cbn; [reflexivity|]. rewrite IH. reflexivity. Qed.

Lemma string_app_nil (a : string) : (a ++ EmptyString)%string = a.
Proof. induction a as [|x a IH]; cbn; [reflexivity|]. rewrite IH. reflexivity. Qed.

(** The turns of a line not yet ended: the digits and dots are appended to
    [inputString], a [t] tares, every other byte is ignored. *)
Lemma calibrate_loop_line (line more : list Tick) (d : Dialogue) :
  Forall (fun t => key t <> Some newline) line ->
  exists d' : Dialogue,
    calibrate_loop toFloat (line ++ more) d = calibrate_loop toFloat more d' /\
    inputString d' = (inputString d ++ typed (keys line))%string /\
    tares d' = (tares d + tare_requests (keys line))%nat.
Proof.
  intros L. revert d. induction L as [|t line Ht _ IH]; intros d.
  - exists d. cbn. split; [reflexivity|]. split; [|lia].
    unfold typed. cbn. symmetry. apply string_app_nil.
  - cbn [app calibrate_loop]. cbv zeta.
    set (d1 := match fresh t with Some rawValue => say (CurrentRawValue rawValue) d | None => d end).
    assert (D1 : inputString d1 = inputString d /\ tares d1 = tares d)
      by (subst d1; destruct (fresh t); split; reflexivity).
    destruct D1 as [D1 D2]. clearbody d1.
    unfold keys. cbn [flat_map]. fold (keys line).
    destruct (key t) as [c|] eqn:Kt.
    2:{ destruct (IH d1) as (d' & E & I & T). exists d'. split; [exact E|].
        cbn [app]. rewrite I, T, D1, D2. split; reflexivity. }
    unfold typed, tare_requests. cbn [app List.filter]. unfold is_mass_char.
    destruct (Ascii.eqb c "t") eqn:Et.
    { apply Ascii.eqb_eq in Et. subst c. cbn [isDigit orb].
      match goal with |- context [calibrate_loop _ _ ?x] => destruct (IH x) as (d' & E & I & T) end.
      exists d'. split; [exact E|]. rewrite I, T. cbn. fold (typed (keys line)).
      fold (tare_requests (keys line)). rewrite D1, D2. split; [reflexivity|lia]. }
    destruct (Ascii.eqb c newline) eqn:En.
    { apply Ascii.eqb_eq in En. subst c. contradiction. }
    destruct (isDigit c || Ascii.eqb c ".") eqn:Em.
    + match goal with |- context [calibrate_loop _ _ ?x] => destruct (IH x) as (d' & E & I & T) end.
      exists d'. split; [exact E|]. rewrite I, T. cbn [inputString tares].
      fold (typed (keys line)). fold (tare_requests (keys line)). rewrite D1, D2.
      split; [|reflexivity].
      cbn [string_of_list_ascii]. rewrite string_app_assoc. reflexivity.
    + destruct (IH d1) as (d' & E & I & T). exists d'. split; [exact E|].
      rewrite I, T, D1, D2. split; reflexivity.
Qed.

(** [calibrate] reads a line the way a user expects, and nothing else:
    of the bytes received before a newline only the digits and dots count
    (they form the mass, parsed by [String::toFloat]), every [t] among them
    tares the scale, every other byte is ignored.  If the line holds such
    characters and the mass parsed is positive, the dialogue ends at the
    newline with that mass and the calibration value of that turn, leaving
    the later input unread; otherwise (an empty line, or a mass that is not
    positive) the line is dropped and the dialogue carries on with an empty
    [inputString]. *)
Theorem calibrate_reads_the_typed_line :
  forall (line : list Tick) (nl : Tick) (rest : list Tick) (d0 : Dialogue),
    inputString d0 = EmptyString ->
    Forall (fun t => key t <> Some newline) line ->
    key nl = Some newline ->
    exists d : Dialogue,
      inputString d = EmptyString /\
      tares d = (tares d0 + tare_requests (keys line))%nat /\
      calibrate_loop toFloat (line ++ nl :: rest) d0
      = if (0 <? String.length (typed (keys line)))%nat
           && fgt (toFloat (typed (keys line))) f0
        then Completed (toFloat (typed (keys line)))
               (reply nl (toFloat (typed (keys line)))) d rest
        else calibrate_loop toFloat rest d.
Proof.
  intros line nl rest d0 I0 L Knl.
  destruct (calibrate_loop_line line (nl :: rest) d0 L) as (d1 & E & I & T).
  rewrite I0 in I. cbn [String.append] in I. rewrite E.
  cbn [calibrate_loop]. cbv zeta.
  set (d2 := match fresh nl with Some rawValue => say (CurrentRawValue rawValue) d1 | None => d1 end).
  assert (D : inputString d2 = inputString d1 /\ tares d2 = tares d1)
    by (subst d2; destruct (fresh nl); split; reflexivity).
  destruct D as [D1 D2]. clearbody d2.
  rewrite Knl. change (Ascii.eqb newline "t") with false.
  change (Ascii.eqb newline newline) with true. cbv iota.
  rewrite D1, I.
  destruct (0 <? String.length (typed (keys line)))%nat eqn:P; cbn [andb].
  - destruct (fgt (toFloat (typed (keys line))) f0).
    + eexists. split; [|split; [|reflexivity]]; cbn [inputString tares say]; [reflexivity|].
      rewrite D2. exact T.
    + eexists. split; [|split; [|reflexivity]]; cbn [inputString tares]; [reflexivity|].
      rewrite D2. exact T.
  - apply Nat.ltb_ge in P.
    exists d2. split; [|split; [|reflexivity]]; [|rewrite D2; exact T].
    rewrite D1, I. destruct (typed (keys line)); [reflexivity|].
    cbn [String.length] in P. lia.
Qed.

End CalibrateFacts.

Lemma calibrate_reads_the_typed_line_witness :
  Forall (fun t => key t <> Some newline) typed_line /\
  key return_key = Some newline /\
  exists d : Dialogue,
    inputString d = EmptyString /\
    tares d = 1%nat /\
    calibrate_loop decimal (typed_line ++ return_key :: nil)
      (mkDialogue EmptyString 0 (CalibrationBanner :: nil))
    = Completed (Exact.Qc_of_ratio 25 2) (of_int 20000) d nil.
Proof.
  assert (L : Forall (fun t : Tick (F := Qc) => key t <> Some newline) typed_line)
    by (repeat constructor; discriminate).
  split; [exact L|]. split; [reflexivity|].
  destruct (calibrate_reads_the_typed_line decimal typed_line return_key nil
              (mkDialogue EmptyString 0 (CalibrationBanner :: nil))
              eq_refl L eq_refl) as (d & I & T & E).
  exists d. split; [exact I|]. split; [exact T|].
  rewrite E.
  change ((0 <? String.length (typed (keys typed_line)))%nat) with true.
  change (typed (keys typed_line)) with "12.5"%string.
  replace (decimal "12.5") with (Exact.Qc_of_ratio 25 2)
    by (apply Qc_is_canon; reflexivity).
  reflexivity.
Defined.

(** *** The stability flag *)

Section StabilityFacts.

Context {F : Type} `{FloatOps F}.

Lemma ingest_stability (v : F) (s : Filter) :
  lastStableValue (snd (ingest v s)) = lastStableValue s /\
  isStable (snd (ingest v s)) = isStable s.
Proof.
  unfold ingest, movingAverageFilter, noiseFilter. cbv zeta.
  match goal with |- context [if ?c then _ else _] => destruct c end;
    split; reflexivity.
Qed.

Lemma reference_from_frame (early : list ScaleLine) (sc sc' : Scale) :
  lastStableValue (filter sc') = lastStableValue (filter sc) ->
  lastChangeTime sc' = lastChangeTime sc ->
  reference_from early sc -> reference_from early sc'.
Proof.
  unfold reference_from. intros -> ->. exact (fun R => R).
Qed.

Lemma stability_inv_snoc (w : F) (now : Z) (b : bool) (sc sc' : Scale)
    (log : list ScaleLine) :
  lastStableValue (filter sc') = lastStableValue (filter sc) ->
  lastChangeTime sc' = lastChangeTime sc ->
  fgt (fabs (fsub w (lastStableValue (filter sc)))) STABILITY_THRESHOLD = false ->
  (isStable (filter sc') = true ->
   isStable (filter sc) = true \/ 1000 < wrap_ulong (now - lastChangeTime sc)) ->
  stability_inv sc log ->
  stability_inv sc' (log ++ [Weight w now b]).
Proof.
  intros V T G S (early & recent & E & R & N & L).
  exists early, (recent ++ [Weight w now b]). repeat split.
  - rewrite E, app_assoc. reflexivity.
  - exact (reference_from_frame early sc sc' V T R).
  - rewrite V. apply Forall_app. split; [exact N|].
    constructor; [exact G | constructor].
  - intros S'. rewrite T. apply Exists_app.
    destruct (S S') as [S0 | S0]; [left; exact (L S0) | right; constructor; exact S0].
Qed.

Lemma measure_inv (rawValue : F) (now : Z) (sc : Scale) (log : list ScaleLine) :
  stability_inv sc log ->
  stability_inv (snd (measure rawValue now sc)) (log ++ [fst (measure rawValue now sc)]).
Proof.
  intros I.
  unfold measure.
  destruct (ingest_stability rawValue (filter sc)) as [Iv Is].
  destruct (ingest rawValue (filter sc)) as [w s] eqn:Ei. cbn [snd] in Iv, Is.
  unfold checkStability, displayWeight. cbn [filter lastChangeTime]. cbv zeta.
  rewrite Iv, Is.
  destruct (fgt (fabs (fsub w (lastStableValue (filter sc)))) STABILITY_THRESHOLD) eqn:G.
  - (* the weight leaves the band: it becomes the reference *)
    cbn [fst snd filter lastChangeTime lastStableValue isStable].
    exists (log ++ [Weight w now false]), []. repeat split.
    + now rewrite app_nil_r.
    + right; right. exists log. reflexivity.
    + constructor.
    + discriminate.
  - destruct (isStable (filter sc)) eqn:S; cbn [negb andb].
    + cbn [fst snd].
      apply (stability_inv_snoc w now _ sc); cbn [filter lastChangeTime];
        auto.
    + destruct (1000 <? wrap_ulong (now - lastChangeTime sc)) eqn:T; cbn [fst snd].
      * apply (stability_inv_snoc w now _ sc);
          cbn [filter lastChangeTime lastStableValue isStable]; auto.
        intros _. right. apply Z.ltb_lt. exact T.
      * apply (stability_inv_snoc w now _ sc); cbn [filter lastChangeTime]; auto.
        rewrite Is. discriminate.
Qed.

Lemma tare_complete_inv (sc : Scale) (log : list ScaleLine) :
  stability_inv (snd (tare_complete sc)) (log ++ [fst (tare_complete sc)]).
Proof.
  exists (log ++ [TareComplete]), []. repeat split.
  - now rewrite app_nil_r.
  - right; left. exists log. split; reflexivity.
  - constructor.
  - discriminate.
Qed.

Lemma weigh_inv (ops : list ScaleOp) (st : Scale * list ScaleLine) :
  stability_inv (fst st) (snd st) ->
  stability_inv (fst (fold_left scale_op ops st)) (snd (fold_left scale_op ops st)).
Proof.
  revert st. induction ops as [|op ops IH]; intros st I; [exact I|].
  cbn [fold_left]. apply IH. unfold scale_op.
  destruct op as [rawValue now|].
  - pose proof (measure_inv rawValue now (fst st) (snd st) I) as M.
    destruct (measure rawValue now (fst st)). exact M.
  - pose proof (tare_complete_inv (fst st) (snd st)) as M.
    destruct (tare_complete (fst st)). exact M.
Qed.

(** Whenever the scale is marked stable, the log ends with a run of
    weight lines that all lie within [STABILITY_THRESHOLD] of
    [lastStableValue], one of them read more than 1000 ms after
    [lastChangeTime]; and that run starts right where the reference was
    set: at start-up, at the last tare line, or just after the weight line
    that last left the band (which carries the reference and its time).
    A tare resets the reference to 0 but leaves [lastChangeTime] alone. *)
Theorem stable_mark_means_quiet_run :
  forall (ops : list ScaleOp) (sc : Scale) (log : list ScaleLine),
    weigh ops scale_initial = (sc, log) ->
    isStable (filter sc) = true ->
    exists early recent : list ScaleLine,
      log = early ++ recent /\
      reference_from early sc /\
      Forall (near (lastStableValue (filter sc))) recent /\
      Exists (late (lastChangeTime sc)) recent.
Proof.
  intros ops sc log W S.
  assert (I : stability_inv sc log).
  { pose proof (weigh_inv ops (scale_initial, [])) as K.
    unfold weigh in W. rewrite W in K. apply K.
    exists [], []. split; [reflexivity|]. split; [|split].
    - left. repeat split.
    - constructor.
    - discriminate. }
  destruct I as (early & recent & E & R & N & L).
  exists early, recent. repeat split; auto.
Qed.

End StabilityFacts.

Lemma stable_mark_means_quiet_run_witness :
  isStable (filter (fst (weigh tare_then_read scale_initial))) = true /\
  exists early recent : list ScaleLine,
    snd (weigh tare_then_read scale_initial) = early ++ recent /\
    reference_from early (fst (weigh tare_then_read scale_initial)) /\
    Forall (near (lastStableValue (filter (fst (weigh tare_then_read scale_initial)))))
      recent /\
    Exists (late (lastChangeTime (fst (weigh tare_then_read scale_initial)))) recent.
Proof.
  assert (S : isStable (filter (fst (weigh tare_then_read scale_initial))) = true)
    by (vm_compute; reflexivity).
  split; [exact S|].
  exact (stable_mark_means_quiet_run tare_then_read _ _
           (surjective_pairing (weigh tare_then_read scale_initial)) S).
Defined.

End LoadCell100gFacts.

(** ** The mode-based tester *)

Module Tester5Facts.
Import Tester5.
Ltac fields5 :=
  cbn [readings readIndex total calibrationFactor eeprom calFactor currentMode
       motorState homePosition targetPosition currentTestIndex nextAutoTestIndex
       emergencyStop lastForce contactDetected isStreaming startTime
       lastSampledPosition lastMonitorDisplayTime stepper out
       println set_readings set_readIndex set_total set_calibrationFactor
       set_eeprom set_calFactor set_currentMode set_motorState set_homePosition
       set_targetPosition set_currentTestIndex set_nextAutoTestIndex
       set_emergencyStop set_lastForce set_contactDetected set_isStreaming
       set_startTime set_lastSampledPosition set_lastMonitorDisplayTime
       set_stepper] in *.

(** C8. Starting a test with a profile index outside [0, 8) is rejected:
    [enterNormalTestMode] prints the invalid-index error line and returns;
    the mode, the motor sub-state and every other controller variable are
    what they were (only the error line is added to the serial output). *)
Theorem enterNormalTestMode_rejects_invalid_index :
  forall (now testIndex : Z) (s : State),
    ~ (0 <= testIndex < 8) ->
    enterNormalTestMode now testIndex s = Some (println InvalidTestIndex s) /\
    currentMode (println InvalidTestIndex s) = currentMode s /\
    motorState (println InvalidTestIndex s) = motorState s /\
    stepper (println InvalidTestIndex s) = stepper s /\
    isStreaming (println InvalidTestIndex s) = isStreaming s /\
    currentTestIndex (println InvalidTestIndex s) = currentTestIndex s /\
    targetPosition (println InvalidTestIndex s) = targetPosition s /\
    out (println InvalidTestIndex s) = InvalidTestIndex :: out s.
Proof.
  intros now testIndex s H. split; [|repeat split; reflexivity].
  unfold enterNormalTestMode.
  destruct (Z.ltb_spec testIndex 0) as [A|A]; [reflexivity|].
  destruct (Z.geb_spec testIndex 8) as [B|B]; [reflexivity|]. lia.
Qed.

Lemma enterNormalTestMode_rejects_invalid_index_witness :
  enterNormalTestMode 0 8 ready = Some (println InvalidTestIndex ready) /\
  currentMode (println InvalidTestIndex ready) = currentMode ready /\
  motorState (println InvalidTestIndex ready) = motorState ready /\
  stepper (println InvalidTestIndex ready) = stepper ready /\
  isStreaming (println InvalidTestIndex ready) = isStreaming ready /\
  currentTestIndex (println InvalidTestIndex ready) = currentTestIndex ready /\
  targetPosition (println InvalidTestIndex ready) = targetPosition ready /\
  out (println InvalidTestIndex ready) = InvalidTestIndex :: out ready.
Proof.
  apply (enterNormalTestMode_rejects_invalid_index 0 8 ready). lia.
Defined.

(** For a valid index the test starts (the counterpart of C2 in this
    sketch). *)
Lemma profile_at_valid_index (i : Z) : 0 <= i < 8 -> exists t, tests_at i = Some t.
Proof.
  intros H. unfold tests_at.
  assert (E : i = 0 \/ i = 1 \/ i = 2 \/ i = 3 \/ i = 4 \/ i = 5 \/ i = 6 \/ i = 7) by lia.
  repeat (destruct E as [E|E]; [subst i; eexists; reflexivity|]).
  subst i; eexists; reflexivity.
Qed.

Lemma enterNormalTestMode_starts_profile (now testIndex : Z) (s : State) :
  0 <= testIndex < 8 ->
  exists (s' : State) (t : SpeedTest),
    enterNormalTestMode now testIndex s = Some s' /\
    tests_at testIndex = Some t /\
    currentMode s' = MODE_NORMAL_TEST /\
    motorState s' = MOTOR_MOVING_DOWN /\
    currentTestIndex s' = testIndex /\
    targetPosition s' = wrap_long (homePosition s + testDistance) /\
    Stepper.targetPos (stepper s') = targetPosition s' /\
    Stepper.maxSpeed (stepper s') = speed t /\
    Stepper.acceleration (stepper s') = 0%Q /\
    isStreaming s' = true /\
    out s' = MovingDown :: START_STREAM :: TestBanner t :: out s.
Proof.
  intros H. destruct (profile_at_valid_index testIndex H) as [t Ht].
  unfold enterNormalTestMode.
  destruct (Z.ltb_spec testIndex 0) as [A|A]; [lia|].
  destruct (Z.geb_spec testIndex 8) as [B|B]; [lia|].
  cbn [orb]. rewrite Ht. cbn [bind].
  eexists. exists t. split; [reflexivity|]. repeat split; reflexivity.
Qed.

(** *** The overload interlock *)

Lemma is_char_true (c : ascii) (upper lower : string) :
  is_char c upper lower = true ->
  String c EmptyString = upper \/ String c EmptyString = lower.
Proof.
  unfold is_char. intros H. apply orb_true_iff in H.
  destruct H as [H|H]; apply String.eqb_eq in H; auto.
Qed.

(** While the motor is busy no serial command makes a step or touches the
    emergency flag. *)
Lemma busy_command_keeps_position (i : Input) (s : State) :
  motorState s <> MOTOR_IDLE ->
  exists s', handleSerialCommand i s = Some s' /\
             emergencyStop s' = emergencyStop s /\
             Stepper.currentPos (stepper s') = Stepper.currentPos (stepper s).
Proof.
  intros Hbusy. unfold handleSerialCommand.
  destruct (serial i) as [cmd|]; [|eauto].
  destruct (is_char cmd "Q" "q").
  { destruct (SystemMode_eqb (currentMode s) MODE_IDLE); cbn [negb]; [eauto|].
    eexists. split; [reflexivity|]. unfold stopStreaming.
    destruct (isStreaming s); cbn [negb]; fields5; split; reflexivity. }
  destruct (motorState s) eqn:Hm; [contradiction| |];
    cbn [MotorState_eqb negb andb];
    (destruct (is_char cmd "S" "s") eqn:ES; cbn [orb negb];
     [destruct (is_char_true _ _ _ ES) as [E|E]; injection E as ->; cbn;
      eexists; (split; [reflexivity|]); unfold stopStreaming;
      destruct (isStreaming _); cbn [negb]; fields5; split; reflexivity|]);
    (destruct (is_char cmd "R" "r") eqn:ER; cbn [negb]; [|eauto]);
    destruct (is_char_true _ _ _ ER) as [E|E]; injection E as ->; cbn;
    match goal with |- context [digit_index ?c] =>
      change (digit_index c) with (@None Z) end; eauto.
Qed.

(** The command lockout of this sketch: while the motor sub-state is not
    idle, a command other than exit ([Q]) and stop ([S]) changes nothing
    at all ([R] passes the guard but no case handles it). *)
Lemma busy_command_dropped (i : Input) (s : State) :
  motorState s <> MOTOR_IDLE ->
  (forall cmd, serial i = Some cmd ->
     is_char cmd "Q" "q" = false /\ is_char cmd "S" "s" = false) ->
  handleSerialCommand i s = Some s.
Proof.
  intros Hm Hc. unfold handleSerialCommand.
  destruct (serial i) as [cmd|]; [|reflexivity].
  destruct (Hc cmd eq_refl) as [HQ HS]. rewrite HQ, HS.
  destruct (motorState s); [contradiction| |]; cbn [MotorState_eqb negb andb orb];
    (destruct (is_char cmd "R" "r") eqn:ER; cbn [negb]; [|reflexivity]);
    destruct (is_char_true _ _ _ ER) as [E|E]; injection E as ->; vm_compute; reflexivity.
Qed.

Lemma handleEmergencyStop_still (i : Input) (s : State) :
  Stepper.currentPos (stepper (handleEmergencyStop i s)) = Stepper.currentPos (stepper s) /\
  isStreaming (handleEmergencyStop i s) = false /\
  (emergencyStop (handleEmergencyStop i s) = emergencyStop s \/
   exists c, late_serial i = Some c /\ is_char c "R" "r" = true).
Proof.
  unfold handleEmergencyStop, stopStreaming. fields5.
  destruct (isStreaming s) eqn:L; cbn [negb]; fields5;
    (destruct (late_serial i) as [c|]; [destruct (is_char c "R" "r") eqn:ER|]); fields5;
    unfold Stepper.distanceToGo, Stepper.stop; cbn [Stepper.targetPos Stepper.currentPos];
    repeat split; try lia; try assumption; eauto.
Qed.

(** The filter state, and so the sampled force, does not depend on the
    stepper. *)
Lemma getFilteredForce_stepper (r : float) (m : Stepper.t) (s : State) :
  fst (getFilteredForce r (set_stepper m s)) = fst (getFilteredForce r s).
Proof. reflexivity. Qed.

(** *** The calibration store *)

(** C9 fails on the code at start-up: the range test of
    [loadCalibrationFromEEPROM] is written with [<] and [>], and both are
    false on a NaN.  An erased EEPROM (every byte 0xFF, the state of a new
    board) holds the bit pattern 0xFFFFFFFF at the calibration address,
    which is a NaN: it is not replaced by the default, no warning is
    printed, and [setup] hands it to the load cell as calibration
    factor. *)
Lemma erased_eeprom_loads_nan :
  exists s : State,
    setup false (power_on erased_eeprom) = Ready s /\
    float_of_bytes 255 255 255 255 = S754_nan /\
    calibrationFactor s = S754_nan /\
    calFactor s = S754_nan /\
    calibrationFactor s <> DEFAULT_CAL_FACTOR /\
    out s = [MainMenu; SystemReady; CalibrationFactorLoaded S754_nan].
Proof.
  eexists. split; [vm_compute; reflexivity|].
  repeat split; try reflexivity. discriminate.
Qed.

(** What the start-up check does guarantee: the factor in use passes the
    code's own range test (a stored value that fails it is replaced by
    the default). *)
Lemma loaded_factor_passes_range_test (s : State) :
  let s' := loadCalibrationFromEEPROM s in
  flt (calibrationFactor s') (of_int 5000) = false /\
  fgt (calibrationFactor s') (of_int 50000) = false /\
  (calibrationFactor s' = DEFAULT_CAL_FACTOR \/
   calibrationFactor s'
   = float_of_bytes (eeprom_read (eeprom s) 0) (eeprom_read (eeprom s) 1)
                    (eeprom_read (eeprom s) 2) (eeprom_read (eeprom s) 3)) /\
  eeprom s' = eeprom s.
Proof.
  unfold loadCalibrationFromEEPROM. fields5.
  set (x := float_of_bytes _ _ _ _).
  destruct (flt x (of_int 5000)) eqn:A; cbn [orb]; fields5.
  - repeat split; try reflexivity. left. reflexivity.
  - destruct (fgt x (of_int 50000)) eqn:B; fields5.
    + repeat split; try reflexivity. left. reflexivity.
    + repeat split; try assumption; try reflexivity. right. reflexivity.
Qed.

Lemma eeprom_set_length (n : nat) (b : Z) (mem : list Z) :
  List.length (eeprom_set n b mem) = List.length mem.
Proof.
  revert n. induction mem as [|a mem IH]; intros n; [destruct n; reflexivity|].
  destruct n; cbn [eeprom_set List.length]; [reflexivity|]. rewrite IH. reflexivity.
Qed.

Lemma eeprom_read_write (mem : list Z) (a a' b : Z) :
  0 <= a -> 0 <= a' -> (Z.to_nat a < List.length mem)%nat ->
  eeprom_read (eeprom_write mem a b) a' = if a' =? a then b else eeprom_read mem a'.
Proof.
  unfold eeprom_read, eeprom_write. intros Ha Ha' Hl.
  destruct (Z.eqb_spec a' a) as [->|N].
  - revert mem Hl. induction (Z.to_nat a) as [|n IH]; intros mem Hl;
      destruct mem as [|x mem]; cbn [List.length] in Hl; try lia; cbn; [reflexivity|].
    apply IH. lia.
  - assert (N' : Z.to_nat a' <> Z.to_nat a) by lia.
    revert mem Hl N'. generalize (Z.to_nat a'). clear N Ha Ha'.
    induction (Z.to_nat a) as [|n IH]; intros k mem Hl N';
      destruct mem as [|x mem]; cbn [List.length] in Hl; try lia.
    + destruct k; [contradiction|reflexivity].
    + destruct k; [reflexivity|]. cbn. apply IH; lia.
Qed.

(** The bytes at the calibration address after [store_float]. *)
Lemma store_float_reads_back (x : float) (mem : list Z) :
  (4 <= List.length mem)%nat ->
  eeprom_read (store_float x mem) 0 = float_byte x 0 /\
  eeprom_read (store_float x mem) 1 = float_byte x 1 /\
  eeprom_read (store_float x mem) 2 = float_byte x 2 /\
  eeprom_read (store_float x mem) 3 = float_byte x 3.
Proof.
  intros L. unfold store_float, EEPROM_CAL_ADDR.
  change (0 + 0) with 0. change (0 + 1) with 1. change (0 + 2) with 2. change (0 + 3) with 3.
  assert (W : forall m a b, List.length (eeprom_write m a b) = List.length m)
    by (intros; apply eeprom_set_length).
  repeat split;
    repeat (rewrite eeprom_read_write; [| lia | lia | rewrite ?W; cbn; lia];
            cbn [Z.eqb Pos.eqb]); reflexivity.
Qed.

Lemma saveCalibrationToEEPROM_store (s : State) :
  eeprom (saveCalibrationToEEPROM s) = store_float (calibrationFactor s) (eeprom s) /\
  calibrationFactor (saveCalibrationToEEPROM s) = calibrationFactor s.
Proof. split; reflexivity. Qed.


(** *** Nothing else writes the calibration store *)

Ltac split_cases :=
  repeat match goal with
         | |- context [if ?b then _ else _] => destruct b
         | |- context [match tests_at ?x with _ => _ end] => destruct (tests_at x)
         | |- context [match digit_index ?x with _ => _ end] => destruct (digit_index x)
         | |- context [match serial ?x with _ => _ end] => destruct (serial x)
         | |- context [match late_serial ?x with _ => _ end] => destruct (late_serial x)
         | |- context [match motorState ?x with _ => _ end] => destruct (motorState x)
         end.











(** *** The streaming protocol *)

Lemma strictly_ascending_snoc (ps : list Z) (p : Z) :
  strictly_ascending ps -> Forall (fun q => q < p) ps -> strictly_ascending (ps ++ [p]).
Proof.
  induction ps as [|a ps IH]; intros A F; [exact I|].
  inversion F as [|? ? Ha Hps]; subst.
  destruct ps as [|b ps].
  - cbn. split; [exact Ha|exact I].
  - destruct A as [Hab A]. cbn [app strictly_ascending]. split; [exact Hab|].
    exact (IH A Hps).
Qed.

Lemma strictly_descending_snoc (ps : list Z) (p : Z) :
  strictly_descending ps -> Forall (fun q => p < q) ps -> strictly_descending (ps ++ [p]).
Proof.
  induction ps as [|a ps IH]; intros A F; [exact I|].
  inversion F as [|? ? Ha Hps]; subst.
  destruct ps as [|b ps].
  - cbn. split; [exact Ha|exact I].
  - destruct A as [Hab A]. cbn [app strictly_descending]. split; [exact Hab|].
    exact (IH A Hps).
Qed.

Lemma strictly_toward_nil (pos target : Z) : strictly_toward pos pos target [].
Proof.
  unfold strictly_toward. destruct (Z.le_ge_cases pos target); [left|right];
    (split; [exact I|]); (split; [constructor|lia]).
Qed.

Lemma strictly_toward_monotonic (last pos target : Z) (ps : list Z) :
  strictly_toward last pos target ps -> strictly_monotonic ps.
Proof. intros [[A _]|[D _]]; [left|right]; assumption. Qed.

Lemma strictly_toward_move (last pos pos' target : Z) (ps : list Z) :
  strictly_toward last pos target ps ->
  (pos <= pos' <= target) \/ (target <= pos' <= pos) ->
  strictly_toward last pos' target ps.
Proof.
  intros [(A & F & L & T)|(D & F & L & T)] M.
  - left. split; [exact A|]. split; [exact F|]. lia.
  - right. split; [exact D|]. split; [exact F|]. lia.
Qed.

(** A record at the current position, which differs from the last sampled
    one. *)
Lemma strictly_toward_sample (last pos target : Z) (ps : list Z) :
  strictly_toward last pos target ps -> last <> pos ->
  strictly_toward pos pos target (ps ++ [pos]).
Proof.
  intros [(A & F & L & T)|(D & F & L & T)] N; [left|right].
  - split; [apply strictly_ascending_snoc; [exact A|]|].
    + eapply Forall_impl; [|exact F]. cbn. intros a Ha. lia.
    + split; [|lia]. apply Forall_app. split.
      * eapply Forall_impl; [|exact F]. cbn. intros a Ha. lia.
      * constructor; [lia|constructor].
  - split; [apply strictly_descending_snoc; [exact D|]|].
    + eapply Forall_impl; [|exact F]. cbn. intros a Ha. lia.
    + split; [|lia]. apply Forall_app. split.
      * eapply Forall_impl; [|exact F]. cbn. intros a Ha. lia.
      * constructor; [lia|constructor].
Qed.

(** The last sampled position catches up without a record (the overload
    return). *)
Lemma strictly_toward_catch_up (last pos target : Z) (ps : list Z) :
  strictly_toward last pos target ps -> strictly_toward pos pos target ps.
Proof.
  intros [(A & F & L & T)|(D & F & L & T)]; [left|right].
  - split; [exact A|]. split; [|lia].
    eapply Forall_impl; [|exact F]. cbn. intros a Ha. lia.
  - split; [exact D|]. split; [|lia].
    eapply Forall_impl; [|exact F]. cbn. intros a Ha. lia.
Qed.

Lemma sessions_neutral (l : Line) (lines : list Line) (b : bool) (last pos target : Z) :
  neutral l -> stream_ok lines b last pos target -> stream_ok (l :: lines) b last pos target.
Proof.
  intros N (acc & E & C & O). exists acc. cbn [sessions_of]. rewrite E. cbn [bind].
  split; [|split; assumption].
  destruct l; cbn in N; try contradiction; unfold session_step; destruct (open acc); reflexivity.
Qed.

Lemma sessions_start (lines : list Line) (last pos target pos' target' : Z) :
  stream_ok lines false last pos target ->
  stream_ok (START_STREAM :: lines) true pos' pos' target'.
Proof.
  intros (acc & E & C & O).
  destruct (open acc) as [ps|] eqn:Eo; [destruct O; discriminate|].
  exists (mkSessions (closed acc) (Some [])). cbn [sessions_of]. rewrite E. cbn [bind].
  unfold session_step. rewrite Eo. split; [reflexivity|]. split; [exact C|].
  cbn [open]. split; [reflexivity|apply strictly_toward_nil].
Qed.

Lemma sessions_end (lines : list Line) (last pos target last' pos' target' : Z) :
  stream_ok lines true last pos target ->
  stream_ok (END_STREAM :: lines) false last' pos' target'.
Proof.
  intros (acc & E & C & O).
  destruct (open acc) as [ps|] eqn:Eo; [|discriminate].
  exists (mkSessions (closed acc ++ [ps]) None). cbn [sessions_of]. rewrite E. cbn [bind].
  unfold session_step. rewrite Eo. split; [reflexivity|]. split; [|reflexivity].
  cbn [closed]. apply Forall_app. split; [exact C|].
  constructor; [|constructor]. destruct O as [_ T]. exact (strictly_toward_monotonic _ _ _ _ T).
Qed.

Lemma sessions_sample (lines : list Line) (last pos target e : Z) (t : SpeedTest) (f : float) :
  stream_ok lines true last pos target -> last <> pos ->
  stream_ok (DataPoint e pos t f :: lines) true pos pos target.
Proof.
  intros (acc & E & C & O) N.
  destruct (open acc) as [ps|] eqn:Eo; [|discriminate].
  exists (mkSessions (closed acc) (Some (ps ++ [pos]))). cbn [sessions_of]. rewrite E. cbn [bind].
  unfold session_step. rewrite Eo. split; [reflexivity|]. split; [exact C|].
  cbn [open]. destruct O as [_ T]. split; [reflexivity|].
  exact (strictly_toward_sample _ _ _ _ T N).
Qed.

Lemma sessions_catch_up (lines : list Line) (b : bool) (last pos target : Z) :
  stream_ok lines b last pos target -> stream_ok lines b pos pos target.
Proof.
  intros (acc & E & C & O). exists acc. split; [exact E|]. split; [exact C|].
  destruct (open acc) as [ps|]; [|exact O].
  destruct O as [L T]. split; [exact L|]. exact (strictly_toward_catch_up _ _ _ _ T).
Qed.

Lemma sessions_move (lines : list Line) (b : bool) (last pos pos' target : Z) :
  stream_ok lines b last pos target ->
  (pos <= pos' <= target) \/ (target <= pos' <= pos) ->
  stream_ok lines b last pos' target.
Proof.
  intros (acc & E & C & O) M. exists acc. split; [exact E|]. split; [exact C|].
  destruct (open acc) as [ps|]; [|exact O].
  destruct O as [L T]. split; [exact L|]. exact (strictly_toward_move _ _ _ _ _ T M).
Qed.

Lemma sessions_idle (lines : list Line) (last pos target last' pos' target' : Z) :
  stream_ok lines false last pos target -> stream_ok lines false last' pos' target'.
Proof.
  intros (acc & E & C & O). exists acc. split; [exact E|]. split; [exact C|].
  destruct (open acc) as [ps|]; [destruct O; discriminate|exact O].
Qed.

(** [stopStreaming] closes the session if one is open; afterwards the
    stepper and the sampling position are free to change. *)
Lemma sessions_stopStreaming (s : State) (last pos target last' pos' target' : Z) :
  stream_ok (out s) (isStreaming s) last pos target ->
  stream_ok (out (stopStreaming s)) false last' pos' target' /\
  isStreaming (stopStreaming s) = false.
Proof.
  unfold stopStreaming. intros K.
  destruct (isStreaming s) eqn:L; cbn [negb]; fields5.
  - split; [|reflexivity]. exact (sessions_end _ _ _ _ _ _ _ K).
  - split; [|exact L]. exact (sessions_idle _ _ _ _ _ _ _ K).
Qed.



Lemma idle_not_streaming (s : State) :
  stream_inv s -> motorState s <> MOTOR_MOVING_DOWN -> isStreaming s = false.
Proof.
  intros (_ & M & _) N. destruct (isStreaming s); [|reflexivity].
  destruct (M eq_refl) as [E _]. contradiction.
Qed.

Lemma setup_sessions (mem : list Z) (s : State) :
  setup false (power_on mem) = Ready s -> stream_inv s.
Proof.
  unfold setup, loadCalibrationFromEEPROM, resetFilters. cbn [negb].
  intros H.
  assert (K : out s <> [] /\ Forall neutral (out s) /\ isStreaming s = false /\
              currentMode s = MODE_IDLE).
  { destruct (_ || _) in H; injection H as <-; fields5; cbn [power_on out isStreaming currentMode];
      (split; [discriminate|]); (split; [repeat constructor|split; reflexivity]). }
  destruct K as (_ & N & S & M).
  unfold stream_inv. rewrite S, M. split; [|split; [discriminate|split; discriminate]].
  clear H S M. induction (out s) as [|l ls IH].
  - exists (mkSessions [] None). split; [reflexivity|]. split; [constructor|reflexivity].
  - inversion N; subst. apply sessions_neutral; [assumption|]. apply IH. assumption.
Qed.



(** [stopStreaming] closes the session if one is open and touches nothing
    else; afterwards the stepper and the sampling position are free. *)
Lemma stopStreaming_spec (s : State) :
  (exists last pos target, stream_ok (out s) (isStreaming s) last pos target) ->
  (forall l p t, stream_ok (out (stopStreaming s)) false l p t) /\
  isStreaming (stopStreaming s) = false /\
  stepper (stopStreaming s) = stepper s /\
  motorState (stopStreaming s) = motorState s /\
  currentMode (stopStreaming s) = currentMode s /\
  currentTestIndex (stopStreaming s) = currentTestIndex s /\
  nextAutoTestIndex (stopStreaming s) = nextAutoTestIndex s /\
  homePosition (stopStreaming s) = homePosition s.
Proof.
  intros (last & pos & target & K).
  split; [intros l p t; eapply sessions_stopStreaming; exact K|].
  split; [eapply sessions_stopStreaming with (last' := 0) (pos' := 0) (target' := 0); exact K|].
  unfold stopStreaming. destruct (isStreaming s); repeat split; reflexivity.
Qed.

Ltac stopped G :=
  let Es := fresh "Es" in
  let F1 := fresh "F" in let F2 := fresh "F" in let F3 := fresh "F" in
  let F4 := fresh "F" in let F5 := fresh "F" in let F6 := fresh "F" in
  lazymatch goal with
  | |- context [stopStreaming ?s0] =>
      let K := fresh "K" in
      assert (K : exists last pos target,
                    stream_ok (out s0) (isStreaming s0) last pos target);
      [|destruct (stopStreaming_spec s0 K) as (G & Es & F1 & F2 & F3 & F4 & F5 & F6);
        clear K; generalize dependent (stopStreaming s0); intros]
  end.

Ltac transport :=
  repeat match goal with
         | H : ?f ?s0 = _ |- context [?f ?s0] => is_var s0; rewrite H
         end.

Lemma handleEmergencyStop_sessions (i : Input) (s : State) :
  stream_inv s -> stream_inv (handleEmergencyStop i s).
Proof.
  intros (K & M & C & A). unfold handleEmergencyStop. cbv zeta.
  stopped G.
  { fields5. do 3 eexists. exact K. }
  fields5.
  destruct (late_serial i) as [c|]; try destruct (is_char c "R" "r");
    unfold stream_inv; fields5; transport;
    (split; [repeat (apply sessions_neutral; [exact I|]); apply G|]);
    (split; [discriminate|]);
    (split; [reflexivity|]); exact A.
Qed.


Ltac neutral_lines := repeat (apply sessions_neutral; [exact I|]).

Lemma enterNormalTestMode_sessions (now testIndex : Z) (s : State) :
  stream_inv s -> isStreaming s = false ->
  exists s', enterNormalTestMode now testIndex s = Some s' /\ stream_inv s'.
Proof.
  intros (K & M & C & A) L. rewrite L in K. unfold enterNormalTestMode.
  destruct (Z.ltb_spec testIndex 0) as [Lo|Lo]; cbn [orb].
  { eexists. split; [reflexivity|]. unfold stream_inv. fields5. rewrite L.
    split; [neutral_lines; exact K|]. split; [discriminate|]. split; [reflexivity|exact A]. }
  destruct (Z.geb_spec testIndex 8) as [Hi|Hi].
  { eexists. split; [reflexivity|]. unfold stream_inv. fields5. rewrite L.
    split; [neutral_lines; exact K|]. split; [discriminate|]. split; [reflexivity|exact A]. }
  destruct (profile_at_valid_index testIndex) as [t Ht]; [lia|]. rewrite Ht. cbn [bind].
  eexists. split; [reflexivity|]. unfold stream_inv, startStreaming. fields5.
  cbn [Stepper.moveTo Stepper.setAcceleration Stepper.setMaxSpeed Stepper.currentPosition
       Stepper.currentPos Stepper.targetPos].
  split.
  - neutral_lines. eapply sessions_start. apply sessions_neutral; [exact I|]. exact K.
  - split; [intros _; split; [reflexivity|lia]|]. split; discriminate.
Qed.

Lemma handleSerialCommand_sessions (i : Input) (s : State) :
  stream_inv s -> exists s', handleSerialCommand i s = Some s' /\ stream_inv s'.
Proof.
  intros V. pose proof V as (K & M & C & A). unfold handleSerialCommand.
  destruct (serial i) as [cmd|]; [|exists s; split; [reflexivity|exact V]].
  destruct (is_char cmd "Q" "q") eqn:Q.
  { destruct (SystemMode_eqb (currentMode s) MODE_IDLE); cbn [negb];
      [exists s; split; [reflexivity|exact V]|].
    eexists. split; [reflexivity|]. cbv zeta. stopped G; [do 3 eexists; exact K|].
    unfold stream_inv. fields5. transport.
    split; [neutral_lines; apply G|]. split; [discriminate|]. split; discriminate. }
  destruct (is_char cmd "S" "s" || is_char cmd "R" "r") eqn:SR.
  - assert (E : cmd = "S"%char \/ cmd = "s"%char \/ cmd = "R"%char \/ cmd = "r"%char).
    { apply orb_true_iff in SR. destruct SR as [H|H]; apply is_char_true in H;
        destruct H as [H|H]; injection H as ->; auto. }
    cbn [negb]. rewrite andb_false_r.
    assert (R : exists s', (if negb (MotorState_eqb (motorState s) MOTOR_IDLE)
                            then Some (println TestStopped
                                         (set_motorState MOTOR_IDLE
                                            (stopStreaming
                                               (set_stepper (Stepper.stop (stop_togo i) (stepper s)) s))))
                            else Some s) = Some s' /\ stream_inv s').
    { destruct (MotorState_eqb (motorState s) MOTOR_IDLE); cbn [negb];
        [exists s; split; [reflexivity|exact V]|].
      eexists. split; [reflexivity|]. stopped G.
      { fields5. do 3 eexists. exact K. }
      unfold stream_inv. fields5. transport.
      split; [neutral_lines; apply G|]. split; [discriminate|]. split; [reflexivity|exact A]. }
    destruct E as [ -> | [ -> | [ -> | -> ] ] ]; cbn; first [exact R | exists s; split; [reflexivity|exact V]].
  - cbn [negb]. rewrite andb_true_r.
    destruct (MotorState_eqb (motorState s) MOTOR_IDLE) eqn:Ms; cbn [negb];
      [|exists s; split; [reflexivity|exact V]].
    assert (L : isStreaming s = false).
    { apply idle_not_streaming; [exact V|]. intros E. rewrite E in Ms. discriminate. }
    destruct (digit_index cmd) as [testIndex|];
      [apply enterNormalTestMode_sessions; assumption|].
    apply orb_false_iff in SR. destruct SR as [SS _]. rewrite SS.
    rewrite L in K.
    repeat match goal with
           | |- context [if is_char cmd ?a ?b then _ else _] => destruct (is_char cmd a b)
           end;
      (eexists; split; [reflexivity|]);
      unfold stream_inv, enterLiveMonitorMode, enterAutoSequenceMode; fields5; rewrite ?L;
      (split; [neutral_lines; try exact K; exact (sessions_idle _ _ _ _ _ _ _ K)|]);
      (split; [discriminate|]);
      (split; [try reflexivity; try discriminate|]);
      try discriminate; try exact A; try (intros _; lia).
Qed.



Lemma arrival_sessions (s : State) : stream_inv s -> stream_inv (arrival s).
Proof.
  intros V. pose proof V as (K & M & C & A). unfold arrival.
  destruct (Stepper.distanceToGo (stepper s) =? 0); [|exact V].
  cbv zeta. stopped G; [do 3 eexists; exact K|].
  unfold stream_inv. fields5. transport.
  split; [neutral_lines; apply G|]. split; [discriminate|]. split; [reflexivity|exact A].
Qed.

Ltac arrived :=
  lazymatch goal with
  | |- stream_inv (if Stepper.distanceToGo (stepper ?x) =? 0 then _ else _) =>
      apply (arrival_sessions x)
  end.

Lemma wrap_long_0 : wrap_long 0 = 0.
Proof. reflexivity. Qed.

Lemma handleMovingDown_sessions (i : Input) (s : State) :
  stream_inv s -> exists s', handleMovingDown i s = Some s' /\ stream_inv s'.
Proof.
  intros (K & M & C & A).
  assert (K1 : stream_ok (out s) (isStreaming s) (lastSampledPosition s)
                 (Stepper.currentPos (Stepper.run (step_due i) (stepper s)))
                 (Stepper.targetPos (Stepper.run (step_due i) (stepper s)))).
  { rewrite StepperFacts.run_keeps_target.
    exact (sessions_move _ _ _ _ _ _ K (StepperFacts.run_between _ _)). }
  assert (V1 : stream_inv (set_stepper (Stepper.run (step_due i) (stepper s)) s)).
  { unfold stream_inv. fields5. split; [exact K1|]. split; [exact M|]. split; assumption. }
  unfold handleMovingDown. cbv zeta. fields5. unfold Stepper.currentPosition.
  destruct (Z.geb_spec
              (Z.abs (wrap_long (Stepper.currentPos (Stepper.run (step_due i) (stepper s))
                                 - lastSampledPosition s)))
              POSITION_SAMPLE_INTERVAL) as [D|D];
    [|eexists; split; [reflexivity|]; exact (arrival_sessions _ V1)].
  assert (N : lastSampledPosition s <> Stepper.currentPos (Stepper.run (step_due i) (stepper s))).
  { intros E. rewrite E, Z.sub_diag, wrap_long_0 in D. unfold POSITION_SAMPLE_INTERVAL in D.
    cbn in D. lia. }
  unfold getFilteredForce. cbv zeta. fields5.
  set (force := if fgt _ f0 then _ else f0).
  set (filtered := set_readIndex _ _).
  set (sampled := set_lastSampledPosition _ _).
  set (noted := if negb (contactDetected s) && fgt force CONTACT_THRESHOLD
                then println ContactDetected (set_contactDetected true sampled)
                else sampled).
  assert (P : stream_ok (out noted) (isStreaming s) (lastSampledPosition s)
                (Stepper.currentPos (Stepper.run (step_due i) (stepper s)))
                (Stepper.targetPos (Stepper.run (step_due i) (stepper s))) /\
              isStreaming noted = isStreaming s /\
              lastSampledPosition noted =
                Stepper.currentPos (Stepper.run (step_due i) (stepper s)) /\
              stepper noted = Stepper.run (step_due i) (stepper s) /\
              motorState noted = motorState s /\ currentMode noted = currentMode s /\
              currentTestIndex noted = currentTestIndex s /\
              nextAutoTestIndex noted = nextAutoTestIndex s).
  { subst noted sampled filtered.
    destruct (negb _ && fgt force CONTACT_THRESHOLD); fields5;
      (split; [neutral_lines; exact K1|]); repeat split; reflexivity. }
  destruct P as (P & Es & El & Est & Em & Emode & Ei & En).
  clearbody noted. clear sampled filtered.
  destruct (fgt force OVERLOAD_LIMIT).
  { eexists. split; [reflexivity|]. unfold stream_inv. fields5. rewrite Es, El, Est, Em, Emode, Ei, En.
    split; [neutral_lines; exact (sessions_catch_up _ _ _ _ _ P)|]. split; [exact M|]. split; assumption. }
  rewrite Es. destruct (isStreaming s) eqn:L.
  - destruct (M eq_refl) as [_ B].
    destruct (profile_at_valid_index (currentTestIndex s) B) as [t Ht].
    unfold streamDataPoint. rewrite Ei, Ht. cbn [bind].
    eexists. split; [reflexivity|]. arrived.
    unfold stream_inv. fields5. rewrite Es, El, Est, Em, Emode, Ei, En.
    split; [exact (sessions_sample _ _ _ _ _ _ _ P N)|]. split; [exact M|]. split; assumption.
  - cbn [bind]. eexists. split; [reflexivity|]. arrived.
    unfold stream_inv. rewrite Es, El, Est, Em, Emode, Ei, En.
    split; [exact (sessions_idle _ _ _ _ _ _ _ P)|]. split; [discriminate|]. split; [exact C|exact A].
Qed.


Lemma handleReturningHome_sessions (i : Input) (s : State) :
  stream_inv s -> motorState s = MOTOR_RETURNING_HOME -> stream_inv (handleReturningHome i s).
Proof.
  intros V Ms. pose proof V as (K & M & C & A).
  assert (L : isStreaming s = false).
  { apply idle_not_streaming; [exact V|]. rewrite Ms. discriminate. }
  rewrite L in K.
  unfold handleReturningHome, exitNormalTestMode. cbv zeta. fields5.
  destruct (Stepper.distanceToGo (Stepper.run (step_due i) (stepper s)) =? 0).
  - destruct (SystemMode_eqb (currentMode s) MODE_NORMAL_TEST) eqn:Mode.
    + stopped G.
      { fields5. rewrite L. exists 0, 0, 0. neutral_lines.
        exact (sessions_idle _ _ _ _ _ _ _ K). }
      unfold stream_inv. fields5. transport.
      split; [neutral_lines; apply G|]. split; [discriminate|]. split; discriminate.
    + unfold stream_inv. fields5. rewrite L.
      split; [neutral_lines; exact (sessions_idle _ _ _ _ _ _ _ K)|].
      split; [discriminate|]. split; [reflexivity|exact A].
  - unfold stream_inv. fields5. rewrite L.
    split; [exact (sessions_idle _ _ _ _ _ _ _ K)|].
    split; [discriminate|]. split; [reflexivity|exact A].
Qed.

Lemma setupNextAutoTest_sessions (now : Z) (s : State) :
  stream_inv s -> isStreaming s = false -> currentMode s = MODE_AUTO_SEQUENCE ->
  exists s', setupNextAutoTest now s = Some s' /\ stream_inv s'.
Proof.
  intros V L Mode. pose proof V as (K & M & C & A). rewrite L in K.
  pose proof (A Mode) as Lo.
  unfold setupNextAutoTest.
  destruct (Z.geb_spec (nextAutoTestIndex s) 8) as [Hi|Hi];
    [exists s; split; [reflexivity|exact V]|].
  destruct (profile_at_valid_index (nextAutoTestIndex s)) as [t Ht]; [lia|].
  rewrite Ht. cbn [bind].
  eexists. split; [reflexivity|]. unfold stream_inv, startStreaming. fields5.
  cbn [Stepper.moveTo Stepper.setAcceleration Stepper.setMaxSpeed Stepper.currentPosition
       Stepper.currentPos Stepper.targetPos].
  rewrite AutoSpeedTestFacts.wrap_int_small by (unfold int_range; lia).
  split.
  - eapply sessions_start. apply sessions_neutral; [exact I|]. exact K.
  - split; [intros _; split; [reflexivity|lia]|]. rewrite Mode.
    split; [discriminate|]. intros _. lia.
Qed.

Lemma handleLiveMonitorMode_sessions (now : Z) (rawValue : float) (s : State) :
  stream_inv s -> stream_inv (handleLiveMonitorMode now rawValue s).
Proof.
  intros V. pose proof V as (K & M & C & A). unfold handleLiveMonitorMode.
  destruct (_ >=? _); [|exact V].
  unfold getFilteredForce. cbv zeta. unfold stream_inv. fields5.
  split; [neutral_lines; exact K|]. split; [exact M|]. split; assumption.
Qed.

Lemma handleCalibrationMode_sessions (c : CalibrationRun) (s : State) :
  stream_inv s -> isStreaming s = false -> stream_inv (handleCalibrationMode c s).
Proof.
  intros (K & M & C & A) L. rewrite L in K.
  unfold handleCalibrationMode, getUserInputMass, exitCalibrationMode,
    saveCalibrationToEEPROM, resetFilters.
  cbv zeta.
  repeat match goal with
         | |- context [if ?b then _ else _] => destruct b
         | |- context [match typed_mass c with _ => _ end] => destruct (typed_mass c)
         end;
    unfold stream_inv; fields5; rewrite L;
    (split; [neutral_lines; exact K|]);
    (split; [discriminate|]); split; discriminate.
Qed.

Lemma dispatch_sessions (i : Input) (s : State) :
  stream_inv s -> exists s', dispatch i s = Some s' /\ stream_inv s'.
Proof.
  intros V. pose proof V as (K & M & C & A).
  unfold dispatch, handleNormalTestMode, handleAutoSequenceMode.
  destruct (currentMode s) eqn:Mode.
  - exists s. split; [reflexivity|exact V].
  - eexists. split; [reflexivity|]. apply handleLiveMonitorMode_sessions. exact V.
  - destruct (motorState s) eqn:Ms.
    + exists s. split; [reflexivity|exact V].
    + apply handleMovingDown_sessions. exact V.
    + eexists. split; [reflexivity|]. apply handleReturningHome_sessions; assumption.
  - destruct (motorState s) eqn:Ms.
    + assert (L : isStreaming s = false).
      { apply idle_not_streaming; [exact V|]. rewrite Ms. discriminate. }
      destruct (nextAutoTestIndex s <? 8).
      * apply setupNextAutoTest_sessions; [exact V|exact L|exact Mode].
      * eexists. split; [reflexivity|]. unfold exitAutoSequenceMode, stream_inv. fields5.
        rewrite L in K.
        split; [neutral_lines; exact K|]. split; [discriminate|]. split; [discriminate|].
        discriminate.
    + apply handleMovingDown_sessions. exact V.
    + eexists. split; [reflexivity|]. apply handleReturningHome_sessions; assumption.
  - eexists. split; [reflexivity|]. apply handleCalibrationMode_sessions; [exact V|].
    apply C. reflexivity.
Qed.

Lemma loop_sessions (i : Input) (s : State) :
  stream_inv s -> exists s', loop i s = Some s' /\ stream_inv s'.
Proof.
  intros V. unfold loop.
  assert (H : exists s1, (if negb (SystemMode_eqb (currentMode s) MODE_CALIBRATION)
                          then handleSerialCommand i s else Some s) = Some s1 /\ stream_inv s1).
  { destruct (negb _); [apply handleSerialCommand_sessions; exact V|].
    exists s. split; [reflexivity|exact V]. }
  destruct H as (s1 & -> & V1). cbn [bind].
  destruct (emergencyStop s1).
  { eexists. split; [reflexivity|]. apply handleEmergencyStop_sessions. exact V1. }
  destruct (dispatch_sessions i s1 V1) as (s2 & -> & V2). cbn [bind].
  destruct (tare_status i); [|exists s2; split; [reflexivity|exact V2]].
  eexists. split; [reflexivity|]. destruct V2 as (K & M & C & A).
  unfold resetFilters, stream_inv. fields5.
  split; [neutral_lines; exact K|]. split; [exact M|]. split; assumption.
Qed.

Lemma run_ticks_sessions (ins : list Input) (s : State) :
  stream_inv s -> exists s', run_ticks ins s = Some s' /\ stream_inv s'.
Proof.
  revert s. induction ins as [|i ins IH]; intros s V; cbn [run_ticks].
  - exists s. split; [reflexivity|exact V].
  - destruct (loop_sessions i s V) as (s1 & -> & V1). cbn [bind]. exact (IH s1 V1).
Qed.

(** In the mode-based tester the stream is sampled by position, not by
    time: from power-up, over any EEPROM contents and any inputs, every
    pass of [loop] returns, and the transcript parses into sessions (one
    start marker, the records, one end marker) in each of which the
    positions are strictly monotonic; a session is open exactly while
    [isStreaming] is set. *)
Theorem stream_positions_strictly_monotonic :
  forall (mem : list Z) (ins : list Input),
    exists (s' : State) (acc : Sessions),
      run_ticks ins (boot mem) = Some s' /\
      sessions_of (out s') = Some acc /\
      Forall strictly_monotonic (all_sessions acc) /\
      (isStreaming s' = true <-> open acc <> None).
Proof.
  intros mem ins.
  destruct (run_ticks_sessions ins (boot mem) (setup_sessions mem (boot mem) eq_refl))
    as (s' & E & (acc & P & C & O) & _).
  exists s', acc. split; [exact E|]. split; [exact P|].
  unfold all_sessions. destruct (open acc) as [ps|].
  - destruct O as [L T]. split.
    + apply Forall_app. split; [exact C|].
      constructor; [exact (strictly_toward_monotonic _ _ _ _ T)|constructor].
    + rewrite L. split; [discriminate|reflexivity].
  - split; [exact C|]. rewrite O. split; [discriminate|intros N; contradiction].
Qed.


(** *** The calibration factor across a power cycle *)

(** The three fields of a binary32 word. *)
Lemma word_fields (s : bool) (e m : Z) :
  0 <= e < 256 -> 0 <= m < 2 ^ 23 ->
  Z.testbit (Binary32.sign_bit s + e * 2 ^ 23 + m) 31 = s /\
  Z.land (Z.shiftr (Binary32.sign_bit s + e * 2 ^ 23 + m) 23) 255 = e /\
  Z.land (Binary32.sign_bit s + e * 2 ^ 23 + m) (2 ^ 23 - 1) = m.
Proof.
  intros He Hm.
  change 255 with (Z.ones 8). change (2 ^ 23 - 1) with (Z.ones 23).
  rewrite !Z.land_ones by lia. rewrite Z.shiftr_div_pow2 by lia.
  assert (B : Binary32.sign_bit s = (if s then 1 else 0) * 2 ^ 31)
    by (destruct s; reflexivity).
  rewrite B. clear B. set (b := if s then 1 else 0).
  assert (Hb : 0 <= b <= 1) by (destruct s; subst b; lia).
  split; [|split].
  - rewrite Z.testbit_eqb by lia.
    assert (D : (b * 2 ^ 31 + e * 2 ^ 23 + m) / 2 ^ 31 = b).
    { symmetry. apply (Z.div_unique _ _ b (e * 2 ^ 23 + m)); lia. }
    rewrite D. destruct s; subst b; reflexivity.
  - assert (D : (b * 2 ^ 31 + e * 2 ^ 23 + m) / 2 ^ 23 = b * 2 ^ 8 + e).
    { symmetry. apply (Z.div_unique _ _ (b * 2 ^ 8 + e) m); lia. }
    rewrite D. symmetry. apply (Z.mod_unique _ _ b e); lia.
  - symmetry. apply (Z.mod_unique _ _ (b * 2 ^ 8 + e) m); lia.
Qed.

(** Writing a [float] that came from 32 bits back to 32 bits and reading
    it again gives the same [float] (a NaN comes back as a NaN). *)
Lemma of_bits_to_bits (w : Z) :
  Binary32.of_bits (Binary32.to_bits (Binary32.of_bits w)) = Binary32.of_bits w /\
  0 <= Binary32.to_bits (Binary32.of_bits w) < 2 ^ 32.
Proof.
  unfold Binary32.of_bits at 2 3 4 5.
  set (s := Z.testbit w 31).
  set (e := Z.land (Z.shiftr w 23) 255).
  set (m := Z.land w (2 ^ 23 - 1)).
  assert (He : 0 <= e < 256).
  { subst e. change 255 with (Z.ones 8). rewrite Z.land_ones by lia.
    apply Z.mod_pos_bound. lia. }
  assert (Hm : 0 <= m < 2 ^ 23).
  { subst m. change (2 ^ 23 - 1) with (Z.ones 23). rewrite Z.land_ones by lia.
    apply Z.mod_pos_bound. lia. }
  clearbody s e m. cbv zeta.
  destruct (Z.eqb_spec e 255) as [E255|N255].
  { destruct (Z.eqb_spec m 0) as [M0|M0].
    - destruct s; vm_compute; (split; [reflexivity|split; [discriminate|reflexivity]]).
    - vm_compute. split; [reflexivity|split; [discriminate|reflexivity]]. }
  destruct (Z.eqb_spec e 0) as [E0|N0].
  { destruct m as [|p|p]; [| |lia].
    - destruct s; vm_compute; (split; [reflexivity|split; [discriminate|reflexivity]]).
    - cbn [Binary32.to_bits].
      destruct (Z.ltb_spec (Z.pos p) (2 ^ 23)) as [L|L]; [|lia].
      destruct (word_fields s 0 (Z.pos p)) as (F1 & F2 & F3); [lia|lia|].
      replace (Binary32.sign_bit s + 0 * 2 ^ 23 + Z.pos p)
        with (Binary32.sign_bit s + Z.pos p) in * by lia.
      split.
      + unfold Binary32.of_bits. rewrite F1, F2, F3. reflexivity.
      + destruct s; cbn [Binary32.sign_bit]; lia. }
  destruct (m + 2 ^ 23) as [|p|p] eqn:P; [lia| |lia].
  cbn [Binary32.to_bits].
  destruct (Z.ltb_spec (Z.pos p) (2 ^ 23)) as [L|L]; [lia|].
  replace (e - 150 + 150) with e by lia.
  replace (Z.pos p - 2 ^ 23) with m by lia.
  destruct (word_fields s e m He Hm) as (F1 & F2 & F3).
  split.
  - unfold Binary32.of_bits. rewrite F1, F2, F3.
    destruct (Z.eqb_spec e 255); [contradiction|].
    destruct (Z.eqb_spec e 0); [contradiction|]. rewrite P. reflexivity.
  - destruct s; cbn [Binary32.sign_bit]; lia.
Qed.

(** The four bytes of a 32-bit word, put together again. *)
Lemma bytes_of_word (v : Z) :
  0 <= v < 2 ^ 32 ->
  Z.land (Z.shiftr v (8 * 0)) 255 + Z.shiftl (Z.land (Z.shiftr v (8 * 1)) 255) 8
  + Z.shiftl (Z.land (Z.shiftr v (8 * 2)) 255) 16
  + Z.shiftl (Z.land (Z.shiftr v (8 * 3)) 255) 24 = v.
Proof.
  intros Hv. change 255 with (Z.ones 8).
  rewrite !Z.land_ones by lia. rewrite !Z.shiftr_div_pow2 by lia.
  rewrite !Z.shiftl_mul_pow2 by lia.
  change (8 * 0) with 0. change (8 * 1) with 8. change (8 * 2) with 16. change (8 * 3) with 24.
  change (2 ^ 0) with 1. rewrite Z.div_1_r.
  pose proof (Z.div_mod v (2 ^ 8) ltac:(lia)) as D0.
  pose proof (Z.div_mod (v / 2 ^ 8) (2 ^ 8) ltac:(lia)) as D1.
  pose proof (Z.div_mod (v / 2 ^ 8 / 2 ^ 8) (2 ^ 8) ltac:(lia)) as D2.
  rewrite Z.div_div in D1, D2 by lia. rewrite Z.div_div in D2 by lia.
  change (2 ^ 8 * 2 ^ 8) with (2 ^ 16) in *. change (2 ^ 16 * 2 ^ 8) with (2 ^ 24) in *.
  assert (H3 : (v / 2 ^ 24) mod 2 ^ 8 = v / 2 ^ 24).
  { apply Z.mod_small. split; [apply Z.div_pos; lia|].
    apply Z.div_lt_upper_bound; lia. }
  rewrite H3. lia.
Qed.

Lemma float_of_bytes_float_byte (w : Z) :
  float_of_bytes (float_byte (Binary32.of_bits w) 0) (float_byte (Binary32.of_bits w) 1)
                 (float_byte (Binary32.of_bits w) 2) (float_byte (Binary32.of_bits w) 3)
  = Binary32.of_bits w.
Proof.
  destruct (of_bits_to_bits w) as [R B].
  unfold float_of_bytes, float_byte. rewrite bytes_of_word by exact B. exact R.
Qed.

(** A factor saved by [saveCalibrationToEEPROM] is the factor the next
    [setup] works with, if it passes the range test of
    [loadCalibrationFromEEPROM]; if it fails the test the default is used.
    The factor is any [float] of the machine, given by its 32 bits. *)
Theorem calibration_survives_power_cycle :
  forall (s : State) (w : Z),
    calibrationFactor s = Binary32.of_bits w ->
    (4 <= List.length (eeprom s))%nat ->
    calibrationFactor (boot (eeprom (saveCalibrationToEEPROM s)))
    = (if flt (calibrationFactor s) (of_int 5000) || fgt (calibrationFactor s) (of_int 50000)
       then DEFAULT_CAL_FACTOR else calibrationFactor s) /\
    calFactor (boot (eeprom (saveCalibrationToEEPROM s)))
    = calibrationFactor (boot (eeprom (saveCalibrationToEEPROM s))) /\
    eeprom (boot (eeprom (saveCalibrationToEEPROM s))) = eeprom (saveCalibrationToEEPROM s).
Proof.
  intros s w Hw Hl.
  destruct (saveCalibrationToEEPROM_store s) as [E _]. rewrite E.
  destruct (store_float_reads_back (calibrationFactor s) (eeprom s) Hl) as (B0 & B1 & B2 & B3).
  unfold boot, setup, loadCalibrationFromEEPROM, resetFilters, power_on, EEPROM_CAL_ADDR.
  fields5. change (0 + 0) with 0. change (0 + 1) with 1. change (0 + 2) with 2.
  change (0 + 3) with 3.
  rewrite B0, B1, B2, B3, Hw, float_of_bytes_float_byte.
  match goal with
  | |- context [if ?c then set_calibrationFactor _ _ else _] => set (out_of_range := c)
  end.
  change (flt (Binary32.of_bits w) (of_int 5000) || fgt (Binary32.of_bits w) (of_int 50000))
    with out_of_range.
  destruct out_of_range; fields5; repeat split; reflexivity.
Qed.

Lemma calibration_survives_power_cycle_witness :
  calibrationFactor (boot (eeprom (saveCalibrationToEEPROM
                                     (set_calibrationFactor (of_int 20000) ready))))
  = (if flt (calibrationFactor (set_calibrationFactor (of_int 20000) ready)) (of_int 5000)
        || fgt (calibrationFactor (set_calibrationFactor (of_int 20000) ready)) (of_int 50000)
     then DEFAULT_CAL_FACTOR
     else calibrationFactor (set_calibrationFactor (of_int 20000) ready)) /\
  calFactor (boot (eeprom (saveCalibrationToEEPROM
                             (set_calibrationFactor (of_int 20000) ready))))
  = calibrationFactor (boot (eeprom (saveCalibrationToEEPROM
                                       (set_calibrationFactor (of_int 20000) ready)))) /\
  eeprom (boot (eeprom (saveCalibrationToEEPROM (set_calibrationFactor (of_int 20000) ready))))
  = eeprom (saveCalibrationToEEPROM (set_calibrationFactor (of_int 20000) ready)).
Proof.
  apply (calibration_survives_power_cycle
           (set_calibrationFactor (of_int 20000) ready) 1184645120).
  - vm_compute. reflexivity.
  - vm_compute. lia.
Defined.

(** *** The sampling grid *)

Lemma grid_snoc (start d : Z) (n : nat) :
  grid start d (S n) = grid start d n ++ [start + d * Z.of_nat (S n)].
Proof. unfold grid. rewrite seq_S, map_app. reflexivity. Qed.

Lemma open_grid_nil (e : bool) (pos target : Z) : open_grid e pos pos target [].
Proof.
  unfold open_grid, POSITION_SAMPLE_INTERVAL. exists pos. cbn [List.length grid seq map].
  destruct (Z.le_ge_cases pos target); [left|right];
    (split; [reflexivity|right; lia]).
Qed.

Lemma open_grid_on_grid (e : bool) (last pos target : Z) (ps : list Z) :
  open_grid e last pos target ps -> on_grid ps.
Proof.
  intros (start & [[G _]|[G _]]); exists start; eexists; (split; [|exact G]); auto.
Qed.

(** The stepper after one call of [run]. *)
Lemma run_one_step (due : bool) (m : Stepper.t) :
  (Stepper.currentPos m <= Stepper.currentPos (Stepper.run due m) <= Stepper.targetPos m /\
   Stepper.currentPos (Stepper.run due m) <= Stepper.currentPos m + 1) \/
  (Stepper.targetPos m <= Stepper.currentPos (Stepper.run due m) <= Stepper.currentPos m /\
   Stepper.currentPos m - 1 <= Stepper.currentPos (Stepper.run due m)).
Proof.
  unfold Stepper.run, Stepper.distanceToGo. destruct due; [|cbn; lia].
  destruct (Z.compare_spec (Stepper.targetPos m - Stepper.currentPos m) 0) as [E|E|E];
    cbn [Stepper.currentPos Stepper.targetPos]; lia.
Qed.

Lemma wrap_long_near (x : Z) : - 8 <= x <= 8 -> wrap_long x = x.
Proof.
  intros H. apply AutoSpeedTestFacts.wrap_long_small. unfold long_range. lia.
Qed.

(** A step that does not reach the next grid point. *)
Lemma open_grid_move (last pos pos' target : Z) (ps : list Z) :
  open_grid false last pos target ps -> stepped pos pos' target ->
  Z.abs (wrap_long (pos' - last)) < POSITION_SAMPLE_INTERVAL ->
  open_grid false last pos' target ps.
Proof.
  unfold open_grid, stepped, POSITION_SAMPLE_INTERVAL.
  intros (start & [[G [E|X]]|[G [E|X]]]) M D; try discriminate;
    rewrite wrap_long_near in D by lia; exists start; [left|right];
    (split; [exact G|right; lia]).
Qed.

(** A step that reaches it: the record is the next grid point. *)
Lemma open_grid_sample (last pos pos' target : Z) (ps : list Z) :
  open_grid false last pos target ps -> stepped pos pos' target ->
  POSITION_SAMPLE_INTERVAL <= Z.abs (wrap_long (pos' - last)) ->
  open_grid false pos' pos' target (ps ++ [pos']).
Proof.
  unfold open_grid, stepped, POSITION_SAMPLE_INTERVAL.
  intros (start & [[G [E|X]]|[G [E|X]]]) M D; try discriminate;
    rewrite wrap_long_near in D by lia; exists start; [left|right];
    rewrite length_app, Nat.add_1_r, grid_snoc, <- G; cbn [List.length];
    (split; [f_equal; f_equal; lia|right; lia]).
Qed.

Lemma open_grid_latched (last pos target last' pos' target' : Z) (ps : list Z) (e : bool) :
  open_grid e last pos target ps -> open_grid true last' pos' target' ps.
Proof.
  intros (start & [[G _]|[G _]]); exists start; [left|right];
    (split; [exact G|left; reflexivity]).
Qed.

Lemma open_grid_stop (e : bool) (last pos target : Z) (ps : list Z) :
  open_grid e last pos target ps -> open_grid e last pos pos ps.
Proof.
  intros (start & [[G [E|X]]|[G [E|X]]]); exists start; [left|left|right|right];
    (split; [exact G|]); first [left; exact E | right; lia].
Qed.

Lemma grid_neutral (l : Line) (lines : list Line) (b e : bool) (last pos target : Z) :
  neutral l -> grid_ok lines b e last pos target -> grid_ok (l :: lines) b e last pos target.
Proof.
  intros N (acc & E & C & O). exists acc. cbn [sessions_of]. rewrite E. cbn [bind].
  split; [|split; assumption].
  destruct l; cbn in N; try contradiction; unfold session_step; destruct (open acc); reflexivity.
Qed.

Lemma grid_start (lines : list Line) (e e' : bool) (last pos target pos' target' : Z) :
  grid_ok lines false e last pos target ->
  grid_ok (START_STREAM :: lines) true e' pos' pos' target'.
Proof.
  intros (acc & E & C & O).
  destruct (open acc) as [ps|] eqn:Eo; [destruct O; discriminate|].
  exists (mkSessions (closed acc) (Some [])). cbn [sessions_of]. rewrite E. cbn [bind].
  unfold session_step. rewrite Eo. split; [reflexivity|]. split; [exact C|].
  cbn [open]. split; [reflexivity|apply open_grid_nil].
Qed.

Lemma grid_end (lines : list Line) (e e' : bool) (last pos target last' pos' target' : Z) :
  grid_ok lines true e last pos target ->
  grid_ok (END_STREAM :: lines) false e' last' pos' target'.
Proof.
  intros (acc & E & C & O).
  destruct (open acc) as [ps|] eqn:Eo; [|discriminate].
  exists (mkSessions (closed acc ++ [ps]) None). cbn [sessions_of]. rewrite E. cbn [bind].
  unfold session_step. rewrite Eo. split; [reflexivity|]. split; [|reflexivity].
  cbn [closed]. apply Forall_app. split; [exact C|].
  constructor; [|constructor]. destruct O as [_ T]. exact (open_grid_on_grid _ _ _ _ _ T).
Qed.

Lemma grid_idle (lines : list Line) (e e' : bool) (last pos target last' pos' target' : Z) :
  grid_ok lines false e last pos target -> grid_ok lines false e' last' pos' target'.
Proof.
  intros (acc & E & C & O). exists acc. split; [exact E|]. split; [exact C|].
  destruct (open acc) as [ps|]; [destruct O; discriminate|exact O].
Qed.

Lemma grid_sample (lines : list Line) (last pos pos' target t : Z) (p : SpeedTest) (f : float) :
  grid_ok lines true false last pos target -> stepped pos pos' target ->
  POSITION_SAMPLE_INTERVAL <= Z.abs (wrap_long (pos' - last)) ->
  grid_ok (DataPoint t pos' p f :: lines) true false pos' pos' target.
Proof.
  intros (acc & E & C & O) M D.
  destruct (open acc) as [ps|] eqn:Eo; [|discriminate].
  exists (mkSessions (closed acc) (Some (ps ++ [pos']))). cbn [sessions_of]. rewrite E.
  cbn [bind]. unfold session_step. rewrite Eo. split; [reflexivity|]. split; [exact C|].
  cbn [open]. destruct O as [_ T]. split; [reflexivity|].
  exact (open_grid_sample _ _ _ _ _ T M D).
Qed.

Lemma grid_move (lines : list Line) (b : bool) (last pos pos' target : Z) :
  grid_ok lines b false last pos target -> stepped pos pos' target ->
  Z.abs (wrap_long (pos' - last)) < POSITION_SAMPLE_INTERVAL ->
  grid_ok lines b false last pos' target.
Proof.
  intros (acc & E & C & O) M D. exists acc. split; [exact E|]. split; [exact C|].
  destruct (open acc) as [ps|]; [|exact O].
  destruct O as [L T]. split; [exact L|]. exact (open_grid_move _ _ _ _ _ T M D).
Qed.

Lemma grid_latched (lines : list Line) (b e : bool) (last pos target last' pos' target' : Z) :
  grid_ok lines b e last pos target -> grid_ok lines b true last' pos' target'.
Proof.
  intros (acc & E & C & O). exists acc. split; [exact E|]. split; [exact C|].
  destruct (open acc) as [ps|]; [|exact O].
  destruct O as [L T]. split; [exact L|]. exact (open_grid_latched _ _ _ _ _ _ _ _ T).
Qed.

Lemma grid_stop (lines : list Line) (b e : bool) (last pos target : Z) :
  grid_ok lines b e last pos target -> grid_ok lines b e last pos pos.
Proof.
  intros (acc & E & C & O). exists acc. split; [exact E|]. split; [exact C|].
  destruct (open acc) as [ps|]; [|exact O].
  destruct O as [L T]. split; [exact L|]. exact (open_grid_stop _ _ _ _ _ T).
Qed.

Lemma stopStreaming_fields (s : State) :
  isStreaming (stopStreaming s) = false /\
  stepper (stopStreaming s) = stepper s /\
  emergencyStop (stopStreaming s) = emergencyStop s /\
  lastSampledPosition (stopStreaming s) = lastSampledPosition s /\
  homePosition (stopStreaming s) = homePosition s /\
  currentMode (stopStreaming s) = currentMode s.
Proof.
  unfold stopStreaming. destruct (isStreaming s) eqn:L; cbn [negb]; fields5;
    repeat split; try reflexivity. exact L.
Qed.

Lemma grid_stopStreaming (s : State) (e e' : bool) (last pos target last' pos' target' : Z) :
  grid_ok (out s) (isStreaming s) e last pos target ->
  grid_ok (out (stopStreaming s)) false e' last' pos' target'.
Proof.
  unfold stopStreaming. intros K.
  destruct (isStreaming s) eqn:L; cbn [negb]; fields5.
  - exact (grid_end _ _ _ _ _ _ _ _ _ K).
  - exact (grid_idle _ _ _ _ _ _ _ _ _ K).
Qed.

Ltac grid_lines := repeat (apply grid_neutral; [exact I|]).

Lemma handleEmergencyStop_grid (i : Input) (s : State) :
  grid_inv s -> grid_inv (handleEmergencyStop i s).
Proof.
  intros (V & K). split; [apply handleEmergencyStop_sessions; exact V|].
  unfold grid_of in *.
  unfold handleEmergencyStop. cbv zeta.
  assert (G : forall e' l' p' t',
             grid_ok (out (stopStreaming (set_stepper (Stepper.stop (halt_togo i) (stepper s)) s)))
               false e' l' p' t').
  { intros. eapply grid_stopStreaming. fields5. exact K. }
  destruct (stopStreaming_fields (set_stepper (Stepper.stop (halt_togo i) (stepper s)) s))
    as (F1 & F2 & F3 & F4 & F5 & F6). fields5.
  generalize dependent (stopStreaming (set_stepper (Stepper.stop (halt_togo i) (stepper s)) s)).
  intros s0 G F1 F2 F3 F4 F5 F6.
  destruct (late_serial i) as [c|]; try destruct (is_char c "R" "r"); fields5;
    rewrite ?F1; grid_lines; apply G.
Qed.

Ltac after_stop K :=
  lazymatch goal with
  | |- context [stopStreaming ?s0] =>
      let G := fresh "G" in
      assert (G : forall e' l' p' t', grid_ok (out (stopStreaming s0)) false e' l' p' t')
        by (intros; eapply grid_stopStreaming; fields5; exact K);
      destruct (stopStreaming_fields s0) as (? & ? & ? & ? & ? & ?); fields5;
      generalize dependent (stopStreaming s0); intros
  end.

Ltac by_stop :=
  match goal with
  | G : forall (e' : bool) (l' p' t' : Z), grid_ok _ false e' l' p' t' |- _ => apply G
  end.

Lemma enterNormalTestMode_grid (now testIndex : Z) (s : State) :
  grid_of s -> isStreaming s = false ->
  exists s', enterNormalTestMode now testIndex s = Some s' /\ grid_of s'.
Proof.
  unfold grid_of. intros K L. rewrite L in K. unfold enterNormalTestMode.
  destruct (Z.ltb_spec testIndex 0) as [Lo|Lo]; cbn [orb].
  { eexists. split; [reflexivity|]. fields5. rewrite L. grid_lines. exact K. }
  destruct (Z.geb_spec testIndex 8) as [Hi|Hi].
  { eexists. split; [reflexivity|]. fields5. rewrite L. grid_lines. exact K. }
  destruct (profile_at_valid_index testIndex) as [t Ht]; [lia|]. rewrite Ht. cbn [bind].
  eexists. split; [reflexivity|]. unfold startStreaming. fields5.
  cbn [Stepper.moveTo Stepper.setAcceleration Stepper.setMaxSpeed Stepper.currentPosition
       Stepper.currentPos Stepper.targetPos].
  grid_lines. eapply grid_start. apply grid_neutral; [exact I|]. exact K.
Qed.

Lemma handleSerialCommand_grid (i : Input) (s : State) :
  grid_inv s -> exists s', handleSerialCommand i s = Some s' /\ grid_of s'.
Proof.
  intros (V & K). unfold grid_of in *. unfold handleSerialCommand.
  destruct (serial i) as [cmd|]; [|exists s; split; [reflexivity|exact K]].
  destruct (is_char cmd "Q" "q") eqn:Q.
  { destruct (SystemMode_eqb (currentMode s) MODE_IDLE); cbn [negb];
      [exists s; split; [reflexivity|exact K]|].
    eexists. split; [reflexivity|]. cbv zeta. after_stop K. transport.
    grid_lines. by_stop. }
  destruct (is_char cmd "S" "s" || is_char cmd "R" "r") eqn:SR.
  - assert (E : cmd = "S"%char \/ cmd = "s"%char \/ cmd = "R"%char \/ cmd = "r"%char).
    { apply orb_true_iff in SR. destruct SR as [H|H]; apply is_char_true in H;
        destruct H as [H|H]; injection H as ->; auto. }
    cbn [negb]. rewrite andb_false_r.
    assert (R : exists s', (if negb (MotorState_eqb (motorState s) MOTOR_IDLE)
                            then Some (println TestStopped
                                         (set_motorState MOTOR_IDLE
                                            (stopStreaming
                                               (set_stepper (Stepper.stop (stop_togo i) (stepper s)) s))))
                            else Some s) = Some s' /\
                           grid_ok (out s') (isStreaming s') (emergencyStop s')
                             (lastSampledPosition s') (Stepper.currentPos (stepper s'))
                             (Stepper.targetPos (stepper s'))).
    { destruct (MotorState_eqb (motorState s) MOTOR_IDLE); cbn [negb];
        [exists s; split; [reflexivity|exact K]|].
      eexists. split; [reflexivity|]. after_stop K. transport. grid_lines. by_stop. }
    destruct E as [ -> | [ -> | [ -> | -> ] ] ]; cbn;
      first [exact R | exists s; split; [reflexivity|exact K]].
  - cbn [negb]. rewrite andb_true_r.
    destruct (MotorState_eqb (motorState s) MOTOR_IDLE) eqn:Ms; cbn [negb];
      [|exists s; split; [reflexivity|exact K]].
    assert (L : isStreaming s = false).
    { apply idle_not_streaming; [exact V|]. intros E. rewrite E in Ms. discriminate. }
    destruct (digit_index cmd) as [testIndex|];
      [apply enterNormalTestMode_grid; assumption|].
    apply orb_false_iff in SR. destruct SR as [SS _]. rewrite SS.
    rewrite L in K.
    repeat match goal with
           | |- context [if is_char cmd ?a ?b then _ else _] => destruct (is_char cmd a b)
           end;
      (eexists; split; [reflexivity|]);
      unfold enterLiveMonitorMode, enterAutoSequenceMode; fields5; rewrite ?L;
      grid_lines; try exact K; exact (grid_idle _ _ _ _ _ _ _ _ _ K).
Qed.

Lemma arrival_grid (s : State) : grid_of s -> grid_of (arrival s).
Proof.
  unfold grid_of. intros K. unfold arrival.
  destruct (Stepper.distanceToGo (stepper s) =? 0); [|exact K].
  cbv zeta. after_stop K. transport. grid_lines. by_stop.
Qed.

Ltac arrived_grid :=
  lazymatch goal with
  | |- grid_of (if Stepper.distanceToGo (stepper ?x) =? 0 then _ else _) =>
      apply (arrival_grid x)
  end.

Lemma handleMovingDown_grid (i : Input) (s : State) :
  grid_inv s -> emergencyStop s = false ->
  exists s', handleMovingDown i s = Some s' /\ grid_of s'.
Proof.
  intros ((_ & M & _ & _) & K) Em. unfold grid_of in K. rewrite Em in K.
  assert (St : stepped (Stepper.currentPos (stepper s))
                 (Stepper.currentPos (Stepper.run (step_due i) (stepper s)))
                 (Stepper.targetPos (stepper s))) by apply run_one_step.
  unfold handleMovingDown. cbv zeta. fields5. unfold Stepper.currentPosition.
  destruct (Z.geb_spec
              (Z.abs (wrap_long (Stepper.currentPos (Stepper.run (step_due i) (stepper s))
                                 - lastSampledPosition s)))
              POSITION_SAMPLE_INTERVAL) as [D|D].
  2:{ eexists. split; [reflexivity|].
      apply (arrival_grid (set_stepper (Stepper.run (step_due i) (stepper s)) s)).
      unfold grid_of. fields5.
      rewrite Em, StepperFacts.run_keeps_target. exact (grid_move _ _ _ _ _ _ K St D). }
  unfold getFilteredForce. cbv zeta. fields5.
  set (force := if fgt _ f0 then _ else f0).
  set (filtered := set_readIndex _ _).
  set (sampled := set_lastSampledPosition _ _).
  set (noted := if negb (contactDetected s) && fgt force CONTACT_THRESHOLD
                then println ContactDetected (set_contactDetected true sampled)
                else sampled).
  assert (P : grid_ok (out noted) (isStreaming s) false (lastSampledPosition s)
                (Stepper.currentPos (stepper s)) (Stepper.targetPos (stepper s)) /\
              isStreaming noted = isStreaming s /\
              emergencyStop noted = false /\
              lastSampledPosition noted =
                Stepper.currentPos (Stepper.run (step_due i) (stepper s)) /\
              stepper noted = Stepper.run (step_due i) (stepper s) /\
              currentTestIndex noted = currentTestIndex s).
  { subst noted sampled filtered.
    destruct (negb _ && fgt force CONTACT_THRESHOLD); fields5;
      (split; [grid_lines; exact K|]); repeat split; assumption || reflexivity. }
  destruct P as (P & Es & Ee & El & Est & Ei).
  clearbody noted. clear sampled filtered.
  destruct (fgt force OVERLOAD_LIMIT).
  { eexists. split; [reflexivity|]. unfold grid_of. fields5. rewrite Es.
    grid_lines. exact (grid_latched _ _ _ _ _ _ _ _ _ P). }
  rewrite Es. destruct (isStreaming s) eqn:L.
  - destruct (M eq_refl) as [_ B].
    destruct (profile_at_valid_index (currentTestIndex s) B) as [t Ht].
    unfold streamDataPoint. rewrite Ei, Ht. cbn [bind].
    eexists. split; [reflexivity|]. arrived_grid.
    unfold grid_of. fields5. rewrite Es, Ee, El, Est, StepperFacts.run_keeps_target.
    exact (grid_sample _ _ _ _ _ _ _ _ P St D).
  - cbn [bind]. eexists. split; [reflexivity|]. arrived_grid.
    unfold grid_of. rewrite Es, Ee, El, Est.
    exact (grid_idle _ _ _ _ _ _ _ _ _ P).
Qed.

Lemma handleReturningHome_grid (i : Input) (s : State) :
  grid_inv s -> motorState s = MOTOR_RETURNING_HOME -> grid_of (handleReturningHome i s).
Proof.
  intros (V & K) Ms. unfold grid_of in *.
  assert (L : isStreaming s = false).
  { apply idle_not_streaming; [exact V|]. rewrite Ms. discriminate. }
  rewrite L in K.
  unfold handleReturningHome, exitNormalTestMode. cbv zeta. fields5.
  destruct (Stepper.distanceToGo (Stepper.run (step_due i) (stepper s)) =? 0).
  - destruct (SystemMode_eqb (currentMode s) MODE_NORMAL_TEST) eqn:Mode.
    + assert (K' : grid_ok (out (set_motorState MOTOR_IDLE
                                   (println HomeReached
                                      (set_stepper (Stepper.run (step_due i) (stepper s)) s))))
                     (isStreaming s) false 0 0 0).
      { fields5. rewrite L. grid_lines. exact (grid_idle _ _ _ _ _ _ _ _ _ K). }
      after_stop K'. transport. grid_lines. by_stop.
    + fields5. rewrite L. grid_lines. exact (grid_idle _ _ _ _ _ _ _ _ _ K).
  - fields5. rewrite L. exact (grid_idle _ _ _ _ _ _ _ _ _ K).
Qed.

Lemma setupNextAutoTest_grid (now : Z) (s : State) :
  grid_of s -> isStreaming s = false -> 0 <= nextAutoTestIndex s ->
  exists s', setupNextAutoTest now s = Some s' /\ grid_of s'.
Proof.
  unfold grid_of. intros K L Lo. rewrite L in K.
  unfold setupNextAutoTest.
  destruct (Z.geb_spec (nextAutoTestIndex s) 8) as [Hi|Hi].
  { exists s. split; [reflexivity|]. rewrite L. exact K. }
  destruct (profile_at_valid_index (nextAutoTestIndex s)) as [t Ht]; [lia|].
  rewrite Ht. cbn [bind].
  eexists. split; [reflexivity|]. unfold startStreaming. fields5.
  cbn [Stepper.moveTo Stepper.setAcceleration Stepper.setMaxSpeed Stepper.currentPosition
       Stepper.currentPos Stepper.targetPos].
  eapply grid_start. apply grid_neutral; [exact I|]. exact K.
Qed.

Lemma handleLiveMonitorMode_grid (now : Z) (rawValue : float) (s : State) :
  grid_of s -> grid_of (handleLiveMonitorMode now rawValue s).
Proof.
  unfold grid_of. intros K. unfold handleLiveMonitorMode.
  destruct (_ >=? _); [|exact K].
  unfold getFilteredForce. cbv zeta. fields5. grid_lines. exact K.
Qed.

Lemma handleCalibrationMode_grid (c : CalibrationRun) (s : State) :
  grid_of s -> isStreaming s = false -> grid_of (handleCalibrationMode c s).
Proof.
  unfold grid_of. intros K L. rewrite L in K.
  unfold handleCalibrationMode, getUserInputMass, exitCalibrationMode,
    saveCalibrationToEEPROM, resetFilters.
  cbv zeta.
  repeat match goal with
         | |- context [if ?b then _ else _] => destruct b
         | |- context [match typed_mass c with _ => _ end] => destruct (typed_mass c)
         end;
    fields5; rewrite L; grid_lines; exact K.
Qed.

Lemma dispatch_grid (i : Input) (s : State) :
  grid_inv s -> emergencyStop s = false ->
  exists s', dispatch i s = Some s' /\ grid_of s'.
Proof.
  intros G Em. pose proof G as (V & K). pose proof V as (_ & M & C & A).
  unfold dispatch, handleNormalTestMode, handleAutoSequenceMode.
  destruct (currentMode s) eqn:Mode.
  - exists s. split; [reflexivity|exact K].
  - eexists. split; [reflexivity|]. apply handleLiveMonitorMode_grid. exact K.
  - destruct (motorState s) eqn:Ms.
    + exists s. split; [reflexivity|exact K].
    + apply handleMovingDown_grid; assumption.
    + eexists. split; [reflexivity|]. apply handleReturningHome_grid; assumption.
  - destruct (motorState s) eqn:Ms.
    + assert (L : isStreaming s = false).
      { apply idle_not_streaming; [exact V|]. rewrite Ms. discriminate. }
      destruct (nextAutoTestIndex s <? 8).
      * apply setupNextAutoTest_grid; [exact K|exact L|]. apply A. reflexivity.
      * eexists. split; [reflexivity|]. unfold exitAutoSequenceMode, grid_of in *. fields5.
        rewrite L in K. grid_lines. exact K.
    + apply handleMovingDown_grid; assumption.
    + eexists. split; [reflexivity|]. apply handleReturningHome_grid; assumption.
  - eexists. split; [reflexivity|]. apply handleCalibrationMode_grid; [exact K|].
    apply C. reflexivity.
Qed.

Lemma loop_grid (i : Input) (s : State) :
  grid_inv s -> exists s', loop i s = Some s' /\ grid_inv s'.
Proof.
  intros G. pose proof G as (V & K).
  destruct (loop_sessions i s V) as (s' & E & V').
  exists s'. split; [exact E|]. split; [exact V'|].
  unfold loop in E.
  assert (H : exists s1, (if negb (SystemMode_eqb (currentMode s) MODE_CALIBRATION)
                          then handleSerialCommand i s else Some s) = Some s1 /\ grid_inv s1).
  { destruct (negb _); [|exists s; split; [reflexivity|exact G]].
    destruct (handleSerialCommand_grid i s G) as (s1 & E1 & K1).
    destruct (handleSerialCommand_sessions i s V) as (s1' & E1' & V1).
    rewrite E1 in E1'. injection E1' as <-.
    exists s1. split; [exact E1|]. split; assumption. }
  destruct H as (s1 & E1 & G1). rewrite E1 in E. cbn [bind] in E.
  destruct (emergencyStop s1) eqn:Em.
  { injection E as <-. apply handleEmergencyStop_grid. exact G1. }
  destruct (dispatch_grid i s1 G1 Em) as (s2 & E2 & K2). rewrite E2 in E. cbn [bind] in E.
  unfold grid_of in *.
  destruct (tare_status i); injection E as <-; [|exact K2].
  unfold resetFilters. fields5. grid_lines. exact K2.
Qed.

Lemma run_ticks_grid (ins : list Input) (s : State) :
  grid_inv s -> exists s', run_ticks ins s = Some s' /\ grid_inv s'.
Proof.
  revert s. induction ins as [|i ins IH]; intros s V; cbn [run_ticks].
  - exists s. split; [reflexivity|exact V].
  - destruct (loop_grid i s V) as (s1 & -> & V1). cbn [bind]. exact (IH s1 V1).
Qed.

Lemma boot_grid (mem : list Z) : grid_inv (boot mem).
Proof.
  split; [exact (setup_sessions mem (boot mem) eq_refl)|]. unfold grid_of.
  destruct (setup_sessions mem (boot mem) eq_refl) as ((acc & P & _ & O) & _).
  assert (L : isStreaming (boot mem) = false).
  { unfold boot, setup, loadCalibrationFromEEPROM, resetFilters.
    destruct (_ || _); reflexivity. }
  rewrite L in *. destruct (open acc) as [ps|] eqn:Eo; [destruct O; discriminate|].
  assert (C : closed acc = []).
  { revert P Eo. unfold boot, setup, loadCalibrationFromEEPROM, resetFilters.
    destruct (_ || _); cbn; intros P Eo; injection P as <-; reflexivity. }
  exists acc. split; [exact P|]. rewrite C, Eo. split; [constructor|reflexivity].
Qed.

(** In the mode-based tester the records of a streaming session lie on a
    grid: from power-up, over any EEPROM contents and any inputs, every
    session of the transcript holds the positions [start + d], [start + 2 d],
    ..., one record every [POSITION_SAMPLE_INTERVAL] steps ([d] is plus or
    minus the interval), none skipped and none repeated. *)
Theorem stream_samples_every_interval :
  forall (mem : list Z) (ins : list Input),
    exists (s' : State) (acc : Sessions),
      run_ticks ins (boot mem) = Some s' /\
      sessions_of (out s') = Some acc /\
      Forall on_grid (all_sessions acc).
Proof.
  intros mem ins.
  destruct (run_ticks_grid ins (boot mem) (boot_grid mem)) as (s' & E & _ & (acc & P & C & O)).
  exists s', acc. split; [exact E|]. split; [exact P|].
  unfold all_sessions. destruct (open acc) as [ps|]; [|exact C].
  destruct O as [_ T]. apply Forall_app. split; [exact C|].
  constructor; [exact (open_grid_on_grid _ _ _ _ _ T)|constructor].
Qed.

(** *** The travel of the probe *)

Ltac travel_fields :=
  fields5;
  cbn [Stepper.moveTo Stepper.setAcceleration Stepper.setMaxSpeed Stepper.stop
       Stepper.currentPosition Stepper.currentPos Stepper.targetPos] in *.

Lemma stopStreaming_travel (s : State) :
  homePosition (stopStreaming s) = homePosition s /\
  stepper (stopStreaming s) = stepper s /\
  motorState (stopStreaming s) = motorState s /\
  emergencyStop (stopStreaming s) = emergencyStop s.
Proof. unfold stopStreaming. destruct (isStreaming s); repeat split; reflexivity. Qed.

Ltac unstream :=
  repeat match goal with
         | |- context [stopStreaming ?x] =>
             let F1 := fresh "F" in let F2 := fresh "F" in
             let F3 := fresh "F" in let F4 := fresh "F" in
             destruct (stopStreaming_travel x) as (F1 & F2 & F3 & F4);
             rewrite ?F1, ?F2, ?F3, ?F4; clear F1 F2 F3 F4
         end.

(** Closes a goal [travel_inv] unfolded, from its three parts [H], [P]
    and [T] on the state before. *)
Ltac travel_goal H P T :=
  split; [first [exact H | reflexivity | congruence]|];
  split; [first [exact P | lia]|];
  first [ exact T
        | let A := fresh "A" in
          let B := fresh "B" in
          intros A B;
          first [ lia | discriminate
                | exfalso; apply A; reflexivity
                | apply T; assumption ] ].

Lemma run_travel (due : bool) (m : Stepper.t) :
  0 <= Stepper.currentPos m <= testDistance ->
  0 <= Stepper.targetPos m <= testDistance ->
  0 <= Stepper.currentPos (Stepper.run due m) <= testDistance /\
  0 <= Stepper.targetPos (Stepper.run due m) <= testDistance.
Proof.
  intros P T. rewrite StepperFacts.run_keeps_target.
  pose proof (StepperFacts.run_between due m). lia.
Qed.

Lemma enterNormalTestMode_travel (now testIndex : Z) (s s' : State) :
  travel_inv s -> enterNormalTestMode now testIndex s = Some s' -> travel_inv s'.
Proof.
  unfold travel_inv, enterNormalTestMode, startStreaming, bind, testDistance.
  intros (H & P & T).
  split_cases; intros E; try discriminate; injection E as <-; travel_fields;
    rewrite ?H; change (wrap_long (0 + 24000)) with 24000; travel_goal H P T.
Qed.

Lemma setupNextAutoTest_travel (now : Z) (s s' : State) :
  travel_inv s -> setupNextAutoTest now s = Some s' -> travel_inv s'.
Proof.
  unfold travel_inv, setupNextAutoTest, startStreaming, bind, testDistance.
  intros (H & P & T).
  split_cases; intros E; try discriminate; injection E as <-; travel_fields;
    rewrite ?H; change (wrap_long (0 + 24000)) with 24000; travel_goal H P T.
Qed.

Lemma handleSerialCommand_travel (i : Input) (s s' : State) :
  travel_inv s -> keeps_home i -> handleSerialCommand i s = Some s' -> travel_inv s'.
Proof.
  intros V K. unfold handleSerialCommand.
  destruct (serial i) as [cmd|] eqn:Si; [|intros E; injection E as <-; exact V].
  specialize (K cmd Si).
  destruct (is_char cmd "Q" "q").
  { destruct (negb _); intros E; injection E as <-; [|exact V].
    destruct V as (H & P & T). unfold travel_inv. travel_fields. unstream.
    travel_fields. travel_goal H P T. }
  destruct (negb (MotorState_eqb (motorState s) MOTOR_IDLE)
            && negb (is_char cmd "S" "s" || is_char cmd "R" "r"));
    [intros E; injection E as <-; exact V|].
  destruct (digit_index cmd) as [testIndex|]; [apply enterNormalTestMode_travel; exact V|].
  rewrite K. destruct V as (H & P & T).
  unfold travel_inv, enterLiveMonitorMode, enterAutoSequenceMode.
  repeat match goal with
         | |- context [if is_char cmd ?a ?b then _ else _] => destruct (is_char cmd a b)
         end;
    try (destruct (negb (MotorState_eqb (motorState s) MOTOR_IDLE)));
    intros E; injection E as <-; travel_fields; unstream; travel_fields;
    try (travel_goal H P T).
  (* the manual go-home *)
  all: match goal with
       | |- context [Stepper.runToPosition ?m] =>
           destruct (StepperFacts.runToPosition_arrives m) as [A B]; rewrite A, B
       end.
  all: travel_fields; unfold testDistance in *; rewrite H;
    split; [reflexivity|]; split; [lia|]; intros _ _; lia.
Qed.

Lemma handleEmergencyStop_travel (i : Input) (s : State) :
  emergencyStop s = true -> travel_inv s -> travel_inv (handleEmergencyStop i s).
Proof.
  intros Em (H & P & T). unfold travel_inv, handleEmergencyStop. cbv zeta.
  destruct (late_serial i) as [c|]; try destruct (is_char c "R" "r"); travel_fields;
    unstream; travel_fields; rewrite ?Em;
    split; try exact H; split; try exact P; intros A B;
    first [discriminate | exfalso; apply A; reflexivity].
Qed.

Lemma arrival_travel (s : State) : travel_inv s -> travel_inv (arrival s).
Proof.
  intros (H & P & T). unfold travel_inv, arrival.
  destruct (_ =? 0); [|auto]. cbv zeta. travel_fields. unstream.
  travel_fields. rewrite H. unfold testDistance in *.
  split; [reflexivity|]. split; [exact P|]. intros _ _. lia.
Qed.

Lemma handleMovingDown_travel (i : Input) (s s' : State) :
  motorState s = MOTOR_MOVING_DOWN -> emergencyStop s = false ->
  travel_inv s -> handleMovingDown i s = Some s' -> travel_inv s'.
Proof.
  intros Ms Em (H & P & T).
  assert (T0 : 0 <= Stepper.targetPos (stepper s) <= testDistance)
    by (apply T; [rewrite Ms; discriminate|exact Em]).
  destruct (run_travel (step_due i) (stepper s) P T0) as [P1 T1].
  assert (V1 : forall x, homePosition x = homePosition s ->
                         stepper x = Stepper.run (step_due i) (stepper s) ->
                         travel_inv x).
  { intros x Hx Sx. unfold travel_inv. rewrite Hx, Sx. auto. }
  unfold handleMovingDown. cbv zeta. fields5. unfold Stepper.currentPosition.
  destruct (_ >=? POSITION_SAMPLE_INTERVAL).
  2:{ intros E. injection E as <-.
      apply (arrival_travel (set_stepper (Stepper.run (step_due i) (stepper s)) s)).
      apply V1; reflexivity. }
  unfold getFilteredForce. cbv zeta. fields5.
  set (force := if fgt _ f0 then _ else f0).
  set (filtered := set_readIndex _ _).
  set (sampled := set_lastSampledPosition _ _).
  set (noted := if negb (contactDetected s) && fgt force CONTACT_THRESHOLD
                then println ContactDetected (set_contactDetected true sampled)
                else sampled).
  assert (N : homePosition noted = homePosition s /\
              stepper noted = Stepper.run (step_due i) (stepper s)).
  { subst noted sampled filtered. destruct (negb _ && _); split; reflexivity. }
  destruct N as [Nh Ns]. clearbody noted. clear sampled filtered.
  destruct (fgt force OVERLOAD_LIMIT).
  { intros E. injection E as <-. apply V1; fields5; assumption. }
  unfold streamDataPoint.
  destruct (isStreaming noted); [destruct (tests_at (currentTestIndex noted))|];
    cbn [bind]; intros E; try discriminate; injection E as <-.
  - match goal with
    | |- travel_inv (if _ then _ else ?x) => apply (arrival_travel x)
    end. apply V1; fields5; assumption.
  - match goal with
    | |- travel_inv (if _ then _ else ?x) => apply (arrival_travel x)
    end. apply V1; assumption.
Qed.

Lemma handleReturningHome_travel (i : Input) (s : State) :
  motorState s = MOTOR_RETURNING_HOME -> emergencyStop s = false ->
  travel_inv s -> travel_inv (handleReturningHome i s).
Proof.
  intros Ms Em (H & P & T).
  assert (T0 : 0 <= Stepper.targetPos (stepper s) <= testDistance)
    by (apply T; [rewrite Ms; discriminate|exact Em]).
  destruct (run_travel (step_due i) (stepper s) P T0) as [P1 T1].
  unfold travel_inv, handleReturningHome, exitNormalTestMode. cbv zeta.
  split_cases; travel_fields; unstream; travel_fields;
    (split; [exact H|]); (split; [exact P1|]); intros _ _; exact T1.
Qed.

Lemma handleCalibrationMode_travel (c : CalibrationRun) (s : State) :
  travel_inv s -> travel_inv (handleCalibrationMode c s).
Proof.
  intros (H & P & T). unfold travel_inv, handleCalibrationMode, getUserInputMass,
    exitCalibrationMode, saveCalibrationToEEPROM, resetFilters.
  cbv zeta.
  repeat match goal with
         | |- context [if ?b then _ else _] => destruct b
         | |- context [match typed_mass c with _ => _ end] => destruct (typed_mass c)
         end; fields5; travel_goal H P T.
Qed.

Lemma dispatch_travel (i : Input) (s s' : State) :
  emergencyStop s = false ->
  travel_inv s -> dispatch i s = Some s' -> travel_inv s'.
Proof.
  intros Em V. unfold dispatch, handleNormalTestMode, handleAutoSequenceMode.
  destruct (currentMode s).
  - intros E; injection E as <-; exact V.
  - intros E; injection E as <-. unfold handleLiveMonitorMode, getFilteredForce.
    destruct (_ >=? _); [|exact V]. unfold travel_inv. fields5. exact V.
  - destruct (motorState s) eqn:Ms.
    + intros E; injection E as <-; exact V.
    + apply handleMovingDown_travel; assumption.
    + intros E; injection E as <-. apply handleReturningHome_travel; assumption.
  - destruct (motorState s) eqn:Ms.
    + destruct (_ <? 8); [apply setupNextAutoTest_travel; exact V|].
      intros E; injection E as <-. destruct V as (H & P & T).
      unfold travel_inv, exitAutoSequenceMode. fields5. travel_goal H P T.
    + apply handleMovingDown_travel; assumption.
    + intros E; injection E as <-. apply handleReturningHome_travel; assumption.
  - intros E; injection E as <-. apply handleCalibrationMode_travel; exact V.
Qed.

Lemma loop_travel (i : Input) (s s' : State) :
  travel_inv s -> keeps_home i -> loop i s = Some s' -> travel_inv s'.
Proof.
  intros V K. unfold loop.
  destruct (negb (SystemMode_eqb (currentMode s) MODE_CALIBRATION)).
  - destruct (handleSerialCommand i s) as [s1|] eqn:E1; cbn [bind]; [|discriminate].
    pose proof (handleSerialCommand_travel i s s1 V K E1) as V1.
    destruct (emergencyStop s1) eqn:Em.
    + intros E; injection E as <-. apply handleEmergencyStop_travel; assumption.
    + destruct (dispatch i s1) as [s2|] eqn:E2; cbn [bind]; [|discriminate].
      pose proof (dispatch_travel i s1 s2 Em V1 E2) as V2.
      destruct (tare_status i); intros E; injection E as <-; [|exact V2].
      unfold travel_inv, resetFilters. fields5. exact V2.
  - cbn [bind]. destruct (emergencyStop s) eqn:Em.
    + intros E; injection E as <-. apply handleEmergencyStop_travel; assumption.
    + destruct (dispatch i s) as [s2|] eqn:E2; cbn [bind]; [|discriminate].
      pose proof (dispatch_travel i s s2 Em V E2) as V2.
      destruct (tare_status i); intros E; injection E as <-; [|exact V2].
      unfold travel_inv, resetFilters. fields5. exact V2.
Qed.

Lemma boot_travel (mem : list Z) : travel_inv (boot mem).
Proof.
  unfold travel_inv, boot, setup, loadCalibrationFromEEPROM, resetFilters, testDistance.
  destruct (_ || _); cbn; (split; [reflexivity|]); (split; [lia|]);
    intros A; exfalso; apply A; reflexivity.
Qed.

(** The probe never leaves the test distance: from power-up, as long as
    home is not redefined (no command [0]), whatever else the serial port,
    the load cell, the stepper timer and the library's [stop()] deliver,
    every pass of [loop] returns with home at the power-up position 0 and
    the stepper within [0, testDistance]; during a motion that no
    emergency stop has interrupted, the only time the sketch lets the
    stepper step, its target lies within [0, testDistance] too. *)
Theorem travel_within_test_distance :
  forall (mem : list Z) (ins : list Input),
    Forall keeps_home ins ->
    exists s' : State,
      run_ticks ins (boot mem) = Some s' /\
      homePosition s' = 0 /\
      0 <= Stepper.currentPos (stepper s') <= testDistance /\
      (motorState s' <> MOTOR_IDLE -> emergencyStop s' = false ->
       0 <= Stepper.targetPos (stepper s') <= testDistance).
Proof.
  intros mem ins K.
  enough (G : forall s, stream_inv s -> travel_inv s ->
                        exists s', run_ticks ins s = Some s' /\ travel_inv s').
  { apply G; [exact (setup_sessions mem (boot mem) eq_refl)|apply boot_travel]. }
  induction K as [|i ins Ki _ IH]; intros s V T; cbn [run_ticks].
  - exists s. split; [reflexivity|exact T].
  - destruct (loop_sessions i s V) as (s1 & E1 & V1). rewrite E1. cbn [bind].
    apply IH; [exact V1|]. exact (loop_travel i s s1 T Ki E1).
Qed.

Lemma travel_within_test_distance_witness :
  exists s' : State,
    run_ticks (overload_run ++ [mkInput None None 0 true 0 150 f0 false no_calibration])
      (boot stored) = Some s' /\
    homePosition s' = 0 /\
    0 <= Stepper.currentPos (stepper s') <= testDistance /\
    (motorState s' <> MOTOR_IDLE -> emergencyStop s' = false ->
     0 <= Stepper.targetPos (stepper s') <= testDistance).
Proof.
  apply (travel_within_test_distance stored
           (overload_run ++ [mkInput None None 0 true 0 150 f0 false no_calibration])).
  unfold overload_run. repeat constructor; intros c E; vm_compute in E;
    try discriminate; injection E as <-; reflexivity.
Defined.

(** *** The latched emergency stop *)

Lemma stopStreaming_frame (s : State) :
  emergencyStop (stopStreaming s) = emergencyStop s /\
  stepper (stopStreaming s) = stepper s /\
  homePosition (stopStreaming s) = homePosition s /\
  isStreaming (stopStreaming s) = false.
Proof.
  unfold stopStreaming. destruct (isStreaming s) eqn:L; cbn [negb]; fields5;
    repeat split; try reflexivity. exact L.
Qed.

(** What a serial command can do to the stepper: nothing, except the
    manual go-home, which is only reached with the motor idle. *)
Lemma handleSerialCommand_position (i : Input) (s : State) :
  exists s1 : State,
    handleSerialCommand i s = Some s1 /\
    emergencyStop s1 = emergencyStop s /\
    (Stepper.currentPos (stepper s1) = Stepper.currentPos (stepper s) \/
     (exists c, serial i = Some c /\ is_char c "H" "h" = true) /\
     motorState s = MOTOR_IDLE /\
     Stepper.currentPos (stepper s1) = homePosition s).
Proof.
  unfold handleSerialCommand.
  destruct (serial i) as [cmd|]; [|exists s; auto].
  destruct (is_char cmd "Q" "q").
  { destruct (negb _); [|exists s; auto].
    eexists. split; [reflexivity|]. fields5.
    destruct (stopStreaming_frame s) as (-> & -> & _ & _). auto. }
  destruct (MotorState_eqb (motorState s) MOTOR_IDLE) eqn:Ms; cbn [negb andb].
  - assert (Idle : motorState s = MOTOR_IDLE) by (destruct (motorState s); auto; discriminate).
    destruct (digit_index cmd) as [testIndex|].
    { unfold enterNormalTestMode.
      destruct ((testIndex <? 0) || (testIndex >=? 8)) eqn:B; [eexists; split; [reflexivity|auto]|].
      apply orb_false_iff in B. destruct B as [B1 B2].
      destruct (profile_at_valid_index testIndex) as [t Ht]; [lia|]. rewrite Ht. cbn [bind].
      eexists. split; [reflexivity|]. unfold startStreaming. fields5. auto. }
    destruct (is_char cmd "M" "m"); [eexists; split; [reflexivity|auto]|].
    destruct (is_char cmd "A" "a"); [eexists; split; [reflexivity|auto]|].
    destruct (is_char cmd "C" "c"); [eexists; split; [reflexivity|auto]|].
    destruct (is_char cmd "T" "t"); [eexists; split; [reflexivity|auto]|].
    destruct (is_char cmd "0" "0"); [eexists; split; [reflexivity|auto]|].
    destruct (is_char cmd "H" "h") eqn:EH.
    { eexists. split; [reflexivity|]. fields5. split; [reflexivity|]. right.
      split; [exists cmd; auto|]. split; [exact Idle|].
      match goal with
      | |- context [Stepper.runToPosition ?m] =>
          destruct (StepperFacts.runToPosition_arrives m) as [A _]; rewrite A
      end. reflexivity. }
    destruct (is_char cmd "S" "s"); eexists; (split; [reflexivity|auto]).
  - destruct (is_char cmd "S" "s" || is_char cmd "R" "r") eqn:SR; cbn [negb];
      [|exists s; auto].
    assert (E : cmd = "S"%char \/ cmd = "s"%char \/ cmd = "R"%char \/ cmd = "r"%char).
    { apply orb_true_iff in SR. destruct SR as [H|H]; apply is_char_true in H;
        destruct H as [H|H]; injection H as ->; auto. }
    destruct E as [ -> | [ -> | [ -> | -> ] ] ]; cbn; rewrite ?Ms; cbn [negb];
      eexists; (split; [reflexivity|]); fields5;
      try (destruct (stopStreaming_frame (set_stepper (Stepper.stop (stop_togo i) (stepper s)) s))
             as (-> & -> & _ & _)); fields5; auto.
Qed.

Lemma latched_pass (i : Input) (s : State) :
  emergencyStop s = true ->
  no_reset_no_home i ->
  exists s' : State,
    loop i s = Some s' /\
    emergencyStop s' = true /\
    Stepper.currentPos (stepper s') = Stepper.currentPos (stepper s) /\
    isStreaming s' = false.
Proof.
  intros Em [NoH NoR]. unfold loop.
  assert (H : exists s1,
             (if negb (SystemMode_eqb (currentMode s) MODE_CALIBRATION)
              then handleSerialCommand i s else Some s) = Some s1 /\
             emergencyStop s1 = true /\
             Stepper.currentPos (stepper s1) = Stepper.currentPos (stepper s)).
  { destruct (SystemMode_eqb (currentMode s) MODE_CALIBRATION); cbn [negb];
      [exists s; auto|].
    destruct (handleSerialCommand_position i s) as (s1 & E1 & F & [P|((c & Hc & HH) & _)]).
    - exists s1. split; [exact E1|]. split; [congruence|exact P].
    - rewrite (NoH c Hc) in HH. discriminate. }
  destruct H as (s1 & -> & Em1 & P). cbn [bind]. rewrite Em1.
  eexists. split; [reflexivity|].
  destruct (handleEmergencyStop_still i s1) as (P' & St & [R|(c & Hc & HR)]).
  - split; [congruence|]. split; [congruence|exact St].
  - rewrite (NoR c Hc) in HR. discriminate.
Qed.

Lemma latched_run (ins : list Input) (s : State) :
  emergencyStop s = true ->
  Forall no_reset_no_home ins ->
  exists s' : State,
    run_ticks ins s = Some s' /\
    emergencyStop s' = true /\
    Stepper.currentPos (stepper s') = Stepper.currentPos (stepper s) /\
    (ins <> [] -> isStreaming s' = false).
Proof.
  intros Em Q. revert s Em. induction Q as [|i ins Qi Q IH]; intros s Em.
  - exists s. repeat split; try assumption. intros N. contradiction.
  - destruct (latched_pass i s Em Qi) as (s1 & E1 & Em1 & P1 & St1).
    destruct (IH s1 Em1) as (s2 & E2 & Em2 & P2 & St2).
    exists s2. cbn [run_ticks]. rewrite E1. cbn [bind].
    split; [exact E2|]. split; [exact Em2|]. split; [congruence|].
    intros _. destruct ins as [|j ins].
    + cbn in E2. injection E2 as <-. exact St1.
    + apply St2. discriminate.
Qed.

(** C4.  When, in a pass with the motor moving down (no exit or stop
    command ends the motion in that pass), the position threshold is
    crossed and the filtered force sampled exceeds [OVERLOAD_LIMIT], the
    overload check of that pass latches [emergencyStop], and the motion
    is over within that pass: the handler returns at once, so the stepper
    is as the one call of [run()] that precedes the sample left it, and
    from then on the emergency check at the top of [loop] keeps every
    pass away from [run()].  Whatever the later passes bring, as long as
    no reset byte [R] is read by the emergency handler and no manual
    go-home [H] is sent, the flag stays latched and the stepper never
    makes another step, so it cannot reach its target; the stream is
    closed by the first of these passes. *)
Theorem overload_latches_and_halts :
  forall (s : State) (i : Input) (later : list Input),
    emergencyStop s = false ->
    currentMode s = MODE_NORMAL_TEST \/ currentMode s = MODE_AUTO_SEQUENCE ->
    motorState s = MOTOR_MOVING_DOWN ->
    (forall cmd, serial i = Some cmd ->
       is_char cmd "Q" "q" = false /\ is_char cmd "S" "s" = false) ->
    POSITION_SAMPLE_INTERVAL
      <= Z.abs (wrap_long (Stepper.currentPos (Stepper.run (step_due i) (stepper s))
                           - lastSampledPosition s)) ->
    fgt (fst (getFilteredForce (raw i) s)) OVERLOAD_LIMIT = true ->
    Forall no_reset_no_home later ->
    exists s1 s2 : State,
      loop i s = Some s1 /\
      emergencyStop s1 = true /\
      motorState s1 = MOTOR_MOVING_DOWN /\
      stepper s1 = Stepper.run (step_due i) (stepper s) /\
      run_ticks later s1 = Some s2 /\
      emergencyStop s2 = true /\
      Stepper.currentPos (stepper s2) = Stepper.currentPos (stepper s1) /\
      (later <> [] -> isStreaming s2 = false).
Proof.
  intros s i later He Hmode Hm Hc Hd Hf Hlater.
  assert (Hcal : SystemMode_eqb (currentMode s) MODE_CALIBRATION = false)
    by (destruct Hmode as [-> | ->]; reflexivity).
  assert (Hpass : exists s1, loop i s = Some s1 /\
            emergencyStop s1 = true /\ motorState s1 = MOTOR_MOVING_DOWN /\
            stepper s1 = Stepper.run (step_due i) (stepper s)).
  { unfold loop. rewrite Hcal. cbn [negb].
    assert (Hbusy0 : motorState s <> MOTOR_IDLE) by (rewrite Hm; discriminate).
    rewrite (busy_command_dropped i s Hbusy0 Hc). cbn [bind]. rewrite He.
    assert (Hdisp : dispatch i s = handleMovingDown i s).
    { unfold dispatch, handleNormalTestMode, handleAutoSequenceMode.
      destruct Hmode as [-> | ->]; rewrite Hm; reflexivity. }
    rewrite Hdisp. unfold handleMovingDown. fields5.
    destruct (Z.geb_spec
                (Z.abs (wrap_long (Stepper.currentPosition (Stepper.run (step_due i) (stepper s))
                                   - lastSampledPosition s)))
                POSITION_SAMPLE_INTERVAL) as [G|G];
      [|unfold Stepper.currentPosition in G; lia].
    rewrite <- (getFilteredForce_stepper (raw i) (Stepper.run (step_due i) (stepper s)) s) in Hf.
    destruct (getFilteredForce (raw i) (set_stepper (Stepper.run (step_due i) (stepper s)) s))
      as [force s'] eqn:EF.
    cbn [fst] in Hf. rewrite Hf.
    assert (Hs' : motorState s' = motorState s /\
                  stepper s' = Stepper.run (step_due i) (stepper s)).
    { unfold getFilteredForce in EF. injection EF as _ <-. repeat split; reflexivity. }
    destruct Hs' as (M' & S').
    cbn [bind].
    destruct (negb (contactDetected _) && fgt force CONTACT_THRESHOLD);
      destruct (tare_status i); eexists; (split; [reflexivity|]);
      unfold resetFilters; fields5; rewrite ?M', ?S', ?Hm;
      repeat split; reflexivity. }
  destruct Hpass as (s1 & E1 & He1 & Hm1 & Hs1).
  destruct (latched_run later s1 He1 Hlater) as (s2 & E2 & He2 & Hp2 & Hst2).
  exists s1, s2. repeat split; assumption.
Qed.

Lemma overload_latches_and_halts_witness :
  exists s1 s2 : State,
    loop overload_tick before_overload = Some s1 /\
    emergencyStop s1 = true /\
    motorState s1 = MOTOR_MOVING_DOWN /\
    stepper s1 = Stepper.run (step_due overload_tick) (stepper before_overload) /\
    run_ticks [quiet_tick; pass (Some "R"%char) true f0; pass (Some "1"%char) true f0] s1
      = Some s2 /\
    emergencyStop s2 = true /\
    Stepper.currentPos (stepper s2) = Stepper.currentPos (stepper s1) /\
    ([quiet_tick; pass (Some "R"%char) true f0; pass (Some "1"%char) true f0] <> [] ->
     isStreaming s2 = false).
Proof.
  apply (overload_latches_and_halts before_overload overload_tick
           [quiet_tick; pass (Some "R"%char) true f0; pass (Some "1"%char) true f0]).
  - reflexivity.
  - left. reflexivity.
  - reflexivity.
  - intros cmd E. discriminate.
  - vm_compute. discriminate.
  - vm_compute. reflexivity.
  - repeat constructor; intros c E; vm_compute in E; try discriminate;
      injection E as <-; reflexivity.
Defined.

(** Once [emergencyStop] is set, every pass of [loop] ends with the
    stream closed, and the flag stays set unless the reset byte [R] is
    the one read by the emergency handler (an [R] read by the command
    handler earlier in the pass is dropped).  The stepper makes no step
    in such a pass, with one exception: the manual go-home [H], accepted
    when the motor sub-state is idle, still drives it to the home
    position. *)
Theorem emergency_stop_stays_latched :
  forall (i : Input) (s : State),
    emergencyStop s = true ->
    exists s' : State,
      loop i s = Some s' /\
      isStreaming s' = false /\
      (emergencyStop s' = true \/
       exists c, late_serial i = Some c /\ is_char c "R" "r" = true /\
                 motorState s' = MOTOR_IDLE) /\
      (Stepper.currentPos (stepper s') = Stepper.currentPos (stepper s) \/
       (exists c, serial i = Some c /\ is_char c "H" "h" = true) /\
       motorState s = MOTOR_IDLE /\
       currentMode s <> MODE_CALIBRATION /\
       Stepper.currentPos (stepper s') = homePosition s).
Proof.
  intros i s Em. unfold loop.
  assert (H : exists s1,
             (if negb (SystemMode_eqb (currentMode s) MODE_CALIBRATION)
              then handleSerialCommand i s else Some s) = Some s1 /\
             emergencyStop s1 = true /\
             (Stepper.currentPos (stepper s1) = Stepper.currentPos (stepper s) \/
              (exists c, serial i = Some c /\ is_char c "H" "h" = true) /\
              motorState s = MOTOR_IDLE /\ currentMode s <> MODE_CALIBRATION /\
              Stepper.currentPos (stepper s1) = homePosition s)).
  { destruct (SystemMode_eqb (currentMode s) MODE_CALIBRATION) eqn:Mode; cbn [negb];
      [exists s; auto|].
    destruct (handleSerialCommand_position i s) as (s1 & E1 & F & [P|(C & I & P)]);
      exists s1; (split; [exact E1|]); (split; [congruence|]); [left; exact P|].
    right. repeat split; try assumption. intros K. rewrite K in Mode. discriminate. }
  destruct H as (s1 & -> & Em1 & P). cbn [bind]. rewrite Em1.
  eexists. split; [reflexivity|].
  unfold handleEmergencyStop. cbv zeta.
  destruct (stopStreaming_frame (set_stepper (Stepper.stop (halt_togo i) (stepper s1)) s1))
    as (F1 & F2 & _ & F4).
  assert (R : forall x : State,
             stepper x = Stepper.stop (halt_togo i) (stepper s1) ->
             Stepper.currentPos (stepper x) = Stepper.currentPos (stepper s) \/
             (exists c, serial i = Some c /\ is_char c "H" "h" = true) /\
             motorState s = MOTOR_IDLE /\ currentMode s <> MODE_CALIBRATION /\
             Stepper.currentPos (stepper x) = homePosition s).
  { intros x ->. unfold Stepper.stop.
    cbn [Stepper.currentPos Stepper.targetPos]. exact P. }
  destruct (late_serial i) as [c|] eqn:Late; [destruct (is_char c "R" "r") eqn:ER|]; fields5;
    rewrite ?F1, ?F4; fields5;
    (pose proof (R _ F2) as Q); (split; [reflexivity|]);
    (split; [|exact Q]); first [left; assumption | right; exists c; auto].
Qed.

Lemma emergency_stop_stays_latched_witness :
  exists s' : State,
    loop (pass (Some "R"%char) true f0) after_overload = Some s' /\
    isStreaming s' = false /\
    (emergencyStop s' = true \/
     exists c, late_serial (pass (Some "R"%char) true f0) = Some c /\
               is_char c "R" "r" = true /\ motorState s' = MOTOR_IDLE) /\
    (Stepper.currentPos (stepper s')
     = Stepper.currentPos (stepper after_overload) \/
     (exists c, serial (pass (Some "R"%char) true f0) = Some c /\ is_char c "H" "h" = true) /\
     motorState after_overload = MOTOR_IDLE /\
     currentMode after_overload <> MODE_CALIBRATION /\
     Stepper.currentPos (stepper s') = homePosition after_overload).
Proof.
  apply (emergency_stop_stays_latched (pass (Some "R"%char) true f0) after_overload).
  reflexivity.
Defined.

(** *** Commands during a test, and the exit command *)

(** The command lockout seen from [loop]: while the motor sub-state is not
    idle, a pass that receives any byte other than exit ([Q]) and stop
    ([S]) runs exactly as the pass that receives nothing.  Digits, [M],
    [A], [C], [T], [0], [H] and also the reset byte [R] are dropped. *)
Theorem busy_pass_ignores_commands :
  forall (i : Input) (s : State),
    motorState s <> MOTOR_IDLE ->
    (forall cmd, serial i = Some cmd ->
       is_char cmd "Q" "q" = false /\ is_char cmd "S" "s" = false) ->
    loop i s = loop (without_command i) s.
Proof.
  intros i s Hm Hc. unfold loop.
  rewrite (busy_command_dropped i s Hm Hc).
  replace (handleSerialCommand (without_command i) s) with (Some s) by reflexivity.
  reflexivity.
Qed.

Lemma busy_pass_ignores_commands_witness :
  loop (pass (Some "R"%char) true f0) before_overload
  = loop (without_command (pass (Some "R"%char) true f0)) before_overload.
Proof.
  apply (busy_pass_ignores_commands (pass (Some "R"%char) true f0) before_overload).
  - vm_compute. discriminate.
  - intros cmd E. injection E as <-. split; reflexivity.
Defined.

Lemma exited_fields (togo : Z) (s : State) :
  currentMode (exited togo s) = MODE_IDLE /\
  motorState (exited togo s) = MOTOR_IDLE /\
  isStreaming (exited togo s) = false /\
  stepper (exited togo s) = Stepper.stop togo (stepper s) /\
  homePosition (exited togo s) = homePosition s.
Proof.
  unfold exited, stopStreaming.
  destruct (isStreaming s) eqn:L; cbn [negb]; fields5; repeat split; try reflexivity.
  exact L.
Qed.

Lemma handleEmergencyStop_frame (i : Input) (s : State) :
  currentMode (handleEmergencyStop i s) = currentMode s /\
  homePosition (handleEmergencyStop i s) = homePosition s /\
  (motorState (handleEmergencyStop i s) = motorState s \/
   motorState (handleEmergencyStop i s) = MOTOR_IDLE).
Proof.
  unfold handleEmergencyStop, stopStreaming. fields5.
  destruct (isStreaming s); cbn [negb]; fields5;
    (destruct (late_serial i) as [c|]; [destruct (is_char c "R" "r")|]); fields5;
    repeat split; auto.
Qed.

Lemma exit_command_effect (i : Input) (s : State) (cmd : ascii) :
  serial i = Some cmd -> is_char cmd "Q" "q" = true -> currentMode s <> MODE_IDLE ->
  handleSerialCommand i s = Some (exited (stop_togo i) s).
Proof.
  intros Hcmd HQ Hidle.
  assert (E2 : SystemMode_eqb (currentMode s) MODE_IDLE = false)
    by (destruct (currentMode s); try reflexivity; contradiction).
  unfold handleSerialCommand. rewrite Hcmd, HQ, E2. reflexivity.
Qed.

Lemma idle_pass (i : Input) (s : State) :
  currentMode s = MODE_IDLE -> emergencyStop s = false ->
  dispatch i s = Some s.
Proof. intros M _. unfold dispatch. rewrite M. reflexivity. Qed.

Lemma tare_reset_frame (s : State) :
  currentMode (resetFilters (println TareComplete s)) = currentMode s /\
  motorState (resetFilters (println TareComplete s)) = motorState s /\
  isStreaming (resetFilters (println TareComplete s)) = isStreaming s /\
  stepper (resetFilters (println TareComplete s)) = stepper s /\
  homePosition (resetFilters (println TareComplete s)) = homePosition s /\
  emergencyStop (resetFilters (println TareComplete s)) = emergencyStop s.
Proof. repeat split; reflexivity. Qed.

Lemma rest_pass (i : Input) (s : State) (pos home : Z) :
  quiet i -> at_rest pos home s ->
  exists s' : State, loop i s = Some s' /\ at_rest pos home s'.
Proof.
  intros [Q _] (M & Ms & P & H). unfold loop, handleSerialCommand.
  rewrite M, Q. cbn [SystemMode_eqb negb bind].
  destruct (emergencyStop s) eqn:Em.
  - eexists. split; [reflexivity|].
    destruct (handleEmergencyStop_still i s) as (H2 & _).
    destruct (handleEmergencyStop_frame i s) as (H4 & H5 & H6).
    unfold at_rest. rewrite H2, H4, H5. repeat split; try assumption.
    destruct H6 as [H6|H6]; congruence.
  - rewrite (idle_pass i s M Em). cbn [bind].
    destruct (tare_status i); eexists; (split; [reflexivity|]);
      unfold at_rest, resetFilters; fields5; repeat split; assumption.
Qed.

Lemma rest_run (ins : list Input) (s : State) (pos home : Z) :
  Forall quiet ins -> at_rest pos home s ->
  exists s' : State, run_ticks ins s = Some s' /\ at_rest pos home s'.
Proof.
  intros Q. revert s. induction Q as [|i ins Qi _ IH]; intros s R.
  - exists s. split; [reflexivity|exact R].
  - destruct (rest_pass i s pos home Qi R) as (s1 & E1 & R1).
    cbn [run_ticks]. rewrite E1. cbn [bind]. exact (IH s1 R1).
Qed.

(** The exit command works from every mode in which commands are read:
    a pass that receives [Q] outside the idle and the calibration mode ends
    in mode idle with the motor sub-state idle and the stream closed; no
    step is made in that pass and home is kept; and for as long as no
    further command arrives, every later pass leaves the mode idle, the
    motor sub-state idle and the stepper where it stood: the motion is
    over. *)
Theorem exit_command_returns_to_idle :
  forall (i : Input) (s : State) (cmd : ascii) (later : list Input),
    serial i = Some cmd ->
    is_char cmd "Q" "q" = true ->
    currentMode s <> MODE_IDLE ->
    currentMode s <> MODE_CALIBRATION ->
    Forall quiet later ->
    exists s' s'' : State,
      loop i s = Some s' /\
      currentMode s' = MODE_IDLE /\
      motorState s' = MOTOR_IDLE /\
      isStreaming s' = false /\
      Stepper.currentPos (stepper s') = Stepper.currentPos (stepper s) /\
      homePosition s' = homePosition s /\
      run_ticks later s' = Some s'' /\
      currentMode s'' = MODE_IDLE /\
      motorState s'' = MOTOR_IDLE /\
      Stepper.currentPos (stepper s'') = Stepper.currentPos (stepper s) /\
      homePosition s'' = homePosition s.
Proof.
  intros i s cmd later Hcmd HQ Hidle Hcal Hlater.
  assert (E1 : SystemMode_eqb (currentMode s) MODE_CALIBRATION = false)
    by (destruct (currentMode s); try reflexivity; contradiction).
  pose proof (exit_command_effect i s cmd Hcmd HQ Hidle) as Eh.
  destruct (exited_fields (stop_togo i) s) as (X1 & X2 & X3 & X4 & X5).
  assert (P2 : Stepper.currentPos (Stepper.stop (stop_togo i) (stepper s))
               = Stepper.currentPos (stepper s)) by reflexivity.
  assert (G : exists s' : State,
            loop i s = Some s' /\
            currentMode s' = MODE_IDLE /\
            motorState s' = MOTOR_IDLE /\
            isStreaming s' = false /\
            Stepper.currentPos (stepper s') = Stepper.currentPos (stepper s) /\
            homePosition s' = homePosition s).
  { unfold loop. rewrite E1. cbn [negb]. rewrite Eh. cbn [bind].
    destruct (emergencyStop (exited (stop_togo i) s)) eqn:Em.
    - exists (handleEmergencyStop i (exited (stop_togo i) s)). split; [reflexivity|].
      destruct (handleEmergencyStop_still i (exited (stop_togo i) s)) as (H2 & H3 & _).
      destruct (handleEmergencyStop_frame i (exited (stop_togo i) s)) as (H4 & H5 & H6).
      rewrite H4, H5, H2, X1, X4, X5, P2.
      repeat split; try assumption; try reflexivity.
      destruct H6 as [H6|H6]; congruence.
    - rewrite (idle_pass i (exited (stop_togo i) s) X1 Em). cbn [bind].
      destruct (tare_status i).
      + exists (resetFilters (println TareComplete (exited (stop_togo i) s))).
        split; [reflexivity|].
        destruct (tare_reset_frame (exited (stop_togo i) s)) as (T1 & T2 & T3 & T4 & T5 & _).
        rewrite T1, T2, T3, T4, T5.
        rewrite X1, X2, X3, X4, X5, P2. repeat split; reflexivity.
      + exists (exited (stop_togo i) s). split; [reflexivity|].
        rewrite X1, X2, X3, X4, X5, P2. repeat split; reflexivity. }
  destruct G as (s' & E & G1 & G2 & G3 & G4 & G5).
  destruct (rest_run later s' (Stepper.currentPos (stepper s)) (homePosition s) Hlater)
    as (s'' & E' & R1 & R2 & R3 & R4).
  { repeat split; assumption. }
  exists s', s''. repeat split; assumption.
Qed.

Lemma exit_command_returns_to_idle_witness :
  exists s' s'' : State,
    loop (mkInput (Some "Q"%char) None 0 true 12 0 f0 false no_calibration) before_overload
      = Some s' /\
    currentMode s' = MODE_IDLE /\
    motorState s' = MOTOR_IDLE /\
    isStreaming s' = false /\
    Stepper.currentPos (stepper s') = Stepper.currentPos (stepper before_overload) /\
    homePosition s' = homePosition before_overload /\
    run_ticks [quiet_tick; quiet_tick] s' = Some s'' /\
    currentMode s'' = MODE_IDLE /\
    motorState s'' = MOTOR_IDLE /\
    Stepper.currentPos (stepper s'') = Stepper.currentPos (stepper before_overload) /\
    homePosition s'' = homePosition before_overload.
Proof.
  apply (exit_command_returns_to_idle
           (mkInput (Some "Q"%char) None 0 true 12 0 f0 false no_calibration)
           before_overload "Q"%char [quiet_tick; quiet_tick]).
  - reflexivity.
  - reflexivity.
  - vm_compute. discriminate.
  - vm_compute. discriminate.
  - repeat constructor.
Defined.

(** *** The automatic sequence *)

Lemma same_course_refl (s : State) : same_course s s [].
Proof. repeat split. Qed.

Lemma same_course_trans (a b c : State) (l1 l2 : list Line) :
  same_course a b l1 -> same_course b c l2 -> same_course a c (l2 ++ l1).
Proof.
  intros (O1 & M1 & H1 & C1 & T1 & N1) (O2 & M2 & H2 & C2 & T2 & N2).
  unfold same_course. rewrite O2, O1, H2, C2, T2, N2, app_assoc.
  repeat split; try assumption.
  clear -M1 M2. induction l2 as [|l l2 IH]; [exact M1|].
  destruct l; cbn [milestones app] in *; try discriminate; auto.
Qed.

Lemma stopStreaming_course (s : State) :
  exists lines, same_course s (stopStreaming s) lines /\
    emergencyStop (stopStreaming s) = emergencyStop s /\
    motorState (stopStreaming s) = motorState s /\
    stepper (stopStreaming s) = stepper s.
Proof.
  unfold stopStreaming. destruct (isStreaming s); cbn [negb].
  - exists [END_STREAM]. repeat split.
  - exists []. repeat split.
Qed.

(** What [handleMovingDown] does once the sample is taken. *)
Lemma arrival_course (s : State) :
  exists lines, same_course s (arrival s) lines /\
    emergencyStop (arrival s) = emergencyStop s /\
    ((Stepper.distanceToGo (stepper s) = 0 /\
      motorState (arrival s) = MOTOR_RETURNING_HOME /\
      Stepper.currentPos (stepper (arrival s)) = Stepper.currentPos (stepper s) /\
      Stepper.targetPos (stepper (arrival s)) = homePosition s) \/
     (Stepper.distanceToGo (stepper s) <> 0 /\
      motorState (arrival s) = motorState s /\
      stepper (arrival s) = stepper s)).
Proof.
  unfold arrival.
  destruct (Z.eqb_spec (Stepper.distanceToGo (stepper s)) 0) as [D|D].
  - destruct (stopStreaming_course s) as (lines & (O & M & H & C & T & N) & E & _ & S).
    cbv zeta. exists (ReturningToHome :: lines).
    generalize dependent (stopStreaming s). intros x O H C T N E S.
    unfold same_course. fields5. rewrite O, H, C, T, N, E, S.
    cbn [Stepper.moveTo Stepper.setAcceleration Stepper.setMaxSpeed
         Stepper.currentPos Stepper.targetPos milestones].
    repeat split; try assumption. left. repeat split. exact D.
  - exists []. split; [apply same_course_refl|]. split; [reflexivity|].
    right. repeat split. exact D.
Qed.

Lemma arrival_after (s x : State) (m : Stepper.t) (l0 : list Line) :
  same_course s x l0 -> emergencyStop x = false ->
  motorState x = motorState s -> stepper x = m ->
  exists lines, same_course s (arrival x) lines /\
    emergencyStop (arrival x) = false /\
    ((Stepper.distanceToGo m = 0 /\
      motorState (arrival x) = MOTOR_RETURNING_HOME /\
      Stepper.currentPos (stepper (arrival x)) = Stepper.currentPos m /\
      Stepper.targetPos (stepper (arrival x)) = homePosition s) \/
     (Stepper.distanceToGo m <> 0 /\
      motorState (arrival x) = motorState s /\
      stepper (arrival x) = m)).
Proof.
  intros C E M S.
  destruct (arrival_course x) as (l1 & C1 & E1 & D).
  exists (l1 ++ l0). split; [exact (same_course_trans s x _ l0 l1 C C1)|].
  split; [congruence|].
  destruct C as (_ & _ & H & _).
  rewrite S, M, H in D. exact D.
Qed.

(** One pass of the descent: the sequencing variables are kept; either an
    overload is latched, or the stepper has run and, on arrival, the
    return is under way. *)
Lemma handleMovingDown_course (i : Input) (s : State) :
  (exists t, tests_at (currentTestIndex s) = Some t) ->
  emergencyStop s = false ->
  exists (s' : State) (lines : list Line),
    handleMovingDown i s = Some s' /\ same_course s s' lines /\
    ((emergencyStop s' = true /\ In OverloadDetected lines) \/
     (emergencyStop s' = false /\
      ((Stepper.distanceToGo (Stepper.run (step_due i) (stepper s)) = 0 /\
        motorState s' = MOTOR_RETURNING_HOME /\
        Stepper.currentPos (stepper s')
        = Stepper.currentPos (Stepper.run (step_due i) (stepper s)) /\
        Stepper.targetPos (stepper s') = homePosition s) \/
       (Stepper.distanceToGo (Stepper.run (step_due i) (stepper s)) <> 0 /\
        motorState s' = motorState s /\
        stepper s' = Stepper.run (step_due i) (stepper s))))).
Proof.
  intros [t Ht] E.
  assert (V : forall x l0, same_course s x l0 -> emergencyStop x = false ->
                motorState x = motorState s ->
                stepper x = Stepper.run (step_due i) (stepper s) ->
                exists s' lines, Some (arrival x) = Some s' /\ same_course s s' lines /\
                  ((emergencyStop s' = true /\ In OverloadDetected lines) \/
                   (emergencyStop s' = false /\
                    ((Stepper.distanceToGo (Stepper.run (step_due i) (stepper s)) = 0 /\
                      motorState s' = MOTOR_RETURNING_HOME /\
                      Stepper.currentPos (stepper s')
                      = Stepper.currentPos (Stepper.run (step_due i) (stepper s)) /\
                      Stepper.targetPos (stepper s') = homePosition s) \/
                     (Stepper.distanceToGo (Stepper.run (step_due i) (stepper s)) <> 0 /\
                      motorState s' = motorState s /\
                      stepper s' = Stepper.run (step_due i) (stepper s)))))).
  { intros x l0 C Ex Mx Sx.
    destruct (arrival_after s x _ l0 C Ex Mx Sx) as (lines & C' & E' & D).
    exists (arrival x), lines. split; [reflexivity|]. split; [exact C'|].
    right. split; [exact E'|exact D]. }
  unfold handleMovingDown. cbv zeta. fields5. unfold Stepper.currentPosition.
  destruct (_ >=? POSITION_SAMPLE_INTERVAL).
  2:{ apply (V (set_stepper (Stepper.run (step_due i) (stepper s)) s) []);
        try reflexivity; [repeat split | exact E]. }
  unfold getFilteredForce. cbv zeta. fields5.
  set (force := if fgt _ f0 then _ else f0).
  set (filtered := set_readIndex _ _).
  set (sampled := set_lastSampledPosition _ _).
  set (noted := if negb (contactDetected s) && fgt force CONTACT_THRESHOLD
                then println ContactDetected (set_contactDetected true sampled)
                else sampled).
  assert (N : exists l0, same_course s noted l0 /\ emergencyStop noted = false /\
              motorState noted = motorState s /\
              stepper noted = Stepper.run (step_due i) (stepper s)).
  { subst noted sampled filtered. destruct (negb _ && _).
    - exists [ContactDetected]. repeat split. exact E.
    - exists []. repeat split. exact E. }
  destruct N as (l0 & C & En & Mn & Sn). clearbody noted. clear sampled filtered.
  destruct (fgt force OVERLOAD_LIMIT).
  { exists (set_emergencyStop true (println OverloadDetected noted)), (OverloadDetected :: l0).
    split; [reflexivity|].
    destruct C as (O & M & H & Cm & T & Nx).
    split.
    - unfold same_course. fields5. rewrite O. repeat split; assumption.
    - left. split; [reflexivity | left; reflexivity]. }
  unfold streamDataPoint.
  destruct (isStreaming noted).
  - destruct C as (O & M & H & Cm & T & Nx).
    rewrite T, Ht. cbn [bind].
    match goal with
    | |- exists s' lines, Some (if _ then _ else ?x) = Some s' /\ _ =>
        apply (V x (DataPoint (wrap_ulong (millis i - startTime noted))
                      (Stepper.currentPos (Stepper.run (step_due i) (stepper s))) t force
                    :: l0))
    end; try assumption.
    unfold same_course. fields5. rewrite O. repeat split; assumption.
  - cbn [bind]. apply (V noted l0); assumption.
Qed.

Lemma milestones_append (a b : list Line) :
  milestones (a ++ b) = milestones a ++ milestones b.
Proof.
  induction a as [|l a IH]; [reflexivity|].
  destruct l; cbn [milestones app]; rewrite ?IH; reflexivity.
Qed.

Lemma milestones_reverse (l : list Line) : milestones (rev l) = rev (milestones l).
Proof.
  induction l as [|x l IH]; [reflexivity|].
  cbn [rev]. rewrite milestones_append, IH.
  destruct x; cbn [milestones rev app]; rewrite ?app_nil_r; reflexivity.
Qed.

Lemma profile_of_index (k : nat) :
  (k < 8)%nat -> tests_at (Z.of_nat k) = Some (nth k tests no_test).
Proof.
  intros H.
  do 8 (destruct k as [|k]; [reflexivity|]). lia.
Qed.

(** A handler that keeps the sequencing variables, the motor sub-state,
    the emergency flag and the stepper keeps the situation and the passes
    still owed. *)
Lemma auto_state_course (P : Z) (base : list Line) (s s' : State) (lines : list Line) :
  same_course s s' lines ->
  emergencyStop s' = emergencyStop s ->
  motorState s' = motorState s ->
  stepper s' = stepper s ->
  auto_state P base s ->
  auto_state P base s' /\ work s' = work s.
Proof.
  intros (O & M & H & C & T & N) E Ms S Q.
  assert (Mn : forall new, milestones (lines ++ new) = milestones new)
    by (intros new; rewrite milestones_append, M; reflexivity).
  split.
  - destruct Q as [new k H1 H2 H3 H4 H5 H6 H7 H8 H9 H10 H11
                  |new k H1 H2 H3 H4 H5 H6 H7 H8 H9 H10 H11
                  |new k H1 H2 H3 H4 H5 H6 H7 H8 H9
                  |new H1 H2 H3 H4 H5 H6 H7
                  |new k H1 H2 H3 H4 H5 H6].
    all: [> apply (auto_moving _ _ _ (lines ++ new) k)
          | apply (auto_returning _ _ _ (lines ++ new) k)
          | apply (auto_waiting _ _ _ (lines ++ new) k)
          | apply (auto_done _ _ _ (lines ++ new))
          | apply (auto_latched _ _ _ (lines ++ new) k) ];
      try (rewrite Mn; assumption);
      try (rewrite O, H2, app_assoc; reflexivity);
      try (apply in_or_app; right; assumption);
      try assumption;
      rewrite ?H, ?E, ?C, ?Ms, ?S, ?T, ?N; assumption.
  - unfold work. rewrite E, C, Ms, S, N. reflexivity.
Qed.

Lemma settle_course (i : Input) (s : State) :
  exists lines, same_course s (settle i s) lines /\
    emergencyStop (settle i s) = emergencyStop s /\
    motorState (settle i s) = motorState s /\
    stepper (settle i s) = stepper s.
Proof.
  unfold settle. destruct (tare_status i).
  - exists [TareComplete]. repeat split.
  - exists []. repeat split.
Qed.

Lemma settle_auto (P : Z) (base : list Line) (i : Input) (s : State) :
  auto_state P base s ->
  auto_state P base (settle i s) /\ work (settle i s) = work s /\
  emergencyStop (settle i s) = emergencyStop s.
Proof.
  intros Q. destruct (settle_course i s) as (lines & C & E & M & S).
  destruct (auto_state_course P base s _ lines C E M S Q) as [Q' W].
  repeat split; assumption.
Qed.

Lemma loop_quiet (i : Input) (s : State) :
  quiet i ->
  loop i s = if emergencyStop s then Some (handleEmergencyStop i s)
             else s1 <- dispatch i s ;; Some (settle i s1).
Proof.
  intros [Hs _]. unfold loop, handleSerialCommand, settle. rewrite Hs.
  destruct (negb _); cbn [bind];
    (destruct (emergencyStop s); [reflexivity|]);
    destruct (dispatch i s); cbn [bind]; try destruct (tare_status i); reflexivity.
Qed.

Lemma handleEmergencyStop_quiet (i : Input) (s : State) :
  late_serial i = None ->
  exists lines, same_course s (handleEmergencyStop i s) lines /\
    emergencyStop (handleEmergencyStop i s) = emergencyStop s.
Proof.
  intros L. unfold handleEmergencyStop. rewrite L. cbv zeta.
  unfold stopStreaming. fields5. destruct (isStreaming s); cbn [negb].
  - exists [EmergencyStopActive; END_STREAM]. repeat split.
  - exists [EmergencyStopActive]. repeat split.
Qed.

Lemma handleReturningHome_auto (i : Input) (s : State) :
  currentMode s = MODE_AUTO_SEQUENCE ->
  handleReturningHome i s
  = if Stepper.distanceToGo (Stepper.run (step_due i) (stepper s)) =? 0
    then set_motorState MOTOR_IDLE
           (println HomeReached (set_stepper (Stepper.run (step_due i) (stepper s)) s))
    else set_stepper (Stepper.run (step_due i) (stepper s)) s.
Proof.
  intros M. unfold handleReturningHome. cbv zeta. fields5.
  destruct (_ =? 0); [|reflexivity]. rewrite M. reflexivity.
Qed.

(** Setting up test [k]. *)
Lemma setupNextAutoTest_course (now : Z) (s : State) (k : nat) :
  (k < 8)%nat -> nextAutoTestIndex s = Z.of_nat k ->
  exists s', setupNextAutoTest now s = Some s' /\
    out s' = START_STREAM :: AutoTestHeader (Z.of_nat k) (nth k tests no_test) :: out s /\
    homePosition s' = homePosition s /\ currentMode s' = currentMode s /\
    emergencyStop s' = emergencyStop s /\
    motorState s' = MOTOR_MOVING_DOWN /\
    currentTestIndex s' = Z.of_nat k /\
    nextAutoTestIndex s' = Z.of_nat k + 1 /\
    Stepper.currentPos (stepper s') = Stepper.currentPos (stepper s) /\
    Stepper.targetPos (stepper s') = wrap_long (homePosition s + testDistance).
Proof.
  intros K N. unfold setupNextAutoTest. rewrite N.
  destruct (Z.geb_spec (Z.of_nat k) 8) as [G|G]; [lia|].
  cbv zeta. fields5. rewrite (profile_of_index k K). cbn [bind].
  eexists. split; [reflexivity|].
  unfold startStreaming. fields5.
  cbn [Stepper.moveTo Stepper.setAcceleration Stepper.setMaxSpeed
       Stepper.currentPos Stepper.targetPos].
  rewrite N, AutoSpeedTestFacts.wrap_int_small by (unfold int_range; lia).
  repeat split.
Qed.

Ltac stepper_fields :=
  cbn [Stepper.moveTo Stepper.setAcceleration Stepper.setMaxSpeed
       Stepper.currentPosition Stepper.currentPos Stepper.targetPos
       Stepper.maxSpeed Stepper.acceleration] in *.

(** The mode handler of one pass keeps the sequence on track and works off
    one owed pass: always when the motor is idle, and when the stepper's
    timer fires otherwise. *)
Lemma dispatch_auto (P : Z) (base : list Line) (i : Input) (s : State) :
  long_range (P + testDistance) ->
  auto_state P base s ->
  emergencyStop s = false ->
  exists s1, dispatch i s = Some s1 /\ auto_state P base s1 /\
    work s1 <= Z.max 0 (work s - b2z (step_due i)) /\
    (emergencyStop s1 = false -> work s - 1 <= work s1) /\
    (currentMode s = MODE_AUTO_SEQUENCE -> motorState s = MOTOR_IDLE ->
     work s1 = work s - 1).
Proof.
  intros HP Q E0.
  cut (exists s1, dispatch i s = Some s1 /\ auto_state P base s1 /\
         work s1 <= Z.max 0 (work s - b2z (step_due i)) /\
         (emergencyStop s1 = false -> work s - 1 <= work s1) /\
         (motorState s = MOTOR_IDLE -> 0 < work s -> work s1 = work s - 1)).
  { intros (s1 & A & B & C & D & F). exists s1. repeat split; try assumption.
    intros M I. apply (F I). unfold work. rewrite E0, M, I.
    destruct Q as [new k H1 H2 H3 H4 H5 H6 H7 H8 H9 H10 H11
                  |new k H1 H2 H3 H4 H5 H6 H7 H8 H9 H10 H11
                  |new k H1 H2 H3 H4 H5 H6 H7 H8 H9
                  |new H1 H2 H3 H4 H5 H6 H7
                  |new k H1 H2 H3 H4 H5 H6]; try congruence.
    rewrite H7. unfold testDistance. lia. }
  destruct Q as [new k H1 H2 H3 H4 H5 H6 H7 H8 H9 H10 H11
                |new k H1 H2 H3 H4 H5 H6 H7 H8 H9 H10 H11
                |new k H1 H2 H3 H4 H5 H6 H7 H8 H9
                |new H1 H2 H3 H4 H5 H6 H7
                |new k H1 H2 H3 H4 H5 H6]; [| | | |congruence].
  - (* test k moving down *)
    unfold dispatch, handleAutoSequenceMode. rewrite H4, H5.
    destruct (handleMovingDown_course i s) as (s1 & lines & E1 & C & D);
      [exists (nth k tests no_test); rewrite H7; apply profile_of_index; exact H6
      |exact H3|].
    rewrite E1. exists s1. split; [reflexivity|].
    destruct C as (O & M & H & Cm & T & N).
    assert (Mn : milestones (lines ++ new) = milestones new)
      by (rewrite milestones_append, M; reflexivity).
    assert (On : out s1 = (lines ++ new) ++ base)
      by (rewrite O, H2, app_assoc; reflexivity).
    destruct (StepperFacts.run_cases (step_due i) (stepper s))
      as (p' & Er & Hdue & Hnot & _).
    assert (Hd : Stepper.distanceToGo (stepper s) <> 0)
      by (unfold Stepper.distanceToGo; lia).
    rewrite Er in D. unfold Stepper.distanceToGo in D, Hdue, Hnot, Hd. stepper_fields.
    destruct D as [[E' I'] | [E' [(D0 & Ms & Pc & Pt) | (D0 & Ms & Ss)]]].
    + (* overload *)
      split; [|split].
      * apply (auto_latched _ _ _ (lines ++ new) k); try congruence.
        apply in_or_app. left. exact I'.
      * unfold work. rewrite E'. lia.
      * split; congruence.
    + (* target reached in this pass *)
      assert (Hb : step_due i = true).
      { destruct (step_due i); [reflexivity|]. specialize (Hnot eq_refl). lia. }
      specialize (Hdue Hb Hd).
      assert (W : work s1 = work s - 1).
      { unfold work. rewrite E', H3, Cm, H4, Ms, H5, N.
        unfold Stepper.distanceToGo. rewrite Pc, Pt, H1.
        unfold testDistance in *. lia. }
      split; [|split].
      * apply (auto_returning _ _ _ (lines ++ new) k); try congruence.
        rewrite Pc. unfold testDistance in *. lia.
      * rewrite W, Hb. cbn [b2z]. lia.
      * split; [intros _; lia | congruence].
    + (* still moving *)
      assert (W : work s1 = work s - b2z (step_due i)).
      { unfold work. rewrite E', H3, Cm, H4, Ms, H5, N, Ss.
        unfold Stepper.distanceToGo. stepper_fields.
        destruct (step_due i); cbn [b2z].
        - specialize (Hdue eq_refl Hd). lia.
        - rewrite (Hnot eq_refl). lia. }
      split; [|split].
      * apply (auto_moving _ _ _ (lines ++ new) k); try congruence.
        -- rewrite Ss. stepper_fields. exact H9.
        -- rewrite Ss. stepper_fields. lia.
      * rewrite W. destruct (step_due i); cbn [b2z]; lia.
      * split; [|congruence].
        intros _. rewrite W. destruct (step_due i); cbn [b2z]; lia.
  - (* test k returning *)
    unfold dispatch, handleAutoSequenceMode. rewrite H4, H5.
    rewrite (handleReturningHome_auto i s H4).
    destruct (StepperFacts.run_cases (step_due i) (stepper s))
      as (p' & Er & Hdue & Hnot & _).
    assert (Hd : Stepper.distanceToGo (stepper s) <> 0)
      by (unfold Stepper.distanceToGo; lia).
    rewrite Er. unfold Stepper.distanceToGo in *. stepper_fields.
    destruct (Z.eqb_spec (Stepper.targetPos (stepper s) - p') 0) as [D0|D0].
    + (* home reached in this pass *)
      assert (Hb : step_due i = true).
      { destruct (step_due i); [reflexivity|]. specialize (Hnot eq_refl). lia. }
      specialize (Hdue Hb Hd).
      eexists. split; [reflexivity|]. split; [|split].
      * apply (auto_waiting _ _ _ (HomeReached :: new) (S k)); fields5; stepper_fields;
          try assumption; try reflexivity; try lia.
        -- rewrite H2. reflexivity.
        -- cbn [milestones history]. rewrite H11. reflexivity.
      * unfold work. fields5. rewrite H3, H4, H5, Hb. unfold Stepper.distanceToGo.
        cbn [b2z]. unfold testDistance. lia.
      * split; [|congruence].
        intros _. unfold work. fields5. rewrite H3, H4, H5. unfold Stepper.distanceToGo.
        unfold testDistance. lia.
    + (* still returning *)
      eexists. split; [reflexivity|]. split; [|split].
      * apply (auto_returning _ _ _ new k); fields5; stepper_fields;
          try assumption. lia.
      * unfold work. fields5. rewrite H3, H4, H5. unfold Stepper.distanceToGo.
        stepper_fields. destruct (step_due i); cbn [b2z].
        -- specialize (Hdue eq_refl Hd). unfold testDistance. lia.
        -- rewrite (Hnot eq_refl). unfold testDistance. lia.
      * split; [|congruence].
        intros _. unfold work. fields5. rewrite H3, H4, H5. unfold Stepper.distanceToGo.
        stepper_fields. destruct (step_due i); cbn [b2z].
        -- specialize (Hdue eq_refl Hd). lia.
        -- rewrite (Hnot eq_refl). lia.
  - (* waiting at home *)
    unfold dispatch, handleAutoSequenceMode. rewrite H4, H5.
    destruct (Z.ltb_spec (nextAutoTestIndex s) 8) as [L|L].
    + (* test k is set up *)
      assert (K : (k < 8)%nat) by lia.
      destruct (setupNextAutoTest_course (millis i) s k K H7)
        as (s1 & E1 & O & H & Cm & E' & Ms & T & N & Pc & Pt).
      rewrite E1. exists s1. split; [reflexivity|].
      rewrite H1, AutoSpeedTestFacts.wrap_long_small in Pt by exact HP.
      assert (W : work s1 = work s - 1).
      { unfold work. rewrite E', H3, Cm, H4, Ms, H5, N, H7.
        unfold Stepper.distanceToGo. rewrite Pc, Pt, H8.
        unfold testDistance. lia. }
      split; [|split].
      * apply (auto_moving _ _ _
                 (START_STREAM :: AutoTestHeader (Z.of_nat k) (nth k tests no_test) :: new) k);
          try congruence.
        -- rewrite O, H2. reflexivity.
        -- rewrite Pc, H8. unfold testDistance. lia.
        -- cbn [milestones]. rewrite H9. reflexivity.
      * rewrite W. destruct (step_due i); cbn [b2z]; lia.
      * split; [intros _ | intros _ _]; lia.
    + (* the closing banner *)
      assert (K : k = 8%nat) by lia. subst k.
      eexists. split; [reflexivity|]. split; [|split].
      * apply (auto_done _ _ _ (MainMenu :: AutoSequenceComplete :: new));
          unfold exitAutoSequenceMode; fields5; try assumption; try reflexivity.
        -- rewrite H2. reflexivity.
        -- cbn [milestones]. rewrite H9. reflexivity.
      * unfold work, exitAutoSequenceMode. fields5. rewrite H3. lia.
      * split; [intros _ | intros _ _]; unfold work, exitAutoSequenceMode; fields5;
          rewrite H3, H4, H5, H7; unfold testDistance; lia.
  - (* the sequence is over *)
    unfold dispatch. rewrite H4. exists s. split; [reflexivity|].
    split; [apply (auto_done _ _ _ new); assumption|].
    unfold work. rewrite H3, H4. split; [|split; [intros _ | intros _ X]]; lia.
Qed.

(** One pass with nothing on the serial port. *)
Lemma auto_pass (P : Z) (base : list Line) (i : Input) (s : State) :
  long_range (P + testDistance) ->
  quiet i ->
  auto_state P base s ->
  exists s', loop i s = Some s' /\ auto_state P base s' /\
    work s' <= Z.max 0 (work s - b2z (step_due i)) /\
    (emergencyStop s' = false -> work s - 1 <= work s') /\
    (emergencyStop s = true -> emergencyStop s' = true).
Proof.
  intros HP Hq Q. rewrite (loop_quiet i s Hq).
  destruct (emergencyStop s) eqn:E0.
  - destruct (handleEmergencyStop_quiet i s (proj2 Hq))
      as (lines & (O & M & H & C & T & N) & E).
    eexists. split; [reflexivity|]. rewrite E0 in E.
    split; [|split; [|split]].
    + destruct Q as [new k H1 H2 H3 H4 H5 H6 H7 H8 H9 H10 H11
                    |new k H1 H2 H3 H4 H5 H6 H7 H8 H9 H10 H11
                    |new k H1 H2 H3 H4 H5 H6 H7 H8 H9
                    |new H1 H2 H3 H4 H5 H6 H7
                    |new k H1 H2 H3 H4 H5 H6]; try congruence.
      apply (auto_latched _ _ _ (lines ++ new) k); try congruence.
      * rewrite O, H2, app_assoc. reflexivity.
      * apply in_or_app. right. exact H5.
      * rewrite milestones_append, M. exact H6.
    + unfold work at 1. rewrite E. lia.
    + congruence.
    + intros _. exact E.
  - destruct (dispatch_auto P base i s HP Q E0) as (s1 & E1 & Q1 & U & L & _).
    rewrite E1. cbn [bind].
    destruct (settle_auto P base i s1 Q1) as (Q2 & W & E2).
    eexists. split; [reflexivity|]. split; [exact Q2|].
    rewrite W, E2. split; [exact U|]. split; [exact L|]. discriminate.
Qed.

Lemma count_due_step (i : Input) (ins : list Input) :
  count_due (i :: ins) = b2z (step_due i) + count_due ins.
Proof.
  unfold count_due. cbn [List.filter].
  destruct (step_due i); cbn [List.length b2z]; lia.
Qed.

Lemma work_nonneg (P : Z) (base : list Line) (s : State) :
  auto_state P base s -> 0 <= work s.
Proof.
  intros [new k H1 H2 H3 H4 H5 H6 H7 H8 H9 H10 H11
         |new k H1 H2 H3 H4 H5 H6 H7 H8 H9 H10 H11
         |new k H1 H2 H3 H4 H5 H6 H7 H8 H9
         |new H1 H2 H3 H4 H5 H6 H7
         |new k H1 H2 H3 H4 H5 H6];
    unfold work; rewrite H3, ?H4, ?H5, ?H8, ?H7; unfold testDistance; lia.
Qed.

(** Passes without serial input work the sequence off: at least as fast
    as the stepper's timer fires, at most one owed pass at a time. *)
Lemma auto_run (P : Z) (base : list Line) (ins : list Input) (s : State) :
  long_range (P + testDistance) ->
  Forall quiet ins ->
  auto_state P base s ->
  exists s', run_ticks ins s = Some s' /\ auto_state P base s' /\
    work s' <= Z.max 0 (work s - count_due ins) /\
    (emergencyStop s' = false -> work s - Z.of_nat (List.length ins) <= work s') /\
    (emergencyStop s = true -> emergencyStop s' = true).
Proof.
  intros HP. revert s. induction ins as [|i ins IH]; intros s Hq Q.
  - exists s. split; [reflexivity|]. split; [exact Q|].
    pose proof (work_nonneg P base s Q).
    unfold count_due. cbn [List.filter List.length]. repeat split; auto; lia.
  - inversion Hq as [|i' ins' Hi Hins]; subst.
    destruct (auto_pass P base i s HP Hi Q) as (s1 & E1 & Q1 & U1 & L1 & A1).
    destruct (IH s1 Hins Q1) as (s' & E & Q' & U & L & A).
    exists s'. split; [cbn [run_ticks]; rewrite E1; exact E|].
    split; [exact Q'|].
    pose proof (work_nonneg P base s Q).
    assert (0 <= count_due ins) by (unfold count_due; lia).
    assert (0 <= b2z (step_due i)) by (destruct (step_due i); cbn [b2z]; lia).
    rewrite count_due_step. cbn [List.length]. split; [lia|]. split.
    + intros E'. specialize (L E').
      destruct (emergencyStop s1) eqn:X; [specialize (A eq_refl); congruence|].
      specialize (L1 eq_refl). lia.
    + intros E'. apply A, A1, E'.
Qed.

Lemma start_letter (cmd : ascii) :
  is_char cmd "A" "a" = true ->
  is_char cmd "Q" "q" = false /\ digit_index cmd = None /\
  is_char cmd "M" "m" = false.
Proof.
  intros H. destruct (is_char_true _ _ _ H) as [X|X]; injection X as ->;
    repeat split; reflexivity.
Qed.

(** The pass that receives the start command also sets up the first
    test. *)
Lemma auto_start (P : Z) (first : Input) (cmd : ascii) (s0 : State) :
  long_range (P + testDistance) ->
  currentMode s0 = MODE_IDLE -> motorState s0 = MOTOR_IDLE ->
  emergencyStop s0 = false ->
  homePosition s0 = P -> Stepper.currentPos (stepper s0) = P ->
  serial first = Some cmd -> is_char cmd "A" "a" = true ->
  exists s1, loop first s0 = Some s1 /\ auto_state P (out s0) s1 /\
    emergencyStop s1 = false /\ work s1 = 16 * testDistance + 8.
Proof.
  intros HP Hm Hi He Hh Hp Hc HA.
  destruct (start_letter cmd HA) as (NQ & ND & NM).
  assert (C : handleSerialCommand first s0 = Some (enterAutoSequenceMode s0)).
  { unfold handleSerialCommand. rewrite Hc, NQ, Hi, ND, NM, HA. reflexivity. }
  assert (Q0 : auto_state P (out s0) (enterAutoSequenceMode s0)).
  { apply (auto_waiting _ _ _ [AutoSequenceBanner] 0%nat);
      unfold enterAutoSequenceMode; fields5; try assumption; try reflexivity. lia. }
  assert (E0 : emergencyStop (enterAutoSequenceMode s0) = false) by exact He.
  destruct (dispatch_auto P (out s0) first _ HP Q0 E0) as (s1 & E1 & Q1 & _ & _ & X).
  specialize (X eq_refl eq_refl).
  destruct (settle_auto P (out s0) first s1 Q1) as (Q2 & W & E2).
  exists (settle first s1). split; [|split; [exact Q2|split]].
  - unfold loop. rewrite Hm. cbn [SystemMode_eqb negb]. rewrite C. cbn [bind].
    rewrite E0, E1. cbn [bind]. unfold settle. destruct (tare_status first); reflexivity.
  - rewrite E2.
    destruct Q1 as [new k H1 H2 H3 H4 H5 H6 H7 H8 H9 H10 H11
                   |new k H1 H2 H3 H4 H5 H6 H7 H8 H9 H10 H11
                   |new k H1 H2 H3 H4 H5 H6 H7 H8 H9
                   |new H1 H2 H3 H4 H5 H6 H7
                   |new k H1 H2 H3 H4 H5 H6]; try assumption.
    exfalso. revert X. unfold work at 1. rewrite H3.
    unfold work, enterAutoSequenceMode. fields5. rewrite He. unfold testDistance. lia.
  - rewrite W, X. unfold work, enterAutoSequenceMode. fields5. rewrite He.
    unfold testDistance. lia.
Qed.

Lemma history_prefix (k : nat) :
  (k <= 8)%nat -> rev (history k) = firstn (2 * k) full_sequence.
Proof.
  intros H.
  do 9 (destruct k as [|k]; [reflexivity|]). lia.
Qed.

Lemma history_started (k : nat) :
  (k < 8)%nat ->
  rev (Started (Z.of_nat k) (nth k tests no_test) :: history k)
  = firstn (2 * k + 1) full_sequence.
Proof.
  intros H.
  do 8 (destruct k as [|k]; [reflexivity|]). lia.
Qed.

Lemma auto_state_prefix (P : Z) (base : list Line) (s : State) :
  auto_state P base s ->
  exists new, out s = new ++ base /\ homePosition s = P /\
    (exists n, milestones (rev new) = firstn n full_sequence) /\
    (emergencyStop s = true -> In OverloadDetected new) /\
    (emergencyStop s = false -> 0 < work s -> currentMode s = MODE_AUTO_SEQUENCE) /\
    (emergencyStop s = false -> work s = 0 ->
       currentMode s = MODE_IDLE /\ motorState s = MOTOR_IDLE /\
       Stepper.currentPos (stepper s) = P /\
       milestones (rev new) = full_sequence).
Proof.
  intros [new k H1 H2 H3 H4 H5 H6 H7 H8 H9 H10 H11
         |new k H1 H2 H3 H4 H5 H6 H7 H8 H9 H10 H11
         |new k H1 H2 H3 H4 H5 H6 H7 H8 H9
         |new H1 H2 H3 H4 H5 H6 H7
         |new k H1 H2 H3 H4 H5 H6];
    exists new; (split; [assumption|]); (split; [assumption|]);
    rewrite milestones_reverse.
  - rewrite H11. split; [eexists; apply history_started; exact H6|].
    split; [congruence|]. split; [intros; assumption|].
    intros _. unfold work. rewrite H3, H4, H5, H8. unfold testDistance. lia.
  - rewrite H11. split; [eexists; apply history_started; exact H6|].
    split; [congruence|]. split; [intros; assumption|].
    intros _. unfold work. rewrite H3, H4, H5, H8. unfold testDistance. lia.
  - rewrite H9. split; [eexists; apply history_prefix; exact H6|].
    split; [congruence|]. split; [intros; assumption|].
    intros _. unfold work. rewrite H3, H4, H5, H7. unfold testDistance. lia.
  - rewrite H7. split; [exists 17%nat; reflexivity|].
    split; [congruence|]. split.
    + intros _. unfold work. rewrite H3, H4. lia.
    + intros _ _. repeat split; assumption.
  - rewrite H6. split; [eexists; apply history_started; exact H4|].
    split; [intros; assumption|]. split; intros; congruence.
Qed.

(** The automatic sequence, started by the [A] command from an idle
    tester standing at its home position [P] and then left alone (no byte
    on the serial port), never faults.  At every moment the transcript
    shows a prefix of: the eight table entries in table order, each
    followed by the arrival at home, then the closing banner.  If the
    emergency stop is latched, an overload was reported.  If it is not:
    the sequence is still running as long as fewer than 16 x 24000 + 8
    passes have followed the command, and once the stepper's timer has
    fired in 16 x 24000 + 8 of them (8 descents, 8 returns, and one pass
    lost at each stop at home) the transcript is complete, the mode and
    the motor sub-state are idle and the stepper stands at [P]. *)
Theorem auto_sequence_runs_every_profile :
  forall (P : Z) (s0 : State) (first : Input) (cmd : ascii) (ins : list Input),
    long_range (P + testDistance) ->
    currentMode s0 = MODE_IDLE -> motorState s0 = MOTOR_IDLE ->
    emergencyStop s0 = false ->
    homePosition s0 = P -> Stepper.currentPos (stepper s0) = P ->
    serial first = Some cmd -> is_char cmd "A" "a" = true ->
    Forall quiet ins ->
    exists (s' : State) (new : list Line),
      run_ticks (first :: ins) s0 = Some s' /\
      out s' = new ++ out s0 /\
      homePosition s' = P /\
      (exists n : nat, milestones (rev new) = firstn n full_sequence) /\
      (emergencyStop s' = true -> In OverloadDetected new) /\
      (emergencyStop s' = false ->
         (Z.of_nat (List.length ins) < 16 * testDistance + 8 ->
            currentMode s' = MODE_AUTO_SEQUENCE) /\
         (16 * testDistance + 8 <= count_due ins ->
            currentMode s' = MODE_IDLE /\ motorState s' = MOTOR_IDLE /\
            Stepper.currentPos (stepper s') = P /\
            milestones (rev new) = full_sequence)).
Proof.
  intros P s0 first cmd ins HP Hm Hi He Hh Hp Hc HA Hq.
  destruct (auto_start P first cmd s0 HP Hm Hi He Hh Hp Hc HA) as (s1 & E1 & Q1 & _ & W1).
  destruct (auto_run P (out s0) ins s1 HP Hq Q1) as (s' & E & Q & U & L & _).
  destruct (auto_state_prefix P (out s0) s' Q) as (new & O & H & Pf & Ov & Run & Done).
  exists s', new. split; [cbn [run_ticks]; rewrite E1; exact E|].
  split; [exact O|]. split; [exact H|]. split; [exact Pf|]. split; [exact Ov|].
  intros E'. pose proof (work_nonneg P (out s0) s' Q). split.
  - intros Short. apply (Run E'). specialize (L E'). lia.
  - intros Long. apply (Done E'). lia.
Qed.

Lemma auto_sequence_runs_every_profile_witness :
  long_range (0 + testDistance) /\
  Forall quiet (repeat quiet_tick 20) /\
  exists (s' : State) (new : list Line),
    run_ticks (pass (Some "A"%char) true f0 :: repeat quiet_tick 20) ready = Some s' /\
    out s' = new ++ out ready /\
    homePosition s' = 0 /\
    (exists n : nat, milestones (rev new) = firstn n full_sequence) /\
    (emergencyStop s' = true -> In OverloadDetected new) /\
    (emergencyStop s' = false ->
       (Z.of_nat (List.length (repeat quiet_tick 20)) < 16 * testDistance + 8 ->
          currentMode s' = MODE_AUTO_SEQUENCE) /\
       (16 * testDistance + 8 <= count_due (repeat quiet_tick 20) ->
          currentMode s' = MODE_IDLE /\ motorState s' = MOTOR_IDLE /\
          Stepper.currentPos (stepper s') = 0 /\
          milestones (rev new) = full_sequence)).
Proof.
  assert (R : long_range (0 + testDistance))
    by (unfold long_range, testDistance; lia).
  assert (Hq : Forall quiet (repeat quiet_tick 20))
    by (repeat constructor).
  split; [exact R|]. split; [exact Hq|].
  apply (auto_sequence_runs_every_profile 0 ready (pass (Some "A"%char) true f0)
           "A"%char (repeat quiet_tick 20) R);
    try reflexivity. exact Hq.
Defined.

(** *** A single test *)

Lemma test_state_course (P : Z) (base : list Line) (t : SpeedTest) (s s' : State)
    (lines : list Line) :
  same_course s s' lines ->
  emergencyStop s' = emergencyStop s ->
  motorState s' = motorState s ->
  isStreaming s' = isStreaming s ->
  stepper s' = stepper s ->
  test_state P base t s ->
  test_state P base t s' /\ test_work s' = test_work s.
Proof.
  intros (O & M & H & C & T & N) E Ms I S Q.
  assert (Mn : forall new, milestones (lines ++ new) = milestones new)
    by (intros new; rewrite milestones_append, M; reflexivity).
  split.
  - destruct Q as [new H1 H2 H3 H4 H5 H6 H7 H8 H9 H10 H11
                  |new H1 H2 H3 H4 H5 H6 H7 H8
                  |new H1 H2 H3 H4 H5 H6 H7 H8
                  |new H1 H2 H3 H4].
    all: [> apply (test_moving _ _ _ _ (lines ++ new))
          | apply (test_returning _ _ _ _ (lines ++ new))
          | apply (test_done _ _ _ _ (lines ++ new))
          | apply (test_latched _ _ _ _ (lines ++ new)) ];
      try (rewrite Mn; assumption);
      try (rewrite O, H2, app_assoc; reflexivity);
      try (apply in_or_app; right; assumption);
      try assumption;
      rewrite ?H, ?E, ?C, ?Ms, ?S, ?T, ?N, ?I; assumption.
  - unfold test_work. rewrite E, C, Ms, S. reflexivity.
Qed.

Lemma settle_streaming (i : Input) (s : State) :
  isStreaming (settle i s) = isStreaming s.
Proof. unfold settle. destruct (tare_status i); reflexivity. Qed.

Lemma settle_test (P : Z) (base : list Line) (t : SpeedTest) (i : Input) (s : State) :
  test_state P base t s ->
  test_state P base t (settle i s) /\ test_work (settle i s) = test_work s /\
  emergencyStop (settle i s) = emergencyStop s.
Proof.
  intros Q. destruct (settle_course i s) as (lines & C & E & M & S).
  destruct (test_state_course P base t s _ lines C E M (settle_streaming i s) S Q)
    as [Q' W].
  repeat split; assumption.
Qed.

Lemma handleReturningHome_normal (i : Input) (s : State) :
  currentMode s = MODE_NORMAL_TEST ->
  handleReturningHome i s
  = if Stepper.distanceToGo (Stepper.run (step_due i) (stepper s)) =? 0
    then exitNormalTestMode
           (set_motorState MOTOR_IDLE
              (println HomeReached (set_stepper (Stepper.run (step_due i) (stepper s)) s)))
    else set_stepper (Stepper.run (step_due i) (stepper s)) s.
Proof.
  intros M. unfold handleReturningHome. cbv zeta. fields5.
  destruct (_ =? 0); [|reflexivity]. rewrite M. reflexivity.
Qed.

Lemma exitNormalTestMode_course (s : State) :
  exists lines, out (exitNormalTestMode s) = lines ++ out s /\
    milestones lines = [] /\
    homePosition (exitNormalTestMode s) = homePosition s /\
    emergencyStop (exitNormalTestMode s) = emergencyStop s /\
    stepper (exitNormalTestMode s) = stepper s /\
    currentMode (exitNormalTestMode s) = MODE_IDLE /\
    motorState (exitNormalTestMode s) = MOTOR_IDLE /\
    isStreaming (exitNormalTestMode s) = false.
Proof.
  unfold exitNormalTestMode, stopStreaming. cbv zeta.
  destruct (isStreaming s); cbn [negb]; fields5.
  - exists [MainMenu; ExitingNormalTest; END_STREAM]. repeat split.
  - exists [MainMenu; ExitingNormalTest]. repeat split.
Qed.

(** The mode handler of one pass keeps the test on track and pays one
    owed step exactly when the stepper's timer fires. *)
Lemma dispatch_test (P : Z) (base : list Line) (t : SpeedTest) (i : Input) (s : State) :
  test_state P base t s ->
  emergencyStop s = false ->
  exists s1, dispatch i s = Some s1 /\ test_state P base t s1 /\
    (emergencyStop s1 = false ->
     test_work s1 = Z.max 0 (test_work s - b2z (step_due i))).
Proof.
  intros Q E0.
  destruct Q as [new H1 H2 H3 H4 H5 H6 H7 H8 H9 H10 H11
                |new H1 H2 H3 H4 H5 H6 H7 H8
                |new H1 H2 H3 H4 H5 H6 H7 H8
                |new H1 H2 H3 H4]; [| | |congruence].
  - (* moving down *)
    unfold dispatch, handleNormalTestMode. rewrite H4, H5.
    destruct (handleMovingDown_course i s) as (s1 & lines & E1 & C & D);
      [exists t; exact H6 | exact H3 |].
    rewrite E1. exists s1. split; [reflexivity|].
    destruct C as (O & M & H & Cm & T & N).
    assert (Mn : milestones (lines ++ new) = milestones new)
      by (rewrite milestones_append, M; reflexivity).
    assert (On : out s1 = (lines ++ new) ++ base)
      by (rewrite O, H2, app_assoc; reflexivity).
    destruct (StepperFacts.run_cases (step_due i) (stepper s))
      as (p' & Er & Hdue & Hnot & _).
    assert (Hd : Stepper.distanceToGo (stepper s) <> 0)
      by (unfold Stepper.distanceToGo; lia).
    rewrite Er in D. unfold Stepper.distanceToGo in D, Hdue, Hnot, Hd. stepper_fields.
    destruct D as [[E' I'] | [E' [(D0 & Ms & Pc & Pt) | (D0 & Ms & Ss)]]].
    + (* overload *)
      split; [|congruence].
      apply (test_latched _ _ _ _ (lines ++ new)); try congruence.
      apply in_or_app. left. exact I'.
    + (* target reached in this pass *)
      assert (Hb : step_due i = true).
      { destruct (step_due i); [reflexivity|]. specialize (Hnot eq_refl). lia. }
      specialize (Hdue Hb Hd).
      split.
      * apply (test_returning _ _ _ _ (lines ++ new)); try congruence.
        rewrite Pc. unfold testDistance in *. lia.
      * intros _. unfold test_work. rewrite E', H3, Cm, H4, Ms, H5, Hb.
        unfold Stepper.distanceToGo. rewrite Pc, Pt, H1. cbn [b2z].
        unfold testDistance in *. lia.
    + (* still moving *)
      split.
      * apply (test_moving _ _ _ _ (lines ++ new)); try congruence;
          rewrite Ss; stepper_fields; try assumption. lia.
      * intros _. unfold test_work. rewrite E', H3, Cm, H4, Ms, H5, Ss.
        unfold Stepper.distanceToGo. stepper_fields.
        destruct (step_due i); cbn [b2z].
        -- specialize (Hdue eq_refl Hd). unfold testDistance. lia.
        -- rewrite (Hnot eq_refl). unfold testDistance. lia.
  - (* returning *)
    unfold dispatch, handleNormalTestMode. rewrite H4, H5.
    rewrite (handleReturningHome_normal i s H4).
    destruct (StepperFacts.run_cases (step_due i) (stepper s))
      as (p' & Er & Hdue & Hnot & _).
    assert (Hd : Stepper.distanceToGo (stepper s) <> 0)
      by (unfold Stepper.distanceToGo; lia).
    rewrite Er. unfold Stepper.distanceToGo in *. stepper_fields.
    destruct (Z.eqb_spec (Stepper.targetPos (stepper s) - p') 0) as [D0|D0].
    + (* home reached in this pass *)
      assert (Hb : step_due i = true).
      { destruct (step_due i); [reflexivity|]. specialize (Hnot eq_refl). lia. }
      specialize (Hdue Hb Hd).
      match goal with
      | |- exists s1, Some (exitNormalTestMode ?x) = Some s1 /\ _ =>
          destruct (exitNormalTestMode_course x)
            as (lines & O & M & H & E' & S & Cm & Ms & I);
          exists (exitNormalTestMode x)
      end.
      split; [reflexivity|]. split.
      * apply (test_done _ _ _ _ (lines ++ HomeReached :: new)); try assumption.
        -- rewrite H. exact H1.
        -- rewrite O. fields5. rewrite H2, <- app_assoc. reflexivity.
        -- rewrite E'. exact H3.
        -- rewrite S. fields5. stepper_fields. lia.
        -- rewrite milestones_append, M. cbn [milestones app]. rewrite H8. reflexivity.
      * intros _. unfold test_work. rewrite E', Cm. fields5. rewrite H3, H4, H5, Hb.
        unfold Stepper.distanceToGo. cbn [b2z]. lia.
    + (* still returning *)
      eexists. split; [reflexivity|]. split.
      * apply (test_returning _ _ _ _ new); fields5; stepper_fields;
          try assumption. lia.
      * intros _. unfold test_work. fields5. rewrite H3, H4, H5.
        unfold Stepper.distanceToGo. stepper_fields.
        destruct (step_due i); cbn [b2z].
        -- specialize (Hdue eq_refl Hd). lia.
        -- rewrite (Hnot eq_refl). lia.
  - (* the test is over *)
    unfold dispatch. rewrite H4. exists s. split; [reflexivity|].
    split; [apply (test_done _ _ _ _ new); assumption|].
    intros _. unfold test_work. rewrite H3, H4. destruct (step_due i); reflexivity.
Qed.

Lemma test_pass (P : Z) (base : list Line) (t : SpeedTest) (i : Input) (s : State) :
  quiet i ->
  test_state P base t s ->
  exists s', loop i s = Some s' /\ test_state P base t s' /\
    (emergencyStop s' = false ->
     emergencyStop s = false /\
     test_work s' = Z.max 0 (test_work s - b2z (step_due i))).
Proof.
  intros Hq Q. rewrite (loop_quiet i s Hq).
  destruct (emergencyStop s) eqn:E0.
  - destruct (handleEmergencyStop_quiet i s (proj2 Hq))
      as (lines & (O & M & H & C & T & N) & E).
    eexists. split; [reflexivity|]. rewrite E0 in E.
    split; [|congruence].
    destruct Q as [new H1 H2 H3 H4 H5 H6 H7 H8 H9 H10 H11
                  |new H1 H2 H3 H4 H5 H6 H7 H8
                  |new H1 H2 H3 H4 H5 H6 H7 H8
                  |new H1 H2 H3 H4]; try congruence.
    apply (test_latched _ _ _ _ (lines ++ new)); try congruence.
    + rewrite O, H2, app_assoc. reflexivity.
    + apply in_or_app. right. exact H4.
  - destruct (dispatch_test P base t i s Q E0) as (s1 & E1 & Q1 & W1).
    rewrite E1. cbn [bind].
    destruct (settle_test P base t i s1 Q1) as (Q2 & W & E2).
    eexists. split; [reflexivity|]. split; [exact Q2|].
    rewrite W, E2. intros E'. split; [reflexivity | exact (W1 E')].
Qed.

Lemma test_work_nonneg (s : State) : 0 <= test_work s.
Proof.
  unfold test_work. destruct (emergencyStop s); [lia|].
  destruct (currentMode s); try lia.
  destruct (motorState s); unfold testDistance; lia.
Qed.

Lemma test_run (P : Z) (base : list Line) (t : SpeedTest) (ins : list Input) (s : State) :
  Forall quiet ins ->
  test_state P base t s ->
  exists s', run_ticks ins s = Some s' /\ test_state P base t s' /\
    (emergencyStop s' = false ->
     emergencyStop s = false /\
     test_work s' = Z.max 0 (test_work s - count_due ins)).
Proof.
  revert s. induction ins as [|i ins IH]; intros s Hq Q.
  - exists s. split; [reflexivity|]. split; [exact Q|].
    intros E. split; [exact E|].
    pose proof (test_work_nonneg s).
    unfold count_due. cbn [List.filter List.length]. lia.
  - inversion Hq as [|i' ins' Hi Hins]; subst.
    destruct (test_pass P base t i s Hi Q) as (s1 & E1 & Q1 & W1).
    destruct (IH s1 Hins Q1) as (s' & E & Q' & W).
    exists s'. split; [cbn [run_ticks]; rewrite E1; exact E|].
    split; [exact Q'|].
    intros E'. destruct (W E') as [Es1 Ws]. destruct (W1 Es1) as [Es Ws1].
    split; [exact Es|].
    assert (0 <= count_due ins) by (unfold count_due; lia).
    assert (0 <= b2z (step_due i)) by (destruct (step_due i); cbn [b2z]; lia).
    rewrite Ws, Ws1, count_due_step. lia.
Qed.

Lemma digit_letter (cmd : ascii) (testIndex : Z) :
  digit_index cmd = Some testIndex ->
  is_char cmd "Q" "q" = false /\ 0 <= testIndex < 8.
Proof.
  unfold digit_index. intros H. split.
  - destruct cmd as [[] [] [] [] [] [] [] []]; try discriminate; reflexivity.
  - destruct (_ && _) eqn:B; [|discriminate]. injection H as <-.
    apply andb_true_iff in B. destruct B as [A B].
    apply Z.leb_le in A. apply Z.leb_le in B. lia.
Qed.

Lemma enterNormalTestMode_course (now testIndex : Z) (s : State) :
  0 <= testIndex < 8 ->
  exists (s' : State) (t : SpeedTest),
    enterNormalTestMode now testIndex s = Some s' /\
    tests_at testIndex = Some t /\
    out s' = MovingDown :: START_STREAM :: TestBanner t :: out s /\
    homePosition s' = homePosition s /\
    emergencyStop s' = emergencyStop s /\
    currentMode s' = MODE_NORMAL_TEST /\
    motorState s' = MOTOR_MOVING_DOWN /\
    currentTestIndex s' = testIndex /\
    Stepper.maxSpeed (stepper s') = speed t /\
    Stepper.acceleration (stepper s') = 0%Q /\
    Stepper.currentPos (stepper s') = Stepper.currentPos (stepper s) /\
    Stepper.targetPos (stepper s') = wrap_long (homePosition s + testDistance).
Proof.
  intros H. destruct (profile_at_valid_index testIndex H) as [t Ht].
  unfold enterNormalTestMode.
  destruct (Z.ltb_spec testIndex 0) as [A|A]; [lia|].
  destruct (Z.geb_spec testIndex 8) as [B|B]; [lia|].
  cbn [orb]. rewrite Ht. cbn [bind].
  eexists. exists t. split; [reflexivity|]. repeat split; reflexivity.
Qed.

(** A single test, started by one of the digits [1] to [8] from an idle
    tester standing at its home position [P] and then left alone (no byte
    on the serial port), never faults.  The digit [d] selects the table
    entry [d - 1], whose banner opens the transcript of the test.  If the
    emergency stop is latched, an overload was reported.  If it is not:
    as long as the stepper's timer has fired in fewer than 2 x 24000
    passes the test is running (and the descent is made at the rate of
    the selected entry with zero acceleration); once it has fired in
    2 x 24000 passes the tester is idle again, the stream is closed, the
    stepper stands at [P] and the transcript shows one arrival at home. *)
Theorem single_test_runs_to_completion :
  forall (P : Z) (s0 : State) (first : Input) (cmd : ascii) (testIndex : Z)
         (ins : list Input),
    long_range (P + testDistance) ->
    currentMode s0 = MODE_IDLE -> motorState s0 = MOTOR_IDLE ->
    emergencyStop s0 = false ->
    homePosition s0 = P -> Stepper.currentPos (stepper s0) = P ->
    serial first = Some cmd -> digit_index cmd = Some testIndex ->
    Forall quiet ins ->
    exists (s' : State) (t : SpeedTest) (later : list Line),
      tests_at testIndex = Some t /\
      run_ticks (first :: ins) s0 = Some s' /\
      out s' = later ++ MovingDown :: START_STREAM :: TestBanner t :: out s0 /\
      homePosition s' = P /\
      (emergencyStop s' = true -> In OverloadDetected later) /\
      (emergencyStop s' = false ->
         (count_due (first :: ins) < 2 * testDistance ->
            currentMode s' = MODE_NORMAL_TEST /\
            milestones later = [] /\
            (motorState s' = MOTOR_MOVING_DOWN ->
               Stepper.maxSpeed (stepper s') = speed t /\
               Stepper.acceleration (stepper s') = 0%Q)) /\
         (2 * testDistance <= count_due (first :: ins) ->
            currentMode s' = MODE_IDLE /\ motorState s' = MOTOR_IDLE /\
            isStreaming s' = false /\
            Stepper.currentPos (stepper s') = P /\
            milestones later = [Homed])).
Proof.
  intros P s0 first cmd testIndex ins HP Hm Hi He Hh Hp Hc Hd Hq.
  destruct (digit_letter cmd testIndex Hd) as [NQ R].
  destruct (enterNormalTestMode_course (millis first) testIndex s0 R)
    as (s1 & t & E1 & Ht & O1 & H1 & Em1 & M1 & Ms1 & T1 & V1 & A1 & Pc1 & Pt1).
  rewrite Hh, AutoSpeedTestFacts.wrap_long_small in Pt1 by exact HP.
  assert (C : handleSerialCommand first s0 = Some s1).
  { unfold handleSerialCommand. rewrite Hc, NQ, Hi, Hd. exact E1. }
  assert (Q1 : test_state P (out s1) t s1).
  { apply (test_moving _ _ _ _ []); try congruence; try reflexivity.
    rewrite Pc1, Hp. unfold testDistance. lia. }
  assert (W1 : test_work s1 = 2 * testDistance).
  { unfold test_work. rewrite Em1, He, M1, Ms1. unfold Stepper.distanceToGo.
    rewrite Pt1, Pc1, Hp. unfold testDistance. lia. }
  destruct (dispatch_test P (out s1) t first s1 Q1 (eq_trans Em1 He))
    as (s2 & E2 & Q2 & W2).
  destruct (settle_test P (out s1) t first s2 Q2) as (Q3 & W3 & E3).
  destruct (test_run P (out s1) t ins (settle first s2) Hq Q3) as (s' & E & Q & W).
  assert (L : loop first s0 = Some (settle first s2)).
  { unfold loop. rewrite Hm. cbn [SystemMode_eqb negb]. rewrite C. cbn [bind].
    rewrite Em1, He, E2. cbn [bind]. unfold settle.
    destruct (tare_status first); reflexivity. }
  assert (Wf : emergencyStop s' = false ->
               test_work s' = Z.max 0 (2 * testDistance - count_due (first :: ins))).
  { intros E'. destruct (W E') as [Es Ws]. rewrite E3 in Es.
    rewrite Ws, W3, (W2 Es), W1, count_due_step.
    assert (0 <= count_due ins) by (unfold count_due; lia).
    assert (0 <= b2z (step_due first)) by (destruct (step_due first); cbn [b2z]; lia).
    lia. }
  exists s', t.
  destruct Q as [new H1' H2 H3 H4 H5 H6 H7 H8 H9 H10 H11
                |new H1' H2 H3 H4 H5 H6 H7 H8
                |new H1' H2 H3 H4 H5 H6 H7 H8
                |new H1' H2 H3 H4];
    exists new; (split; [exact Ht|]);
    (split; [cbn [run_ticks]; rewrite L; exact E|]);
    (split; [rewrite H2, O1; reflexivity|]);
    (split; [exact H1'|]).
  - split; [congruence|]. intros _. specialize (Wf H3).
    unfold test_work in Wf. rewrite H3, H4, H5 in Wf.
    split; [|intros; unfold testDistance in *; lia].
    intros _. split; [exact H4|]. split; [exact H11|]. intros _.
    split; [exact H7 | exact H8].
  - split; [congruence|]. intros _. specialize (Wf H3).
    unfold test_work in Wf. rewrite H3, H4, H5 in Wf.
    assert (Stepper.distanceToGo (stepper s') <> 0)
      by (unfold Stepper.distanceToGo; lia).
    split; [|intros; unfold testDistance in *; lia].
    intros _. split; [exact H4|]. split; [exact H8|]. congruence.
  - split; [congruence|]. intros _. specialize (Wf H3).
    unfold test_work in Wf. rewrite H3, H4 in Wf.
    split; [intros; unfold testDistance in *; lia|].
    intros _. repeat split; assumption.
  - split; [intros _; exact H4|]. congruence.
Qed.

Lemma single_test_runs_to_completion_witness :
  long_range (0 + testDistance) /\
  Forall quiet (repeat quiet_tick 20) /\
  exists (s' : State) (t : SpeedTest) (later : list Line),
    tests_at 2 = Some t /\
    run_ticks (pass (Some "3"%char) true f0 :: repeat quiet_tick 20) ready = Some s' /\
    out s' = later ++ MovingDown :: START_STREAM :: TestBanner t :: out ready /\
    homePosition s' = 0 /\
    (emergencyStop s' = true -> In OverloadDetected later) /\
    (emergencyStop s' = false ->
       (count_due (pass (Some "3"%char) true f0 :: repeat quiet_tick 20)
        < 2 * testDistance ->
          currentMode s' = MODE_NORMAL_TEST /\
          milestones later = [] /\
          (motorState s' = MOTOR_MOVING_DOWN ->
             Stepper.maxSpeed (stepper s') = speed t /\
             Stepper.acceleration (stepper s') = 0%Q)) /\
       (2 * testDistance
        <= count_due (pass (Some "3"%char) true f0 :: repeat quiet_tick 20) ->
          currentMode s' = MODE_IDLE /\ motorState s' = MOTOR_IDLE /\
          isStreaming s' = false /\
          Stepper.currentPos (stepper s') = 0 /\
          milestones later = [Homed])).
Proof.
  assert (R : long_range (0 + testDistance))
    by (unfold long_range, testDistance; lia).
  assert (Hq : Forall quiet (repeat quiet_tick 20))
    by (repeat constructor).
  split; [exact R|]. split; [exact Hq|].
  apply (single_test_runs_to_completion 0 ready (pass (Some "3"%char) true f0)
           "3"%char 2 (repeat quiet_tick 20) R);
    try reflexivity. exact Hq.
Defined.

(** *** Reset in the middle of a sequence *)

Lemma loop_no_command (i : Input) (s : State) :
  serial i = None ->
  loop i s = if emergencyStop s then Some (handleEmergencyStop i s)
             else s1 <- dispatch i s ;; Some (settle i s1).
Proof.
  intros Hs. unfold loop, handleSerialCommand, settle. rewrite Hs.
  destruct (negb _); cbn [bind];
    (destruct (emergencyStop s); [reflexivity|]);
    destruct (dispatch i s); cbn [bind]; try destruct (tare_status i); reflexivity.
Qed.

Lemma handleEmergencyStop_reset (i : Input) (s : State) (cmd : ascii) :
  late_serial i = Some cmd -> is_char cmd "R" "r" = true ->
  emergencyStop (handleEmergencyStop i s) = false /\
  motorState (handleEmergencyStop i s) = MOTOR_IDLE /\
  currentMode (handleEmergencyStop i s) = currentMode s /\
  nextAutoTestIndex (handleEmergencyStop i s) = nextAutoTestIndex s /\
  homePosition (handleEmergencyStop i s) = homePosition s /\
  stepper (handleEmergencyStop i s) = Stepper.stop (halt_togo i) (stepper s).
Proof.
  intros L R. unfold handleEmergencyStop. rewrite L, R. cbv zeta.
  unfold stopStreaming. fields5. destruct (isStreaming s); cbn [negb];
    repeat split; reflexivity.
Qed.

Lemma setupNextAutoTest_streams (now : Z) (s s' : State) :
  setupNextAutoTest now s = Some s' -> nextAutoTestIndex s < 8 -> isStreaming s' = true.
Proof.
  unfold setupNextAutoTest. intros E L.
  destruct (Z.geb_spec (nextAutoTestIndex s) 8) as [G|G]; [lia|].
  cbv zeta in E. destruct (tests_at (nextAutoTestIndex s)); cbn [bind] in E;
    [|discriminate].
  injection E as <-. reflexivity.
Qed.

(** A reset in the middle of an automatic sequence does not end the
    sequence and does not bring the probe home: when the emergency stop is
    latched in the automatic mode with test [k] next in line, the pass in
    which the emergency handler reads [R] clears the flag, and the very
    next pass sets up test [k] from where the probe stands: the motor
    sub-state is moving down again, a new stream is open and the planner
    is aimed at [homePosition + testDistance].  The stepper makes no step
    in these two passes. *)
Theorem reset_resumes_automatic_sequence :
  forall (s : State) (reset next : Input) (cmd : ascii) (k : nat),
    emergencyStop s = true ->
    currentMode s = MODE_AUTO_SEQUENCE ->
    nextAutoTestIndex s = Z.of_nat k -> (k < 8)%nat ->
    serial reset = None -> late_serial reset = Some cmd ->
    is_char cmd "R" "r" = true ->
    serial next = None ->
    exists s1 s2 : State,
      loop reset s = Some s1 /\ loop next s1 = Some s2 /\
      emergencyStop s1 = false /\
      emergencyStop s2 = false /\
      currentMode s2 = MODE_AUTO_SEQUENCE /\
      motorState s2 = MOTOR_MOVING_DOWN /\
      currentTestIndex s2 = Z.of_nat k /\
      nextAutoTestIndex s2 = Z.of_nat k + 1 /\
      isStreaming s2 = true /\
      Stepper.currentPos (stepper s2) = Stepper.currentPos (stepper s) /\
      Stepper.targetPos (stepper s2) = wrap_long (homePosition s + testDistance).
Proof.
  intros s reset next cmd k Em Mode Nx K Hs Hl HR Hn.
  destruct (handleEmergencyStop_reset reset s cmd Hl HR) as (E1 & M1 & C1 & N1 & H1 & S1).
  remember (handleEmergencyStop reset s) as s1 eqn:Es1.
  exists s1.
  rewrite <- N1 in Nx.
  destruct (setupNextAutoTest_course (millis next) s1 k K Nx)
    as (s2 & E2 & O & H & Cm & E' & Ms & T & N & Pc & Pt).
  destruct (settle_course next s2) as (lines & (_ & _ & Hh & Hc & Ht & Hx) & He & Hm & Hst).
  exists (settle next s2).
  split; [rewrite (loop_no_command reset s Hs), Em, Es1; reflexivity|].
  split.
  { rewrite (loop_no_command next s1 Hn), E1. unfold dispatch, handleAutoSequenceMode.
    rewrite C1, Mode, M1.
    destruct (Z.ltb_spec (nextAutoTestIndex s1) 8) as [L|L]; [|lia].
    rewrite E2. reflexivity. }
  split; [exact E1|].
  rewrite He, Hc, Hm, Ht, Hx, Hst, settle_streaming.
  rewrite E', Cm, C1, Ms, T, N, Pc, Pt, S1, H1.
  repeat split; try assumption.
  apply (setupNextAutoTest_streams (millis next) s1 s2 E2). lia.
Qed.

Lemma reset_resumes_automatic_sequence_witness :
  emergencyStop auto_overloaded = true /\
  Stepper.currentPos (stepper auto_overloaded) = 8 /\
  exists s1 s2 : State,
    loop reset_tick auto_overloaded = Some s1 /\ loop quiet_tick s1 = Some s2 /\
    emergencyStop s1 = false /\
    emergencyStop s2 = false /\
    currentMode s2 = MODE_AUTO_SEQUENCE /\
    motorState s2 = MOTOR_MOVING_DOWN /\
    currentTestIndex s2 = Z.of_nat 1 /\
    nextAutoTestIndex s2 = Z.of_nat 1 + 1 /\
    isStreaming s2 = true /\
    Stepper.currentPos (stepper s2) = Stepper.currentPos (stepper auto_overloaded) /\
    Stepper.targetPos (stepper s2)
    = wrap_long (homePosition auto_overloaded + testDistance).
Proof.
  split; [reflexivity|]. split; [reflexivity|].
  apply (reset_resumes_automatic_sequence auto_overloaded reset_tick quiet_tick
           "R"%char 1); try reflexivity. lia.
Defined.

End Tester5Facts.

(** ** The vibration recorder *)

Module VibrationMonitorFacts.
Import VibrationMonitor.

Lemma wrap_ulong_minus (a b c : Z) :
  wrap_ulong (wrap_ulong (a - c) - wrap_ulong (b - c)) = wrap_ulong (a - b).
Proof.
  unfold wrap_ulong. rewrite <- Zminus_mod. f_equal. lia.
Qed.

Lemma spaced_append (e : Z) (es : list Z) :
  spaced es ->
  (es <> [] -> READ_INTERVAL <= wrap_ulong (e - List.last es 0)) ->
  spaced (es ++ [e]).
Proof.
  induction es as [|a es IH]; intros S G; [exact I|].
  destruct es as [|b es].
  - cbn. split; [|exact I]. apply G. discriminate.
  - destruct S as [S1 S2]. cbn [app spaced]. split; [exact S1|].
    apply IH; [exact S2|]. intros _. apply G. discriminate.
Qed.

Lemma handleCommand_inv (i : Input) (s : State) :
  recorder_inv s -> recorder_inv (handleCommand i s).
Proof.
  intros K. pose proof K as (P & acc & E & Ph & F & C & L). unfold handleCommand.
  destruct (serial i) as [cmd|]; [|exact K].
  unfold phase_of in Ph.
  destruct (is_char cmd "S" "s").
  { destruct (isRunning s) eqn:R; cbn [negb]; [exact K|].
    split; [discriminate|].
    exists (mkRecorder Recording (finished acc) []).
    cbn [out println record_of]. rewrite E. cbn [bind]. unfold record_step. rewrite Ph.
    repeat split; auto. intros X. contradiction. }
  destruct (is_char cmd "P" "p").
  { destruct (isRunning s) eqn:R; [destruct (isPaused s) eqn:Q|]; cbn [negb andb];
      try exact K.
    split; [discriminate|].
    exists (mkRecorder Paused (finished acc) (current acc)).
    cbn [out println record_of]. rewrite E. cbn [bind]. unfold record_step. rewrite Ph.
    unfold phase_of. cbn [isRunning isPaused startTime lastReadTime].
    repeat split; auto. }
  destruct (is_char cmd "R" "r").
  { destruct (isPaused s) eqn:Q; [|exact K].
    assert (R : isRunning s = true)
      by (destruct (isRunning s); [reflexivity | specialize (P eq_refl); congruence]).
    rewrite R in Ph.
    split; [reflexivity|].
    exists (mkRecorder Recording (finished acc) (current acc)).
    cbn [out println record_of]. rewrite E. cbn [bind]. unfold record_step. rewrite Ph.
    unfold phase_of. cbn [isRunning isPaused startTime lastReadTime]. rewrite R.
    repeat split; auto. }
  destruct (is_char cmd "X" "x"); [|exact K].
  destruct (isRunning s) eqn:R; [|exact K].
  split; [reflexivity|].
  exists (mkRecorder Stopped (finished acc ++ [current acc]) []).
  cbn [out println record_of]. rewrite E. cbn [bind]. unfold record_step. rewrite Ph.
  assert (Fin : Forall spaced (finished acc ++ [current acc]))
    by (apply Forall_app; split; [exact F | constructor; [exact C | constructor]]).
  destruct (isPaused s); (split; [reflexivity|]); repeat split; auto;
    intros X; contradiction.
Qed.

Lemma record_inv (i : Input) (s : State) :
  recorder_inv s -> recorder_inv (record i s).
Proof.
  intros K. pose proof K as (P & acc & E & Ph & F & C & L). unfold record.
  unfold phase_of in Ph.
  destruct (isRunning s) eqn:R; cbn [negb orb]; [|exact K].
  destruct (isPaused s) eqn:Q; [exact K|].
  cbv zeta.
  destruct (Z.geb_spec (wrap_ulong (millis i - lastReadTime s)) READ_INTERVAL) as [G|G];
    [|exact K].
  split; [discriminate|].
  exists (mkRecorder Recording (finished acc)
            (current acc ++ [wrap_ulong (millis i - startTime s)])).
  cbn [out println record_of]. rewrite E. cbn [bind]. unfold record_step. rewrite Ph.
  unfold phase_of. cbn [isRunning isPaused startTime lastReadTime phase finished current].
  repeat split; auto.
  - apply spaced_append; [exact C|]. intros N. rewrite (L N), wrap_ulong_minus. lia.
  - intros _. apply last_last.
Qed.

Lemma run_ticks_inv (ins : list Input) (s : State) :
  recorder_inv s -> recorder_inv (run_ticks ins s).
Proof.
  revert s. induction ins as [|i ins IH]; intros s K; [exact K|].
  apply IH. apply record_inv, handleCommand_inv, K.
Qed.

Lemma initial_inv : recorder_inv initial.
Proof.
  split; [reflexivity|]. exists (mkRecorder Stopped [] []).
  repeat split; auto.
Qed.

(** The recorder keeps to its protocol, whatever arrives on the serial
    port and whatever [millis()] returns: in every transcript a header
    opens a recording only when none is under way, rows appear only in a
    recording that is not paused, a pause banner only in a running
    recording, a resume banner only in a paused one, a stop banner only
    when a recording is under way; the flags agree with where the
    transcript stands (so the recorder is never paused while stopped);
    and within one recording each row lies at least [READ_INTERVAL]
    milliseconds after the row before it, pauses included. *)
Theorem recorder_keeps_protocol :
  forall ins : list Input,
    exists acc : Recorder,
      record_of (out (run_ticks ins initial)) = Some acc /\
      phase acc = phase_of (run_ticks ins initial) /\
      Forall spaced (finished acc ++ [current acc]).
Proof.
  intros ins.
  destruct (run_ticks_inv ins initial initial_inv) as (_ & acc & E & Ph & F & C & _).
  exists acc. split; [exact E|]. split; [exact Ph|].
  apply Forall_app. split; [exact F|]. constructor; [exact C | constructor].
Qed.

End VibrationMonitorFacts.
